(** * Cricket court booking backend: pricing engine and booking workflow

    A shallow embedding of the pricing service
    ([PricingService.calculateBookingPrice] and its helpers), of the
    booking controller ([createBooking], [createManualBooking],
    [updateBookingStatus], [updatePayment], [cancelBooking], ...), of the
    court controller ([createCourt], [updateCourt], ...) and of the price
    preview ([calculatePrice]), together with the properties the
    specification states about them; and, with further properties read off
    the code, of the lookups of the two controllers, of the pricing
    controller ([createPricingRule], [updatePricingRule],
    [initializePricingRules], [getCurrentPricing], ...) and of the version
    of the pricing service that takes the start and the end of a booking as
    [Date]s.

    Modelling conventions.
    - A JavaScript [Date] is the number of milliseconds of local time
      elapsed since 1970-01-01T00:00 local time.  The facility's time zone
      has a fixed UTC offset (no daylight saving), so local getters and
      setters are plain arithmetic on that number.
    - The pricing service is embedded twice.  [PricingService] reads the
      code on exact values: every [Date] is valid, the two fields that
      [split(":").map(Number)] reads from a time string are integers, and
      hours and money are exact rationals ([Qc]).  [Js] reads the same code
      on JavaScript's own values: numbers are doubles ([JsNumber]: a finite
      double is the rational it denotes and every operation rounds to the
      nearest double, ties to even; the infinities; NaN), a [Date] can be an
      Invalid Date, and the fields of a time string can be any number.  On
      a booking date that parses and two times of day the two agree
      ([js_calculateBookingPriceRun]) up to the rounding of rates and of
      sums, and exactly when the rates are whole numbers
      ([js_calculateBookingPrice_whole]).  What is stated of sums and of
      malformed input is stated on [Js].
    - Mongoose collections are finite maps from document ids to documents
      (the pricing rules, which are only searched, are a list in natural
      order); [await] is sequential composition, and a request handler is a
      function from the database to the database it leaves and its
      outcome.  The database also records the calls made to the models and
      services, so that "is not called" can be stated.
    - Requests in progress together: a [Task] is a handler split at its
      [await]s, and [handle] applies the awaited operations of the handlers
      the server has accepted in any order.
    - The pricing controller works on the pricing rules with their ids, a
      list of pairs in natural order; its handlers are functions from that
      list to the list they leave and their outcome. *)

From Stdlib Require Import ZArith List String Ascii Lia QArith Qcanon.
From Stdlib Require Import DecimalString.
From stdpp Require Import base option list gmap.
Import ListNotations.

Local Open Scope string_scope.
Local Open Scope list_scope.
Local Open Scope Z_scope.

(** ** Errors and outcomes *)

(** The classes of [utils/ApiError] the controllers throw, with the message
    given to the constructor ([NotFoundError] takes the resource name), and
    the error a Mongoose schema raises when a document fails validation. *)
Inductive ApiError : Type :=
  | BadRequestError (message : string)
  | NotFoundError (resource : string)
  | ConflictError (message : string)
  | ValidationError (message : string).  (* thrown by a Mongoose schema *)

(** What a call produces: a value, a thrown error, or (for the model of a
    [while] loop only) exhaustion of the iteration budget. *)
Inductive Outcome (A : Type) : Type :=
  | Ok (a : A)
  | Throw (e : ApiError)
  | OutOfFuel.
Arguments Ok {A} a.
Arguments Throw {A} e.
Arguments OutOfFuel {A}.

(** ** Dates *)

Module JsDate.

Definition Date : Type := Z.

Definition msPerMinute : Z := 1000 * 60.
Definition msPerHour : Z := 1000 * 60 * 60.
Definition msPerDay : Z := 1000 * 60 * 60 * 24.

Definition getTime (d : Date) : Z := d.

(** Local midnight of the day [d] falls in. *)
Definition startOfDay (d : Date) : Date := d - d mod msPerDay.

Definition getHours (d : Date) : Z := (d mod msPerDay) / msPerHour.
Definition getMinutes (d : Date) : Z := (d mod msPerHour) / msPerMinute.

(** [getDay]: 0 = Sunday ... 6 = Saturday; day 0 of the epoch was a
    Thursday. *)
Definition getDay (d : Date) : Z := (d / msPerDay + 4) mod 7.

(** [d.setHours(h, m, s, ms)]: same calendar day, time of day replaced;
    fields out of range carry into the neighbouring days. *)
Definition setHours4 (d : Date) (h m s ms : Z) : Date :=
  startOfDay d + h * msPerHour + m * msPerMinute + s * 1000 + ms.

(** [d.setHours(h)]: only the hour field is replaced. *)
Definition setHours (d : Date) (h : Z) : Date :=
  startOfDay d + h * msPerHour + d mod msPerHour.

(** [d.setDate(d.getDate() + n)]: the same time of day, [n] days later. *)
Definition addDays (d : Date) (n : Z) : Date := d + n * msPerDay.

(** [String(n).padStart(2, "0")] for a natural number [n]. *)
Definition pad2 (n : Z) : string :=
  let s := NilZero.string_of_uint (N.to_uint (Z.to_N n)) in
  if (String.length s <? 2)%nat then ("0" ++ s)%string else s.

End JsDate.
Import JsDate.

(** ** Pricing rules *)

Inductive DayType : Type := weekday | weekend.
Inductive TimeSlot : Type := day | night.

Global Instance DayType_eq_dec : EqDecision DayType.
Proof. solve_decision. Defined.
Global Instance TimeSlot_eq_dec : EqDecision TimeSlot.
Proof. solve_decision. Defined.

(** How a template literal prints the two enumerations. *)
Definition DayType_str (d : DayType) : string :=
  match d with weekday => "weekday" | weekend => "weekend" end.
Definition TimeSlot_str (t : TimeSlot) : string :=
  match t with day => "day" | night => "night" end.

(** [IPricingRule] of [types/pricing.types]. *)
Record PricingRule : Type := mkPricingRule {
  rule_dayType : DayType;
  rule_timeSlot : TimeSlot;
  pricePerHour : Qc;
  isActive : bool
}.

(** The [PricingRule] collection, documents in natural order. *)
Definition PricingRules : Type := list PricingRule.

(** [PricingRule.findOne({ dayType, timeSlot, isActive: true })]. *)
Definition findOneActive (rules : PricingRules) (dt : DayType) (ts : TimeSlot)
  : option PricingRule :=
  List.find (fun r => bool_decide (rule_dayType r = dt)
                      && bool_decide (rule_timeSlot r = ts)
                      && isActive r) rules.

(** The defaults written by [initializePricingRules]. *)
Definition defaultRules : PricingRules :=
  [ mkPricingRule weekday day (Qc_of_Z 80) true;
    mkPricingRule weekday night (Qc_of_Z 100) true;
    mkPricingRule weekend day (Qc_of_Z 100) true;
    mkPricingRule weekend night (Qc_of_Z 135) true ].

(** ** The pricing service *)

(** The object pushed on [breakdown]. *)
Record BreakdownEntry : Type := mkEntry {
  hour : string;
  rate : Qc;
  dayType : DayType;
  timeSlot : TimeSlot
}.

(** The object [calculateBookingPrice] returns. *)
Record PriceResult : Type := mkPriceResult {
  totalHours : Qc;
  breakdown : list BreakdownEntry;
  finalPrice : Qc
}.

(** What [getPrice] returns. *)
Record SlotPrice : Type := mkSlotPrice {
  price : Qc;
  price_dayType : DayType;
  price_timeSlot : TimeSlot
}.

(** One pass through the body of the pricing loop: the values of its local
    variables, and the entry it pushes. *)
Record Slot : Type := mkSlot {
  slotStart : Date;          (* currentTime *)
  slotEnd : Date;            (* slotEnd *)
  slotDuration : Qc;         (* slotDuration, in hours *)
  slotPrice : Qc;            (* slotPrice *)
  slotEntry : BreakdownEntry
}.

(** The [bookingDate] argument: a string (parsed by [new Date(bookingDate)]
    into the instant it denotes) or a [Date] object owned by the caller. *)
Inductive BookingDateArg : Type :=
  | DateString (denotes : Date)
  | DateObject (value : Date).

(** A time string ["HH:MM"], as [split(":").map(Number)] reads it. *)
Record TimeStr : Type := HHMM { hh : Z; mm : Z }.

Module PricingService.

Definition getDayOfWeek (date : Date) : Z := getDay date.

Definition isWeekend (date : Date) : bool :=
  let day := getDayOfWeek date in
  (day =? 5) || (day =? 6).

Definition isNightTime (hour : Z) : bool :=
  (hour >=? 18) || (hour <? 9).

Definition getDayType (date : Date) : DayType :=
  if isWeekend date then weekend else weekday.

Definition getTimeSlot (hour : Z) : TimeSlot :=
  if isNightTime hour then night else day.

Definition getEffectiveDate (date : Date) : Date :=
  let hour := getHours date in
  if (hour >=? 0) && (hour <? 4) then addDays date (-1) else date.

Definition isSaturdayNight (date : Date) (hour : Z) : bool :=
  let effectiveDate := getEffectiveDate date in
  (getDayOfWeek effectiveDate =? 6) && isNightTime hour.

Definition ruleNotFound (dt : DayType) (ts : TimeSlot) : ApiError :=
  BadRequestError
    ("Pricing rule not found for " ++ DayType_str dt ++ " " ++ TimeSlot_str ts)%string.

Definition getPrice (rules : PricingRules) (date : Date) (hour : Z)
  : Outcome SlotPrice :=
  if isSaturdayNight date hour then
    Ok (mkSlotPrice (Qc_of_Z 110) weekend night)
  else
    let effectiveDate := getEffectiveDate date in
    let dayType := getDayType effectiveDate in
    let timeSlot := getTimeSlot hour in
    match findOneActive rules dayType timeSlot with
    | None => Throw (ruleNotFound dayType timeSlot)
    | Some pricingRule => Ok (mkSlotPrice (pricePerHour pricingRule) dayType timeSlot)
    end.

(** Milliseconds to hours: [ms / (1000 * 60 * 60)]. *)
Definition hoursOfMs (ms : Z) : Qc := (Qc_of_Z ms / Qc_of_Z msPerHour)%Qc.

Definition hourLabel (currentTime slotEnd : Date) : string :=
  let startStr := (pad2 (getHours currentTime) ++ ":" ++ pad2 (getMinutes currentTime))%string in
  let endStr := (pad2 (getHours slotEnd) ++ ":" ++ pad2 (getMinutes slotEnd))%string in
  (startStr ++ "-" ++ endStr)%string.

(** The [while (currentTime < endDateTime)] loop.  [fuel] bounds the
    number of tests of the loop condition; [slots] is the list of passes
    made so far (the breakdown is read off it) and [totalPrice] the
    running total. *)
Fixpoint priceLoop (fuel : nat) (rules : PricingRules) (endDateTime : Date)
    (currentTime : Date) (slots : list Slot) (totalPrice : Qc)
  : Outcome (list Slot * Qc) :=
  match fuel with
  | O => OutOfFuel
  | S fuel' =>
    if currentTime <? endDateTime then
      let nextHour := setHours currentTime (getHours currentTime + 1) in
      let slotEnd := if nextHour >? endDateTime then endDateTime else nextHour in
      let slotDuration := hoursOfMs (getTime slotEnd - getTime currentTime) in
      match getPrice rules currentTime (getHours currentTime) with
      | Ok p =>
        let slotPrice := (price p * slotDuration)%Qc in
        let entry := mkEntry (hourLabel currentTime slotEnd) (price p)
                             (price_dayType p) (price_timeSlot p) in
        priceLoop fuel' rules endDateTime slotEnd
          (slots ++ [mkSlot currentTime slotEnd slotDuration slotPrice entry])
          (totalPrice + slotPrice)%Qc
      | Throw e => Throw e
      | OutOfFuel => OutOfFuel
      end
    else Ok (slots, totalPrice)
  end.

Definition minimumDuration : ApiError :=
  BadRequestError "Minimum booking duration is 1 hour".
Definition thirtyMinuteIncrements : ApiError :=
  BadRequestError "Bookings must be in 30-minute increments (e.g., 1.0h, 1.5h, 2.0h)".

(** The instant the [bookingDate] argument stands for on entry. *)
Definition dateOf (bookingDate : BookingDateArg) : Date :=
  match bookingDate with DateString d => d | DateObject d => d end.

(** Iterations granted to the loop: one per started hour of the range,
    and the final test of the condition. *)
Definition loopFuel (totalMilliseconds : Z) : nat :=
  Z.to_nat (totalMilliseconds / msPerHour) + 2.

(** [calculateBookingPrice], statement by statement.  The first component
    is the state of the [bookingDate] argument when the call ends; the
    second is the outcome, the list of loop passes next to the value
    returned. *)
Definition calculateBookingPriceRun (rules : PricingRules) (bookingDate : BookingDateArg)
    (startTime endTime : TimeStr)
  : BookingDateArg * Outcome (list Slot * PriceResult) :=
  (* Parse date: for a string, dateObj is a fresh object; for a Date,
     dateObj is the argument itself, and setHours writes to it *)
  let dateObj := setHours4 (dateOf bookingDate) 0 0 0 0 in
  let bookingDate :=
    match bookingDate with
    | DateString d => DateString d
    | DateObject _ => DateObject dateObj
    end in
  (* Parse times *)
  let startHour := hh startTime in
  let startMinute := mm startTime in
  let endHour := hh endTime in
  let endMinute := mm endTime in
  (* Create full datetime objects *)
  let startDateTime := setHours4 dateObj startHour startMinute 0 0 in
  let endDateTime := setHours4 dateObj endHour endMinute 0 0 in
  (* Handle midnight crossing *)
  let endDateTime :=
    if endDateTime <=? startDateTime then addDays endDateTime 1 else endDateTime in
  (* Validate times *)
  let totalMilliseconds := getTime endDateTime - getTime startDateTime in
  let totalHours := hoursOfMs totalMilliseconds in
  (bookingDate,
   (* Check minimum 1 hour *)
   if bool_decide (totalHours < 1)%Qc then Throw minimumDuration
   else
     (* Check 30-minute increments *)
     let minutes := Z.rem (totalMilliseconds / msPerMinute) 60 in
     if negb (minutes =? 0) && negb (minutes =? 30) then Throw thirtyMinuteIncrements
     else
       (* Calculate price for each hour *)
       match priceLoop (loopFuel totalMilliseconds) rules endDateTime
                       startDateTime [] 0%Qc with
       | Ok (slots, totalPrice) =>
           Ok (slots, mkPriceResult totalHours (map slotEntry slots) totalPrice)
       | Throw e => Throw e
       | OutOfFuel => OutOfFuel
       end).

(** [calculateBookingPrice]: the state of the [bookingDate] argument when
    the call ends, and the value returned or the error thrown. *)
Definition calculateBookingPrice (rules : PricingRules) (bookingDate : BookingDateArg)
    (startTime endTime : TimeStr) : BookingDateArg * Outcome PriceResult :=
  let run := calculateBookingPriceRun rules bookingDate startTime endTime in
  (fst run,
   match snd run with
   | Ok (_, result) => Ok result
   | Throw e => Throw e
   | OutOfFuel => OutOfFuel
   end).

End PricingService.
Import PricingService.

(** ** Specification-side notions *)

(** The [bookingDate] argument after a call: a string is what it was, a
    [Date] object is at local midnight of its day. *)
Definition argAfter (bookingDate : BookingDateArg) : BookingDateArg :=
  match bookingDate with
  | DateString d => DateString d
  | DateObject d => DateObject (setHours4 d 0 0 0 0)
  end.

(** The resolved start and end instants of a request. *)
Definition startDateTimeOf (bookingDate : BookingDateArg) (startTime : TimeStr) : Date :=
  let dateObj := setHours4 (dateOf bookingDate) 0 0 0 0 in
  setHours4 dateObj (hh startTime) (mm startTime) 0 0.

Definition endDateTimeOf (bookingDate : BookingDateArg) (startTime endTime : TimeStr) : Date :=
  let dateObj := setHours4 (dateOf bookingDate) 0 0 0 0 in
  let startDateTime := setHours4 dateObj (hh startTime) (mm startTime) 0 0 in
  let endDateTime := setHours4 dateObj (hh endTime) (mm endTime) 0 0 in
  if endDateTime <=? startDateTime then addDays endDateTime 1 else endDateTime.

(** The outcome of a call with its loop passes. *)
Definition priceWalk (rules : PricingRules) (bookingDate : BookingDateArg)
    (startTime endTime : TimeStr) : Outcome (list Slot * PriceResult) :=
  snd (calculateBookingPriceRun rules bookingDate startTime endTime).

(** Sum of a list of rationals. *)
Definition Qcsum (l : list Qc) : Qc := foldr Qcplus 0%Qc l.

(** The instant [h:m] of day number [n]. *)
Definition instant (n h m : Z) : Date :=
  n * msPerDay + h * msPerHour + m * msPerMinute.

(** Day number of the booking date. *)
Definition dayNumber (bookingDate : BookingDateArg) : Z :=
  dateOf bookingDate / msPerDay.

(** Resolved duration of a request in minutes, as the specification words
    it: the end is on the following calendar day when it is not after the
    start. *)
Definition resolvedMinutes (startTime endTime : TimeStr) : Z :=
  let s := hh startTime * 60 + mm startTime in
  let e := hh endTime * 60 + mm endTime in
  if e <=? s then e + 24 * 60 - s else e - s.

(** The slots [slots] tile the interval from [from] to [to]: the first one
    starts at [from], each one is non-empty and starts where the previous
    one ends, and the last one ends at [to]. *)
Fixpoint tiles (from to : Date) (slots : list Slot) : Prop :=
  match slots with
  | [] => from = to
  | s :: rest =>
      slotStart s = from /\ slotStart s < slotEnd s /\ slotEnd s <= to
      /\ tiles (slotEnd s) to rest
  end.

(** The pass of the loop that starts at [currentTime] and was priced [p]. *)
Definition passAt (endDateTime currentTime : Date) (p : SlotPrice) : Slot :=
  let slotEnd := Z.min (currentTime + msPerHour) endDateTime in
  mkSlot currentTime slotEnd
         (hoursOfMs (slotEnd - currentTime))
         (price p * hoursOfMs (slotEnd - currentTime))%Qc
         (mkEntry (hourLabel currentTime slotEnd) (price p)
                  (price_dayType p) (price_timeSlot p)).

(** The runs of the loop as a relation: [Walk rules e cur slots] when the
    loop entered at [cur] makes exactly the passes [slots] and leaves. *)
Inductive Walk (rules : PricingRules) (endDateTime : Date) : Date -> list Slot -> Prop :=
  | Walk_exit cur :
      endDateTime <= cur ->
      Walk rules endDateTime cur []
  | Walk_pass cur p rest :
      cur < endDateTime ->
      getPrice rules cur (getHours cur) = Ok p ->
      Walk rules endDateTime (Z.min (cur + msPerHour) endDateTime) rest ->
      Walk rules endDateTime cur (passAt endDateTime cur p :: rest).

(** Enough fuel for the loop entered at [cur]. *)
Definition enoughFuel (endDateTime : Date) (fuel : nat) (cur : Date) : Prop :=
  (0 < fuel)%nat /\ endDateTime - cur + msPerHour <= Z.of_nat fuel * msPerHour.

(** What one pass recorded, in terms of its own start and of the end of the
    range: it ends one hour after its start or at the end of the range,
    its duration and price are computed from that, its label prints its
    bounds, and its classification and rate are [getPrice] at its start. *)
Definition pricedPass (rules : PricingRules) (endDateTime : Date) (s : Slot) : Prop :=
  slotEnd s = Z.min (slotStart s + msPerHour) endDateTime
  /\ slotDuration s = hoursOfMs (slotEnd s - slotStart s)
  /\ slotPrice s = (rate (slotEntry s) * slotDuration s)%Qc
  /\ hour (slotEntry s) = hourLabel (slotStart s) (slotEnd s)
  /\ getPrice rules (slotStart s) (getHours (slotStart s))
     = Ok (mkSlotPrice (rate (slotEntry s)) (dayType (slotEntry s)) (timeSlot (slotEntry s))).

(** The duration rule of the specification: at least one hour, a multiple
    of thirty minutes. *)
Definition durationValid (startTime endTime : TimeStr) : bool :=
  (60 <=? resolvedMinutes startTime endTime)
  && (resolvedMinutes startTime endTime mod 30 =? 0).

(** ** Documents and collections *)

(** A document id.  An [ObjectId] is a 96-bit number. *)
Definition ObjectId : Type := N.

(** Modelled from the spec: the [Booking] schema ([models/Booking]) is not
    among the sources.  Status values are those of the specification's
    Reservation (pending, confirmed, blocked, cancelled, completed), which
    are also the ones the booking controller reads and writes. *)
Inductive BookingStatus : Type := pending | confirmed | blocked | cancelled | completed.

Global Instance BookingStatus_eq_dec : EqDecision BookingStatus.
Proof. solve_decision. Defined.

(** Modelled from the spec: payment status is pending, partial or paid
    (the values the booking controller compares with and writes). *)
Module PaymentStatus.
Inductive t : Type := pending | partial | paid.
Global Instance eq_dec : EqDecision t.
Proof. solve_decision. Defined.
End PaymentStatus.

Inductive CreatedBy : Type := byCustomer | byAdmin.

(** A booking document: the fields the controller writes. *)
Module Booking.
Record t : Type := mk {
  customer : option ObjectId;
  court : ObjectId;
  bookingDate : Date;
  startTime : TimeStr;
  endTime : TimeStr;
  durationHours : Qc;
  totalPrice : Qc;
  pricingBreakdown : list BreakdownEntry;
  discountAmount : Qc;
  finalPrice : Qc;
  paymentStatus : PaymentStatus.t;
  amountPaid : Qc;
  status : BookingStatus;
  notes : option string;
  createdBy : CreatedBy;
  paymentMethod : option string;
  paymentReference : option string
}.

Definition set_status (v : BookingStatus) (b : t) : t :=
  mk (customer b) (court b) (bookingDate b) (startTime b) (endTime b)
     (durationHours b) (totalPrice b) (pricingBreakdown b) (discountAmount b)
     (finalPrice b) (paymentStatus b) (amountPaid b) v (notes b) (createdBy b)
     (paymentMethod b) (paymentReference b).

Definition set_notes (v : option string) (b : t) : t :=
  mk (customer b) (court b) (bookingDate b) (startTime b) (endTime b)
     (durationHours b) (totalPrice b) (pricingBreakdown b) (discountAmount b)
     (finalPrice b) (paymentStatus b) (amountPaid b) (status b) v (createdBy b)
     (paymentMethod b) (paymentReference b).

Definition set_payment (ap : Qc) (ps : PaymentStatus.t) (pm pr : option string)
    (b : t) : t :=
  mk (customer b) (court b) (bookingDate b) (startTime b) (endTime b)
     (durationHours b) (totalPrice b) (pricingBreakdown b) (discountAmount b)
     (finalPrice b) ps ap (status b) (notes b) (createdBy b) pm pr.
End Booking.

(** A customer document ([models/Customer]). *)
Module Customer.
Record t : Type := mk {
  name : string;
  phone : string;
  email : option string;
  totalBookings : Z
}.
End Customer.

Inductive CourtStatus : Type := active | inactive | maintenance.

Global Instance CourtStatus_eq_dec : EqDecision CourtStatus.
Proof. solve_decision. Defined.

(** The [features] field of a court request: an array, or the string that
    form-data carries. *)
Inductive Features : Type :=
  | FeaturesArray (items : list string)
  | FeaturesString (text : string).

(** A court document: the fields the controllers read and write. *)
Module Court.
Record t : Type := mk {
  name : string;
  description : string;
  imageUrl : option string;
  features : list string;
  status : CourtStatus
}.

Definition set_status (v : CourtStatus) (c : t) : t :=
  mk (name c) (description c) (imageUrl c) (features c) v.
End Court.

(** The outside of a request handler: a database call or a service call. *)
Inductive Model : Type := CourtModel | CustomerModel | BookingModel | PricingRuleModel.

Inductive Call : Type :=
  | DbCall (model : Model) (method : string)
  | ServiceCall (service : string) (method : string).

(** The database, and the calls made so far. *)
Record Db : Type := mkDb {
  courts : gmap ObjectId Court.t;
  customers : gmap ObjectId Customer.t;
  bookings : gmap ObjectId Booking.t;
  pricingRules : PricingRules;
  calls : list Call
}.

Definition set_courts (v : gmap ObjectId Court.t) (db : Db) : Db :=
  mkDb v (customers db) (bookings db) (pricingRules db) (calls db).
Definition set_customers (v : gmap ObjectId Customer.t) (db : Db) : Db :=
  mkDb (courts db) v (bookings db) (pricingRules db) (calls db).
Definition set_bookings (v : gmap ObjectId Booking.t) (db : Db) : Db :=
  mkDb (courts db) (customers db) v (pricingRules db) (calls db).
Definition set_calls (v : list Call) (db : Db) : Db :=
  mkDb (courts db) (customers db) (bookings db) (pricingRules db) v.

(** ** Request handlers as state transformers *)

(** A handler runs on the database and either returns or throws; what it
    wrote before throwing stays written. *)
Definition M (A : Type) : Type := Db -> Db * Outcome A.

Definition ret {A : Type} (a : A) : M A := fun db => (db, Ok a).
Definition throw {A : Type} (e : ApiError) : M A := fun db => (db, Throw e).
Definition bind {A B : Type} (m : M A) (k : A -> M B) : M B :=
  fun db =>
    match m db with
    | (db', Ok a) => k a db'
    | (db', Throw e) => (db', Throw e)
    | (db', OutOfFuel) => (db', OutOfFuel)
    end.

Notation "'await' x := c1 'in' c2" := (bind c1 (fun x => c2))
  (at level 10, x name, c1 at level 100, c2 at level 200).
Notation "'await_' c1 'in' c2" := (bind c1 (fun _ => c2))
  (at level 10, c1 at level 100, c2 at level 200).

Definition gets {A : Type} (f : Db -> A) : M A := fun db => (db, Ok (f db)).
Definition modify (f : Db -> Db) : M unit := fun db => (f db, Ok tt).
Definition call (c : Call) : M unit := modify (fun db => set_calls (calls db ++ [c]) db).
Definition lift {A : Type} (o : Outcome A) : M A := fun db => (db, o).

(** JavaScript truthiness of an optional string. *)
Definition truthy (s : option string) : bool :=
  match s with
  | Some s => negb (String.eqb s "")
  | None => false
  end.

(** A JSON response: HTTP status, payload and message. *)
Record Response (A : Type) : Type := mkResponse {
  statusCode : Z;
  data : A;
  message : option string
}.
Arguments mkResponse {A} statusCode data message.
Arguments statusCode {A} r.
Arguments data {A} r.
Arguments message {A} r.

(** ** Request bodies *)

Module CreateBookingDTO.
Record t : Type := mk {
  courtId : option ObjectId;
  bookingDate : option BookingDateArg;
  startTime : option TimeStr;
  endTime : option TimeStr;
  customerPhone : option string;
  customerName : option string;
  customerEmail : option string;
  notes : option string
}.
End CreateBookingDTO.

Module CreateManualBookingDTO.
Record t : Type := mk {
  courtId : option ObjectId;
  bookingDate : option BookingDateArg;
  startTime : option TimeStr;
  endTime : option TimeStr;
  customerPhone : option string;
  customerName : option string;
  customerEmail : option string;
  notes : option string;
  isBlocked : bool
}.
End CreateManualBookingDTO.

Module UpdateBookingStatusDTO.
Record t : Type := mk {
  status : option BookingStatus;
  notes : option string
}.
End UpdateBookingStatusDTO.

Module UpdatePaymentDTO.
Record t : Type := mk {
  amountPaid : option Qc;
  paymentStatus : option PaymentStatus.t;
  paymentMethod : option string;
  paymentReference : option string
}.
End UpdatePaymentDTO.

(** What [Customer.create] is given. *)
Module ICustomerCreate.
Record t : Type := mk {
  name : option string;
  phone : option string;
  email : option string
}.
End ICustomerCreate.

Module ICourtCreate.
Record t : Type := mk {
  name : option string;
  description : option string;
  imageUrl : option string;
  features : option Features;
  status : option CourtStatus
}.

Definition set_features (v : option Features) (c : t) : t :=
  mk (name c) (description c) (imageUrl c) v (status c).
Definition set_imageUrl (v : option string) (c : t) : t :=
  mk (name c) (description c) v (features c) (status c).
End ICourtCreate.

(** [ICourtUpdate] has the fields of [ICourtCreate], all optional. *)
Module ICourtUpdate := ICourtCreate.

(** ** Code outside the sources *)

(** What the handlers call and the sources do not contain: the booking
    service ([services/booking.service]), the schemas of the Mongoose models
    (casting, defaults and validation on [create], [save] and
    [findByIdAndUpdate]), and two built-ins.  The handlers are modelled for
    every implementation of them. *)
Record Externals : Type := mkExternals {
  (** [BookingService.validateBookingTime(startTime, endTime, dateObj)]:
      the error it throws, if any. *)
  validateBookingTime : TimeStr -> TimeStr -> Date -> option ApiError;
  (** [BookingService.checkAvailability(...)], reading the bookings: the
      [available] flag of its result, or the error it throws. *)
  checkAvailability :
    gmap ObjectId Booking.t -> ObjectId -> Date -> TimeStr -> TimeStr -> Outcome bool;
  (** [BookingService.calculateDuration(startTime, endTime)]. *)
  calculateDuration : TimeStr -> TimeStr -> Qc;
  (** The document [Customer.create] stores, or its validation error. *)
  customerSchema : ICustomerCreate.t -> Outcome Customer.t;
  (** The validation error of a booking document, if any. *)
  bookingSchema : Booking.t -> option ApiError;
  (** The document [Court.create] stores, or its validation error. *)
  courtSchema : ICourtCreate.t -> Outcome Court.t;
  (** The document [Court.findByIdAndUpdate] stores, or its error. *)
  courtUpdateSchema : Court.t -> ICourtUpdate.t -> Outcome Court.t;
  (** [JSON.parse] on the features string; [None] when it throws. *)
  JSON_parse : string -> option (list string);
  (** [String.prototype.trim]. *)
  trim : string -> string
}.

(** ** Model calls *)

Section Handlers.

Variable ext : Externals.

Definition Court_findById (id : ObjectId) : M (option Court.t) :=
  await_ call (DbCall CourtModel "findById") in
  gets (fun db => courts db !! id).

Definition Court_countDocuments : M nat :=
  await_ call (DbCall CourtModel "countDocuments") in
  gets (fun db => size (courts db)).

(** [Court.findOne({ name })], and with [_id: { $ne: id }]. *)
Definition Court_findOne (name : string) (excluded : option ObjectId)
  : M (option (ObjectId * Court.t)) :=
  await_ call (DbCall CourtModel "findOne") in
  gets (fun db =>
    List.find (fun kv => String.eqb (Court.name (snd kv)) name
                         && negb (bool_decide (Some (fst kv) = excluded)))
              (map_to_list (courts db))).

Definition Court_create (courtData : ICourtCreate.t) : M (ObjectId * Court.t) :=
  await_ call (DbCall CourtModel "create") in
  await doc := lift (courtSchema ext courtData) in
  await id := gets (fun db => fresh (dom (courts db))) in
  await_ modify (fun db => set_courts (<[id := doc]> (courts db)) db) in
  ret (id, doc).

Definition Court_findByIdAndUpdate (id : ObjectId) (updateData : ICourtUpdate.t)
  : M (option Court.t) :=
  await_ call (DbCall CourtModel "findByIdAndUpdate") in
  await found := gets (fun db => courts db !! id) in
  match found with
  | None => ret None
  | Some doc =>
      await doc' := lift (courtUpdateSchema ext doc updateData) in
      await_ modify (fun db => set_courts (<[id := doc']> (courts db)) db) in
      ret (Some doc')
  end.

(** [Court.findByIdAndUpdate(id, { status }, { new: true })]. *)
Definition Court_findByIdAndUpdate_status (id : ObjectId) (status : CourtStatus)
  : M (option Court.t) :=
  await_ call (DbCall CourtModel "findByIdAndUpdate") in
  await found := gets (fun db => courts db !! id) in
  match found with
  | None => ret None
  | Some doc =>
      let doc' := Court.set_status status doc in
      await_ modify (fun db => set_courts (<[id := doc']> (courts db)) db) in
      ret (Some doc')
  end.

Definition Court_findByIdAndDelete (id : ObjectId) : M (option Court.t) :=
  await_ call (DbCall CourtModel "findByIdAndDelete") in
  await found := gets (fun db => courts db !! id) in
  await_ modify (fun db => set_courts (delete id (courts db)) db) in
  ret found.

(** [Customer.findOne({ phone })]. *)
Definition Customer_findOne (phone : option string)
  : M (option (ObjectId * Customer.t)) :=
  await_ call (DbCall CustomerModel "findOne") in
  gets (fun db =>
    List.find (fun kv => bool_decide (Some (Customer.phone (snd kv)) = phone))
              (map_to_list (customers db))).

Definition Customer_create (customerData : ICustomerCreate.t)
  : M (ObjectId * Customer.t) :=
  await_ call (DbCall CustomerModel "create") in
  await doc := lift (customerSchema ext customerData) in
  await id := gets (fun db => fresh (dom (customers db))) in
  await_ modify (fun db => set_customers (<[id := doc]> (customers db)) db) in
  ret (id, doc).

(** [Customer.findByIdAndUpdate(id, { $inc: { totalBookings: 1 } })]. *)
Definition Customer_incTotalBookings (id : ObjectId) : M unit :=
  await_ call (DbCall CustomerModel "findByIdAndUpdate") in
  modify (fun db =>
    set_customers
      (alter (fun c => Customer.mk (Customer.name c) (Customer.phone c)
                         (Customer.email c) (Customer.totalBookings c + 1))
             id (customers db)) db).

Definition Booking_findById (id : ObjectId) : M (option Booking.t) :=
  await_ call (DbCall BookingModel "findById") in
  gets (fun db => bookings db !! id).

Definition Booking_create (doc : Booking.t) : M (ObjectId * Booking.t) :=
  await_ call (DbCall BookingModel "create") in
  match bookingSchema ext doc with
  | Some e => throw e
  | None =>
      await id := gets (fun db => fresh (dom (bookings db))) in
      await_ modify (fun db => set_bookings (<[id := doc]> (bookings db)) db) in
      ret (id, doc)
  end.

(** [booking.save()] for the document loaded under [id]. *)
Definition Booking_save (id : ObjectId) (doc : Booking.t) : M unit :=
  await_ call (DbCall BookingModel "save") in
  match bookingSchema ext doc with
  | Some e => throw e
  | None => modify (fun db => set_bookings (<[id := doc]> (bookings db)) db)
  end.

Definition BookingService_validateBookingTime (startTime endTime : TimeStr)
    (dateObj : Date) : M unit :=
  await_ call (ServiceCall "BookingService" "validateBookingTime") in
  match validateBookingTime ext startTime endTime dateObj with
  | Some e => throw e
  | None => ret tt
  end.

Definition BookingService_checkAvailability (courtId : ObjectId) (bookingDate : Date)
    (startTime endTime : TimeStr) : M bool :=
  await_ call (ServiceCall "BookingService" "checkAvailability") in
  await bs := gets bookings in
  lift (checkAvailability ext bs courtId bookingDate startTime endTime).

Definition BookingService_calculateDuration (startTime endTime : TimeStr) : M Qc :=
  await_ call (ServiceCall "BookingService" "calculateDuration") in
  ret (calculateDuration ext startTime endTime).

(** [PricingService.calculateBookingPrice], reading the pricing rules. *)
Definition PricingService_calculateBookingPrice (bookingDate : BookingDateArg)
    (startTime endTime : TimeStr) : M PriceResult :=
  await_ call (ServiceCall "PricingService" "calculateBookingPrice") in
  await rules := gets pricingRules in
  lift (snd (calculateBookingPrice rules bookingDate startTime endTime)).

(** ** The booking controller *)

(** [Customer.findOne({ phone })], then [Customer.create] when there is
    none. *)
Definition findOrCreateCustomer (customerName customerPhone customerEmail : option string)
  : M (ObjectId * Customer.t) :=
  await customer := Customer_findOne customerPhone in
  match customer with
  | Some c => ret c
  | None => Customer_create (ICustomerCreate.mk customerName customerPhone customerEmail)
  end.

Definition createBooking (body : CreateBookingDTO.t) : M (Response (option Booking.t)) :=
  let missing : M (Response (option Booking.t)) :=
    throw (BadRequestError "All required fields must be provided") in
  match CreateBookingDTO.courtId body, CreateBookingDTO.bookingDate body,
        CreateBookingDTO.startTime body, CreateBookingDTO.endTime body with
  | Some courtId, Some bookingDate, Some startTime, Some endTime =>
    if negb (truthy (CreateBookingDTO.customerPhone body))
       || negb (truthy (CreateBookingDTO.customerName body))
    then missing
    else
      await court := Court_findById courtId in
      match court with
      | None => throw (NotFoundError "Court")
      | Some court =>
        if bool_decide (Court.status court = inactive)
        then throw (BadRequestError "Court is not available for booking")
        else
          let dateObj := setHours4 (dateOf bookingDate) 0 0 0 0 in
          await_ BookingService_validateBookingTime startTime endTime dateObj in
          await available :=
            BookingService_checkAvailability courtId dateObj startTime endTime in
          if negb available then throw (ConflictError "Time slot is not available")
          else
            await customer :=
              findOrCreateCustomer (CreateBookingDTO.customerName body)
                (CreateBookingDTO.customerPhone body)
                (CreateBookingDTO.customerEmail body) in
            await durationHours :=
              BookingService_calculateDuration startTime endTime in
            await pricingResult :=
              PricingService_calculateBookingPrice bookingDate startTime endTime in
            await booking :=
              Booking_create
                (Booking.mk (Some (fst customer)) courtId dateObj startTime endTime
                   durationHours (finalPrice pricingResult) (breakdown pricingResult)
                   0%Qc (finalPrice pricingResult) PaymentStatus.pending 0%Qc
                   pending (CreateBookingDTO.notes body) byCustomer None None) in
            await_ Customer_incTotalBookings (fst customer) in
            await populatedBooking := Booking_findById (fst booking) in
            ret (mkResponse 201 populatedBooking (Some "Booking created successfully"))
      end
  | _, _, _, _ => missing
  end.

Definition createManualBooking (body : CreateManualBookingDTO.t)
  : M (Response (option Booking.t)) :=
  let isBlocked := CreateManualBookingDTO.isBlocked body in
  match CreateManualBookingDTO.courtId body, CreateManualBookingDTO.bookingDate body,
        CreateManualBookingDTO.startTime body, CreateManualBookingDTO.endTime body with
  | Some courtId, Some bookingDate, Some startTime, Some endTime =>
    if negb isBlocked
       && (negb (truthy (CreateManualBookingDTO.customerPhone body))
           || negb (truthy (CreateManualBookingDTO.customerName body)))
    then throw (BadRequestError "Customer information is required for bookings")
    else
      await court := Court_findById courtId in
      match court with
      | None => throw (NotFoundError "Court")
      | Some court =>
        let dateObj := setHours4 (dateOf bookingDate) 0 0 0 0 in
        await_ BookingService_validateBookingTime startTime endTime dateObj in
        await available :=
          BookingService_checkAvailability courtId dateObj startTime endTime in
        if negb available then throw (ConflictError "Time slot is not available")
        else
          await durationHours :=
            BookingService_calculateDuration startTime endTime in
          (* let customerId; let totalPrice = 0; let pricingBreakdown = [] *)
          await priced :=
            (if negb isBlocked then
               await customer :=
                 findOrCreateCustomer (CreateManualBookingDTO.customerName body)
                   (CreateManualBookingDTO.customerPhone body)
                   (CreateManualBookingDTO.customerEmail body) in
               await pricingResult :=
                 PricingService_calculateBookingPrice bookingDate startTime endTime in
               await_ Customer_incTotalBookings (fst customer) in
               ret (Some (fst customer), finalPrice pricingResult,
                    breakdown pricingResult)
             else ret (None, 0%Qc, [])) in
          let '(customerId, totalPrice, pricingBreakdown) := priced in
          await booking :=
            Booking_create
              (Booking.mk customerId courtId dateObj startTime endTime
                 durationHours totalPrice pricingBreakdown 0%Qc totalPrice
                 (if isBlocked then PaymentStatus.paid else PaymentStatus.pending)
                 0%Qc (if isBlocked then blocked else pending)
                 (CreateManualBookingDTO.notes body) byAdmin None None) in
          await populatedBooking := Booking_findById (fst booking) in
          ret (mkResponse 201 populatedBooking
                 (Some (if isBlocked then "Time slot blocked successfully"
                        else "Manual booking created successfully")))
      end
  | _, _, _, _ => throw (BadRequestError "Court, date, and time fields are required")
  end.

Definition updateBookingStatus (id : ObjectId) (body : UpdateBookingStatusDTO.t)
  : M (Response (option Booking.t)) :=
  match UpdateBookingStatusDTO.status body with
  | None => throw (BadRequestError "Status is required")
  | Some status =>
    await booking := Booking_findById id in
    match booking with
    | None => throw (NotFoundError "Booking")
    | Some booking =>
      if bool_decide (Booking.status booking = cancelled)
      then throw (BadRequestError "Cannot update status of cancelled booking")
      else if bool_decide (Booking.status booking = completed)
      then throw (BadRequestError "Cannot update status of completed booking")
      else
        let booking := Booking.set_status status booking in
        let booking :=
          if truthy (UpdateBookingStatusDTO.notes body)
          then Booking.set_notes (UpdateBookingStatusDTO.notes body) booking
          else booking in
        await_ Booking_save id booking in
        await populatedBooking := Booking_findById id in
        ret (mkResponse 200 populatedBooking
               (Some "Booking status updated successfully"))
    end
  end.

Definition updatePayment (id : ObjectId) (body : UpdatePaymentDTO.t)
  : M (Response (option Booking.t)) :=
  await booking := Booking_findById id in
  match booking with
  | None => throw (NotFoundError "Booking")
  | Some booking =>
    let booking :=
      Booking.set_payment
        (default (Booking.amountPaid booking) (UpdatePaymentDTO.amountPaid body))
        (default (Booking.paymentStatus booking) (UpdatePaymentDTO.paymentStatus body))
        (if truthy (UpdatePaymentDTO.paymentMethod body)
         then UpdatePaymentDTO.paymentMethod body else Booking.paymentMethod booking)
        (if truthy (UpdatePaymentDTO.paymentReference body)
         then UpdatePaymentDTO.paymentReference body
         else Booking.paymentReference booking)
        booking in
    let booking :=
      match UpdatePaymentDTO.paymentStatus body with
      | Some PaymentStatus.paid | Some PaymentStatus.partial =>
          if bool_decide (Booking.status booking = pending)
          then Booking.set_status confirmed booking else booking
      | _ => booking
      end in
    await_ Booking_save id booking in
    await populatedBooking := Booking_findById id in
    ret (mkResponse 200 populatedBooking (Some "Payment updated successfully"))
  end.

(** [updateBooking]: [notes] is [None] when the body has no such field. *)
Definition updateBooking (id : ObjectId) (notes : option (option string))
  : M (Response (option Booking.t)) :=
  await booking := Booking_findById id in
  match booking with
  | None => throw (NotFoundError "Booking")
  | Some booking =>
    let booking :=
      match notes with
      | Some notes => Booking.set_notes notes booking
      | None => booking
      end in
    await_ Booking_save id booking in
    await populatedBooking := Booking_findById id in
    ret (mkResponse 200 populatedBooking (Some "Booking updated successfully"))
  end.

(** The soft delete of [cancelBooking]: the status is set, and the reason,
    when there is one, is appended to the notes. *)
Definition markCancelled (reason : option string) (booking : Booking.t) : Booking.t :=
  let booking := Booking.set_status cancelled booking in
  if truthy reason then
    Booking.set_notes
      (Some (if truthy (Booking.notes booking)
             then (default "" (Booking.notes booking)
                   ++ String "010" "Cancellation reason: "
                   ++ default "" reason)%string
             else ("Cancellation reason: " ++ default "" reason)%string))
      booking
  else booking.

Definition cancelBooking (id : ObjectId) (reason : option string)
  : M (Response (option Booking.t)) :=
  await booking := Booking_findById id in
  match booking with
  | None => throw (NotFoundError "Booking")
  | Some booking =>
    if bool_decide (Booking.status booking = cancelled)
    then throw (BadRequestError "Booking is already cancelled")
    else if bool_decide (Booking.status booking = completed)
    then throw (BadRequestError "Cannot cancel completed booking")
    else
      let booking := markCancelled reason booking in
      await_ Booking_save id booking in
      await populatedBooking := Booking_findById id in
      ret (mkResponse 200 populatedBooking (Some "Booking cancelled successfully"))
  end.

(** ** The court controller *)

(** [!s || !s.trim()] for an optional string. *)
Definition blank (s : option string) : bool :=
  match s with
  | Some s => String.eqb s "" || String.eqb (trim ext s) ""
  | None => true
  end.

(** Features sent as a string are parsed as JSON. *)
Definition parseFeatures (courtData : ICourtCreate.t) : M ICourtCreate.t :=
  match ICourtCreate.features courtData with
  | Some (FeaturesString text) =>
    if String.eqb text "" then ret courtData
    else
      match JSON_parse ext text with
      | Some items =>
          ret (ICourtCreate.set_features (Some (FeaturesArray items)) courtData)
      | None =>
          throw (BadRequestError "Invalid features format. Must be a valid JSON array")
      end
  | _ => ret courtData
  end.

(** [file] is the path of the uploaded image, when there is one. *)
Definition createCourt (body : ICourtCreate.t) (file : option string)
  : M (Response Court.t) :=
  await courtData := parseFeatures body in
  if blank (ICourtCreate.name courtData)
  then throw (BadRequestError "Court name is required")
  else if blank (ICourtCreate.description courtData)
  then throw (BadRequestError "Court description is required")
  else
    await courtCount := Court_countDocuments in
    if (7 <=? courtCount)%nat
    then throw (BadRequestError "Maximum court limit reached (7 courts)")
    else
      await existingCourt :=
        Court_findOne (default "" (ICourtCreate.name courtData)) None in
      match existingCourt with
      | Some _ => throw (ConflictError "Court with this name already exists")
      | None =>
        let courtData :=
          match file with
          | Some path => ICourtCreate.set_imageUrl (Some path) courtData
          | None => courtData
          end in
        await court := Court_create courtData in
        ret (mkResponse 201 (snd court) (Some "Court created successfully"))
      end.

Definition updateCourt (id : ObjectId) (body : ICourtUpdate.t)
  : M (Response Court.t) :=
  await updateData := parseFeatures body in
  await_
    (if truthy (ICourtUpdate.name updateData) then
       let name := default "" (ICourtUpdate.name updateData) in
       if String.eqb (trim ext name) ""
       then throw (BadRequestError "Court name cannot be empty")
       else
         await existingCourt := Court_findOne name (Some id) in
         match existingCourt with
         | Some _ => throw (ConflictError "Court with this name already exists")
         | None => ret tt
         end
     else ret tt) in
  await_
    match ICourtUpdate.description updateData with
    | Some description =>
        if String.eqb (trim ext description) ""
        then throw (BadRequestError "Court description cannot be empty")
        else ret tt
    | None => ret tt
    end in
  await court := Court_findByIdAndUpdate id updateData in
  match court with
  | None => throw (NotFoundError "Court")
  | Some court => ret (mkResponse 200 court (Some "Court updated successfully"))
  end.

Definition deleteCourt (id : ObjectId) : M (Response Court.t) :=
  await court := Court_findByIdAndDelete id in
  match court with
  | None => throw (NotFoundError "Court")
  | Some court => ret (mkResponse 200 court (Some "Court deleted successfully"))
  end.

(** [status] is [None] when the body's status is not one of ["active"],
    ["inactive"], ["maintenance"]. *)
Definition toggleCourtStatus (id : ObjectId) (status : option CourtStatus)
  : M (Response Court.t) :=
  match status with
  | None =>
      throw (BadRequestError "Invalid status. Must be: active, inactive, or maintenance")
  | Some status =>
    await court := Court_findByIdAndUpdate_status id status in
    match court with
    | None => throw (NotFoundError "Court")
    | Some court =>
        ret (mkResponse 200 court
               (Some ("Court status changed to "
                      ++ match status with
                         | active => "active"
                         | inactive => "inactive"
                         | maintenance => "maintenance"
                         end)%string))
    end
  end.

(** ** The price preview *)

(** [calculatePrice] of the pricing controller. *)
Definition calculatePrice (bookingDate : option BookingDateArg)
    (startTime endTime : option TimeStr) : M (Response PriceResult) :=
  match bookingDate, startTime, endTime with
  | Some bookingDate, Some startTime, Some endTime =>
      await result :=
        PricingService_calculateBookingPrice bookingDate startTime endTime in
      ret (mkResponse 200 result None)
  | _, _, _ =>
      throw (BadRequestError "Booking date, start time, and end time are required")
  end.

(** ** Requests *)

(** The writing requests of the court and booking controllers, and the
    price preview. *)
Inductive Request : Type :=
  | ReqCreateCourt (body : ICourtCreate.t) (file : option string)
  | ReqUpdateCourt (id : ObjectId) (body : ICourtUpdate.t)
  | ReqDeleteCourt (id : ObjectId)
  | ReqToggleCourtStatus (id : ObjectId) (status : option CourtStatus)
  | ReqCreateBooking (body : CreateBookingDTO.t)
  | ReqCreateManualBooking (body : CreateManualBookingDTO.t)
  | ReqUpdateBookingStatus (id : ObjectId) (body : UpdateBookingStatusDTO.t)
  | ReqUpdatePayment (id : ObjectId) (body : UpdatePaymentDTO.t)
  | ReqUpdateBooking (id : ObjectId) (notes : option (option string))
  | ReqCancelBooking (id : ObjectId) (reason : option string)
| ReqCalculatePrice (bookingDate : option BookingDateArg)
    (startTime endTime : option TimeStr).

(** The database after a request has been served. *)
Definition serve (req : Request) (db : Db) : Db :=
  match req with
  | ReqCreateCourt body file => fst (createCourt body file db)
  | ReqUpdateCourt id body => fst (updateCourt id body db)
  | ReqDeleteCourt id => fst (deleteCourt id db)
  | ReqToggleCourtStatus id status => fst (toggleCourtStatus id status db)
  | ReqCreateBooking body => fst (createBooking body db)
  | ReqCreateManualBooking body => fst (createManualBooking body db)
  | ReqUpdateBookingStatus id body => fst (updateBookingStatus id body db)
  | ReqUpdatePayment id body => fst (updatePayment id body db)
  | ReqUpdateBooking id notes => fst (updateBooking id notes db)
  | ReqCancelBooking id reason => fst (cancelBooking id reason db)
  | ReqCalculatePrice bookingDate startTime endTime =>
      fst (calculatePrice bookingDate startTime endTime db)
  end.

(** Requests served one after the other. *)
Definition serveAll (reqs : list Request) (db : Db) : Db :=
  fold_left (fun db req => serve req db) reqs db.

End Handlers.

(** ** Sample data *)

(** Thursday 2 January 2025, Saturday 4 January 2025 (local midnight). *)
Definition thursday : Date := 20090 * msPerDay.
Definition saturday : Date := 20092 * msPerDay.

(** Segmentation on clock-hour boundaries, as the specification words it:
    a pass ends at the next full hour after its start, or at the end of the
    range. *)
Definition nextClockHour (d : Date) : Date := d - d mod msPerHour + msPerHour.

Definition clockAlignedSteps (endDateTime : Date) (slots : list Slot) : Prop :=
  Forall (fun s => slotEnd s = Z.min (nextClockHour (slotStart s)) endDateTime) slots.

(** Thursday 17:30 to 19:00 under the default rules: one hour at the
    weekday day rate, half an hour at the weekday night rate. *)
Definition thursdayEveningResult : PriceResult :=
  mkPriceResult (hoursOfMs (90 * msPerMinute))
    [ mkEntry "17:30-18:30" (Qc_of_Z 80) weekday day;
      mkEntry "18:30-19:00" (Qc_of_Z 100) weekday night ]
    (Qc_of_Z 130).

(** Thursday 10:30 to 12:30 under the default rules. *)
Definition thursdayMorningResult : PriceResult :=
  mkPriceResult (Qc_of_Z 2)
    [ mkEntry "10:30-11:30" (Qc_of_Z 80) weekday day;
      mkEntry "11:30-12:30" (Qc_of_Z 80) weekday day ]
    (Qc_of_Z 160).

(** The two passes behind it. *)
Definition thursdayMorningSlots : list Slot :=
  let e := instant 20090 12 30 in
  let p := mkSlotPrice (Qc_of_Z 80) weekday day in
  [ passAt e (instant 20090 10 30) p; passAt e (instant 20090 11 30) p ].

(** A [Date] object for Thursday 2 January 2025, 15:00. *)
Definition thursdayAfternoon : Date := thursday + 15 * msPerHour.

(** ** Specification-side notions for the controllers *)

(** The errors that reject a status write on a terminal booking. *)
Definition invalidTransition (e : ApiError) : Prop :=
  e = BadRequestError "Cannot update status of cancelled booking"
  \/ e = BadRequestError "Cannot update status of completed booking"
  \/ e = BadRequestError "Booking is already cancelled"
  \/ e = BadRequestError "Cannot cancel completed booking".

(** Calls to the customer collection, to the pricing rules and to the
    pricing service. *)
Definition customerOrPricingCall (c : Call) : bool :=
  match c with
  | DbCall CustomerModel _ => true
  | DbCall PricingRuleModel _ => true
  | ServiceCall service _ => String.eqb service "PricingService"
  | _ => false
  end.

(** The court limit. *)
Definition courtLimit (db : Db) : Prop := (size (courts db) <= 7)%nat.

(** A court request that passes the field checks of [createCourt]. *)
Definition wellFormedCourt (ext : Externals) (body : ICourtCreate.t) : Prop :=
  (forall text, ICourtCreate.features body = Some (FeaturesString text) ->
                text = "" \/ is_Some (JSON_parse ext text))
  /\ blank ext (ICourtCreate.name body) = false
  /\ blank ext (ICourtCreate.description body) = false.

(** Postcondition of a handler run on [db]: [Q] holds of the database it
    leaves and of its outcome. *)
Definition post {A : Type} (m : M A) (db : Db) (Q : Db -> Outcome A -> Prop) : Prop :=
  Q (fst (m db)) (snd (m db)).

(** ** Sample deployment *)

(** An implementation of the code outside the sources: every booking time
    is accepted and available, durations are the resolved ones, the schemas
    accept every document and fill in defaults, [JSON.parse] rejects its
    input and [trim] strips nothing. *)
Definition sampleExt : Externals :=
  mkExternals
    (fun _ _ _ => None)
    (fun _ _ _ _ _ => Ok true)
    (fun startTime endTime => hoursOfMs (resolvedMinutes startTime endTime * msPerMinute))
    (fun c => Ok (Customer.mk (default "" (ICustomerCreate.name c))
                              (default "" (ICustomerCreate.phone c))
                              (ICustomerCreate.email c) 0))
    (fun _ => None)
    (fun c => Ok (Court.mk (default "" (ICourtCreate.name c))
                           (default "" (ICourtCreate.description c))
                           (ICourtCreate.imageUrl c)
                           (match ICourtCreate.features c with
                            | Some (FeaturesArray items) => items
                            | _ => []
                            end)
                           (default active (ICourtCreate.status c))))
    (fun doc c => Ok (Court.mk (default (Court.name doc) (ICourtCreate.name c))
                               (default (Court.description doc)
                                        (ICourtCreate.description c))
                               (match ICourtCreate.imageUrl c with
                                | Some url => Some url
                                | None => Court.imageUrl doc
                                end)
                               (match ICourtCreate.features c with
                                | Some (FeaturesArray items) => items
                                | _ => Court.features doc
                                end)
                               (default (Court.status doc) (ICourtCreate.status c))))
    (fun _ => None)
    (fun s => s).

Definition sampleCourt (name : string) : Court.t :=
  Court.mk name "Turf pitch" None [] active.

Definition pendingBooking : Booking.t :=
  Booking.mk (Some 1%N) 1%N thursday (HHMM 14 0) (HHMM 16 0) (Qc_of_Z 2) (Qc_of_Z 160) []
    0%Qc (Qc_of_Z 160) PaymentStatus.pending 0%Qc pending None byCustomer None None.

(** One court, one pending booking, the default rules. *)
Definition sampleDb : Db :=
  mkDb {[ 1%N := sampleCourt "Court 1" ]} ∅ {[ 1%N := pendingBooking ]} defaultRules [].

(** Seven courts. *)
Definition fullDb : Db :=
  mkDb (list_to_map
          [ (1%N, sampleCourt "Court 1"); (2%N, sampleCourt "Court 2");
            (3%N, sampleCourt "Court 3"); (4%N, sampleCourt "Court 4");
            (5%N, sampleCourt "Court 5"); (6%N, sampleCourt "Court 6");
            (7%N, sampleCourt "Court 7") ])
       ∅ ∅ defaultRules [].

Definition eighthCourt : ICourtCreate.t :=
  ICourtCreate.mk (Some "Court 8") (Some "Turf pitch") None None None.

(** An admin request that blocks court 1 on Saturday 19:00 to 21:00. *)
Definition blockRequest : CreateManualBookingDTO.t :=
  CreateManualBookingDTO.mk (Some 1%N) (Some (DateString saturday))
    (Some (HHMM 19 0)) (Some (HHMM 21 0)) None None None (Some "maintenance") true.

Definition blockedBooking : Booking.t :=
  Booking.mk None 1%N saturday (HHMM 19 0) (HHMM 21 0)
    (hoursOfMs (120 * msPerMinute)) 0%Qc []
    0%Qc 0%Qc PaymentStatus.paid 0%Qc blocked (Some "maintenance") byAdmin None None.

(** ** Further notions for the pricing service *)

(** The instants priced by the Saturday-night override, on the calendar:
    Saturday from 04:00 to 09:00 and from 18:00 on, and Sunday before
    04:00. *)
Definition saturdayOverrideWindow (d : Date) : Prop :=
  (getDay d = 6 /\ (4 <= getHours d < 9 \/ 18 <= getHours d))
  \/ (getDay d = 0 /\ getHours d < 4).

(** The instants classified weekend, on the calendar: Friday from 04:00 to
    Sunday 04:00. *)
Definition weekendOnCalendar (d : Date) : Prop :=
  ((getDay d = 5 \/ getDay d = 6) /\ 4 <= getHours d)
  \/ ((getDay d = 6 \/ getDay d = 0) /\ getHours d < 4).

(** Where a rate comes from: the override, or an active rule of the table
    for the classification it is recorded with. *)
Definition fromOverrideOrTable (rules : PricingRules) (rate : Qc)
    (dt : DayType) (ts : TimeSlot) : Prop :=
  (rate = Qc_of_Z 110 /\ dt = weekend /\ ts = night)
  \/ exists rule, In rule rules /\ isActive rule = true
                  /\ rule_dayType rule = dt /\ rule_timeSlot rule = ts
                  /\ pricePerHour rule = rate.

(** A table with an active rule for each of the four classifications. *)
Definition completeTable (rules : PricingRules) : Prop :=
  forall dt ts, is_Some (findOneActive rules dt ts).

(** A time of day with its hour below 24 and its minute below 60. *)
Definition wellFormedTime (t : TimeStr) : Prop :=
  0 <= hh t < 24 /\ 0 <= mm t < 60.

(** The override rate and the rate of every active rule lie between [lo]
    and [hi]. *)
Definition ratesWithin (rules : PricingRules) (lo hi : Qc) : Prop :=
  (lo <= Qc_of_Z 110)%Qc /\ (Qc_of_Z 110 <= hi)%Qc
  /\ forall rule, In rule rules -> isActive rule = true ->
                  (lo <= pricePerHour rule)%Qc /\ (pricePerHour rule <= hi)%Qc.

(** A pass of the loop moved by [delta] milliseconds. *)
Definition shiftSlot (delta : Z) (s : Slot) : Slot :=
  mkSlot (slotStart s + delta) (slotEnd s + delta)
         (slotDuration s) (slotPrice s) (slotEntry s).

(** [k] weeks in milliseconds. *)
Definition weeks (k : Z) : Z := k * 7 * msPerDay.

(** The outcomes of [calculateBookingPrice]. *)
Definition pricingOutcome (rules : PricingRules) (o : Outcome PriceResult) : Prop :=
  (exists r, o = Ok r)
  \/ o = Throw minimumDuration
  \/ o = Throw thirtyMinuteIncrements
  \/ exists dt ts, o = Throw (ruleNotFound dt ts) /\ findOneActive rules dt ts = None.

(** Thursday 2 January 2025, 22:00, and Thursday a week later. *)
Definition thursdayNight : Date := instant 20090 22 0.
Definition nextThursday : Date := 20097 * msPerDay.

(** ** The lookups of the booking and court controllers *)

Module CheckAvailabilityDTO.
Record t : Type := mk {
  courtId : option ObjectId;
  bookingDate : option BookingDateArg;
  startTime : option TimeStr;
  endTime : option TimeStr
}.
End CheckAvailabilityDTO.

Module BookingController.

(** [checkAvailability]: the [available] flag of the result of the booking
    service stands for the result. *)
Definition checkAvailability (ext : Externals) (body : CheckAvailabilityDTO.t)
  : M (Response bool) :=
  match CheckAvailabilityDTO.courtId body, CheckAvailabilityDTO.bookingDate body,
        CheckAvailabilityDTO.startTime body, CheckAvailabilityDTO.endTime body with
  | Some courtId, Some bookingDate, Some startTime, Some endTime =>
    await court := Court_findById courtId in
    match court with
    | None => throw (NotFoundError "Court")
    | Some _ =>
      await result :=
        BookingService_checkAvailability ext courtId (dateOf bookingDate)
          startTime endTime in
      ret (mkResponse 200 result (Some "Availability checked successfully"))
    end
  | _, _, _, _ => throw (BadRequestError "All fields are required")
  end.

Definition getBookingById (id : ObjectId) : M (Response Booking.t) :=
  await booking := Booking_findById id in
  match booking with
  | None => throw (NotFoundError "Booking")
  | Some booking => ret (mkResponse 200 booking None)
  end.

End BookingController.

Module CourtController.

Definition getCourtById (id : ObjectId) : M (Response Court.t) :=
  await court := Court_findById id in
  match court with
  | None => throw (NotFoundError "Court")
  | Some court => ret (mkResponse 200 court None)
  end.

End CourtController.

(** ** Further notions for the controllers *)

(** The four collections of [db'] are those of [db]. *)
Definition sameData (db db' : Db) : Prop :=
  courts db' = courts db /\ customers db' = customers db
  /\ bookings db' = bookings db /\ pricingRules db' = pricingRules db.

(** The statuses that end the life of a booking. *)
Definition terminal (s : BookingStatus) : Prop := s = cancelled \/ s = completed.

(** What was reserved and at what price: the customer, the court, the
    date, the times, the duration, the prices and the origin. *)
Definition sameReservation (b b' : Booking.t) : Prop :=
  Booking.customer b' = Booking.customer b
  /\ Booking.court b' = Booking.court b
  /\ Booking.bookingDate b' = Booking.bookingDate b
  /\ Booking.startTime b' = Booking.startTime b
  /\ Booking.endTime b' = Booking.endTime b
  /\ Booking.durationHours b' = Booking.durationHours b
  /\ Booking.totalPrice b' = Booking.totalPrice b
  /\ Booking.pricingBreakdown b' = Booking.pricingBreakdown b
  /\ Booking.discountAmount b' = Booking.discountAmount b
  /\ Booking.finalPrice b' = Booking.finalPrice b
  /\ Booking.createdBy b' = Booking.createdBy b.

(** A later state of a stored booking: the reservation is the same, and a
    terminal status has stayed. *)
Definition evolves (b b' : Booking.t) : Prop :=
  sameReservation b b'
  /\ (terminal (Booking.status b) -> Booking.status b' = Booking.status b).

(** No discount is applied to a booking, so that its final price is its
    total price; and a booking without customer (a blocked slot) is free and
    has no breakdown. *)
Definition priceConsistent (b : Booking.t) : Prop :=
  Booking.finalPrice b = Booking.totalPrice b
  /\ Booking.discountAmount b = 0%Qc
  /\ (Booking.customer b = None ->
      Booking.totalPrice b = 0%Qc /\ Booking.pricingBreakdown b = []).

Definition pricesConsistent (db : Db) : Prop :=
  forall id b, bookings db !! id = Some b -> priceConsistent b.

(** What one request does to the bookings: nothing, or it stores one new
    booking, with consistent prices, or it stores a later state of one
    booking. *)
Definition bookingsStep (db db' : Db) : Prop :=
  bookings db' = bookings db
  \/ (exists id doc, (id ∉ dom (bookings db))
                     /\ bookings db' = <[id := doc]> (bookings db)
                     /\ priceConsistent doc)
  \/ (exists id b0 doc, bookings db !! id = Some b0
                        /\ bookings db' = <[id := doc]> (bookings db)
                        /\ evolves b0 doc).

Definition bookingsKept (db db' : Db) : Prop :=
  forall id b, bookings db !! id = Some b ->
               exists b', bookings db' !! id = Some b' /\ evolves b b'.

(** A later state of a customer: the same name, phone and email, and at
    least as many bookings counted. *)
Definition grows (c c' : Customer.t) : Prop :=
  Customer.name c' = Customer.name c
  /\ Customer.phone c' = Customer.phone c
  /\ Customer.email c' = Customer.email c
  /\ Customer.totalBookings c <= Customer.totalBookings c'.

Definition customersKept (m m' : gmap ObjectId Customer.t) : Prop :=
  forall cid c, m !! cid = Some c -> exists c', m' !! cid = Some c' /\ grows c c'.

(** The customer with one more booking counted. *)
Definition countBooking (c : Customer.t) : Customer.t :=
  Customer.mk (Customer.name c) (Customer.phone c) (Customer.email c)
              (Customer.totalBookings c + 1).

(** [Customer.findOne({ phone })] on the customers of [db]. *)
Definition customerByPhone (db : Db) (phone : option string)
  : option (ObjectId * Customer.t) :=
  List.find (fun kv => bool_decide (Some (Customer.phone (snd kv)) = phone))
            (map_to_list (customers db)).

(** The customer a booking request is for: the one found by phone, or the
    one [Customer.create] makes of the request when there is none. *)
Definition customerFor (ext : Externals) (db : Db)
    (customerName customerPhone customerEmail : option string)
    (cid : ObjectId) (c : Customer.t) : Prop :=
  customerByPhone db customerPhone = Some (cid, c)
  \/ (customerByPhone db customerPhone = None
      /\ (cid ∉ dom (customers db))
      /\ customerSchema ext (ICustomerCreate.mk customerName customerPhone customerEmail)
         = Ok c).

(** ** Further sample data *)

(** A customer request for court 1 on Thursday 17:30 to 19:00. *)
Definition bookRequest : CreateBookingDTO.t :=
  CreateBookingDTO.mk (Some 1%N) (Some (DateString thursday))
    (Some (HHMM 17 30)) (Some (HHMM 19 0)) (Some "0501234567") (Some "Ali") None None.

(** The same request made by an admin for the customer. *)
Definition manualRequest : CreateManualBookingDTO.t :=
  CreateManualBookingDTO.mk (Some 1%N) (Some (DateString thursday))
    (Some (HHMM 17 30)) (Some (HHMM 19 0)) (Some "0501234567") (Some "Ali") None None
    false.

(** The booking that request asks [Booking.create] to store for customer
    7. *)
Definition manualBooking : Booking.t :=
  Booking.mk (Some 7%N) 1%N (setHours4 (dateOf (DateString thursday)) 0 0 0 0)
    (HHMM 17 30) (HHMM 19 0)
    (calculateDuration sampleExt (HHMM 17 30) (HHMM 19 0))
    (finalPrice thursdayEveningResult) (breakdown thursdayEveningResult) 0%Qc
    (finalPrice thursdayEveningResult) PaymentStatus.pending 0%Qc pending None
    byAdmin None None.

(** One court and no pricing rule. *)
Definition noRulesDb : Db :=
  mkDb {[ 1%N := sampleCourt "Court 1" ]} ∅ ∅ [] [].

Definition knownCustomer : Customer.t :=
  Customer.mk "Ali" "0501234567" None 3.

(** One court, one customer, the default rules. *)
Definition customerDb : Db :=
  mkDb {[ 1%N := sampleCourt "Court 1" ]} {[ 7%N := knownCustomer ]} ∅ defaultRules [].

(** As [sampleExt], with a booking schema that rejects every document. *)
Definition strictExt : Externals :=
  mkExternals (validateBookingTime sampleExt) (checkAvailability sampleExt)
    (calculateDuration sampleExt) (customerSchema sampleExt)
    (fun _ => Some (ValidationError "Booking validation failed"))
    (courtSchema sampleExt) (courtUpdateSchema sampleExt) (JSON_parse sampleExt)
    (trim sampleExt).

(** A payment in full. *)
Definition paidInFull : UpdatePaymentDTO.t :=
  UpdatePaymentDTO.mk (Some (Qc_of_Z 160)) (Some PaymentStatus.paid) (Some "cash") None.

Definition secondCourt : ICourtCreate.t :=
  ICourtCreate.mk (Some "Court 2") (Some "Turf pitch") None None None.

(** A request for a court named as court 1 of the sample database. *)
Definition sameNameCourt : ICourtCreate.t :=
  ICourtCreate.mk (Some "Court 1") (Some "Grass pitch") None None None.

(** ** The pricing controller *)

(** The [PricingRule] collection with its document ids, in natural
    order. *)
Definition RuleStore : Type := list (ObjectId * PricingRule).

(** What the pricing service searches. *)
Definition rulesOf (store : RuleStore) : PricingRules := snd <$> store.

(** The key of the compound unique index of [models/PricingRule]. *)
Definition classOf (rule : PricingRule) : DayType * TimeSlot :=
  (rule_dayType rule, rule_timeSlot rule).

(** The body of a create or update request: the fields of
    [IPricingRuleCreate] and [IPricingRuleUpdate], each absent or of its
    declared type. *)
Module IPricingRuleCreate.
Record t : Type := mk {
  dayType : option DayType;
  timeSlot : option TimeSlot;
  pricePerHour : option Qc;
  isActive : option bool
}.
End IPricingRuleCreate.

Module IPricingRuleUpdate := IPricingRuleCreate.

(** What the handlers of the pricing controller throw: an [ApiError], or
    the duplicate-key error of the unique index, which they do not catch. *)
Inductive StoreError : Type :=
  | Api (e : ApiError)
  | DuplicateKey (key : DayType * TimeSlot).

Inductive StoreOutcome (A : Type) : Type :=
  | Returned (a : A)
  | Thrown (e : StoreError).
Arguments Returned {A} a.
Arguments Thrown {A} e.

(** The object [getCurrentPricing] answers with. *)
Record CurrentPricing : Type := mkCurrentPricing {
  weekdayDayRate : Qc;
  weekdayNightRate : Qc;
  weekendDayRate : Qc;
  weekendNightRate : Qc
}.

Module PricingController.

(** [PricingRule.findOne({ dayType, timeSlot })]. *)
Definition PricingRule_findOne (store : RuleStore) (dt : DayType) (ts : TimeSlot)
  : option (ObjectId * PricingRule) :=
  List.find (fun kv => bool_decide (classOf (snd kv) = (dt, ts))) store.

Definition PricingRule_findById (store : RuleStore) (id : ObjectId)
  : option PricingRule :=
  snd <$> List.find (fun kv => bool_decide (fst kv = id)) store.

(** [PricingRule.create(ruleData)] with the required fields present:
    [isActive] defaults to true. *)
Definition PricingRule_create (store : RuleStore) (dt : DayType) (ts : TimeSlot)
    (p : Qc) (active : option bool) : RuleStore * PricingRule :=
  let rule := mkPricingRule dt ts p (default true active) in
  (store ++ [(fresh (fst <$> store), rule)], rule).

(** The document after [$set] of the fields given. *)
Definition applyUpdate (updateData : IPricingRuleUpdate.t) (rule : PricingRule)
  : PricingRule :=
  mkPricingRule
    (default (rule_dayType rule) (IPricingRuleUpdate.dayType updateData))
    (default (rule_timeSlot rule) (IPricingRuleUpdate.timeSlot updateData))
    (default (pricePerHour rule) (IPricingRuleUpdate.pricePerHour updateData))
    (default (isActive rule) (IPricingRuleUpdate.isActive updateData)).

(** Another document holds the index key of [rule]. *)
Definition keyTaken (store : RuleStore) (id : ObjectId) (rule : PricingRule) : bool :=
  existsb (fun kv => negb (bool_decide (fst kv = id))
                     && bool_decide (classOf (snd kv) = classOf rule)) store.

(** [PricingRule.findByIdAndUpdate(id, updateData, { new: true,
    runValidators: true })]: [None] when no document has this id; the
    unique index refuses a key that another document holds. *)
Definition PricingRule_findByIdAndUpdate (store : RuleStore) (id : ObjectId)
    (updateData : IPricingRuleUpdate.t)
  : RuleStore * StoreOutcome (option PricingRule) :=
  match PricingRule_findById store id with
  | None => (store, Returned None)
  | Some rule =>
      let rule' := applyUpdate updateData rule in
      if keyTaken store id rule' then (store, Thrown (DuplicateKey (classOf rule')))
      else
        ((fun kv => if bool_decide (fst kv = id) then (fst kv, rule') else kv) <$> store,
         Returned (Some rule'))
  end.

Definition PricingRule_findByIdAndDelete (store : RuleStore) (id : ObjectId)
  : RuleStore * option PricingRule :=
  (filter (fun kv => fst kv <> id) store, PricingRule_findById store id).

(** [PricingRule.insertMany(rules)]. *)
Fixpoint PricingRule_insertMany (store : RuleStore) (rules : list PricingRule)
  : RuleStore :=
  match rules with
  | [] => store
  | rule :: rest =>
      PricingRule_insertMany (store ++ [(fresh (fst <$> store), rule)]) rest
  end.

Definition createPricingRule (ruleData : IPricingRuleCreate.t) (store : RuleStore)
  : RuleStore * StoreOutcome (Response PricingRule) :=
  match IPricingRuleCreate.dayType ruleData with
  | None => (store, Thrown (Api (BadRequestError "Day type is required")))
  | Some dt =>
    match IPricingRuleCreate.timeSlot ruleData with
    | None => (store, Thrown (Api (BadRequestError "Time slot is required")))
    | Some ts =>
      match IPricingRuleCreate.pricePerHour ruleData with
      | None => (store, Thrown (Api (BadRequestError "Valid price per hour is required")))
      | Some p =>
        if bool_decide (p <= 0)%Qc
        then (store, Thrown (Api (BadRequestError "Valid price per hour is required")))
        else
          match PricingRule_findOne store dt ts with
          | Some _ =>
              (store,
               Thrown (Api (ConflictError
                              ("Pricing rule for " ++ DayType_str dt ++ " "
                               ++ TimeSlot_str ts ++ " already exists")%string)))
          | None =>
              let '(store', pricingRule) :=
                PricingRule_create store dt ts p (IPricingRuleCreate.isActive ruleData) in
              (store',
               Returned (mkResponse 201 pricingRule
                           (Some "Pricing rule created successfully")))
          end
      end
    end
  end.

Definition updatePricingRule (id : ObjectId) (updateData : IPricingRuleUpdate.t)
    (store : RuleStore) : RuleStore * StoreOutcome (Response PricingRule) :=
  let invalidPrice :=
    match IPricingRuleUpdate.pricePerHour updateData with
    | Some p => bool_decide (p <= 0)%Qc
    | None => false
    end in
  if invalidPrice
  then (store, Thrown (Api (BadRequestError "Price per hour must be greater than 0")))
  else
    match PricingRule_findByIdAndUpdate store id updateData with
    | (store', Returned (Some pricingRule)) =>
        (store', Returned (mkResponse 200 pricingRule
                             (Some "Pricing rule updated successfully")))
    | (store', Returned None) => (store', Thrown (Api (NotFoundError "Pricing rule")))
    | (store', Thrown e) => (store', Thrown e)
    end.

Definition deletePricingRule (id : ObjectId) (store : RuleStore)
  : RuleStore * StoreOutcome (Response PricingRule) :=
  match PricingRule_findByIdAndDelete store id with
  | (store', Some pricingRule) =>
      (store', Returned (mkResponse 200 pricingRule
                           (Some "Pricing rule deleted successfully")))
  | (store', None) => (store', Thrown (Api (NotFoundError "Pricing rule")))
  end.

(** The defaults of [initializePricingRules]. *)
Definition defaultRules : list PricingRule :=
  [ mkPricingRule weekday day (Qc_of_Z 90) true;
    mkPricingRule weekday night (Qc_of_Z 110) true;
    mkPricingRule weekend day (Qc_of_Z 110) true;
    mkPricingRule weekend night (Qc_of_Z 135) true ].

Definition initializePricingRules (store : RuleStore)
  : RuleStore * StoreOutcome (Response (list PricingRule)) :=
  let existingRulesCount := length store in
  if (0 <? existingRulesCount)%nat
  then (store, Thrown (Api (BadRequestError "Pricing rules already initialized")))
  else
    (PricingRule_insertMany store defaultRules,
     Returned (mkResponse 201 defaultRules
                 (Some "Default pricing rules initialized successfully"))).

(** The [forEach] of [getCurrentPricing] over the rules found. *)
Definition formatPricing (pricingRules : list PricingRule) : CurrentPricing :=
  fold_left
    (fun pricing rule =>
       match rule_dayType rule, rule_timeSlot rule with
       | weekday, day =>
           mkCurrentPricing (pricePerHour rule) (weekdayNightRate pricing)
                            (weekendDayRate pricing) (weekendNightRate pricing)
       | weekday, night =>
           mkCurrentPricing (weekdayDayRate pricing) (pricePerHour rule)
                            (weekendDayRate pricing) (weekendNightRate pricing)
       | weekend, day =>
           mkCurrentPricing (weekdayDayRate pricing) (weekdayNightRate pricing)
                            (pricePerHour rule) (weekendNightRate pricing)
       | weekend, night =>
           mkCurrentPricing (weekdayDayRate pricing) (weekdayNightRate pricing)
                            (weekendDayRate pricing) (pricePerHour rule)
       end)
    pricingRules
    (mkCurrentPricing 0%Qc 0%Qc 0%Qc 0%Qc).

Inductive Request : Type :=
  | ReqCreate (ruleData : IPricingRuleCreate.t)
  | ReqUpdate (id : ObjectId) (updateData : IPricingRuleUpdate.t)
  | ReqDelete (id : ObjectId)
  | ReqInitialize.

Definition serve (req : Request) (store : RuleStore) : RuleStore :=
  match req with
  | ReqCreate ruleData => fst (createPricingRule ruleData store)
  | ReqUpdate id updateData => fst (updatePricingRule id updateData store)
  | ReqDelete id => fst (deletePricingRule id store)
  | ReqInitialize => fst (initializePricingRules store)
  end.

Definition serveAll (reqs : list Request) (store : RuleStore) : RuleStore :=
  fold_left (fun store req => serve req store) reqs store.

End PricingController.

(** The rate [getCurrentPricing] shows for a classification. *)
Definition shownRate (pricing : CurrentPricing) (dt : DayType) (ts : TimeSlot) : Qc :=
  match dt, ts with
  | weekday, day => weekdayDayRate pricing
  | weekday, night => weekdayNightRate pricing
  | weekend, day => weekendDayRate pricing
  | weekend, night => weekendNightRate pricing
  end.

(** What the unique indexes and the checks of the controller maintain: ids
    and index keys are unique, prices are positive. *)
Definition storeOk (store : RuleStore) : Prop :=
  NoDup (fst <$> store)
  /\ NoDup (classOf <$> rulesOf store)
  /\ Forall (fun rule => (0 < pricePerHour rule)%Qc) (rulesOf store).

(** The rule with its [isActive] set to false, and the update that asks
    for it. *)
Definition deactivated (rule : PricingRule) : PricingRule :=
  mkPricingRule (rule_dayType rule) (rule_timeSlot rule) (pricePerHour rule) false.

Definition deactivate : IPricingRuleUpdate.t :=
  IPricingRuleUpdate.mk None None None (Some false).

(** A store with the four default rules. *)
Definition sampleRuleStore : RuleStore :=
  [ (1%N, mkPricingRule weekday day (Qc_of_Z 90) true);
    (2%N, mkPricingRule weekday night (Qc_of_Z 110) true);
    (3%N, mkPricingRule weekend day (Qc_of_Z 110) true);
    (4%N, mkPricingRule weekend night (Qc_of_Z 135) true) ].

(** A request for a rule that exists, and a change of price. *)
Definition sampleRuleRequests : list PricingController.Request :=
  [ PricingController.ReqInitialize;
    PricingController.ReqCreate
      (IPricingRuleCreate.mk (Some weekday) (Some day) (Some (Qc_of_Z 95)) None);
    PricingController.ReqUpdate 1%N
      (IPricingRuleUpdate.mk None None (Some (Qc_of_Z 95)) None) ].

From Stdlib Require Import Qround.

(** ** The pricing service on instants *)

(** JavaScript's [%] on numbers: the remainder keeps the sign of the
    dividend, [x - y * trunc(x / y)]. *)
Definition truncate (q : Qc) : Z :=
  if bool_decide (0 <= q)%Qc then Qfloor q else Qceiling q.

Definition jsRem (x y : Qc) : Qc := (x - y * Qc_of_Z (truncate (x / y)))%Qc.

(** [PricingService] of [services/pricing.service]: the version of the
    service whose [calculateBookingPrice] takes the start and the end of the
    booking as [Date]s.  Its private helpers ([getPrice] and what it calls)
    are those of the other version, word for word. *)
Module InstantPricingService.

(** [ITimeSlotPrice]. *)
Record ITimeSlotPrice : Type := mkTimeSlotPrice {
  startTime : Date;
  endTime : Date;
  hours : Qc;
  pricePerHour : Qc;
  totalPrice : Qc;
  dayType : DayType;
  timeSlot : TimeSlot
}.

(** [IPriceCalculation]. *)
Record IPriceCalculation : Type := mkPriceCalculation {
  courtId : string;
  calc_startTime : Date;
  calc_endTime : Date;
  totalHours : Qc;
  breakdown : list ITimeSlotPrice;
  subtotal : Qc;
  discount : Qc;
  finalPrice : Qc
}.

Definition endNotAfterStart : ApiError :=
  BadRequestError "End time must be after start time".

(** The [while (currentTime < endTime)] loop; [fuel] bounds the number of
    tests of the loop condition. *)
Fixpoint priceLoop (fuel : nat) (rules : PricingRules) (endTime : Date)
    (currentTime : Date) (breakdown : list ITimeSlotPrice) (subtotal : Qc)
  : Outcome (list ITimeSlotPrice * Qc) :=
  match fuel with
  | O => OutOfFuel
  | S fuel' =>
    if currentTime <? endTime then
      let nextHour := setHours currentTime (getHours currentTime + 1) in
      let slotEnd := if nextHour >? endTime then endTime else nextHour in
      let slotDuration := hoursOfMs (getTime slotEnd - getTime currentTime) in
      match getPrice rules currentTime (getHours currentTime) with
      | Ok p =>
        let slotPrice := (price p * slotDuration)%Qc in
        priceLoop fuel' rules endTime slotEnd
          (breakdown
           ++ [mkTimeSlotPrice currentTime slotEnd slotDuration (price p) slotPrice
                               (price_dayType p) (price_timeSlot p)])
          (subtotal + slotPrice)%Qc
      | Throw e => Throw e
      | OutOfFuel => OutOfFuel
      end
    else Ok (breakdown, subtotal)
  end.

Definition calculateBookingPrice (rules : PricingRules) (courtId : string)
    (startTime endTime : Date) : Outcome IPriceCalculation :=
  (* Validate times *)
  if startTime >=? endTime then Throw endNotAfterStart
  else
    let totalMilliseconds := getTime endTime - getTime startTime in
    let totalHours := hoursOfMs totalMilliseconds in
    (* Check minimum 1 hour *)
    if bool_decide (totalHours < 1)%Qc then Throw minimumDuration
    else
      (* Check 30-minute increments *)
      let minutes :=
        jsRem (Qc_of_Z totalMilliseconds / Qc_of_Z msPerMinute) (Qc_of_Z 60) in
      if negb (bool_decide (minutes = 0%Qc)) && negb (bool_decide (minutes = Qc_of_Z 30))
      then Throw thirtyMinuteIncrements
      else
        (* Calculate price for each hour *)
        match priceLoop (loopFuel totalMilliseconds) rules endTime startTime [] 0%Qc with
        | Ok (breakdown, subtotal) =>
            Ok (mkPriceCalculation courtId startTime endTime totalHours breakdown
                                   subtotal 0%Qc subtotal)
        | Throw e => Throw e
        | OutOfFuel => OutOfFuel
        end.

(** [getPricePreview]: total hours, estimated price and breakdown. *)
Definition getPricePreview (rules : PricingRules) (startTime endTime : Date)
  : Outcome (Qc * Qc * list ITimeSlotPrice) :=
  match calculateBookingPrice rules "preview" startTime endTime with
  | Ok calculation =>
      Ok (totalHours calculation, finalPrice calculation, breakdown calculation)
  | Throw e => Throw e
  | OutOfFuel => OutOfFuel
  end.

End InstantPricingService.

(** The entry the service on instants pushes for a pass of the loop. *)
Definition timeSlotPriceOf (s : Slot) : InstantPricingService.ITimeSlotPrice :=
  InstantPricingService.mkTimeSlotPrice (slotStart s) (slotEnd s) (slotDuration s)
    (rate (slotEntry s)) (slotPrice s) (dayType (slotEntry s)) (timeSlot (slotEntry s)).

(** An entry of the service on instants and an entry of the other version
    that say the same: same rate and classification, the label prints the
    bounds, and the total is the rate times the hours. *)
Definition sameEntry (t : InstantPricingService.ITimeSlotPrice) (b : BreakdownEntry)
  : Prop :=
  InstantPricingService.pricePerHour t = rate b
  /\ InstantPricingService.dayType t = dayType b
  /\ InstantPricingService.timeSlot t = timeSlot b
  /\ hour b = hourLabel (InstantPricingService.startTime t)
                        (InstantPricingService.endTime t)
  /\ InstantPricingService.hours t
     = hoursOfMs (InstantPricingService.endTime t - InstantPricingService.startTime t)
  /\ InstantPricingService.totalPrice t
     = (InstantPricingService.pricePerHour t * InstantPricingService.hours t)%Qc.

(** ** JavaScript numbers *)

(** The numbers of JavaScript: the finite doubles, each the rational it
    denotes (the two zeros are taken as one: the code modelled never
    divides by a computed value), the two infinities and NaN.  An
    arithmetic operation computes its exact result and rounds it to the
    nearest double, ties to the even mantissa (IEEE 754 binary64). *)
Module JsNumber.

Inductive Number : Type :=
  | Finite (value : Qc)
  | Infinity (negative : bool)
  | NaN.

Definition ofZ (n : Z) : Number := Finite (Qc_of_Z n).

(** The exponent [e] with [2^e <= n/d < 2^(e+1)], for positive [n] and
    [d]. *)
Definition binade (n d : Z) : Z :=
  if d <=? n then Z.log2 (n / d) else - Z.log2_up ((d + n - 1) / n).

(** [a/b] rounded to the nearest integer, a tie to the even one
    ([0 <= a], [0 < b]). *)
Definition roundHalfEven (a b : Z) : Z :=
  let f := a / b in
  match 2 * (a mod b) ?= b with
  | Lt => f
  | Gt => f + 1
  | Eq => if Z.even f then f else f + 1
  end.

(** The double nearest to [n/d], as a mantissa [m] and an exponent [e]
    (its value is [m * 2^e]): 53 significant bits, and no exponent below
    -1074 (the subnormal numbers). *)
Definition nearest (n d : Z) : Z * Z :=
  let e := Z.max (binade n d - 52) (-1074) in
  (if 0 <=? e then roundHalfEven n (d * 2 ^ e) else roundHalfEven (n * 2 ^ (- e)) d, e).

Definition scaled (m e : Z) : Qc :=
  if 0 <=? e then Qc_of_Z (m * 2 ^ e) else Q2Qc (m # Z.to_pos (2 ^ (- e))).

(** The number an exact result [q] is rounded to; a result that rounds to
    [2^1024] or beyond overflows to an infinity. *)
Definition double (q : Qc) : Number :=
  let n := Qnum q in
  if n =? 0 then Finite 0%Qc
  else
    let (m, e) := nearest (Z.abs n) (Zpos (Qden q)) in
    if 2 ^ 1024 <=? m * 2 ^ e then Infinity (n <? 0)
    else Finite (if n <? 0 then (- scaled m e)%Qc else scaled m e).

Definition isFinite (a : Number) : bool :=
  match a with Finite _ => true | _ => false end.

Definition neg (a : Number) : Number :=
  match a with
  | Finite x => Finite (- x)%Qc
  | Infinity s => Infinity (negb s)
  | NaN => NaN
  end.

(** [a + b]. *)
Definition add (a b : Number) : Number :=
  match a, b with
  | Finite x, Finite y => double (x + y)
  | Infinity s, Infinity t => if Bool.eqb s t then Infinity s else NaN
  | Infinity s, Finite _ | Finite _, Infinity s => Infinity s
  | _, _ => NaN
  end.

(** [a - b]. *)
Definition sub (a b : Number) : Number := add a (neg b).

(** [a * b]. *)
Definition mul (a b : Number) : Number :=
  match a, b with
  | Finite x, Finite y => double (x * y)
  | Infinity s, Infinity t => Infinity (xorb s t)
  | Infinity s, Finite y | Finite y, Infinity s =>
      if Qnum y =? 0 then NaN else Infinity (xorb s (Qnum y <? 0))
  | _, _ => NaN
  end.

(** [a / b]; a zero divisor counts as [+0]. *)
Definition div (a b : Number) : Number :=
  match a, b with
  | Finite x, Finite y =>
      if Qnum y =? 0 then (if Qnum x =? 0 then NaN else Infinity (Qnum x <? 0))
      else double (x / y)
  | Finite _, Infinity _ => Finite 0%Qc
  | Infinity s, Finite y => Infinity (xorb s (Qnum y <? 0))
  | _, _ => NaN
  end.

(** [a % b]: the remainder has the sign of the dividend and is exact. *)
Definition rem (a b : Number) : Number :=
  match a, b with
  | Finite x, Finite y => if Qnum y =? 0 then NaN else Finite (jsRem x y)
  | Finite x, Infinity _ => Finite x
  | _, _ => NaN
  end.

(** [a < b]: false as soon as one side is NaN. *)
Definition lt (a b : Number) : bool :=
  match a, b with
  | Finite x, Finite y => bool_decide (x < y)%Qc
  | Infinity s, Infinity t => s && negb t
  | Infinity s, Finite _ => s
  | Finite _, Infinity t => negb t
  | _, _ => false
  end.

(** [a > b], [a <= b], [a >= b]. *)
Definition gt (a b : Number) : bool := lt b a.

Definition le (a b : Number) : bool :=
  match a, b with
  | NaN, _ | _, NaN => false
  | _, _ => negb (lt b a)
  end.

Definition ge (a b : Number) : bool := le b a.

(** [a === b] on numbers. *)
Definition strictEq (a b : Number) : bool :=
  match a, b with
  | Finite x, Finite y => bool_decide (x = y)
  | Infinity s, Infinity t => Bool.eqb s t
  | _, _ => false
  end.

(** [ToIntegerOrInfinity]. *)
Definition toInteger (a : Number) : Number :=
  match a with
  | Finite x => ofZ (truncate x)
  | Infinity s => Infinity s
  | NaN => ofZ 0
  end.

End JsNumber.

(** ** The pricing service on JavaScript's own values *)

(** The pricing service once more, this time on the values JavaScript
    computes with: numbers are doubles, a [Date] can be an Invalid Date, and
    the fields read from a time string can be any number.  The functions
    keep the names of [PricingService]; on a date that parses, times of day
    and rates that doubles add without rounding they return what those
    return. *)
Module Js.
Import JsNumber.

(** A [Date] object: a valid instant (local milliseconds, as in [JsDate])
    or an Invalid Date, whose time value is NaN. *)
Definition DateObject : Type := option Date.

(** The range of time values, in milliseconds on either side of the
    epoch. *)
Definition maxTime : Z := 8640000000000000.

(** Offset of local time from UTC: Arabia Standard Time, three hours
    ahead. *)
Definition utcOffset : Z := 3 * msPerHour.

(** [MakeTime], [MakeDate], [UTC] and [TimeClip] of the language
    specification. *)
Definition MakeTime (hour min sec ms : Number) : Number :=
  if isFinite hour && isFinite min && isFinite sec && isFinite ms then
    add (add (add (mul (toInteger hour) (ofZ msPerHour))
                  (mul (toInteger min) (ofZ msPerMinute)))
             (mul (toInteger sec) (ofZ 1000)))
        (toInteger ms)
  else NaN.

Definition MakeDate (day time : Number) : Number :=
  if isFinite day && isFinite time then
    let tv := add (mul day (ofZ msPerDay)) time in
    if isFinite tv then tv else NaN
  else NaN.

Definition UTC (t : Number) : Number := sub t (ofZ utcOffset).

(** The [Date] object whose time value is [TimeClip(time)]. *)
Definition TimeClip (time : Number) : DateObject :=
  match time with
  | Finite x =>
      if bool_decide (- Qc_of_Z maxTime <= x)%Qc && bool_decide (x <= Qc_of_Z maxTime)%Qc
      then Some (truncate x + utcOffset)
      else None
  | _ => None
  end.

(** [d.getTime()], and a [Date] read as a number by [<], [<=] and [>]. *)
Definition getTime (d : DateObject) : Number :=
  match d with Some t => ofZ (t - utcOffset) | None => NaN end.

Definition getHours (d : DateObject) : Number :=
  match d with Some t => ofZ (JsDate.getHours t) | None => NaN end.

Definition getMinutes (d : DateObject) : Number :=
  match d with Some t => ofZ (JsDate.getMinutes t) | None => NaN end.

Definition getDay (d : DateObject) : Number :=
  match d with Some t => ofZ (JsDate.getDay t) | None => NaN end.

(** [d.setHours(hour, min, sec, ms)]: the [Date] object after the call. *)
Definition setHours4 (d : DateObject) (hour min sec ms : Number) : DateObject :=
  match d with
  | None => None
  | Some t => TimeClip (UTC (MakeDate (ofZ (t / msPerDay)) (MakeTime hour min sec ms)))
  end.

(** [d.setHours(hour)]: minutes, seconds and milliseconds are those of
    [d]. *)
Definition setHours (d : DateObject) (hour : Number) : DateObject :=
  match d with
  | None => None
  | Some t =>
      TimeClip (UTC (MakeDate (ofZ (t / msPerDay))
                              (MakeTime hour (ofZ (JsDate.getMinutes t))
                                        (ofZ (t mod msPerMinute / 1000))
                                        (ofZ (t mod 1000)))))
  end.

(** [d.setDate(d.getDate() + n)]: [MakeDay] of the year, the month and
    that day of the month is the day number of [d] plus [n]. *)
Definition addDays (d : DateObject) (n : Z) : DateObject :=
  match d with
  | None => None
  | Some t => TimeClip (UTC (MakeDate (add (ofZ (t / msPerDay)) (ofZ n))
                                      (ofZ (t mod msPerDay))))
  end.

(** [String(n).padStart(2, "0")] for what a getter returns: a natural
    number or NaN. *)
Definition padStart2 (n : Number) : string :=
  match n with
  | Finite x => pad2 (truncate x)
  | Infinity false => "Infinity"
  | Infinity true => "-Infinity"
  | NaN => "NaN"
  end.

(** The [bookingDate] argument: a string, given by what
    [new Date(bookingDate)] makes of it, or a [Date] object owned by the
    caller. *)
Inductive DateArg : Type :=
  | StringArg (parsed : DateObject)
  | ObjectArg (value : DateObject).

(** A time string, given by the first two numbers [split(":").map(Number)]
    reads from it.  A field that is missing is [undefined], which
    [setHours] reads as NaN. *)
Record TimeFields : Type := Fields { hourField : Number; minuteField : Number }.

(** What [getPrice] returns, the object pushed on [breakdown] and the
    object [calculateBookingPrice] returns. *)
Record SlotPrice : Type := mkSlotPrice {
  price : Number;
  price_dayType : DayType;
  price_timeSlot : TimeSlot
}.

Record BreakdownEntry : Type := mkEntry {
  hour : string;
  rate : Number;
  dayType : DayType;
  timeSlot : TimeSlot
}.

Record PriceResult : Type := mkPriceResult {
  totalHours : Number;
  breakdown : list BreakdownEntry;
  finalPrice : Number
}.

(** One pass through the body of the pricing loop. *)
Record Pass : Type := mkPass {
  passStart : DateObject;    (* currentTime *)
  passEnd : DateObject;      (* slotEnd *)
  passDuration : Number;     (* slotDuration *)
  passPrice : Number;        (* slotPrice *)
  passEntry : BreakdownEntry
}.

Definition getDayOfWeek (date : DateObject) : Number := getDay date.

Definition isWeekend (date : DateObject) : bool :=
  let day := getDayOfWeek date in
  strictEq day (ofZ 5) || strictEq day (ofZ 6).

Definition isNightTime (hour : Number) : bool :=
  ge hour (ofZ 18) || lt hour (ofZ 9).

Definition getDayType (date : DateObject) : DayType :=
  if isWeekend date then weekend else weekday.

Definition getTimeSlot (hour : Number) : TimeSlot :=
  if isNightTime hour then night else day.

Definition getEffectiveDate (date : DateObject) : DateObject :=
  let hour := getHours date in
  if ge hour (ofZ 0) && lt hour (ofZ 4) then addDays date (-1) else date.

Definition isSaturdayNight (date : DateObject) (hour : Number) : bool :=
  let effectiveDate := getEffectiveDate date in
  strictEq (getDayOfWeek effectiveDate) (ofZ 6) && isNightTime hour.

(** The price a stored rule holds is a number: the double nearest to the
    rate written. *)
Definition getPrice (rules : PricingRules) (date : DateObject) (hour : Number)
  : Outcome SlotPrice :=
  if isSaturdayNight date hour then
    Ok (mkSlotPrice (ofZ 110) weekend night)
  else
    let effectiveDate := getEffectiveDate date in
    let dayType := getDayType effectiveDate in
    let timeSlot := getTimeSlot hour in
    match findOneActive rules dayType timeSlot with
    | None => Throw (ruleNotFound dayType timeSlot)
    | Some pricingRule =>
        Ok (mkSlotPrice (double (pricePerHour pricingRule)) dayType timeSlot)
    end.

Definition hourLabel (currentTime slotEnd : DateObject) : string :=
  let startStr :=
    (padStart2 (getHours currentTime) ++ ":" ++ padStart2 (getMinutes currentTime))%string in
  let endStr :=
    (padStart2 (getHours slotEnd) ++ ":" ++ padStart2 (getMinutes slotEnd))%string in
  (startStr ++ "-" ++ endStr)%string.

(** The [while (currentTime < endDateTime)] loop. *)
Fixpoint priceLoop (fuel : nat) (rules : PricingRules) (endDateTime : DateObject)
    (currentTime : DateObject) (passes : list Pass) (totalPrice : Number)
  : Outcome (list Pass * Number) :=
  match fuel with
  | O => OutOfFuel
  | S fuel' =>
    if lt (getTime currentTime) (getTime endDateTime) then
      let nextHour := setHours currentTime (add (getHours currentTime) (ofZ 1)) in
      let slotEnd :=
        if gt (getTime nextHour) (getTime endDateTime) then endDateTime else nextHour in
      let slotDuration :=
        div (sub (getTime slotEnd) (getTime currentTime)) (ofZ (1000 * 60 * 60)) in
      match getPrice rules currentTime (getHours currentTime) with
      | Ok p =>
        let slotPrice := mul (price p) slotDuration in
        let entry := mkEntry (hourLabel currentTime slotEnd) (price p)
                             (price_dayType p) (price_timeSlot p) in
        priceLoop fuel' rules endDateTime slotEnd
          (passes ++ [mkPass currentTime slotEnd slotDuration slotPrice entry])
          (add totalPrice slotPrice)
      | Throw e => Throw e
      | OutOfFuel => OutOfFuel
      end
    else Ok (passes, totalPrice)
  end.

(** The [Date] object the [bookingDate] argument stands for on entry. *)
Definition dateOf (bookingDate : DateArg) : DateObject :=
  match bookingDate with StringArg d => d | ObjectArg d => d end.

(** Iterations granted to the loop. *)
Definition loopFuel (totalMilliseconds : Number) : nat :=
  match totalMilliseconds with
  | Finite x => PricingService.loopFuel (truncate x)
  | _ => 0
  end.

(** [calculateBookingPrice], statement by statement: the state of the
    [bookingDate] argument when the call ends, and the outcome, the list of
    loop passes next to the value returned. *)
Definition calculateBookingPriceRun (rules : PricingRules) (bookingDate : DateArg)
    (startTime endTime : TimeFields)
  : DateArg * Outcome (list Pass * PriceResult) :=
  (* Parse date *)
  let dateObj := setHours4 (dateOf bookingDate) (ofZ 0) (ofZ 0) (ofZ 0) (ofZ 0) in
  let bookingDate :=
    match bookingDate with
    | StringArg d => StringArg d
    | ObjectArg _ => ObjectArg dateObj
    end in
  (* Parse times *)
  let startHour := hourField startTime in
  let startMinute := minuteField startTime in
  let endHour := hourField endTime in
  let endMinute := minuteField endTime in
  (* Create full datetime objects *)
  let startDateTime := setHours4 dateObj startHour startMinute (ofZ 0) (ofZ 0) in
  let endDateTime := setHours4 dateObj endHour endMinute (ofZ 0) (ofZ 0) in
  (* Handle midnight crossing *)
  let endDateTime :=
    if le (getTime endDateTime) (getTime startDateTime)
    then addDays endDateTime 1 else endDateTime in
  (* Validate times *)
  let totalMilliseconds := sub (getTime endDateTime) (getTime startDateTime) in
  let totalHours := div totalMilliseconds (ofZ (1000 * 60 * 60)) in
  (bookingDate,
   (* Check minimum 1 hour *)
   if lt totalHours (ofZ 1) then Throw minimumDuration
   else
     (* Check 30-minute increments *)
     let minutes := rem (div totalMilliseconds (ofZ (1000 * 60))) (ofZ 60) in
     if negb (strictEq minutes (ofZ 0)) && negb (strictEq minutes (ofZ 30))
     then Throw thirtyMinuteIncrements
     else
       (* Calculate price for each hour *)
       match priceLoop (loopFuel totalMilliseconds) rules endDateTime
                       startDateTime [] (ofZ 0) with
       | Ok (passes, totalPrice) =>
           Ok (passes, mkPriceResult totalHours (map passEntry passes) totalPrice)
       | Throw e => Throw e
       | OutOfFuel => OutOfFuel
       end).

Definition calculateBookingPrice (rules : PricingRules) (bookingDate : DateArg)
    (startTime endTime : TimeFields) : DateArg * Outcome PriceResult :=
  let run := calculateBookingPriceRun rules bookingDate startTime endTime in
  (fst run,
   match snd run with
   | Ok (_, result) => Ok result
   | Throw e => Throw e
   | OutOfFuel => OutOfFuel
   end).

End Js.

(** ** Specification-side notions for the two embeddings *)

(** A booking date within eight thousand billion seconds of the epoch
    (about 250 000 years): every [Date] the call then computes is within
    the range of time values. *)
Definition eraBound : Z := 8000000000000000.

Definition inEra (bookingDate : BookingDateArg) : Prop :=
  - eraBound <= dateOf bookingDate <= eraBound.

(** An instant far enough from the ends of the range of time values for
    the instants computed from it to be in the range. *)
Definition safe (t : Z) : Prop := - 8600000000000000 <= t <= 8600000000000000.

(** The arguments of [PricingService.calculateBookingPrice] as JavaScript
    values: a date that parses, time fields that are whole numbers. *)
Definition jsDate (bookingDate : BookingDateArg) : Js.DateArg :=
  match bookingDate with
  | DateString d => Js.StringArg (Some d)
  | DateObject d => Js.ObjectArg (Some d)
  end.

Definition jsTime (t : TimeStr) : Js.TimeFields :=
  Js.Fields (JsNumber.ofZ (hh t)) (JsNumber.ofZ (mm t)).

(** A breakdown entry and a pass of the loop as JavaScript computes them:
    the rate, the duration and their product are rounded. *)
Definition jsEntry (e : BreakdownEntry) : Js.BreakdownEntry :=
  Js.mkEntry (hour e) (JsNumber.double (rate e)) (dayType e) (timeSlot e).

Definition jsPass (s : Slot) : Js.Pass :=
  Js.mkPass (Some (slotStart s)) (Some (slotEnd s))
            (JsNumber.double (slotDuration s))
            (JsNumber.mul (JsNumber.double (rate (slotEntry s)))
                          (JsNumber.double (slotDuration s)))
            (jsEntry (slotEntry s)).

(** The running total after the passes [slots], from [acc]: each price is
    added in turn, and each sum is rounded. *)
Definition jsTotal (slots : list Slot) (acc : JsNumber.Number) : JsNumber.Number :=
  fold_left (fun acc s => JsNumber.add acc (Js.passPrice (jsPass s))) slots acc.

Definition jsOutcome (o : Outcome (list Slot * PriceResult))
  : Outcome (list Js.Pass * Js.PriceResult) :=
  match o with
  | Ok (slots, r) =>
      Ok (map jsPass slots,
          Js.mkPriceResult (JsNumber.double (totalHours r))
                           (map jsEntry (map slotEntry slots))
                           (jsTotal slots (JsNumber.ofZ 0)))
  | Throw e => Throw e
  | OutOfFuel => OutOfFuel
  end.

(** The two tests of the duration on JavaScript's numbers give what they
    give on exact ones, for a range of [k] minutes. *)
Definition durationTestsAgree (k : Z) : bool :=
  let totalMilliseconds := JsNumber.ofZ (k * msPerMinute) in
  let totalHours := JsNumber.div totalMilliseconds (JsNumber.ofZ (1000 * 60 * 60)) in
  let minutes :=
    JsNumber.rem (JsNumber.div totalMilliseconds (JsNumber.ofZ (1000 * 60)))
                 (JsNumber.ofZ 60) in
  Bool.eqb (JsNumber.lt totalHours (JsNumber.ofZ 1)) (k <? 60)
  && Bool.eqb (negb (JsNumber.strictEq minutes (JsNumber.ofZ 0))
               && negb (JsNumber.strictEq minutes (JsNumber.ofZ 30)))
              (negb (Z.rem k 60 =? 0) && negb (Z.rem k 60 =? 30)).

(** Rates that doubles add without rounding: every active rule holds a
    whole number, of at most a hundred thousand billion. *)
Definition maxWholeRate : Z := 100000000000000.

Definition wholeRates (rules : PricingRules) : Prop :=
  forall rule, In rule rules -> isActive rule = true ->
    exists n : Z, pricePerHour rule = Qc_of_Z n /\ 0 < n <= maxWholeRate.

(** [q] is [z] halves. *)
Definition halves (q : Qc) (z : Z) : Prop := (this q == z # 2)%Q.

(** A weekday day rate of 89.99 and nothing else: a rate that is not a
    double. *)
Definition rules8999 : PricingRules :=
  [ mkPricingRule weekday day (Q2Qc (8999 # 100)) true ].

(** The double nearest to 89.99, and the double nearest to three times
    it. *)
Definition double8999 : Qc := Q2Qc (6332483288547983 # 70368744177664).
Definition tripleRounded : Qc := Q2Qc (4749362466410987 # 17592186044416).

(* ================================================================== *)
(** * Requests in progress together *)

(** An [async] handler gives the control back at each [await], so the
    handlers of the requests the server has accepted are in progress
    together, and the database operations of one are applied between those
    of another.  A handler in progress is finished, with its outcome, or
    suspended at an [await]: [resume] applies the awaited operation to the
    database and runs the handler up to its next [await]. *)
#[warnings="-register-all"]
Inductive Task (A : Type) : Type :=
  | Finished (o : Outcome A)
  | Suspended (resume : Db -> Db * Task A).
Arguments Finished {A} o.
Arguments Suspended {A} resume.

(** Code that runs until the handler finishes or awaits. *)
Definition Run (A : Type) : Type := Db -> Db * Task A.

Definition finish {A : Type} (o : Outcome A) : Run A := fun db => (db, Finished o).

(** [m], then [k] on its result, without giving the control back. *)
Definition andThen {A B : Type} (m : M A) (k : A -> Run B) : Run B :=
  fun db =>
    match m db with
    | (db', Ok a) => k a db'
    | (db', Throw e) => (db', Finished (Throw e))
    | (db', OutOfFuel) => (db', Finished OutOfFuel)
    end.

(** [const x = await m; k x]: the handler is suspended until the operation
    is applied. *)
Definition awaiting {A B : Type} (m : M A) (k : A -> Run B) : Run B :=
  fun db => (db, Suspended (andThen m k)).

(** A handler run alone, every awaited operation applied at once. *)
Fixpoint complete {A : Type} (fuel : nat) (r : Db * Task A) : Db * Outcome A :=
  match r with
  | (db, Finished o) => (db, o)
  | (db, Suspended resume) =>
      match fuel with
      | O => (db, OutOfFuel)
      | S fuel => complete fuel (resume db)
      end
  end.

Section Tasks.

Variable ext : Externals.

(** [createCourt] of the court controller, with its three [await]s. *)
Definition createCourtTask (body : ICourtCreate.t) (file : option string)
  : Run (Response Court.t) :=
  andThen (parseFeatures ext body) (fun courtData =>
  if blank ext (ICourtCreate.name courtData)
  then finish (Throw (BadRequestError "Court name is required"))
  else if blank ext (ICourtCreate.description courtData)
  then finish (Throw (BadRequestError "Court description is required"))
  else
    awaiting Court_countDocuments (fun courtCount =>
    if (7 <=? courtCount)%nat
    then finish (Throw (BadRequestError "Maximum court limit reached (7 courts)"))
    else
      awaiting (Court_findOne (default "" (ICourtCreate.name courtData)) None)
        (fun existingCourt =>
      match existingCourt with
      | Some _ => finish (Throw (ConflictError "Court with this name already exists"))
      | None =>
        let courtData :=
          match file with
          | Some path => ICourtCreate.set_imageUrl (Some path) courtData
          | None => courtData
          end in
        awaiting (Court_create ext courtData) (fun court =>
        finish (Ok (mkResponse 201 (snd court) (Some "Court created successfully"))))
      end))).

(** The server: the database, the handlers suspended at an [await], oldest
    first, and the outcomes of the handlers that have finished. *)
Record Server : Type := mkServer {
  database : Db;
  suspended : list (Run (Response Court.t));
  outcomes : list (Outcome (Response Court.t))
}.

Definition settle (r : Db * Task (Response Court.t))
    (others : list (Run (Response Court.t)))
    (outcomes : list (Outcome (Response Court.t))) : Server :=
  match r with
  | (db, Finished o) => mkServer db others (outcomes ++ [o])
  | (db, Suspended resume) => mkServer db (others ++ [resume]) outcomes
  end.

(** What happens on the server: a request to create a court arrives, or the
    operation awaited by the [i]-th suspended handler is applied. *)
Inductive Event : Type :=
  | Arrival (body : ICourtCreate.t) (file : option string)
  | Resumption (i : nat).

Definition handle (s : Server) (ev : Event) : Server :=
  match ev with
  | Arrival body file =>
      settle (createCourtTask body file (database s)) (suspended s) (outcomes s)
  | Resumption i =>
      match suspended s !! i with
      | Some resume => settle (resume (database s)) (delete i (suspended s)) (outcomes s)
      | None => s
      end
  end.

Definition handleAll (evs : list Event) (s : Server) : Server :=
  fold_left handle evs s.

End Tasks.

(** Six courts. *)
Definition sixCourts : Db :=
  mkDb (list_to_map
          [ (1%N, sampleCourt "Court 1"); (2%N, sampleCourt "Court 2");
            (3%N, sampleCourt "Court 3"); (4%N, sampleCourt "Court 4");
            (5%N, sampleCourt "Court 5"); (6%N, sampleCourt "Court 6") ])
       ∅ ∅ defaultRules [].

Definition seventhCourt : ICourtCreate.t :=
  ICourtCreate.mk (Some "Court 7") (Some "Turf pitch") None None None.

(** Two requests arrive together; their handlers are resumed in turn. *)
Definition twoCreations : list Event :=
  [ Arrival seventhCourt None; Arrival eighthCourt None;
    Resumption 0; Resumption 0; Resumption 0; Resumption 0;
    Resumption 0; Resumption 0 ].

(* ================================================================== *)
(** * Properties *)

Example getDay_2025_01_02 : getDay (20090 * msPerDay + 22 * msPerHour) = 4.
Proof. reflexivity. Qed.

Example pad2_7 : pad2 7 = "07".
Proof. reflexivity. Qed.

Example pad2_23 : pad2 23 = "23".
Proof. reflexivity. Qed.

Example pad2_0 : pad2 0 = "00".
Proof. reflexivity. Qed.

(** ** The call, by components *)

Lemma calculateBookingPrice_fst rules bookingDate startTime endTime :
  fst (calculateBookingPrice rules bookingDate startTime endTime) = argAfter bookingDate.
Proof.
  unfold calculateBookingPrice, calculateBookingPriceRun. cbv zeta. cbn [fst].
  destruct bookingDate; reflexivity.
Qed.

Lemma calculateBookingPrice_snd rules bookingDate startTime endTime :
  snd (calculateBookingPrice rules bookingDate startTime endTime)
  = match priceWalk rules bookingDate startTime endTime with
    | Ok (_, result) => Ok result
    | Throw e => Throw e
    | OutOfFuel => OutOfFuel
    end.
Proof. unfold calculateBookingPrice, priceWalk. cbv zeta. cbn [snd]. reflexivity. Qed.

Lemma priceWalk_unfold rules bookingDate startTime endTime :
  priceWalk rules bookingDate startTime endTime
  = let startDateTime := startDateTimeOf bookingDate startTime in
    let endDateTime := endDateTimeOf bookingDate startTime endTime in
    let totalMilliseconds := getTime endDateTime - getTime startDateTime in
    let totalHours := hoursOfMs totalMilliseconds in
    if bool_decide (totalHours < 1)%Qc then Throw minimumDuration
    else
      let minutes := Z.rem (totalMilliseconds / msPerMinute) 60 in
      if negb (minutes =? 0) && negb (minutes =? 30) then Throw thirtyMinuteIncrements
      else
        match priceLoop (loopFuel totalMilliseconds) rules endDateTime
                        startDateTime [] 0%Qc with
        | Ok (slots, totalPrice) =>
            Ok (slots, mkPriceResult totalHours (map slotEntry slots) totalPrice)
        | Throw e => Throw e
        | OutOfFuel => OutOfFuel
        end.
Proof.
  unfold priceWalk, calculateBookingPriceRun, startDateTimeOf, endDateTimeOf.
  cbv zeta. cbn [snd]. reflexivity.
Qed.

(** ** Date arithmetic *)

Ltac unfold_dates :=
  unfold instant, dayNumber, setHours4, setHours, addDays, startOfDay,
    getHours, getMinutes, getDay, getTime, msPerDay, msPerHour, msPerMinute in *.

Ltac date_lia := unfold_dates; Z.div_mod_to_equations; lia.

Lemma setHours_next_hour (d : Date) :
  setHours d (getHours d + 1) = d + msPerHour.
Proof. date_lia. Qed.

Lemma setHours4_midnight (d : Date) :
  setHours4 d 0 0 0 0 = instant (d / msPerDay) 0 0.
Proof. date_lia. Qed.

Lemma setHours4_instant (n h m h' m' : Z) :
  0 <= h * 60 + m < 24 * 60 ->
  setHours4 (instant n h m) h' m' 0 0 = instant n h' m'.
Proof. intros. date_lia. Qed.

Lemma getHours_instant (n h m : Z) :
  0 <= h < 24 -> 0 <= m < 60 -> getHours (instant n h m) = h.
Proof. intros. date_lia. Qed.

Lemma getMinutes_instant (n h m : Z) :
  0 <= m < 60 -> getMinutes (instant n h m) = m.
Proof. intros. date_lia. Qed.

Lemma getDay_instant (n h m : Z) :
  0 <= h * 60 + m < 24 * 60 -> getDay (instant n h m) = (n + 4) mod 7.
Proof.
  intros. unfold getDay. f_equal. f_equal. date_lia.
Qed.

Lemma getDay_dayNumber (bookingDate : BookingDateArg) :
  getDay (dateOf bookingDate) = (dayNumber bookingDate + 4) mod 7.
Proof. reflexivity. Qed.

Lemma addDays_instant (n h m k : Z) :
  addDays (instant n h m) k = instant (n + k) h m.
Proof. unfold_dates. lia. Qed.

Lemma startDateTimeOf_instant bookingDate startTime :
  startDateTimeOf bookingDate startTime
  = instant (dayNumber bookingDate) (hh startTime) (mm startTime).
Proof.
  unfold startDateTimeOf. rewrite setHours4_midnight.
  apply setHours4_instant. lia.
Qed.

Lemma endDateTimeOf_instant bookingDate startTime endTime :
  endDateTimeOf bookingDate startTime endTime
  = if hh endTime * 60 + mm endTime <=? hh startTime * 60 + mm startTime
    then instant (dayNumber bookingDate + 1) (hh endTime) (mm endTime)
    else instant (dayNumber bookingDate) (hh endTime) (mm endTime).
Proof.
  unfold endDateTimeOf. rewrite setHours4_midnight.
  rewrite !setHours4_instant by lia.
  fold (dayNumber bookingDate). rewrite addDays_instant.
  destruct (Z.leb_spec (instant (dayNumber bookingDate) (hh endTime) (mm endTime))
                       (instant (dayNumber bookingDate) (hh startTime) (mm startTime)));
  destruct (Z.leb_spec (hh endTime * 60 + mm endTime) (hh startTime * 60 + mm startTime));
  try reflexivity; exfalso; unfold_dates; lia.
Qed.

(** The requested range in milliseconds is the resolved duration. *)
Lemma totalMilliseconds_resolved bookingDate startTime endTime :
  getTime (endDateTimeOf bookingDate startTime endTime)
    - getTime (startDateTimeOf bookingDate startTime)
  = resolvedMinutes startTime endTime * msPerMinute.
Proof.
  rewrite endDateTimeOf_instant, startDateTimeOf_instant. unfold resolvedMinutes.
  destruct (Z.leb_spec (hh endTime * 60 + mm endTime) (hh startTime * 60 + mm startTime));
    unfold_dates; lia.
Qed.

(** ** Hours as rationals *)

Lemma Qc_of_Z_msPerHour_pos : (0 < Qc_of_Z msPerHour)%Qc.
Proof. rewrite <- Z2Qc_inj_0. apply Z2Qc_inj_lt. reflexivity. Qed.

Lemma Qc_of_Z_msPerHour_neq_0 : Qc_of_Z msPerHour <> 0%Qc.
Proof. rewrite <- Z2Qc_inj_0. intros H. apply Z2Qc_inj in H. discriminate. Qed.

Lemma hoursOfMs_add (a b : Z) :
  hoursOfMs (a + b) = (hoursOfMs a + hoursOfMs b)%Qc.
Proof. unfold hoursOfMs. rewrite Z2Qc_inj_add. unfold Qcdiv. ring. Qed.

Lemma hoursOfMs_0 : hoursOfMs 0 = 0%Qc.
Proof. apply Qc_is_canon. reflexivity. Qed.

Lemma hoursOfMs_hours (k : Z) : hoursOfMs (k * msPerHour) = Qc_of_Z k.
Proof.
  unfold hoursOfMs. rewrite Z2Qc_inj_mul. unfold Qcdiv.
  rewrite <- Qcmult_assoc, Qcmult_inv_r by apply Qc_of_Z_msPerHour_neq_0.
  apply Qcmult_1_r.
Qed.

Lemma hoursOfMs_lt_1 (ms : Z) :
  bool_decide (hoursOfMs ms < 1)%Qc = (ms <? msPerHour).
Proof.
  rewrite <- Z2Qc_inj_1, <- (hoursOfMs_hours 1).
  destruct (Z.ltb_spec ms msPerHour) as [Hlt | Hge].
  - apply bool_decide_eq_true_2. unfold hoursOfMs, Qcdiv.
    apply Qcmult_lt_compat_r.
    + apply Qcinv_pos, Qc_of_Z_msPerHour_pos.
    + apply (proj1 (Z2Qc_inj_lt _ _)). unfold msPerHour in *. lia.
  - apply bool_decide_eq_false_2. apply Qcle_not_lt. unfold hoursOfMs, Qcdiv.
    apply Qcmult_le_compat_r.
    + apply (proj1 (Z2Qc_inj_le _ _)). unfold msPerHour in *. lia.
    + apply Qclt_le_weak, Qcinv_pos, Qc_of_Z_msPerHour_pos.
Qed.

Lemma Qcsum_cons (x : Qc) (l : list Qc) : Qcsum (x :: l) = (x + Qcsum l)%Qc.
Proof. reflexivity. Qed.

(** ** The pricing loop *)

Section PriceLoop.

Variable rules : PricingRules.
Variable endDateTime : Date.

Lemma slotEnd_min (currentTime : Date) :
  (if setHours currentTime (getHours currentTime + 1) >? endDateTime
   then endDateTime
   else setHours currentTime (getHours currentTime + 1))
  = Z.min (currentTime + msPerHour) endDateTime.
Proof.
  rewrite setHours_next_hour.
  destruct (Z.gtb_spec (currentTime + msPerHour) endDateTime); lia.
Qed.

Lemma getPrice_not_OutOfFuel (date : Date) (hour : Z) :
  getPrice rules date hour <> OutOfFuel.
Proof.
  unfold getPrice. destruct (isSaturdayNight date hour); [discriminate |].
  destruct (findOneActive _ _ _); discriminate.
Qed.

Lemma getPrice_Throw_inv (date : Date) (hour : Z) (e : ApiError) :
  getPrice rules date hour = Throw e ->
  exists dt ts, e = ruleNotFound dt ts /\ findOneActive rules dt ts = None.
Proof.
  unfold getPrice. destruct (isSaturdayNight date hour); [discriminate |].
  destruct (findOneActive _ _ _) eqn:Hfind; [discriminate |].
  intros [= <-]. eauto.
Qed.

Lemma priceLoop_exit fuel cur slots tp :
  endDateTime <= cur ->
  priceLoop (S fuel) rules endDateTime cur slots tp = Ok (slots, tp).
Proof.
  intros Hle. simpl. destruct (Z.ltb_spec cur endDateTime); [lia | reflexivity].
Qed.

Lemma priceLoop_pass fuel cur slots tp p :
  cur < endDateTime ->
  getPrice rules cur (getHours cur) = Ok p ->
  priceLoop (S fuel) rules endDateTime cur slots tp
  = priceLoop fuel rules endDateTime (Z.min (cur + msPerHour) endDateTime)
      (slots ++ [passAt endDateTime cur p])
      (tp + slotPrice (passAt endDateTime cur p))%Qc.
Proof.
  intros Hlt Hp. simpl.
  destruct (Z.ltb_spec cur endDateTime); [| lia].
  rewrite Hp, slotEnd_min. reflexivity.
Qed.

Lemma priceLoop_throw fuel cur slots tp e :
  cur < endDateTime ->
  getPrice rules cur (getHours cur) = Throw e ->
  priceLoop (S fuel) rules endDateTime cur slots tp = Throw e.
Proof.
  intros Hlt Hp. simpl.
  destruct (Z.ltb_spec cur endDateTime); [| lia].
  rewrite Hp. reflexivity.
Qed.

Lemma enoughFuel_next fuel cur :
  cur < endDateTime ->
  enoughFuel endDateTime (S fuel) cur ->
  enoughFuel endDateTime fuel (Z.min (cur + msPerHour) endDateTime).
Proof.
  unfold enoughFuel, msPerHour. intros Hlt [_ Hf]. split; [nia | lia].
Qed.

(** The loop terminates within its budget. *)
Lemma priceLoop_terminates fuel : forall cur slots tp,
  enoughFuel endDateTime fuel cur ->
  priceLoop fuel rules endDateTime cur slots tp <> OutOfFuel.
Proof.
  induction fuel as [| fuel IH]; intros cur slots tp Hfuel.
  - destruct Hfuel; lia.
  - destruct (Z.lt_ge_cases cur endDateTime) as [Hlt | Hge].
    + destruct (getPrice rules cur (getHours cur)) as [p | e |] eqn:Hp.
      * rewrite (priceLoop_pass _ _ _ _ p) by assumption.
        apply IH, enoughFuel_next; assumption.
      * rewrite (priceLoop_throw _ _ _ _ e) by assumption. discriminate.
      * exfalso. exact (getPrice_not_OutOfFuel _ _ Hp).
    + rewrite priceLoop_exit by assumption. discriminate.
Qed.

(** A run of the loop that returns is a walk; the passes are appended to
    the list and their prices added to the total. *)
Lemma priceLoop_Ok_Walk fuel : forall cur slots tp slots' tp',
  priceLoop fuel rules endDateTime cur slots tp = Ok (slots', tp') ->
  exists new,
    slots' = slots ++ new
    /\ tp' = (tp + Qcsum (slotPrice <$> new))%Qc
    /\ Walk rules endDateTime cur new.
Proof.
  induction fuel as [| fuel IH]; intros cur slots tp slots' tp' Hrun.
  - discriminate.
  - destruct (Z.lt_ge_cases cur endDateTime) as [Hlt | Hge].
    + destruct (getPrice rules cur (getHours cur)) as [p | e |] eqn:Hp.
      * rewrite (priceLoop_pass _ _ _ _ p) in Hrun by assumption.
        apply IH in Hrun as (new & -> & -> & Hwalk).
        exists (passAt endDateTime cur p :: new). split; [| split].
        -- rewrite <- app_assoc. reflexivity.
        -- rewrite fmap_cons, Qcsum_cons. ring.
        -- apply Walk_pass; assumption.
      * rewrite (priceLoop_throw _ _ _ _ e) in Hrun by assumption. discriminate.
      * exfalso. exact (getPrice_not_OutOfFuel _ _ Hp).
    + rewrite priceLoop_exit in Hrun by assumption. injection Hrun as <- <-.
      exists []. split; [| split].
      * rewrite app_nil_r. reflexivity.
      * simpl. ring.
      * apply Walk_exit. assumption.
Qed.

(** A pass whose price lookup throws makes the loop throw, at that pass
    or at an earlier one. *)
Lemma priceLoop_missing fuel : forall cur slots tp k e,
  enoughFuel endDateTime fuel cur ->
  0 <= k ->
  cur + k * msPerHour < endDateTime ->
  getPrice rules (cur + k * msPerHour) (getHours (cur + k * msPerHour)) = Throw e ->
  exists e' j,
    priceLoop fuel rules endDateTime cur slots tp = Throw e'
    /\ 0 <= j <= k
    /\ getPrice rules (cur + j * msPerHour) (getHours (cur + j * msPerHour)) = Throw e'.
Proof.
  induction fuel as [| fuel IH]; intros cur slots tp k e Hfuel Hk Hin Hthrow.
  - destruct Hfuel; lia.
  - assert (Hlt : cur < endDateTime) by (unfold msPerHour in *; lia).
    destruct (getPrice rules cur (getHours cur)) as [p | e0 |] eqn:Hp.
    + assert (Hk1 : 1 <= k).
      { destruct (Z.eq_dec k 0) as [-> |]; [| lia].
        rewrite Z.mul_0_l, Z.add_0_r in Hthrow. congruence. }
      rewrite (priceLoop_pass _ _ _ _ p) by assumption.
      assert (Hmin : Z.min (cur + msPerHour) endDateTime = cur + msPerHour)
        by (unfold msPerHour in *; lia).
      destruct (IH (Z.min (cur + msPerHour) endDateTime)
                   (slots ++ [passAt endDateTime cur p])
                   (tp + slotPrice (passAt endDateTime cur p))%Qc (k - 1) e)
        as (e' & j & Hrun & Hj & Hje).
      * apply enoughFuel_next; assumption.
      * lia.
      * rewrite Hmin. unfold msPerHour in *. lia.
      * rewrite Hmin.
        replace (cur + msPerHour + (k - 1) * msPerHour) with (cur + k * msPerHour)
          by ring. assumption.
      * exists e', (j + 1). split; [exact Hrun | split; [lia |]].
        rewrite Hmin in Hje.
        replace (cur + (j + 1) * msPerHour) with (cur + msPerHour + j * msPerHour)
          by ring. assumption.
    + exists e0, 0. split; [| split; [lia |]].
      * apply priceLoop_throw; assumption.
      * rewrite Z.mul_0_l, Z.add_0_r. assumption.
    + exfalso. exact (getPrice_not_OutOfFuel _ _ Hp).
Qed.

End PriceLoop.

(** ** Properties of walks *)

Section WalkFacts.

Variable rules : PricingRules.
Variable endDateTime : Date.

Lemma passAt_pricedPass cur p :
  getPrice rules cur (getHours cur) = Ok p ->
  pricedPass rules endDateTime (passAt endDateTime cur p).
Proof.
  intros Hp. unfold pricedPass, passAt; simpl.
  repeat split; try reflexivity. rewrite Hp. destruct p; reflexivity.
Qed.

Lemma Walk_pricedPass cur slots :
  Walk rules endDateTime cur slots -> Forall (pricedPass rules endDateTime) slots.
Proof.
  induction 1 as [| cur p rest Hlt Hp Hwalk IH]; constructor.
  - apply passAt_pricedPass; assumption.
  - exact IH.
Qed.

Lemma Walk_tiles cur slots :
  Walk rules endDateTime cur slots -> cur <= endDateTime ->
  tiles cur endDateTime slots.
Proof.
  induction 1 as [| cur p rest Hlt Hp Hwalk IH]; intros Hle; simpl.
  - lia.
  - unfold msPerHour in *. repeat split; try lia. apply IH. lia.
Qed.

Lemma Walk_durations cur slots :
  Walk rules endDateTime cur slots -> cur <= endDateTime ->
  Qcsum (slotDuration <$> slots) = hoursOfMs (endDateTime - cur).
Proof.
  induction 1 as [cur Hge | cur p rest Hlt Hp Hwalk IH]; intros Hle.
  - replace (endDateTime - cur) with 0 by lia. symmetry. apply hoursOfMs_0.
  - rewrite fmap_cons, Qcsum_cons, IH by lia. simpl.
    rewrite <- hoursOfMs_add. f_equal. lia.
Qed.

Lemma Walk_prices cur slots :
  Walk rules endDateTime cur slots ->
  Qcsum (slotPrice <$> slots)
  = Qcsum ((fun s => rate (slotEntry s) * slotDuration s)%Qc <$> slots).
Proof.
  induction 1 as [| cur p rest Hlt Hp Hwalk IH].
  - reflexivity.
  - rewrite !fmap_cons, !Qcsum_cons, IH. reflexivity.
Qed.

(** Pass number [i] starts [i] hours after the entry of the loop. *)
Lemma Walk_starts cur slots :
  Walk rules endDateTime cur slots ->
  forall (i : nat) (s : Slot),
    slots !! i = Some s -> slotStart s = cur + Z.of_nat i * msPerHour.
Proof.
  induction 1 as [| cur p rest Hlt Hp Hwalk IH]; intros i s Hi.
  - discriminate.
  - destruct i as [| i]; simpl in Hi.
    + injection Hi as <-. simpl. lia.
    + destruct rest as [| s' rest']; [discriminate |].
      assert (Hmin : Z.min (cur + msPerHour) endDateTime = cur + msPerHour).
      { inversion Hwalk; subst. unfold msPerHour in *. lia. }
      rewrite (IH i s Hi), Hmin. lia.
Qed.

(** One pass per started hour of the range. *)
Lemma Walk_length cur slots :
  Walk rules endDateTime cur slots -> cur <= endDateTime ->
  Z.of_nat (length slots) = (endDateTime - cur + msPerHour - 1) / msPerHour.
Proof.
  induction 1 as [cur Hge | cur p rest Hlt Hp Hwalk IH]; intros Hle.
  - simpl. unfold msPerHour. Z.div_mod_to_equations. lia.
  - simpl length. rewrite Nat2Z.inj_succ, IH by lia.
    unfold msPerHour in *.
    destruct (Z.le_gt_cases (cur + 3600000) endDateTime).
    + rewrite Z.min_l by lia. Z.div_mod_to_equations. lia.
    + rewrite Z.min_r by lia. Z.div_mod_to_equations. lia.
Qed.

End WalkFacts.

(** ** Validation of the duration *)

Lemma minutes_check (m : Z) :
  60 <= m ->
  negb (Z.rem (m * msPerMinute / msPerMinute) 60 =? 0)
  && negb (Z.rem (m * msPerMinute / msPerMinute) 60 =? 30)
  = negb (m mod 30 =? 0).
Proof.
  intros Hm. unfold msPerMinute. rewrite Z.div_mul by lia.
  rewrite Z.rem_mod_nonneg by lia.
  destruct (Z.eqb_spec (m mod 60) 0), (Z.eqb_spec (m mod 60) 30),
    (Z.eqb_spec (m mod 30) 0); simpl; try reflexivity;
    exfalso; Z.div_mod_to_equations; lia.
Qed.

(** The division [totalMilliseconds / (1000 * 60)] of the source is exact. *)
Lemma totalMilliseconds_whole_minutes bookingDate startTime endTime :
  (msPerMinute | getTime (endDateTimeOf bookingDate startTime endTime)
                 - getTime (startDateTimeOf bookingDate startTime)).
Proof.
  rewrite totalMilliseconds_resolved. exists (resolvedMinutes startTime endTime).
  reflexivity.
Qed.

(** [priceWalk] by cases on the resolved duration. *)
Lemma priceWalk_cases rules bookingDate startTime endTime :
  priceWalk rules bookingDate startTime endTime
  = if resolvedMinutes startTime endTime <? 60 then Throw minimumDuration
    else if negb (resolvedMinutes startTime endTime mod 30 =? 0)
    then Throw thirtyMinuteIncrements
    else
      match priceLoop (loopFuel (resolvedMinutes startTime endTime * msPerMinute)) rules
              (endDateTimeOf bookingDate startTime endTime)
              (startDateTimeOf bookingDate startTime) [] 0%Qc with
      | Ok (slots, totalPrice) =>
          Ok (slots,
              mkPriceResult (hoursOfMs (resolvedMinutes startTime endTime * msPerMinute))
                            (map slotEntry slots) totalPrice)
      | Throw e => Throw e
      | OutOfFuel => OutOfFuel
      end.
Proof.
  rewrite priceWalk_unfold. cbv zeta.
  rewrite totalMilliseconds_resolved, hoursOfMs_lt_1.
  replace (resolvedMinutes startTime endTime * msPerMinute <? msPerHour)
    with (resolvedMinutes startTime endTime <? 60).
  2:{ unfold msPerMinute, msPerHour.
      destruct (Z.ltb_spec (resolvedMinutes startTime endTime) 60),
        (Z.ltb_spec (resolvedMinutes startTime endTime * (1000 * 60)) (1000 * 60 * 60));
        try reflexivity; lia. }
  destruct (Z.ltb_spec (resolvedMinutes startTime endTime) 60) as [| Hge];
    [reflexivity |].
  rewrite minutes_check by assumption. reflexivity.
Qed.

Lemma loopFuel_enough (endDateTime startDateTime : Date) :
  enoughFuel endDateTime (loopFuel (endDateTime - startDateTime)) startDateTime.
Proof.
  unfold enoughFuel, loopFuel. split; [lia |].
  unfold msPerHour.
  pose proof (Z.div_mod (endDateTime - startDateTime) (1000 * 60 * 60) ltac:(lia)).
  pose proof (Z.mod_pos_bound (endDateTime - startDateTime) (1000 * 60 * 60) ltac:(lia)).
  lia.
Qed.

(** [calculateBookingPrice] always comes back: the loop never exhausts its
    budget. *)
Lemma priceWalk_terminates rules bookingDate startTime endTime :
  priceWalk rules bookingDate startTime endTime <> OutOfFuel.
Proof.
  rewrite priceWalk_cases.
  destruct (_ <? 60); [discriminate |].
  destruct (negb _); [discriminate |].
  rewrite <- totalMilliseconds_resolved with (bookingDate := bookingDate).
  pose proof (priceLoop_terminates rules _ _ _ [] 0%Qc
                (loopFuel_enough (endDateTimeOf bookingDate startTime endTime)
                                 (startDateTimeOf bookingDate startTime))) as Hterm.
  unfold getTime.
  destruct (priceLoop _ _ _ _ _ _) as [[slots tp] | e |]; [discriminate .. | congruence].
Qed.

Lemma calculateBookingPrice_terminates rules bookingDate startTime endTime :
  snd (calculateBookingPrice rules bookingDate startTime endTime) <> OutOfFuel.
Proof.
  rewrite calculateBookingPrice_snd.
  pose proof (priceWalk_terminates rules bookingDate startTime endTime).
  destruct (priceWalk _ _ _ _) as [[slots r] | e |]; [discriminate .. | congruence].
Qed.

(** A successful call, read back: the duration was valid, the passes form a
    walk over the requested range and the result is read off them. *)
Lemma priceWalk_Ok_inv rules bookingDate startTime endTime slots r :
  priceWalk rules bookingDate startTime endTime = Ok (slots, r) ->
  durationValid startTime endTime = true
  /\ Walk rules (endDateTimeOf bookingDate startTime endTime)
          (startDateTimeOf bookingDate startTime) slots
  /\ r = mkPriceResult
           (hoursOfMs (resolvedMinutes startTime endTime * msPerMinute))
           (map slotEntry slots)
           (Qcsum (slotPrice <$> slots)).
Proof.
  rewrite priceWalk_cases. unfold durationValid.
  destruct (Z.ltb_spec (resolvedMinutes startTime endTime) 60); [discriminate |].
  destruct (resolvedMinutes startTime endTime mod 30 =? 0); [| discriminate].
  simpl negb. cbv iota.
  destruct (priceLoop _ _ _ _ _ _) as [[slots' tp] | e |] eqn:Hloop; try discriminate.
  intros [= <- <-].
  apply priceLoop_Ok_Walk in Hloop as (new & Hslots & Htp & Hwalk).
  rewrite app_nil_l in Hslots. rewrite Qcplus_0_l in Htp. subst slots' tp.
  split; [| split].
  - apply andb_true_intro. split; [apply Z.leb_le; lia | reflexivity].
  - exact Hwalk.
  - reflexivity.
Qed.

Lemma calculateBookingPrice_Ok_inv rules bookingDate startTime endTime r :
  snd (calculateBookingPrice rules bookingDate startTime endTime) = Ok r ->
  exists slots, priceWalk rules bookingDate startTime endTime = Ok (slots, r).
Proof.
  rewrite calculateBookingPrice_snd.
  destruct (priceWalk _ _ _ _) as [[slots r'] | e |]; try discriminate.
  intros [= <-]. eauto.
Qed.

Lemma calculateBookingPrice_of_priceWalk rules bookingDate startTime endTime slots r :
  priceWalk rules bookingDate startTime endTime = Ok (slots, r) ->
  snd (calculateBookingPrice rules bookingDate startTime endTime) = Ok r.
Proof. intros Hrun. rewrite calculateBookingPrice_snd, Hrun. reflexivity. Qed.

Lemma priceLoop_Throw_inv rules endDateTime fuel : forall cur slots tp e,
  priceLoop fuel rules endDateTime cur slots tp = Throw e ->
  exists dt ts, e = ruleNotFound dt ts /\ findOneActive rules dt ts = None.
Proof.
  induction fuel as [| fuel IH]; intros cur slots tp e Hrun.
  - discriminate.
  - destruct (Z.lt_ge_cases cur endDateTime) as [Hlt | Hge].
    + destruct (getPrice rules cur (getHours cur)) as [p | e0 |] eqn:Hp.
      * rewrite (priceLoop_pass _ _ _ _ _ _ p) in Hrun by assumption. eauto.
      * rewrite (priceLoop_throw _ _ _ _ _ _ e0) in Hrun by assumption.
        injection Hrun as <-. eapply getPrice_Throw_inv; eassumption.
      * exfalso. exact (getPrice_not_OutOfFuel _ _ _ Hp).
    + rewrite priceLoop_exit in Hrun by assumption. discriminate.
Qed.

Lemma ruleNotFound_not_duration_error dt ts :
  ruleNotFound dt ts <> minimumDuration /\ ruleNotFound dt ts <> thirtyMinuteIncrements.
Proof. destruct dt, ts; split; discriminate. Qed.

Lemma hoursOfMs_minutes (m : Z) :
  hoursOfMs (m * msPerMinute) = (Qc_of_Z m / Qc_of_Z 60)%Qc.
Proof.
  unfold hoursOfMs. change msPerHour with (60 * msPerMinute).
  rewrite !Z2Qc_inj_mul.
  assert (H60 : Qc_of_Z 60 <> 0%Qc).
  { rewrite <- Z2Qc_inj_0. intros H. apply Z2Qc_inj in H. discriminate. }
  assert (Hm : Qc_of_Z msPerMinute <> 0%Qc).
  { rewrite <- Z2Qc_inj_0. intros H. apply Z2Qc_inj in H. discriminate. }
  field. split; assumption.
Qed.

Lemma getMinutes_add_hours (d k : Z) :
  getMinutes (d + k * msPerHour) = getMinutes d.
Proof.
  unfold getMinutes. f_equal. unfold msPerHour at 2 3.
  rewrite Z.mod_add by discriminate. reflexivity.
Qed.

Lemma startDateTime_le_endDateTime bookingDate startTime endTime :
  durationValid startTime endTime = true ->
  startDateTimeOf bookingDate startTime <= endDateTimeOf bookingDate startTime endTime.
Proof.
  unfold durationValid. intros [Hlen _]%andb_prop. apply Z.leb_le in Hlen.
  pose proof (totalMilliseconds_resolved bookingDate startTime endTime) as Htot.
  unfold getTime, msPerMinute in Htot. lia.
Qed.

(** ** The claims on the pricing engine *)

(** C2, amended.  When [calculateBookingPrice] succeeds, pass number [i]
    starts [i] hours after the requested start and ends one hour after its
    own start or at the requested end, whichever comes first; so every
    boundary between two passes has the minutes of the requested start (it
    is on a full hour exactly when the start is).  Each pass takes its day
    type, time slot and rate from [getPrice] at its start instant and the
    hour of that instant, and there is one pass per started hour: passes
    are never merged. *)
Theorem calculateBookingPrice_hourly_steps
    rules bookingDate startTime endTime (r : PriceResult) :
  snd (calculateBookingPrice rules bookingDate startTime endTime) = Ok r ->
  exists slots : list Slot,
    priceWalk rules bookingDate startTime endTime = Ok (slots, r)
    /\ breakdown r = map slotEntry slots
    /\ (forall (i : nat) (s : Slot), slots !! i = Some s ->
          slotStart s = startDateTimeOf bookingDate startTime + Z.of_nat i * msPerHour
          /\ slotEnd s = Z.min (slotStart s + msPerHour)
                               (endDateTimeOf bookingDate startTime endTime)
          /\ (slotEnd s <> endDateTimeOf bookingDate startTime endTime ->
              getMinutes (slotEnd s) = getMinutes (startDateTimeOf bookingDate startTime))
          /\ getPrice rules (slotStart s) (getHours (slotStart s))
             = Ok (mkSlotPrice (rate (slotEntry s)) (dayType (slotEntry s))
                               (timeSlot (slotEntry s))))
    /\ Z.of_nat (length slots)
       = (resolvedMinutes startTime endTime * msPerMinute + msPerHour - 1) / msPerHour.
Proof.
  intros Hok. apply calculateBookingPrice_Ok_inv in Hok as [slots Hwalk].
  exists slots. split; [exact Hwalk |].
  apply priceWalk_Ok_inv in Hwalk as (Hvalid & Hwalk & ->). simpl.
  pose proof (startDateTime_le_endDateTime bookingDate _ _ Hvalid) as Hle.
  split; [reflexivity | split].
  - intros i s Hi.
    pose proof (Walk_starts _ _ _ _ Hwalk i s Hi) as Hstart.
    pose proof (Walk_pricedPass _ _ _ _ Hwalk) as Hall.
    rewrite Forall_lookup in Hall. destruct (Hall i s Hi) as (Hend & _ & _ & _ & Hprice).
    repeat split; try assumption.
    intros Hne. rewrite Hend, Z.min_l by lia. rewrite Hstart.
    replace (startDateTimeOf bookingDate startTime + Z.of_nat i * msPerHour + msPerHour)
      with (startDateTimeOf bookingDate startTime + (Z.of_nat i + 1) * msPerHour) by ring.
    apply getMinutes_add_hours.
  - rewrite (Walk_length _ _ _ _ Hwalk Hle).
    rewrite <- (totalMilliseconds_resolved bookingDate). reflexivity.
Qed.

(** On exact values, [calculateBookingPrice] throws one of its two
    duration errors exactly when the resolved duration is under one hour or
    is not a multiple of thirty minutes: under one hour the error is the
    minimum-duration one, otherwise the increments one. *)
Lemma calculateBookingPrice_invalid_duration_iff
    rules bookingDate startTime endTime :
  let outcome := snd (calculateBookingPrice rules bookingDate startTime endTime) in
  ((outcome = Throw minimumDuration \/ outcome = Throw thirtyMinuteIncrements)
   <-> (resolvedMinutes startTime endTime < 60
        \/ resolvedMinutes startTime endTime mod 30 <> 0))
  /\ (outcome = Throw minimumDuration <-> resolvedMinutes startTime endTime < 60)
  /\ (outcome = Throw thirtyMinuteIncrements
      <-> 60 <= resolvedMinutes startTime endTime
          /\ resolvedMinutes startTime endTime mod 30 <> 0).
Proof.
  rewrite calculateBookingPrice_snd. rewrite priceWalk_cases.
  destruct (Z.ltb_spec (resolvedMinutes startTime endTime) 60) as [Hlt | Hge].
  { repeat split; intros; try tauto; try discriminate; try lia; intuition discriminate. }
  destruct (Z.eqb_spec (resolvedMinutes startTime endTime mod 30) 0) as [Hmod | Hmod];
    simpl negb; cbv iota.
  2:{ repeat split; intros; try tauto; try discriminate; try lia;
        intuition (try discriminate; try lia). }
  destruct (priceLoop _ _ _ _ _ _) as [[slots tp] | e |] eqn:Hloop.
  - repeat split; intros; try discriminate; try lia;
      intuition (try discriminate; try lia).
  - apply priceLoop_Throw_inv in Hloop as (dt & ts & -> & _).
    destruct (ruleNotFound_not_duration_error dt ts) as [Hmin Hinc].
    repeat split; intros; try lia; intuition (try congruence; try lia).
  - repeat split; intros; try discriminate; try lia;
      intuition (try discriminate; try lia).
Qed.

(** C6.  On a request of valid duration, when some pass of the walk (the
    one starting [k] hours after the start) is not a Saturday-night one and
    the rule table has no active rule for its day type and time slot, the
    call throws the rule-not-found error for a pair the table has no
    active rule for; it returns no price. *)
Theorem calculateBookingPrice_missing_rate
    rules bookingDate startTime endTime (k : Z) :
  let t := startDateTimeOf bookingDate startTime + k * msPerHour in
  durationValid startTime endTime = true ->
  0 <= k ->
  t < endDateTimeOf bookingDate startTime endTime ->
  isSaturdayNight t (getHours t) = false ->
  findOneActive rules (getDayType (getEffectiveDate t)) (getTimeSlot (getHours t)) = None ->
  exists dt ts,
    snd (calculateBookingPrice rules bookingDate startTime endTime)
    = Throw (ruleNotFound dt ts)
    /\ findOneActive rules dt ts = None.
Proof.
  intros t Hvalid Hk Hin Hsat Hnone.
  rewrite calculateBookingPrice_snd. rewrite priceWalk_cases.
  unfold durationValid in Hvalid. apply andb_prop in Hvalid as [Hlen Hmod].
  apply Z.leb_le in Hlen.
  destruct (Z.ltb_spec (resolvedMinutes startTime endTime) 60); [lia |].
  rewrite Hmod. simpl negb. cbv iota.
  assert (Hthrow : getPrice rules t (getHours t)
                   = Throw (ruleNotFound (getDayType (getEffectiveDate t))
                                         (getTimeSlot (getHours t)))).
  { unfold getPrice. rewrite Hsat, Hnone. reflexivity. }
  rewrite <- (totalMilliseconds_resolved bookingDate).
  destruct (priceLoop_missing rules _ _ _ [] 0%Qc k _
              (loopFuel_enough _ _) Hk Hin Hthrow) as (e' & j & Hrun & _ & Hj).
  unfold getTime. rewrite Hrun.
  apply getPrice_Throw_inv in Hj as (dt & ts & -> & Hfind). eauto.
Qed.

(** ** Running the loop on a known walk *)

(** The loop is deterministic: with enough fuel it makes exactly the passes
    of the walk from its entry point. *)
Lemma Walk_priceLoop rules endDateTime cur new :
  Walk rules endDateTime cur new ->
  forall fuel slots tp,
    enoughFuel endDateTime fuel cur ->
    priceLoop fuel rules endDateTime cur slots tp
    = Ok (slots ++ new, (tp + Qcsum (slotPrice <$> new))%Qc).
Proof.
  induction 1 as [cur Hge | cur p rest Hlt Hp Hwalk IH]; intros fuel slots tp Hfuel.
  - destruct fuel as [| fuel]; [destruct Hfuel; lia |].
    rewrite priceLoop_exit by assumption.
    rewrite app_nil_r. simpl. rewrite Qcplus_0_r. reflexivity.
  - destruct fuel as [| fuel]; [destruct Hfuel; lia |].
    rewrite (priceLoop_pass _ _ _ _ _ _ p) by assumption.
    rewrite IH by (apply enoughFuel_next; assumption).
    rewrite <- app_assoc, fmap_cons, Qcsum_cons. simpl. f_equal. f_equal. ring.
Qed.

Lemma priceWalk_of_Walk rules bookingDate startTime endTime slots :
  durationValid startTime endTime = true ->
  Walk rules (endDateTimeOf bookingDate startTime endTime)
       (startDateTimeOf bookingDate startTime) slots ->
  priceWalk rules bookingDate startTime endTime
  = Ok (slots,
        mkPriceResult (hoursOfMs (resolvedMinutes startTime endTime * msPerMinute))
                      (map slotEntry slots) (Qcsum (slotPrice <$> slots))).
Proof.
  intros Hvalid Hwalk. rewrite priceWalk_cases.
  unfold durationValid in Hvalid. apply andb_prop in Hvalid as [Hlen Hmod].
  apply Z.leb_le in Hlen.
  destruct (Z.ltb_spec (resolvedMinutes startTime endTime) 60); [lia |].
  rewrite Hmod. simpl negb. cbv iota.
  rewrite <- (totalMilliseconds_resolved bookingDate) at 1. unfold getTime.
  rewrite (Walk_priceLoop _ _ _ _ Hwalk) by apply loopFuel_enough.
  rewrite app_nil_l, Qcplus_0_l. reflexivity.
Qed.

(** A walk, with the entry point of the next pass given explicitly. *)
Lemma Walk_pass_to rules endDateTime cur next p rest :
  cur < endDateTime ->
  getPrice rules cur (getHours cur) = Ok p ->
  next = Z.min (cur + msPerHour) endDateTime ->
  Walk rules endDateTime next rest ->
  Walk rules endDateTime cur (passAt endDateTime cur p :: rest).
Proof. intros Hlt Hp -> Hwalk. apply Walk_pass; assumption. Qed.

Lemma getEffectiveDate_instant (n h m : Z) :
  0 <= h < 24 -> 0 <= m < 60 ->
  getEffectiveDate (instant n h m) = instant (if h <? 4 then n - 1 else n) h m.
Proof.
  intros Hh Hm. unfold getEffectiveDate. rewrite getHours_instant by assumption.
  destruct (Z.geb_spec h 0); [| lia]. simpl.
  destruct (Z.ltb_spec h 4); [| reflexivity].
  rewrite addDays_instant. f_equal.
Qed.

(** A pass of one full hour that starts at [h:m] of day [n]. *)
Lemma passAt_whole_hour endDateTime (n h m : Z) (p : SlotPrice) :
  0 <= h < 24 -> 0 <= m < 60 ->
  instant n h m + msPerHour <= endDateTime ->
  passAt endDateTime (instant n h m) p
  = mkSlot (instant n h m) (instant n h m + msPerHour) 1%Qc (price p)
      (mkEntry ((pad2 h ++ ":" ++ pad2 m) ++ "-"
                ++ (pad2 ((h + 1) mod 24) ++ ":" ++ pad2 m))%string
               (price p) (price_dayType p) (price_timeSlot p)).
Proof.
  intros Hh Hm Hle. unfold passAt. rewrite Z.min_l by assumption.
  replace (instant n h m + msPerHour - instant n h m) with (1 * msPerHour) by ring.
  rewrite hoursOfMs_hours, Z2Qc_inj_1, Qcmult_1_r.
  unfold hourLabel. rewrite getHours_instant, getMinutes_instant by assumption.
  replace (getHours (instant n h m + msPerHour)) with ((h + 1) mod 24) by date_lia.
  replace (getMinutes (instant n h m + msPerHour)) with m by date_lia.
  reflexivity.
Qed.

(** [getPrice] at [h:m] of day [n], by the weekday of the effective date. *)
Lemma getPrice_instant rules (n h m : Z) :
  0 <= h < 24 -> 0 <= m < 60 ->
  getPrice rules (instant n h m) (getHours (instant n h m))
  = let dow := ((if h <? 4 then n - 1 else n) + 4) mod 7 in
    if (dow =? 6) && isNightTime h
    then Ok (mkSlotPrice (Qc_of_Z 110) weekend night)
    else
      let dt := if (dow =? 5) || (dow =? 6) then weekend else weekday in
      match findOneActive rules dt (getTimeSlot h) with
      | None => Throw (ruleNotFound dt (getTimeSlot h))
      | Some pricingRule => Ok (mkSlotPrice (pricePerHour pricingRule) dt (getTimeSlot h))
      end.
Proof.
  intros Hh Hm.
  unfold getPrice, isSaturdayNight, getDayType, isWeekend, getDayOfWeek.
  rewrite getEffectiveDate_instant, getHours_instant, getDay_instant by lia.
  reflexivity.
Qed.

(** Evaluate the classification of a literal hour. *)
Ltac eval_hour :=
  repeat match goal with
         | |- context [getTimeSlot ?h] =>
             let v := eval vm_compute in (getTimeSlot h) in
             change (getTimeSlot h) with v
         | |- context [isNightTime ?h] =>
             let v := eval vm_compute in (isNightTime h) in
             change (isNightTime h) with v
         end.

Lemma Qc_of_Z_3 : Qc_of_Z 3 = (1 + 1 + 1)%Qc.
Proof. apply Qc_is_canon. reflexivity. Qed.

Lemma Qc_of_Z_220 : Qc_of_Z 220 = (Qc_of_Z 110 + Qc_of_Z 110)%Qc.
Proof. apply Qc_is_canon. reflexivity. Qed.

(** Thursday 22:00 to 01:00: three passes at the weekday night rule. *)
Lemma priceWalk_thursday_22_01 rules bookingDate (rule : PricingRule) :
  getDay (dateOf bookingDate) = 4 ->
  findOneActive rules weekday night = Some rule ->
  exists slots,
    priceWalk rules bookingDate (HHMM 22 0) (HHMM 1 0)
    = Ok (slots,
          mkPriceResult (Qc_of_Z 3)
            [ mkEntry "22:00-23:00" (pricePerHour rule) weekday night;
              mkEntry "23:00-00:00" (pricePerHour rule) weekday night;
              mkEntry "00:00-01:00" (pricePerHour rule) weekday night ]
            (Qc_of_Z 3 * pricePerHour rule)%Qc).
Proof.
  intros Hthu Hrule. rewrite getDay_dayNumber in Hthu.
  set (n := dayNumber bookingDate) in *.
  set (p := mkSlotPrice (pricePerHour rule) weekday night).
  set (e := instant (n + 1) 1 0).
  assert (Hstart : startDateTimeOf bookingDate (HHMM 22 0) = instant n 22 0)
    by apply startDateTimeOf_instant.
  assert (Hend : endDateTimeOf bookingDate (HHMM 22 0) (HHMM 1 0) = e)
    by apply endDateTimeOf_instant.
  assert (Hp1 : getPrice rules (instant n 22 0) (getHours (instant n 22 0)) = Ok p).
  { rewrite getPrice_instant by lia. simpl. rewrite Hthu. simpl. eval_hour.
    rewrite Hrule. reflexivity. }
  assert (Hp2 : getPrice rules (instant n 23 0) (getHours (instant n 23 0)) = Ok p).
  { rewrite getPrice_instant by lia. simpl. rewrite Hthu. simpl. eval_hour.
    rewrite Hrule. reflexivity. }
  assert (Hp3 : getPrice rules (instant (n + 1) 0 0) (getHours (instant (n + 1) 0 0)) = Ok p).
  { rewrite getPrice_instant by lia. simpl.
    replace (n + 1 - 1) with n by lia. rewrite Hthu. simpl. eval_hour.
    rewrite Hrule. reflexivity. }
  assert (Hwalk : Walk rules e (instant n 22 0)
                    [ passAt e (instant n 22 0) p;
                      passAt e (instant n 23 0) p;
                      passAt e (instant (n + 1) 0 0) p ]).
  { apply Walk_pass_to with (next := instant n 23 0);
      [subst e; unfold_dates; lia | exact Hp1 | subst e; unfold_dates; lia |].
    apply Walk_pass_to with (next := instant (n + 1) 0 0);
      [subst e; unfold_dates; lia | exact Hp2 | subst e; unfold_dates; lia |].
    apply Walk_pass_to with (next := e);
      [subst e; unfold_dates; lia | exact Hp3 | subst e; unfold_dates; lia |].
    apply Walk_exit. lia. }
  eexists. rewrite (priceWalk_of_Walk rules bookingDate (HHMM 22 0) (HHMM 1 0) _
                      eq_refl ltac:(rewrite Hstart, Hend; exact Hwalk)).
  f_equal. f_equal.
  rewrite !passAt_whole_hour by (subst e; unfold_dates; lia).
  f_equal.
  - exact (hoursOfMs_hours 3).
  - rewrite !fmap_cons, !Qcsum_cons. simpl. rewrite Qc_of_Z_3. ring.
Qed.

(** Saturday 19:00 to 21:00: two passes at the override rate, whatever the
    rule table holds. *)
Lemma priceWalk_saturday_19_21 rules bookingDate :
  getDay (dateOf bookingDate) = 6 ->
  exists slots,
    priceWalk rules bookingDate (HHMM 19 0) (HHMM 21 0)
    = Ok (slots,
          mkPriceResult (Qc_of_Z 2)
            [ mkEntry "19:00-20:00" (Qc_of_Z 110) weekend night;
              mkEntry "20:00-21:00" (Qc_of_Z 110) weekend night ]
            (Qc_of_Z 220)).
Proof.
  intros Hsat. rewrite getDay_dayNumber in Hsat.
  set (n := dayNumber bookingDate) in *.
  set (p := mkSlotPrice (Qc_of_Z 110) weekend night).
  set (e := instant n 21 0).
  assert (Hstart : startDateTimeOf bookingDate (HHMM 19 0) = instant n 19 0)
    by apply startDateTimeOf_instant.
  assert (Hend : endDateTimeOf bookingDate (HHMM 19 0) (HHMM 21 0) = e)
    by apply endDateTimeOf_instant.
  assert (Hp1 : getPrice rules (instant n 19 0) (getHours (instant n 19 0)) = Ok p).
  { rewrite getPrice_instant by lia. simpl. rewrite Hsat. eval_hour. reflexivity. }
  assert (Hp2 : getPrice rules (instant n 20 0) (getHours (instant n 20 0)) = Ok p).
  { rewrite getPrice_instant by lia. simpl. rewrite Hsat. eval_hour. reflexivity. }
  assert (Hwalk : Walk rules e (instant n 19 0)
                    [ passAt e (instant n 19 0) p; passAt e (instant n 20 0) p ]).
  { apply Walk_pass_to with (next := instant n 20 0);
      [subst e; unfold_dates; lia | exact Hp1 | subst e; unfold_dates; lia |].
    apply Walk_pass_to with (next := e);
      [subst e; unfold_dates; lia | exact Hp2 | subst e; unfold_dates; lia |].
    apply Walk_exit. lia. }
  eexists. rewrite (priceWalk_of_Walk rules bookingDate (HHMM 19 0) (HHMM 21 0) _
                      eq_refl ltac:(rewrite Hstart, Hend; exact Hwalk)).
  f_equal. f_equal.
  rewrite !passAt_whole_hour by (subst e; unfold_dates; lia).
  f_equal.
  - exact (hoursOfMs_hours 2).
  - rewrite !fmap_cons, !Qcsum_cons. simpl. rewrite Qc_of_Z_220. ring.
Qed.

(** ** Sample runs *)

(** Closed goals over records that hold rationals: compute, then compare
    the rationals by their values. *)
Ltac qc_values :=
  vm_compute;
  repeat first [ reflexivity | apply Qc_is_canon; reflexivity | f_equal ].

Lemma thursday_evening_run :
  snd (calculateBookingPrice defaultRules (DateString thursday) (HHMM 17 30) (HHMM 19 0))
  = Ok thursdayEveningResult.
Proof. qc_values. Qed.

Lemma thursday_morning_run :
  snd (calculateBookingPrice defaultRules (DateString thursday) (HHMM 10 30) (HHMM 12 30))
  = Ok thursdayMorningResult.
Proof. qc_values. Qed.

(** Witness of C2 (amended): Thursday 10:30 to 12:30 under the default
    rules. *)
Lemma calculateBookingPrice_hourly_steps_witness :
  snd (calculateBookingPrice defaultRules (DateString thursday) (HHMM 10 30) (HHMM 12 30))
  = Ok thursdayMorningResult
  /\ exists slots : list Slot,
       priceWalk defaultRules (DateString thursday) (HHMM 10 30) (HHMM 12 30)
       = Ok (slots, thursdayMorningResult)
       /\ breakdown thursdayMorningResult = map slotEntry slots
       /\ (forall (i : nat) (s : Slot), slots !! i = Some s ->
             slotStart s
             = startDateTimeOf (DateString thursday) (HHMM 10 30) + Z.of_nat i * msPerHour
             /\ slotEnd s
                = Z.min (slotStart s + msPerHour)
                        (endDateTimeOf (DateString thursday) (HHMM 10 30) (HHMM 12 30))
             /\ (slotEnd s <> endDateTimeOf (DateString thursday) (HHMM 10 30) (HHMM 12 30) ->
                 getMinutes (slotEnd s)
                 = getMinutes (startDateTimeOf (DateString thursday) (HHMM 10 30)))
             /\ getPrice defaultRules (slotStart s) (getHours (slotStart s))
                = Ok (mkSlotPrice (rate (slotEntry s)) (dayType (slotEntry s))
                                  (timeSlot (slotEntry s))))
       /\ Z.of_nat (length slots)
          = (resolvedMinutes (HHMM 10 30) (HHMM 12 30) * msPerMinute + msPerHour - 1)
            / msPerHour.
Proof.
  split.
  - exact thursday_morning_run.
  - exact (calculateBookingPrice_hourly_steps defaultRules (DateString thursday)
             (HHMM 10 30) (HHMM 12 30) thursdayMorningResult thursday_morning_run).
Defined.

(** Counterexample to C2 as stated: on Thursday 10:30 to 12:30 the call
    succeeds with the passes 10:30-11:30 and 11:30-12:30; the first one
    does not end at the next full hour (11:00), and the boundary between the
    two, which is neither the start nor the end of the request, is at
    minute 30. *)
Lemma calculateBookingPrice_steps_not_clock_aligned :
  priceWalk defaultRules (DateString thursday) (HHMM 10 30) (HHMM 12 30)
  = Ok (thursdayMorningSlots, thursdayMorningResult)
  /\ map (fun e => hour e) (breakdown thursdayMorningResult)
     = ["10:30-11:30"; "11:30-12:30"]
  /\ ~ clockAlignedSteps
         (endDateTimeOf (DateString thursday) (HHMM 10 30) (HHMM 12 30))
         thursdayMorningSlots
  /\ exists s : Slot,
       thursdayMorningSlots !! 0%nat = Some s
       /\ slotEnd s <> endDateTimeOf (DateString thursday) (HHMM 10 30) (HHMM 12 30)
       /\ slotEnd s <> startDateTimeOf (DateString thursday) (HHMM 10 30)
       /\ getMinutes (slotEnd s) = 30.
Proof.
  split; [qc_values |]. split; [reflexivity |]. split.
  - intros Haligned. apply Forall_inv in Haligned. vm_compute in Haligned. discriminate.
  - eexists. split; [reflexivity |]. repeat split; vm_compute; congruence.
Qed.

(** C3, the failing run.  The comment of [initializePricingRules] counts
    Thursday with the weekend ("Thursday-Friday (Weekend): Day 110 SAR,
    Night 135 SAR"); [isWeekend] holds on Friday and Saturday only.  On
    Thursday 2 January 2025, under the default rules (weekend night 135,
    weekday night 100), the three entries of the 22:00 to 01:00 booking are
    weekday entries at 100, not weekend entries at the weekend-night
    rate. *)
Theorem thursday_night_booking_not_weekend :
  exists r : PriceResult,
    snd (calculateBookingPrice defaultRules (DateString thursday) (HHMM 22 0) (HHMM 1 0))
    = Ok r
    /\ map (fun e => hour e) (breakdown r) = ["22:00-23:00"; "23:00-00:00"; "00:00-01:00"]
    /\ Forall (fun e => dayType e = weekday /\ timeSlot e = night
                        /\ rate e = Qc_of_Z 100) (breakdown r)
    /\ pricePerHour <$> findOneActive defaultRules weekend night = Some (Qc_of_Z 135)
    /\ ~ Forall (fun e => dayType e = weekend /\ timeSlot e = night
                          /\ Some (rate e)
                             = pricePerHour <$> findOneActive defaultRules weekend night)
                (breakdown r).
Proof.
  destruct (priceWalk_thursday_22_01 defaultRules (DateString thursday)
              (mkPricingRule weekday night (Qc_of_Z 100) true) eq_refl eq_refl)
    as [slots Hrun].
  eexists. split; [exact (calculateBookingPrice_of_priceWalk _ _ _ _ _ _ Hrun) |].
  cbn [breakdown]. split; [reflexivity |]. split; [| split; [reflexivity |]].
  - repeat constructor.
  - intros Hall. apply Forall_inv in Hall. destruct Hall as [Hday _]. discriminate.
Qed.

(** C4.  Whatever the rule table holds: a pass whose effective date is a
    Saturday and whose hour is a night hour is priced by [getPrice] at
    110, weekend/night; so is every such pass of a successful call; and a
    Saturday 19:00 to 21:00 booking returns two entries at 110 and a final
    price of 220. *)
Theorem saturday_night_override (rules : PricingRules) :
  (forall date : Date,
      getDayOfWeek (getEffectiveDate date) = 6 ->
      isNightTime (getHours date) = true ->
      getPrice rules date (getHours date)
      = Ok (mkSlotPrice (Qc_of_Z 110) weekend night))
  /\ (forall bookingDate startTime endTime slots r,
        priceWalk rules bookingDate startTime endTime = Ok (slots, r) ->
        Forall (fun s =>
                  getDayOfWeek (getEffectiveDate (slotStart s)) = 6 ->
                  isNightTime (getHours (slotStart s)) = true ->
                  rate (slotEntry s) = Qc_of_Z 110
                  /\ dayType (slotEntry s) = weekend
                  /\ timeSlot (slotEntry s) = night) slots)
  /\ (forall bookingDate,
        getDay (dateOf bookingDate) = 6 ->
        snd (calculateBookingPrice rules bookingDate (HHMM 19 0) (HHMM 21 0))
        = Ok (mkPriceResult (Qc_of_Z 2)
                [ mkEntry "19:00-20:00" (Qc_of_Z 110) weekend night;
                  mkEntry "20:00-21:00" (Qc_of_Z 110) weekend night ]
                (Qc_of_Z 220))).
Proof.
  assert (Hprice : forall date : Date,
             getDayOfWeek (getEffectiveDate date) = 6 ->
             isNightTime (getHours date) = true ->
             getPrice rules date (getHours date)
             = Ok (mkSlotPrice (Qc_of_Z 110) weekend night)).
  { intros date Hsat Hnight. unfold getPrice, isSaturdayNight.
    rewrite Hsat, Hnight. reflexivity. }
  split; [exact Hprice | split].
  - intros bookingDate startTime endTime slots r Hrun.
    apply priceWalk_Ok_inv in Hrun as (_ & Hwalk & _).
    eapply Forall_impl; [apply (Walk_pricedPass _ _ _ _ Hwalk) |].
    intros s (_ & _ & _ & _ & Hp) Hsat Hnight.
    rewrite (Hprice _ Hsat Hnight) in Hp. injection Hp as <- <- <-. auto.
  - intros bookingDate Hsat.
    destruct (priceWalk_saturday_19_21 rules bookingDate Hsat) as [slots Hrun].
    exact (calculateBookingPrice_of_priceWalk _ _ _ _ _ _ Hrun).
Qed.

(** Witness of C4: Saturday 4 January 2025 with an empty rule table. *)
Lemma saturday_night_override_witness :
  getDay (dateOf (DateString saturday)) = 6
  /\ findOneActive [] weekend night = None
  /\ snd (calculateBookingPrice [] (DateString saturday) (HHMM 19 0) (HHMM 21 0))
     = Ok (mkPriceResult (Qc_of_Z 2)
             [ mkEntry "19:00-20:00" (Qc_of_Z 110) weekend night;
               mkEntry "20:00-21:00" (Qc_of_Z 110) weekend night ]
             (Qc_of_Z 220)).
Proof.
  split; [reflexivity | split; [reflexivity |]].
  exact (proj2 (proj2 (saturday_night_override [])) (DateString saturday) eq_refl).
Defined.

(** Witness of C6: Thursday 14:00 to 16:00 with an empty rule table; the
    first pass already has no rule. *)
Lemma calculateBookingPrice_missing_rate_witness :
  durationValid (HHMM 14 0) (HHMM 16 0) = true
  /\ findOneActive [] weekday day = None
  /\ exists dt ts,
       snd (calculateBookingPrice [] (DateString thursday) (HHMM 14 0) (HHMM 16 0))
       = Throw (ruleNotFound dt ts)
       /\ findOneActive [] dt ts = None.
Proof.
  split; [reflexivity | split; [reflexivity |]].
  apply (calculateBookingPrice_missing_rate [] (DateString thursday)
           (HHMM 14 0) (HHMM 16 0) 0).
  - reflexivity.
  - lia.
  - vm_compute. reflexivity.
  - reflexivity.
  - reflexivity.
Defined.

(** ** Purity *)

Lemma startOfDay_idempotent (d : Date) :
  setHours4 (setHours4 d 0 0 0 0) 0 0 0 0 = setHours4 d 0 0 0 0.
Proof. date_lia. Qed.

Lemma startDateTimeOf_argAfter bookingDate startTime :
  startDateTimeOf (argAfter bookingDate) startTime
  = startDateTimeOf bookingDate startTime.
Proof.
  destruct bookingDate as [d | d]; [reflexivity |].
  unfold startDateTimeOf, argAfter. cbn [dateOf].
  rewrite startOfDay_idempotent. reflexivity.
Qed.

Lemma endDateTimeOf_argAfter bookingDate startTime endTime :
  endDateTimeOf (argAfter bookingDate) startTime endTime
  = endDateTimeOf bookingDate startTime endTime.
Proof.
  destruct bookingDate as [d | d]; [reflexivity |].
  unfold endDateTimeOf, argAfter. cbn [dateOf].
  rewrite startOfDay_idempotent. reflexivity.
Qed.

Lemma argAfter_idempotent bookingDate :
  argAfter (argAfter bookingDate) = argAfter bookingDate.
Proof.
  destruct bookingDate as [d | d]; [reflexivity |].
  unfold argAfter. rewrite startOfDay_idempotent. reflexivity.
Qed.

(** The call on the argument as the previous call left it returns what the
    previous call returned. *)
Lemma priceWalk_argAfter rules bookingDate startTime endTime :
  priceWalk rules (argAfter bookingDate) startTime endTime
  = priceWalk rules bookingDate startTime endTime.
Proof.
  rewrite !priceWalk_unfold.
  rewrite startDateTimeOf_argAfter, endDateTimeOf_argAfter. reflexivity.
Qed.

(** C8, the code at the failing input.  A call leaves a string argument as
    it was and sets a [Date] argument to local midnight of its day: the
    [Date] object for Thursday 15:00 reads Thursday 00:00 after the call.
    The value returned depends on the rule table and the arguments only,
    and is the same when the call is repeated on the modified object. *)
Theorem calculateBookingPrice_modifies_date_argument :
  (forall rules bookingDate startTime endTime,
      fst (calculateBookingPrice rules bookingDate startTime endTime)
      = match bookingDate with
        | DateString d => DateString d
        | DateObject d => DateObject (d - d mod msPerDay)
        end)
  /\ fst (calculateBookingPrice defaultRules (DateObject thursdayAfternoon)
            (HHMM 14 0) (HHMM 16 0))
     = DateObject thursday
  /\ DateObject thursday <> DateObject thursdayAfternoon
  /\ (forall rules bookingDate startTime endTime,
        snd (calculateBookingPrice rules
               (fst (calculateBookingPrice rules bookingDate startTime endTime))
               startTime endTime)
        = snd (calculateBookingPrice rules bookingDate startTime endTime)).
Proof.
  split; [| split; [| split]].
  - intros rules bookingDate startTime endTime. rewrite calculateBookingPrice_fst.
    destruct bookingDate as [d | d]; cbn [argAfter]; [reflexivity |].
    f_equal. unfold setHours4, startOfDay. lia.
  - rewrite calculateBookingPrice_fst. reflexivity.
  - discriminate.
  - intros. rewrite !calculateBookingPrice_snd, calculateBookingPrice_fst.
    rewrite priceWalk_argAfter. reflexivity.
Qed.

(** ** Reasoning about handlers *)

Section Post.

Context {A B : Type}.

Lemma post_ret (a : A) db (Q : Db -> Outcome A -> Prop) :
  Q db (Ok a) -> post (ret a) db Q.
Proof. exact id. Qed.

Lemma post_throw e db (Q : Db -> Outcome A -> Prop) :
  Q db (Throw e) -> post (throw e) db Q.
Proof. exact id. Qed.

Lemma post_lift (o : Outcome A) db (Q : Db -> Outcome A -> Prop) :
  Q db o -> post (lift o) db Q.
Proof. exact id. Qed.

Lemma post_gets (f : Db -> A) db (Q : Db -> Outcome A -> Prop) :
  Q db (Ok (f db)) -> post (gets f) db Q.
Proof. exact id. Qed.

Lemma post_modify f db (Q : Db -> Outcome unit -> Prop) :
  Q (f db) (Ok tt) -> post (modify f) db Q.
Proof. exact id. Qed.

Lemma post_call c db (Q : Db -> Outcome unit -> Prop) :
  Q (set_calls (calls db ++ [c]) db) (Ok tt) -> post (call c) db Q.
Proof. exact id. Qed.

Lemma post_bind (m : M A) (k : A -> M B) db (Q : Db -> Outcome B -> Prop) :
  post m db (fun db1 o =>
               match o with
               | Ok a => post (k a) db1 Q
               | Throw e => Q db1 (Throw e)
               | OutOfFuel => Q db1 OutOfFuel
               end) ->
  post (bind m k) db Q.
Proof.
  unfold post, bind. destruct (m db) as [db1 [a | e |]]; exact id.
Qed.

End Post.

Ltac head_of t := lazymatch t with ?f _ => head_of f | _ => t end.

Ltac db_simpl :=
  cbn [fst snd courts customers bookings pricingRules calls
       set_courts set_customers set_bookings set_calls] in *.

(** Walk through a handler: one rule per monad operation, a case split at
    every branch on a value read from the request or the database. *)
Ltac wp :=
  repeat (cbv beta zeta; db_simpl;
    lazymatch goal with
    | |- post (bind _ _) _ _ => apply post_bind
    | |- post (ret _) _ _ => apply post_ret
    | |- post (throw _) _ _ => apply post_throw
    | |- post (lift _) _ _ => apply post_lift
    | |- post (gets _) _ _ => apply post_gets
    | |- post (modify _) _ _ => apply post_modify
    | |- post (call _) _ _ => apply post_call
    | |- post (match ?x with _ => _ end) _ _ => destruct x eqn:?
    | |- match ?x with _ => _ end => destruct x eqn:?
    | |- post ?m _ _ => let h := head_of m in unfold h
    end).

(** ** The court collection *)

Lemma createCourt_post ext body file db :
  post (createCourt ext body file) db (fun db' o =>
    courts db' = courts db
    \/ ((size (courts db) < 7)%nat
        /\ exists id doc, (id ∉ dom (courts db))
                          /\ courts db' = <[id := doc]> (courts db))).
Proof.
  wp; try (left; reflexivity).
  all: right; split; [apply Nat.leb_gt; assumption |].
  all: eexists _, _; split; [apply is_fresh | reflexivity].
Qed.

Lemma createCourt_at_limit ext body file db :
  (7 <= size (courts db))%nat ->
  post (createCourt ext body file) db (fun db' o =>
    courts db' = courts db
    /\ (exists e, o = Throw e)
    /\ (wellFormedCourt ext body ->
        o = Throw (BadRequestError "Maximum court limit reached (7 courts)"))).
Proof.
  intros Hfull. wp.
  all: try match goal with
           | H : (7 <=? _)%nat = false |- _ => apply Nat.leb_gt in H; lia
           end.
  all: split; [reflexivity | split; [eauto |]].
  all: intros (Hfeat & Hname & Hdesc); try reflexivity; try congruence.
  all: cbn [ICourtCreate.name ICourtCreate.description ICourtCreate.features
            ICourtCreate.set_features ICourtCreate.set_imageUrl] in *;
       try congruence.
  all: match goal with
       | H : ICourtCreate.features _ = Some (FeaturesString _) |- _ =>
           destruct (Hfeat _ H) as [-> | [? ?]]; [discriminate | congruence]
       end.
Qed.

Lemma updateCourt_post ext id body db :
  post (updateCourt ext id body) db (fun db' o =>
    courts db' = courts db
    \/ exists doc0 doc, courts db !! id = Some doc0
                        /\ courts db' = <[id := doc]> (courts db)).
Proof. wp; try (left; reflexivity); right; eauto. Qed.

Lemma toggleCourtStatus_post id status db :
  post (toggleCourtStatus id status) db (fun db' o =>
    courts db' = courts db
    \/ exists doc0 doc, courts db !! id = Some doc0
                        /\ courts db' = <[id := doc]> (courts db)).
Proof. wp; try (left; reflexivity); right; eauto. Qed.

Lemma deleteCourt_post id db :
  post (deleteCourt id) db (fun db' o => courts db' = delete id (courts db)).
Proof. wp; reflexivity. Qed.

Lemma createBooking_courts ext body db :
  post (createBooking ext body) db (fun db' o => courts db' = courts db).
Proof. wp; reflexivity. Qed.

Lemma createManualBooking_courts ext body db :
  post (createManualBooking ext body) db (fun db' o => courts db' = courts db).
Proof. wp; reflexivity. Qed.

Lemma updateBookingStatus_courts ext id body db :
  post (updateBookingStatus ext id body) db (fun db' o => courts db' = courts db).
Proof. wp; reflexivity. Qed.

Lemma updatePayment_courts ext id body db :
  post (updatePayment ext id body) db (fun db' o => courts db' = courts db).
Proof. wp; reflexivity. Qed.

Lemma updateBooking_courts ext id notes db :
  post (updateBooking ext id notes) db (fun db' o => courts db' = courts db).
Proof. wp; reflexivity. Qed.

Lemma cancelBooking_courts ext id reason db :
  post (cancelBooking ext id reason) db (fun db' o => courts db' = courts db).
Proof. wp; reflexivity. Qed.

(** The price preview writes nothing to the database. *)
Lemma calculatePrice_reads_only bookingDate startTime endTime db :
  post (calculatePrice bookingDate startTime endTime) db (fun db' o =>
    courts db' = courts db /\ customers db' = customers db
    /\ bookings db' = bookings db /\ pricingRules db' = pricingRules db).
Proof. wp; repeat split; reflexivity. Qed.

Lemma serve_courtLimit ext req db :
  courtLimit db -> courtLimit (serve ext req db).
Proof.
  unfold courtLimit. intros Hlim. destruct req; cbn [serve].
  - destruct (createCourt_post ext body file db) as [-> | (Hlt & id & doc & Hid & ->)];
      [assumption |].
    rewrite map_size_insert_None by (apply not_elem_of_dom; assumption). exact Hlt.
  - destruct (updateCourt_post ext id body db) as [-> | (doc0 & doc & Hid & ->)];
      [assumption |].
    rewrite map_size_insert_Some by eauto. assumption.
  - rewrite (deleteCourt_post id db).
    rewrite map_size_delete. destruct (courts db !! id); simpl; [| assumption].
    etrans; [apply Nat.le_pred_l | assumption].
  - destruct (toggleCourtStatus_post id status db) as [-> | (doc0 & doc & Hid & ->)];
      [assumption |].
    rewrite map_size_insert_Some by eauto. assumption.
  - rewrite (createBooking_courts ext body db). assumption.
  - rewrite (createManualBooking_courts ext body db). assumption.
  - rewrite (updateBookingStatus_courts ext id body db). assumption.
  - rewrite (updatePayment_courts ext id body db). assumption.
  - rewrite (updateBooking_courts ext id notes db). assumption.
  - rewrite (cancelBooking_courts ext id reason db). assumption.
  - destruct (calculatePrice_reads_only bookingDate startTime endTime db) as [-> _].
    assumption.
Qed.

Lemma serveAll_courtLimit ext reqs : forall db,
  courtLimit db -> courtLimit (serveAll ext reqs db).
Proof.
  induction reqs as [| req reqs IH]; intros db Hlim; [exact Hlim |].
  apply IH, serve_courtLimit, Hlim.
Qed.

(** ** Status transitions *)

Lemma updateBookingStatus_terminal ext id body db b :
  bookings db !! id = Some b ->
  Booking.status b = cancelled \/ Booking.status b = completed ->
  post (updateBookingStatus ext id body) db (fun db' o =>
    (exists e, o = Throw e
               /\ (is_Some (UpdateBookingStatusDTO.status body) -> invalidTransition e))
    /\ bookings db' = bookings db).
Proof.
  intros Hb Hterm. wp; simplify_eq.
  all: repeat case_bool_decide; try (destruct Hterm; congruence).
  all: split; [eexists; split; [reflexivity |] | reflexivity].
  all: unfold invalidTransition; intros Hs; try (destruct Hs; discriminate); auto.
Qed.

Lemma cancelBooking_terminal ext id reason db b :
  bookings db !! id = Some b ->
  Booking.status b = cancelled \/ Booking.status b = completed ->
  post (cancelBooking ext id reason) db (fun db' o =>
    (exists e, o = Throw e /\ invalidTransition e)
    /\ bookings db' = bookings db).
Proof.
  intros Hb Hterm. wp; simplify_eq.
  all: repeat case_bool_decide; try (destruct Hterm; congruence).
  all: split; [eexists; split; [reflexivity |] | reflexivity].
  all: unfold invalidTransition; auto.
Qed.

Lemma markCancelled_status reason b :
  Booking.status (markCancelled reason b) = cancelled.
Proof. unfold markCancelled. destruct (truthy reason); reflexivity. Qed.

Lemma cancelBooking_active ext id reason db b :
  bookings db !! id = Some b ->
  Booking.status b <> cancelled -> Booking.status b <> completed ->
  bookingSchema ext (markCancelled reason b) = None ->
  post (cancelBooking ext id reason) db (fun db' o =>
    o = Ok (mkResponse 200 (Some (markCancelled reason b))
              (Some "Booking cancelled successfully"))
    /\ bookings db' = <[id := markCancelled reason b]> (bookings db)).
Proof.
  intros Hb Hc1 Hc2 Hschema. wp; simplify_eq.
  all: repeat case_bool_decide; try congruence.
  rewrite lookup_insert_eq. split; reflexivity.
Qed.

(** ** Blocking a slot *)

Lemma createManualBooking_blocked_post ext body db :
  CreateManualBookingDTO.isBlocked body = true ->
  post (createManualBooking ext body) db (fun db' o =>
    customers db' = customers db
    /\ pricingRules db' = pricingRules db
    /\ (exists new, calls db' = calls db ++ new
                    /\ Forall (fun c => customerOrPricingCall c = false) new)
    /\ forall resp, o = Ok resp ->
         exists id b,
           data resp = Some b
           /\ (id ∉ dom (bookings db))
           /\ bookings db' = <[id := b]> (bookings db)
           /\ Booking.customer b = None
           /\ Booking.totalPrice b = 0%Qc
           /\ Booking.finalPrice b = 0%Qc
           /\ Booking.pricingBreakdown b = []
           /\ Booking.status b = blocked
           /\ Booking.paymentStatus b = PaymentStatus.paid).
Proof.
  intros Hblocked. unfold createManualBooking. cbv zeta. rewrite Hblocked.
  cbn [negb andb].
  wp; simplify_eq.
  all: split; [reflexivity | split; [reflexivity | split]].
  all: try (intros resp [=]; subst).
  all: try (rewrite <- ?app_assoc; eexists; split; [reflexivity |];
            repeat constructor).
  all: try (eexists; split; [symmetry; apply app_nil_r | constructor]).
  eexists _, _. cbn [data]. rewrite lookup_insert_eq.
  repeat split; try reflexivity. apply is_fresh.
Qed.

(** ** The claims on the controllers *)

(** C7.  For a stored booking whose status is cancelled or completed, a
    status update (with any new status) and a cancellation both throw an
    invalid-transition error and leave the bookings as they were.  For a
    stored booking whose status is pending, confirmed or blocked, a
    cancellation (whose document the schema accepts) succeeds and stores the
    booking with status cancelled. *)
Theorem terminal_bookings_reject_status_writes
    (ext : Externals) (db : Db) (id : ObjectId) (b : Booking.t) :
  bookings db !! id = Some b ->
  (Booking.status b = cancelled \/ Booking.status b = completed ->
   forall (status : BookingStatus) (notes reason : option string),
     let update :=
       updateBookingStatus ext id (UpdateBookingStatusDTO.mk (Some status) notes) db in
     let cancel := cancelBooking ext id reason db in
     (exists e, snd update = Throw e /\ invalidTransition e)
     /\ bookings (fst update) = bookings db
     /\ (exists e, snd cancel = Throw e /\ invalidTransition e)
     /\ bookings (fst cancel) = bookings db)
  /\ (Booking.status b = pending \/ Booking.status b = confirmed
      \/ Booking.status b = blocked ->
      forall reason : option string,
        bookingSchema ext (markCancelled reason b) = None ->
        let cancel := cancelBooking ext id reason db in
        snd cancel = Ok (mkResponse 200 (Some (markCancelled reason b))
                           (Some "Booking cancelled successfully"))
        /\ bookings (fst cancel) = <[id := markCancelled reason b]> (bookings db)
        /\ Booking.status (markCancelled reason b) = cancelled).
Proof.
  intros Hb. split.
  - intros Hterm status notes reason update cancel.
    destruct (updateBookingStatus_terminal ext id
                (UpdateBookingStatusDTO.mk (Some status) notes) db b Hb Hterm)
      as [(e & He & Hinv) Hsame].
    destruct (cancelBooking_terminal ext id reason db b Hb Hterm)
      as [(e' & He' & Hinv') Hsame'].
    repeat split; try assumption.
    + exists e. split; [exact He | apply Hinv; eauto].
    + exists e'. split; assumption.
  - intros Hactive reason Hschema cancel.
    destruct (cancelBooking_active ext id reason db b Hb) as [Hok Hstored];
      try assumption.
    + destruct Hactive as [H | [H | H]]; rewrite H; discriminate.
    + destruct Hactive as [H | [H | H]]; rewrite H; discriminate.
    + repeat split; try assumption. apply markCancelled_status.
Qed.

(** Witness of C7: the pending booking of the sample database is
    cancelled; on the database that results, a status update is rejected. *)
Lemma terminal_bookings_reject_status_writes_witness :
  bookings sampleDb !! 1%N = Some pendingBooking
  /\ (snd (cancelBooking sampleExt 1%N None sampleDb)
      = Ok (mkResponse 200 (Some (markCancelled None pendingBooking))
              (Some "Booking cancelled successfully"))
      /\ bookings (fst (cancelBooking sampleExt 1%N None sampleDb))
         = <[1%N := markCancelled None pendingBooking]> (bookings sampleDb)
      /\ Booking.status (markCancelled None pendingBooking) = cancelled)
  /\ exists e,
       snd (updateBookingStatus sampleExt 1%N
              (UpdateBookingStatusDTO.mk (Some confirmed) None)
              (fst (cancelBooking sampleExt 1%N None sampleDb)))
       = Throw e
       /\ invalidTransition e.
Proof.
  split; [reflexivity | split].
  - exact (proj2 (terminal_bookings_reject_status_writes sampleExt sampleDb 1%N
                    pendingBooking eq_refl)
                 (or_introl eq_refl) None eq_refl).
  - exact (proj1 (proj1 (terminal_bookings_reject_status_writes sampleExt
                           (fst (cancelBooking sampleExt 1%N None sampleDb)) 1%N
                           (markCancelled None pendingBooking) eq_refl)
                        (or_introl eq_refl) confirmed None None)).
Defined.

(** C9.  When the admin manual-booking request has [isBlocked] set, the
    handler makes no call to the customer collection or to the pricing
    service and leaves the customers (and their booking counts) as they
    were; and when it succeeds, the booking it stored has no customer, total
    and final price 0, an empty pricing breakdown, status blocked and
    payment status paid. *)
Theorem createManualBooking_blocked
    (ext : Externals) (body : CreateManualBookingDTO.t) (db : Db) :
  CreateManualBookingDTO.isBlocked body = true ->
  let db' := fst (createManualBooking ext body db) in
  customers db' = customers db
  /\ pricingRules db' = pricingRules db
  /\ (exists new, calls db' = calls db ++ new
                  /\ Forall (fun c => customerOrPricingCall c = false) new)
  /\ forall resp, snd (createManualBooking ext body db) = Ok resp ->
       exists (id : ObjectId) (b : Booking.t),
         data resp = Some b
         /\ (id ∉ dom (bookings db))
         /\ bookings db' = <[id := b]> (bookings db)
         /\ Booking.customer b = None
         /\ Booking.totalPrice b = 0%Qc
         /\ Booking.finalPrice b = 0%Qc
         /\ Booking.pricingBreakdown b = []
         /\ Booking.status b = blocked
         /\ Booking.paymentStatus b = PaymentStatus.paid.
Proof.
  intros Hblocked db'. exact (createManualBooking_blocked_post ext body db Hblocked).
Qed.

Lemma blockRequest_run :
  snd (createManualBooking sampleExt blockRequest sampleDb)
  = Ok (mkResponse 201 (Some blockedBooking) (Some "Time slot blocked successfully")).
Proof. qc_values. Qed.

(** Witness of C9: court 1 of the sample database is blocked on Saturday
    19:00 to 21:00. *)
Lemma createManualBooking_blocked_witness :
  CreateManualBookingDTO.isBlocked blockRequest = true
  /\ snd (createManualBooking sampleExt blockRequest sampleDb)
     = Ok (mkResponse 201 (Some blockedBooking) (Some "Time slot blocked successfully"))
  /\ customers (fst (createManualBooking sampleExt blockRequest sampleDb))
     = customers sampleDb
  /\ exists (id : ObjectId) (b : Booking.t),
       Some blockedBooking = Some b
       /\ (id ∉ dom (bookings sampleDb))
       /\ bookings (fst (createManualBooking sampleExt blockRequest sampleDb))
          = <[id := b]> (bookings sampleDb)
       /\ Booking.customer b = None
       /\ Booking.totalPrice b = 0%Qc
       /\ Booking.finalPrice b = 0%Qc
       /\ Booking.pricingBreakdown b = []
       /\ Booking.status b = blocked
       /\ Booking.paymentStatus b = PaymentStatus.paid.
Proof.
  split; [reflexivity | split; [exact blockRequest_run |]].
  pose proof (createManualBooking_blocked sampleExt blockRequest sampleDb eq_refl)
    as (Hcustomers & _ & _ & Hstored).
  split; [exact Hcustomers |].
  exact (Hstored _ blockRequest_run).
Defined.

(** X29.  Requests served one after the other keep the court limit.  With
    seven or more courts in the collection, [createCourt] throws and leaves
    the collection as it was (the limit error, when the request passes the
    field checks); and every request of the court and booking controllers
    run to its end, and so every sequence of them served one after the
    other, keeps the number of courts at most seven. *)
Theorem court_count_at_most_seven (ext : Externals) :
  (forall db body file,
      (7 <= size (courts db))%nat ->
      courts (fst (createCourt ext body file db)) = courts db
      /\ (exists e, snd (createCourt ext body file db) = Throw e)
      /\ (wellFormedCourt ext body ->
          snd (createCourt ext body file db)
          = Throw (BadRequestError "Maximum court limit reached (7 courts)")))
  /\ (forall req db, courtLimit db -> courtLimit (serve ext req db))
  /\ (forall reqs db, courtLimit db -> courtLimit (serveAll ext reqs db)).
Proof.
  split; [| split].
  - intros db body file Hfull. exact (createCourt_at_limit ext body file db Hfull).
  - intros req db. apply serve_courtLimit.
  - intros reqs db. apply serveAll_courtLimit.
Qed.

Lemma eighthCourt_wellFormed : wellFormedCourt sampleExt eighthCourt.
Proof. split; [intros text [=] | split; reflexivity]. Qed.

Lemma fullDb_size : size (courts fullDb) = 7%nat.
Proof. reflexivity. Qed.

(** Witness of X29: an eighth court is refused on the database with seven
    courts, and the limit holds after the request. *)
Lemma court_count_at_most_seven_witness :
  size (courts fullDb) = 7%nat
  /\ snd (createCourt sampleExt eighthCourt None fullDb)
     = Throw (BadRequestError "Maximum court limit reached (7 courts)")
  /\ courts (fst (createCourt sampleExt eighthCourt None fullDb)) = courts fullDb
  /\ courtLimit (serve sampleExt (ReqCreateCourt eighthCourt None) fullDb).
Proof.
  assert (Hfull : (7 <= size (courts fullDb))%nat) by (rewrite fullDb_size; lia).
  split; [exact fullDb_size | split; [| split]].
  - exact (proj2 (proj2 (proj1 (court_count_at_most_seven sampleExt)
                           fullDb eighthCourt None Hfull))
                 eighthCourt_wellFormed).
  - exact (proj1 (proj1 (court_count_at_most_seven sampleExt)
                    fullDb eighthCourt None Hfull)).
  - apply (proj1 (proj2 (court_count_at_most_seven sampleExt))).
    unfold courtLimit. rewrite fullDb_size. lia.
Defined.

(* ================================================================== *)
(** * Further properties of the pricing service *)

(** ** The calendar behind the classification *)

Lemma getHours_range (d : Date) : 0 <= getHours d < 24.
Proof. date_lia. Qed.

Lemma getMinutes_range (d : Date) : 0 <= getMinutes d < 60.
Proof. date_lia. Qed.

Lemma getDay_range (d : Date) : 0 <= getDay d < 7.
Proof. unfold getDay. apply Z.mod_pos_bound. lia. Qed.

Lemma getDay_previous (d : Date) : getDay (addDays d (-1)) = (getDay d + 6) mod 7.
Proof. date_lia. Qed.

Lemma isSaturdayNight_window (d : Date) :
  isSaturdayNight d (getHours d) = true <-> saturdayOverrideWindow d.
Proof.
  pose proof (getHours_range d) as Hh. pose proof (getDay_range d) as Hd.
  pose proof (getDay_previous d) as Hprev.
  unfold saturdayOverrideWindow, isSaturdayNight, getEffectiveDate, getDayOfWeek,
    isNightTime.
  destruct (Z.geb_spec (getHours d) 0); [| lia]. cbn [andb].
  destruct (Z.ltb_spec (getHours d) 4).
  - rewrite Hprev.
    assert (Hsun : (getDay d + 6) mod 7 = 6 <-> getDay d = 0)
      by (Z.div_mod_to_equations; lia).
    destruct (Z.eqb_spec ((getDay d + 6) mod 7) 6) as [He | He];
      destruct (Z.geb_spec (getHours d) 18), (Z.ltb_spec (getHours d) 9);
      cbn; split; intros Hx; try discriminate; try reflexivity; try lia.
  - destruct (Z.eqb_spec (getDay d) 6) as [He | He];
      destruct (Z.geb_spec (getHours d) 18), (Z.ltb_spec (getHours d) 9);
      cbn; split; intros Hx; try discriminate; try reflexivity; try lia.
Qed.

Lemma effective_weekend_calendar (d : Date) :
  getDayType (getEffectiveDate d) = weekend <-> weekendOnCalendar d.
Proof.
  pose proof (getHours_range d) as Hh. pose proof (getDay_range d) as Hd.
  pose proof (getDay_previous d) as Hprev.
  unfold weekendOnCalendar, getDayType, isWeekend, getEffectiveDate, getDayOfWeek.
  destruct (Z.geb_spec (getHours d) 0); [| lia]. cbn [andb].
  destruct (Z.ltb_spec (getHours d) 4).
  - rewrite Hprev.
    assert (Hfri : (getDay d + 6) mod 7 = 5 <-> getDay d = 6)
      by (Z.div_mod_to_equations; lia).
    assert (Hsat : (getDay d + 6) mod 7 = 6 <-> getDay d = 0)
      by (Z.div_mod_to_equations; lia).
    destruct (Z.eqb_spec ((getDay d + 6) mod 7) 5),
      (Z.eqb_spec ((getDay d + 6) mod 7) 6);
      cbn; split; intros Hx; try discriminate; try reflexivity; try lia.
  - destruct (Z.eqb_spec (getDay d) 5), (Z.eqb_spec (getDay d) 6);
      cbn; split; intros Hx; try discriminate; try reflexivity; try lia.
Qed.

Lemma night_hours (h : Z) : getTimeSlot h = night <-> h < 9 \/ 18 <= h.
Proof.
  unfold getTimeSlot, isNightTime.
  destruct (Z.geb_spec h 18), (Z.ltb_spec h 9); cbn; split; intros Hx;
    try discriminate; try reflexivity; lia.
Qed.

(** X1.  The Saturday-night override, on the calendar: [isSaturdayNight]
    holds of an instant and its own hour exactly on Saturday from 04:00 to
    09:00, on Saturday from 18:00 on and on Sunday before 04:00; at these
    instants [getPrice] returns 110 as weekend/night for every rule
    table. *)
Theorem saturday_override_window (d : Date) :
  (isSaturdayNight d (getHours d) = true <-> saturdayOverrideWindow d)
  /\ (saturdayOverrideWindow d ->
      forall rules,
        getPrice rules d (getHours d) = Ok (mkSlotPrice (Qc_of_Z 110) weekend night)).
Proof.
  split; [apply isSaturdayNight_window |].
  intros Hwin rules. apply isSaturdayNight_window in Hwin.
  unfold getPrice. rewrite Hwin. reflexivity.
Qed.

(** X2.  What [getPrice] records for an instant and its own hour, on the
    calendar: the day type is weekend exactly from Friday 04:00 to Sunday
    04:00 (the hours before 04:00 count with the previous day), and the time
    slot is night exactly before 09:00 and from 18:00 on. *)
Theorem getPrice_classification_calendar
    (rules : PricingRules) (d : Date) (p : SlotPrice) :
  getPrice rules d (getHours d) = Ok p ->
  (price_dayType p = weekend <-> weekendOnCalendar d)
  /\ (price_timeSlot p = night <-> getHours d < 9 \/ 18 <= getHours d).
Proof.
  unfold getPrice. destruct (isSaturdayNight d (getHours d)) eqn:Hsat.
  - intros [= <-]. cbn [price_dayType price_timeSlot].
    apply isSaturdayNight_window in Hsat.
    unfold saturdayOverrideWindow in Hsat. unfold weekendOnCalendar.
    split; split; intros _; try reflexivity; lia.
  - destruct (findOneActive _ _ _); [| discriminate].
    intros [= <-]. cbn [price_dayType price_timeSlot].
    split; [apply effective_weekend_calendar | apply night_hours].
Qed.

(** Witness of X2: Thursday 22:00 under the default rules is priced as
    weekday/night. *)
Lemma getPrice_classification_calendar_witness :
  getPrice defaultRules thursdayNight (getHours thursdayNight)
  = Ok (mkSlotPrice (Qc_of_Z 100) weekday night)
  /\ (weekday = weekend <-> weekendOnCalendar thursdayNight)
  /\ (night = night <-> getHours thursdayNight < 9 \/ 18 <= getHours thursdayNight).
Proof.
  split; [reflexivity |].
  exact (getPrice_classification_calendar defaultRules thursdayNight
           (mkSlotPrice (Qc_of_Z 100) weekday night) eq_refl).
Defined.

(** ** Where the rates come from *)

Lemma findOneActive_Some rules dt ts rule :
  findOneActive rules dt ts = Some rule ->
  In rule rules /\ rule_dayType rule = dt /\ rule_timeSlot rule = ts
  /\ isActive rule = true.
Proof.
  unfold findOneActive. intros Hfind. apply find_some in Hfind as [Hin Hb].
  apply andb_prop in Hb as [Hb Hact]. apply andb_prop in Hb as [Hdt Hts].
  apply bool_decide_eq_true in Hdt. apply bool_decide_eq_true in Hts. auto.
Qed.

Lemma findOneActive_None rules dt ts rule :
  findOneActive rules dt ts = None ->
  In rule rules -> rule_dayType rule = dt -> rule_timeSlot rule = ts ->
  isActive rule = false.
Proof.
  unfold findOneActive. intros Hfind Hin <- <-.
  pose proof (find_none _ _ Hfind rule Hin) as Hb. cbn beta in Hb.
  rewrite !bool_decide_eq_true_2 in Hb by reflexivity. exact Hb.
Qed.

Lemma getPrice_source rules d h p :
  getPrice rules d h = Ok p ->
  fromOverrideOrTable rules (price p) (price_dayType p) (price_timeSlot p).
Proof.
  unfold getPrice. destruct (isSaturdayNight d h).
  - intros [= <-]. left. auto.
  - destruct (findOneActive _ _ _) as [rule |] eqn:Hfind; [| discriminate].
    intros [= <-]. apply findOneActive_Some in Hfind as (Hin & Hdt & Hts & Hact).
    right. exists rule. auto.
Qed.

(** X3.  Every entry of the breakdown of a successful call carries either
    the override (110, weekend/night) or the rate of an active rule of the
    table whose day type and time slot are the ones the entry records: no
    rate is made up, and no inactive rule is used. *)
Theorem breakdown_rates_from_table_or_override
    (rules : PricingRules) (bookingDate : BookingDateArg)
    (startTime endTime : TimeStr) (r : PriceResult) :
  snd (calculateBookingPrice rules bookingDate startTime endTime) = Ok r ->
  Forall (fun e => fromOverrideOrTable rules (rate e) (dayType e) (timeSlot e))
         (breakdown r).
Proof.
  intros Hok. apply calculateBookingPrice_Ok_inv in Hok as [slots Hrun].
  apply priceWalk_Ok_inv in Hrun as (_ & Hwalk & ->). cbn [breakdown].
  apply Forall_map.
  eapply Forall_impl; [apply (Walk_pricedPass _ _ _ _ Hwalk) |].
  intros s (_ & _ & _ & _ & Hp). apply getPrice_source in Hp. exact Hp.
Qed.

(** Witness of X3: Thursday 17:30 to 19:00 under the default rules. *)
Lemma breakdown_rates_from_table_or_override_witness :
  snd (calculateBookingPrice defaultRules (DateString thursday) (HHMM 17 30) (HHMM 19 0))
  = Ok thursdayEveningResult
  /\ Forall (fun e => fromOverrideOrTable defaultRules (rate e) (dayType e) (timeSlot e))
            (breakdown thursdayEveningResult).
Proof.
  split.
  - exact thursday_evening_run.
  - exact (breakdown_rates_from_table_or_override defaultRules (DateString thursday)
             (HHMM 17 30) (HHMM 19 0) thursdayEveningResult thursday_evening_run).
Defined.

(** ** Complete tables *)

Lemma complete_table_priceWalk rules bookingDate startTime endTime :
  completeTable rules ->
  durationValid startTime endTime = true ->
  exists slots r, priceWalk rules bookingDate startTime endTime = Ok (slots, r).
Proof.
  intros Hcomplete Hvalid.
  pose proof (priceWalk_terminates rules bookingDate startTime endTime) as Hterm.
  destruct (priceWalk rules bookingDate startTime endTime) as [[slots r] | e |] eqn:Hrun.
  - eauto.
  - exfalso. rewrite priceWalk_cases in Hrun.
    unfold durationValid in Hvalid. apply andb_prop in Hvalid as [Hlen Hmod].
    apply Z.leb_le in Hlen.
    destruct (Z.ltb_spec (resolvedMinutes startTime endTime) 60); [lia |].
    rewrite Hmod in Hrun. cbn [negb] in Hrun.
    destruct (priceLoop _ _ _ _ _ _) as [[slots tp] | e' |] eqn:Hloop; try discriminate.
    apply priceLoop_Throw_inv in Hloop as (dt & ts & _ & Hnone).
    destruct (Hcomplete dt ts) as [rule Hrule]. congruence.
  - congruence.
Qed.

Lemma defaultRules_complete : completeTable defaultRules.
Proof. intros [] []; eexists; reflexivity. Qed.

(** On exact values, with an active rule for each of the four
    classifications, every request whose resolved duration is at least one
    hour and a multiple of thirty minutes is priced. *)
Lemma complete_table_prices_valid_requests
    (rules : PricingRules) (bookingDate : BookingDateArg) (startTime endTime : TimeStr) :
  completeTable rules ->
  durationValid startTime endTime = true ->
  exists r, snd (calculateBookingPrice rules bookingDate startTime endTime) = Ok r.
Proof.
  intros Hcomplete Hvalid.
  destruct (complete_table_priceWalk rules bookingDate startTime endTime
              Hcomplete Hvalid) as (slots & r & Hrun).
  exists r. exact (calculateBookingPrice_of_priceWalk _ _ _ _ _ _ Hrun).
Qed.

(** ** Whole hours and the last half hour *)

Lemma hoursOfMs_hour : hoursOfMs msPerHour = 1%Qc.
Proof. apply Qc_is_canon. reflexivity. Qed.

Lemma hoursOfMs_half_hour : hoursOfMs (30 * msPerMinute) = (1 / 2)%Qc.
Proof. apply Qc_is_canon. reflexivity. Qed.

(** All passes of a walk over a whole number of half hours last one hour,
    except that the last one lasts half an hour when the range does not end
    on a full hour from its start. *)
Lemma Walk_last_half rules endDateTime cur slots :
  Walk rules endDateTime cur slots ->
  cur < endDateTime ->
  (endDateTime - cur) mod (30 * msPerMinute) = 0 ->
  exists init l,
    slots = init ++ [l]
    /\ Forall (fun s => slotDuration s = 1%Qc) init
    /\ slotDuration l
       = if (endDateTime - cur) mod msPerHour =? 0 then 1%Qc else (1 / 2)%Qc.
Proof.
  induction 1 as [cur Hge | cur p rest Hlt Hp Hwalk IH]; intros Hcur Hhalf; [lia |].
  destruct (Z.le_gt_cases endDateTime (cur + msPerHour)) as [Hlast | Hmore].
  - rewrite Z.min_r in Hwalk by assumption.
    inversion Hwalk as [c Hc | c p' rest' Hc]; [| lia]. subst.
    exists [], (passAt endDateTime cur p). split; [reflexivity |].
    split; [constructor |]. cbn [passAt slotDuration].
    rewrite Z.min_r by assumption.
    assert (Hcases : endDateTime - cur = msPerHour
                     \/ endDateTime - cur = 30 * msPerMinute).
    { revert Hhalf. unfold msPerHour, msPerMinute in *.
      Z.div_mod_to_equations. lia. }
    destruct Hcases as [-> | ->].
    + rewrite Z.mod_same by discriminate. apply hoursOfMs_hour.
    + apply hoursOfMs_half_hour.
  - assert (Hmin : Z.min (cur + msPerHour) endDateTime = cur + msPerHour) by lia.
    rewrite Hmin in Hwalk, IH.
    destruct IH as (init & l & -> & Hinit & Hl).
    + lia.
    + revert Hhalf. unfold msPerHour, msPerMinute. Z.div_mod_to_equations. lia.
    + exists (passAt endDateTime cur p :: init), l. split; [reflexivity |]. split.
      * constructor; [| exact Hinit]. cbn [passAt slotDuration]. rewrite Hmin.
        replace (cur + msPerHour - cur) with msPerHour by lia. apply hoursOfMs_hour.
      * rewrite Hl.
        replace ((endDateTime - (cur + msPerHour)) mod msPerHour)
          with ((endDateTime - cur) mod msPerHour); [reflexivity |].
        unfold msPerHour. Z.div_mod_to_equations. lia.
Qed.

Lemma Qcsum_nil : Qcsum [] = 0%Qc.
Proof. reflexivity. Qed.

Lemma Qcsum_app (l1 l2 : list Qc) : Qcsum (l1 ++ l2) = (Qcsum l1 + Qcsum l2)%Qc.
Proof.
  induction l1 as [| x l1 IH]; cbn [app].
  - rewrite Qcsum_nil. ring.
  - rewrite !Qcsum_cons, IH. ring.
Qed.

(** On exact values, the final price of a successful call from the
    breakdown alone: every entry but the last is charged its full hourly
    rate, and the last one its rate when the resolved duration is a whole
    number of hours, half its rate otherwise. *)
Lemma final_price_by_entries
    (rules : PricingRules) (bookingDate : BookingDateArg)
    (startTime endTime : TimeStr) (r : PriceResult) :
  snd (calculateBookingPrice rules bookingDate startTime endTime) = Ok r ->
  exists init l,
    breakdown r = init ++ [l]
    /\ finalPrice r
       = (Qcsum (rate <$> init)
          + rate l * (if resolvedMinutes startTime endTime mod 60 =? 0
                      then 1 else 1 / 2))%Qc.
Proof.
  intros Hok. apply calculateBookingPrice_Ok_inv in Hok as [slots Hrun].
  apply priceWalk_Ok_inv in Hrun as (Hvalid & Hwalk & ->).
  cbn [breakdown finalPrice].
  pose proof (totalMilliseconds_resolved bookingDate startTime endTime) as Htot.
  unfold getTime in Htot.
  unfold durationValid in Hvalid. apply andb_prop in Hvalid as [Hlen Hmod].
  apply Z.leb_le in Hlen. apply Z.eqb_eq in Hmod.
  destruct (Walk_last_half _ _ _ _ Hwalk) as (init & l & -> & Hinit & Hl).
  - unfold msPerMinute in Htot. lia.
  - rewrite Htot. unfold msPerMinute.
    revert Hmod. Z.div_mod_to_equations. lia.
  - exists (slotEntry <$> init), (slotEntry l). split.
    + rewrite map_app. reflexivity.
    + rewrite (Walk_prices _ _ _ _ Hwalk).
      rewrite fmap_app, Qcsum_app. cbn [fmap list_fmap]. rewrite Qcsum_cons.
      rewrite Qcsum_nil, Hl, Htot.
      replace (resolvedMinutes startTime endTime * msPerMinute mod msPerHour =? 0)
        with (resolvedMinutes startTime endTime mod 60 =? 0).
      2:{ unfold msPerMinute, msPerHour.
          destruct (Z.eqb_spec (resolvedMinutes startTime endTime mod 60) 0) as [H0 | H0],
            (Z.eqb_spec (resolvedMinutes startTime endTime * (1000 * 60)
                         mod (1000 * 60 * 60)) 0) as [H1 | H1];
            try reflexivity; exfalso; revert H0 H1; Z.div_mod_to_equations; lia. }
      assert (Hsum : Qcsum ((fun s => rate (slotEntry s) * slotDuration s)%Qc <$> init)
                     = Qcsum (rate <$> (slotEntry <$> init))).
      { clear -Hinit. induction Hinit as [| s init Hs Hinit IH]; [reflexivity |].
        rewrite !fmap_cons, !Qcsum_cons, IH, Hs. ring. }
      rewrite Hsum. ring.
Qed.

(** ** Times of day *)

Lemma resolvedMinutes_range startTime endTime :
  wellFormedTime startTime -> wellFormedTime endTime ->
  0 < resolvedMinutes startTime endTime <= 24 * 60.
Proof.
  unfold wellFormedTime, resolvedMinutes. intros [Hh Hm] [Hh' Hm'].
  destruct (Z.leb_spec (hh endTime * 60 + mm endTime) (hh startTime * 60 + mm startTime));
    lia.
Qed.

Lemma resolvedMinutes_same (t : TimeStr) : resolvedMinutes t t = 24 * 60.
Proof.
  unfold resolvedMinutes.
  destruct (Z.leb_spec (hh t * 60 + mm t) (hh t * 60 + mm t)); lia.
Qed.

Lemma hoursOfMs_le (a b : Z) : a <= b -> (hoursOfMs a <= hoursOfMs b)%Qc.
Proof.
  intros Hab. unfold hoursOfMs, Qcdiv. apply Qcmult_le_compat_r.
  - apply (proj1 (Z2Qc_inj_le _ _)). exact Hab.
  - apply Qclt_le_weak, Qcinv_pos, Qc_of_Z_msPerHour_pos.
Qed.

Lemma hoursOfMs_nonneg (a : Z) : 0 <= a -> (0 <= hoursOfMs a)%Qc.
Proof. intros Ha. rewrite <- hoursOfMs_0. apply hoursOfMs_le. exact Ha. Qed.

(** X6.  When both times are times of day (hour below 24, minute below
    60), a successful call prices between one hour and twenty-four hours, in
    between one and twenty-four breakdown entries. *)
Theorem priced_within_a_day
    (rules : PricingRules) (bookingDate : BookingDateArg)
    (startTime endTime : TimeStr) (r : PriceResult) :
  wellFormedTime startTime -> wellFormedTime endTime ->
  snd (calculateBookingPrice rules bookingDate startTime endTime) = Ok r ->
  (Qc_of_Z 1 <= totalHours r)%Qc /\ (totalHours r <= Qc_of_Z 24)%Qc
  /\ (1 <= length (breakdown r) <= 24)%nat.
Proof.
  intros Hst Het Hok.
  pose proof (resolvedMinutes_range _ _ Hst Het) as Hrange.
  apply calculateBookingPrice_Ok_inv in Hok as [slots Hrun].
  apply priceWalk_Ok_inv in Hrun as (Hvalid & Hwalk & ->).
  cbn [totalHours breakdown].
  pose proof (startDateTime_le_endDateTime bookingDate _ _ Hvalid) as Hle.
  pose proof (Walk_length _ _ _ _ Hwalk Hle) as Hlen.
  pose proof (totalMilliseconds_resolved bookingDate startTime endTime) as Htot.
  unfold getTime in Htot. rewrite Htot in Hlen.
  unfold durationValid in Hvalid. apply andb_prop in Hvalid as [Hmin _].
  apply Z.leb_le in Hmin.
  split; [| split].
  - rewrite <- (hoursOfMs_hours 1). apply hoursOfMs_le.
    unfold msPerMinute, msPerHour. lia.
  - rewrite <- (hoursOfMs_hours 24). apply hoursOfMs_le.
    unfold msPerMinute, msPerHour. lia.
  - rewrite length_map. unfold msPerMinute, msPerHour in Hlen.
    split; apply Nat2Z.inj_le; rewrite Hlen; Z.div_mod_to_equations; lia.
Qed.

Lemma wellFormedTime_17_30 : wellFormedTime (HHMM 17 30).
Proof. unfold wellFormedTime. cbn [hh mm]. lia. Qed.

Lemma wellFormedTime_19_00 : wellFormedTime (HHMM 19 0).
Proof. unfold wellFormedTime. cbn [hh mm]. lia. Qed.

(** Witness of X6: Thursday 17:30 to 19:00 under the default rules. *)
Lemma priced_within_a_day_witness :
  wellFormedTime (HHMM 17 30) /\ wellFormedTime (HHMM 19 0)
  /\ snd (calculateBookingPrice defaultRules (DateString thursday)
            (HHMM 17 30) (HHMM 19 0))
     = Ok thursdayEveningResult
  /\ (Qc_of_Z 1 <= totalHours thursdayEveningResult)%Qc
  /\ (totalHours thursdayEveningResult <= Qc_of_Z 24)%Qc
  /\ (1 <= length (breakdown thursdayEveningResult) <= 24)%nat.
Proof.
  split; [exact wellFormedTime_17_30 | split; [exact wellFormedTime_19_00 |]].
  split; [exact thursday_evening_run |].
  exact (priced_within_a_day defaultRules (DateString thursday) (HHMM 17 30) (HHMM 19 0)
           thursdayEveningResult wellFormedTime_17_30 wellFormedTime_19_00
           thursday_evening_run).
Defined.

(** On exact values, an end time equal to the start time is read as the
    same time on the following day: with a complete table the call succeeds
    and prices twenty-four hours in twenty-four entries. *)
Lemma same_time_is_full_day
    (rules : PricingRules) (bookingDate : BookingDateArg) (t : TimeStr) :
  completeTable rules ->
  exists r,
    snd (calculateBookingPrice rules bookingDate t t) = Ok r
    /\ totalHours r = Qc_of_Z 24
    /\ length (breakdown r) = 24%nat.
Proof.
  intros Hcomplete.
  assert (Hvalid : durationValid t t = true).
  { unfold durationValid. rewrite resolvedMinutes_same. reflexivity. }
  destruct (complete_table_priceWalk rules bookingDate t t Hcomplete Hvalid)
    as (slots & r & Hrun).
  exists r. split; [exact (calculateBookingPrice_of_priceWalk _ _ _ _ _ _ Hrun) |].
  apply priceWalk_Ok_inv in Hrun as (_ & Hwalk & ->).
  cbn [totalHours breakdown].
  pose proof (startDateTime_le_endDateTime bookingDate _ _ Hvalid) as Hle.
  pose proof (Walk_length _ _ _ _ Hwalk Hle) as Hlen.
  pose proof (totalMilliseconds_resolved bookingDate t t) as Htot.
  unfold getTime in Htot. rewrite Htot, resolvedMinutes_same in Hlen.
  rewrite resolvedMinutes_same. split.
  - exact (hoursOfMs_hours 24).
  - rewrite length_map. apply Nat2Z.inj. rewrite Hlen. reflexivity.
Qed.

(** ** Bounds on the price *)

Lemma getPrice_within rules lo hi d h p :
  ratesWithin rules lo hi ->
  getPrice rules d h = Ok p ->
  (lo <= price p)%Qc /\ (price p <= hi)%Qc.
Proof.
  intros (Hlo & Hhi & Hrules) Hp.
  destruct (getPrice_source _ _ _ _ Hp) as [(-> & _) | (rule & Hin & Hact & _ & _ & <-)].
  - auto.
  - apply Hrules; assumption.
Qed.

Lemma Walk_price_bounds rules lo hi endDateTime cur slots :
  ratesWithin rules lo hi ->
  Walk rules endDateTime cur slots ->
  (lo * Qcsum (slotDuration <$> slots) <= Qcsum (slotPrice <$> slots))%Qc
  /\ (Qcsum (slotPrice <$> slots) <= hi * Qcsum (slotDuration <$> slots))%Qc.
Proof.
  intros Hrates. induction 1 as [cur Hge | cur p rest Hlt Hp Hwalk IH].
  - rewrite !fmap_nil, !Qcsum_nil, !Qcmult_0_r. split; apply Qcle_refl.
  - rewrite !fmap_cons, !Qcsum_cons. cbn [passAt slotDuration slotPrice].
    destruct IH as [IHlo IHhi].
    destruct (getPrice_within _ _ _ _ _ _ Hrates Hp) as [Hplo Hphi].
    assert (Hdur : (0 <= hoursOfMs (Z.min (cur + msPerHour) endDateTime - cur))%Qc).
    { apply hoursOfMs_nonneg. unfold msPerHour. lia. }
    rewrite !Qcmult_plus_distr_r. split.
    + apply Qcplus_le_compat; [| exact IHlo].
      apply Qcmult_le_compat_r; assumption.
    + apply Qcplus_le_compat; [| exact IHhi].
      apply Qcmult_le_compat_r; assumption.
Qed.

Lemma priceWalk_price_bounds rules lo hi bookingDate startTime endTime slots r :
  ratesWithin rules lo hi ->
  priceWalk rules bookingDate startTime endTime = Ok (slots, r) ->
  (lo * totalHours r <= finalPrice r)%Qc /\ (finalPrice r <= hi * totalHours r)%Qc.
Proof.
  intros Hrates Hrun.
  apply priceWalk_Ok_inv in Hrun as (Hvalid & Hwalk & ->).
  cbn [totalHours finalPrice].
  pose proof (startDateTime_le_endDateTime bookingDate _ _ Hvalid) as Hle.
  pose proof (Walk_durations _ _ _ _ Hwalk Hle) as Hdur.
  pose proof (totalMilliseconds_resolved bookingDate startTime endTime) as Htot.
  unfold getTime in Htot. rewrite Htot in Hdur.
  rewrite <- Hdur. eapply Walk_price_bounds; eassumption.
Qed.

(** On exact values, when the override rate 110 and the rate of every
    active rule lie between [lo] and [hi], the final price of a successful
    call lies between [lo] and [hi] times the hours booked. *)
Lemma final_price_bounds
    (rules : PricingRules) (lo hi : Qc) (bookingDate : BookingDateArg)
    (startTime endTime : TimeStr) (r : PriceResult) :
  ratesWithin rules lo hi ->
  snd (calculateBookingPrice rules bookingDate startTime endTime) = Ok r ->
  (lo * totalHours r <= finalPrice r)%Qc /\ (finalPrice r <= hi * totalHours r)%Qc.
Proof.
  intros Hrates Hok. apply calculateBookingPrice_Ok_inv in Hok as [slots Hrun].
  exact (priceWalk_price_bounds _ _ _ _ _ _ _ _ Hrates Hrun).
Qed.

Lemma defaultRules_within : ratesWithin defaultRules (Qc_of_Z 80) (Qc_of_Z 135).
Proof.
  split; [| split].
  - apply (proj1 (Z2Qc_inj_le _ _)). lia.
  - apply (proj1 (Z2Qc_inj_le _ _)). lia.
  - intros rule Hin _. cbn in Hin.
    destruct Hin as [<- | [<- | [<- | [<- | []]]]]; cbn [pricePerHour];
      split; apply (proj1 (Z2Qc_inj_le _ _)); lia.
Qed.

(** ** The booking date counts by its day of the week *)

Lemma getHours_weeks d k : getHours (d + weeks k) = getHours d.
Proof. unfold weeks. date_lia. Qed.

Lemma getMinutes_weeks d k : getMinutes (d + weeks k) = getMinutes d.
Proof. unfold weeks. date_lia. Qed.

Lemma getDay_weeks d k : getDay (d + weeks k) = getDay d.
Proof. unfold weeks. date_lia. Qed.

Lemma getEffectiveDate_weeks d k :
  getEffectiveDate (d + weeks k) = getEffectiveDate d + weeks k.
Proof.
  unfold getEffectiveDate. cbv zeta. rewrite getHours_weeks.
  destruct (_ && _); [unfold addDays; lia | reflexivity].
Qed.

Lemma getPrice_weeks rules d k h :
  getPrice rules (d + weeks k) h = getPrice rules d h.
Proof.
  unfold getPrice, isSaturdayNight, getDayType, isWeekend, getDayOfWeek. cbv zeta.
  rewrite getEffectiveDate_weeks, getDay_weeks. reflexivity.
Qed.

Lemma hourLabel_weeks c e k :
  hourLabel (c + weeks k) (e + weeks k) = hourLabel c e.
Proof.
  unfold hourLabel. cbv zeta.
  rewrite !getHours_weeks, !getMinutes_weeks. reflexivity.
Qed.

(** The loop entered a whole number of weeks later makes the same passes,
    that many weeks later. *)
Lemma priceLoop_weeks rules k fuel :
  forall endDateTime currentTime slots totalPrice,
    priceLoop fuel rules (endDateTime + weeks k) (currentTime + weeks k)
              (shiftSlot (weeks k) <$> slots) totalPrice
    = match priceLoop fuel rules endDateTime currentTime slots totalPrice with
      | Ok (slots', total) => Ok (shiftSlot (weeks k) <$> slots', total)
      | Throw e => Throw e
      | OutOfFuel => OutOfFuel
      end.
Proof.
  induction fuel as [| fuel IH]; intros e cur slots tp; [reflexivity |].
  cbn [priceLoop]. cbv zeta.
  rewrite getHours_weeks, getPrice_weeks, !setHours_next_hour.
  replace (cur + weeks k <? e + weeks k) with (cur <? e)
    by (destruct (Z.ltb_spec cur e), (Z.ltb_spec (cur + weeks k) (e + weeks k));
        try reflexivity; lia).
  destruct (cur <? e); [| reflexivity].
  rewrite <- getHours_weeks with (k := k), setHours_next_hour.
  rewrite getHours_weeks.
  replace (cur + weeks k + msPerHour >? e + weeks k) with (cur + msPerHour >? e)
    by (destruct (Z.gtb_spec (cur + msPerHour) e),
          (Z.gtb_spec (cur + weeks k + msPerHour) (e + weeks k));
        try reflexivity; lia).
  destruct (getPrice rules cur (getHours cur)) as [p | err |]; try reflexivity.
  destruct (cur + msPerHour >? e).
  - rewrite hourLabel_weeks.
    replace (getTime (e + weeks k) - getTime (cur + weeks k))
      with (getTime e - getTime cur) by (unfold getTime; lia).
    rewrite <- IH. f_equal. rewrite fmap_app. reflexivity.
  - replace (cur + weeks k + msPerHour) with (cur + msPerHour + weeks k) by lia.
    rewrite hourLabel_weeks.
    replace (getTime (cur + msPerHour + weeks k) - getTime (cur + weeks k))
      with (getTime (cur + msPerHour) - getTime cur) by (unfold getTime; lia).
    rewrite <- IH. f_equal. rewrite fmap_app. reflexivity.
Qed.

Lemma same_weekday_weeks bookingDate bookingDate' :
  getDay (dateOf bookingDate) = getDay (dateOf bookingDate') ->
  exists k, dayNumber bookingDate' = dayNumber bookingDate + k * 7.
Proof.
  rewrite !getDay_dayNumber. intros Hday.
  exists ((dayNumber bookingDate' - dayNumber bookingDate) / 7).
  Z.div_mod_to_equations. lia.
Qed.

Lemma instant_weeks n k h m : instant (n + k * 7) h m = instant n h m + weeks k.
Proof. unfold instant, weeks. lia. Qed.



(** ** The outcomes of a call *)

(** X10.  Every call ends, and in one of four ways: it returns a result, or
    it throws the minimum-duration error, the thirty-minute-increments
    error, or the rule-not-found error for a classification that has no
    active rule in the table.  It throws nothing else and never loops. *)
Theorem calculateBookingPrice_outcomes
    (rules : PricingRules) (bookingDate : BookingDateArg) (startTime endTime : TimeStr) :
  pricingOutcome rules (snd (calculateBookingPrice rules bookingDate startTime endTime)).
Proof.
  pose proof (calculateBookingPrice_terminates rules bookingDate startTime endTime)
    as Hterm.
  rewrite calculateBookingPrice_snd, priceWalk_cases in *.
  unfold pricingOutcome.
  destruct (_ <? 60); [right; left; reflexivity |].
  destruct (negb _); [right; right; left; reflexivity |].
  destruct (priceLoop _ _ _ _ _ _) as [[slots tp] | e |] eqn:Hloop.
  - left. eauto.
  - right. right. right.
    apply priceLoop_Throw_inv in Hloop as (dt & ts & -> & Hnone). eauto.
  - congruence.
Qed.

(* ================================================================== *)
(** * Further properties of the booking controller *)

(** ** Stored bookings *)

Lemma evolves_refl b : evolves b b.
Proof. unfold evolves, sameReservation. repeat split; reflexivity. Qed.

Lemma evolves_trans b1 b2 b3 : evolves b1 b2 -> evolves b2 b3 -> evolves b1 b3.
Proof.
  unfold evolves, sameReservation, terminal.
  intros [Hs12 Ht12] [Hs23 Ht23]. split.
  - repeat split; etrans; try apply Hs23; apply Hs12.
  - intros Hterm. rewrite <- (Ht12 Hterm). apply Ht23. rewrite (Ht12 Hterm). exact Hterm.
Qed.

Lemma bookingsStep_kept db db' : bookingsStep db db' -> bookingsKept db db'.
Proof.
  intros [Heq | [(id0 & doc & Hfresh & Heq & _) | (id0 & b0 & doc & Hb0 & Heq & Hev)]]
    id b Hb; rewrite Heq.
  - exists b. split; [exact Hb | apply evolves_refl].
  - exists b. split; [| apply evolves_refl].
    rewrite lookup_insert_ne; [exact Hb |].
    intros ->. apply Hfresh. apply elem_of_dom. eauto.
  - destruct (decide (id0 = id)) as [-> | Hne].
    + exists doc. rewrite lookup_insert_eq. split; [reflexivity |]. congruence.
    + exists b. rewrite lookup_insert_ne by exact Hne.
      split; [exact Hb | apply evolves_refl].
Qed.

Lemma bookingsKept_refl db : bookingsKept db db.
Proof. intros id b Hb. exists b. split; [exact Hb | apply evolves_refl]. Qed.

Lemma bookingsKept_trans db1 db2 db3 :
  bookingsKept db1 db2 -> bookingsKept db2 db3 -> bookingsKept db1 db3.
Proof.
  intros H12 H23 id b Hb.
  destruct (H12 id b Hb) as (b2 & Hb2 & Hev2).
  destruct (H23 id b2 Hb2) as (b3 & Hb3 & Hev3).
  exists b3. split; [exact Hb3 | eapply evolves_trans; eassumption].
Qed.

Lemma evolves_set_notes v b : evolves b (Booking.set_notes v b).
Proof. unfold evolves, sameReservation. repeat split; reflexivity. Qed.

Lemma evolves_set_payment ap ps pm pr b : evolves b (Booking.set_payment ap ps pm pr b).
Proof. unfold evolves, sameReservation. repeat split; reflexivity. Qed.

Lemma evolves_set_status v b :
  ~ terminal (Booking.status b) -> evolves b (Booking.set_status v b).
Proof.
  intros Hactive. unfold evolves, sameReservation.
  repeat split; try reflexivity. intros Hterm. contradiction.
Qed.

Lemma createBooking_bookingsStep ext body db :
  post (createBooking ext body) db (fun db' o => bookingsStep db db').
Proof.
  wp; try (left; reflexivity).
  all: right; left; eexists _, _; split; [apply is_fresh | split; [reflexivity |]].
  all: unfold priceConsistent; cbn; repeat split; try reflexivity; discriminate.
Qed.

Lemma createManualBooking_bookingsStep ext body db :
  post (createManualBooking ext body) db (fun db' o => bookingsStep db db').
Proof.
  wp; try (left; reflexivity).
  all: right; left; eexists _, _; split; [apply is_fresh | split; [reflexivity |]].
  all: simplify_eq.
  all: unfold priceConsistent; cbn; repeat split; try reflexivity; try discriminate.
Qed.

Lemma updateBookingStatus_bookingsStep ext id body db :
  post (updateBookingStatus ext id body) db (fun db' o => bookingsStep db db').
Proof.
  wp; try (left; reflexivity).
  all: right; right; eexists _, _, _; split; [eassumption |]; split; [reflexivity |].
  all: repeat case_bool_decide; try discriminate.
  all: destruct (truthy (UpdateBookingStatusDTO.notes body)).
  all: try (eapply evolves_trans; [| apply evolves_set_notes]).
  all: apply evolves_set_status; unfold terminal; intros [? | ?]; congruence.
Qed.

Lemma updatePayment_bookingsStep ext id body db :
  post (updatePayment ext id body) db (fun db' o => bookingsStep db db').
Proof.
  wp; try (left; reflexivity).
  all: right; right; eexists _, _, _; split; [eassumption |]; split; [reflexivity |].
  all: repeat case_match; try apply evolves_set_payment.
  all: eapply evolves_trans; [apply evolves_set_payment |].
  all: apply evolves_set_status; unfold terminal; cbn [Booking.set_payment Booking.status].
  all: match goal with
       | H : bool_decide _ = true |- _ =>
           apply bool_decide_eq_true in H; cbn [Booking.set_payment Booking.status] in H
       end.
  all: intros [? | ?]; congruence.
Qed.

Lemma updateBooking_bookingsStep ext id notes db :
  post (updateBooking ext id notes) db (fun db' o => bookingsStep db db').
Proof.
  wp; try (left; reflexivity).
  all: right; right; eexists _, _, _; split; [eassumption |]; split; [reflexivity |].
  all: repeat case_match; first [apply evolves_set_notes | apply evolves_refl].
Qed.

Lemma cancelBooking_bookingsStep ext id reason db :
  post (cancelBooking ext id reason) db (fun db' o => bookingsStep db db').
Proof.
  wp; try (left; reflexivity).
  all: right; right; eexists _, _, _; split; [eassumption |]; split; [reflexivity |].
  all: repeat case_bool_decide; try discriminate.
  all: unfold markCancelled; cbv zeta; destruct (truthy reason).
  all: try (eapply evolves_trans; [| apply evolves_set_notes]).
  all: apply evolves_set_status; unfold terminal; intros [? | ?]; congruence.
Qed.

Lemma createCourt_bookings ext body file db :
  post (createCourt ext body file) db (fun db' o => bookings db' = bookings db).
Proof. wp; reflexivity. Qed.

Lemma updateCourt_bookings ext id body db :
  post (updateCourt ext id body) db (fun db' o => bookings db' = bookings db).
Proof. wp; reflexivity. Qed.

Lemma deleteCourt_bookings id db :
  post (deleteCourt id) db (fun db' o => bookings db' = bookings db).
Proof. wp; reflexivity. Qed.

Lemma toggleCourtStatus_bookings id status db :
  post (toggleCourtStatus id status) db (fun db' o => bookings db' = bookings db).
Proof. wp; reflexivity. Qed.

Lemma serve_bookingsStep ext req db : bookingsStep db (serve ext req db).
Proof.
  destruct req; cbn [serve].
  - left. apply (createCourt_bookings ext body file db).
  - left. apply (updateCourt_bookings ext id body db).
  - left. apply (deleteCourt_bookings id db).
  - left. apply (toggleCourtStatus_bookings id status db).
  - apply (createBooking_bookingsStep ext body db).
  - apply (createManualBooking_bookingsStep ext body db).
  - apply (updateBookingStatus_bookingsStep ext id body db).
  - apply (updatePayment_bookingsStep ext id body db).
  - apply (updateBooking_bookingsStep ext id notes db).
  - apply (cancelBooking_bookingsStep ext id reason db).
  - left. apply (calculatePrice_reads_only bookingDate startTime endTime db).
Qed.

Lemma serve_bookingsKept ext req db : bookingsKept db (serve ext req db).
Proof. apply bookingsStep_kept, serve_bookingsStep. Qed.

Lemma serveAll_bookingsKept ext reqs : forall db, bookingsKept db (serveAll ext reqs db).
Proof.
  induction reqs as [| req reqs IH]; intros db; [apply bookingsKept_refl |].
  eapply bookingsKept_trans; [apply (serve_bookingsKept ext req) | apply IH].
Qed.




(** ** Prices and customers that stay *)

Lemma evolves_priceConsistent b b' :
  evolves b b' -> priceConsistent b -> priceConsistent b'.
Proof.
  unfold evolves, sameReservation, priceConsistent.
  intros ((Hcust & _ & _ & _ & _ & _ & Htotal & Hbreak & Hdisc & Hfinal & _) & _)
         (Hfin & Hd & Hfree).
  rewrite Hcust, Htotal, Hbreak, Hdisc, Hfinal. auto.
Qed.

Lemma bookingsStep_consistent db db' :
  bookingsStep db db' -> pricesConsistent db -> pricesConsistent db'.
Proof.
  intros [Heq | [(id0 & doc & _ & Heq & Hdoc) | (id0 & b0 & doc & Hb0 & Heq & Hev)]]
    Hok id b; rewrite Heq.
  - apply Hok.
  - destruct (decide (id0 = id)) as [-> | Hne].
    + rewrite lookup_insert_eq. intros [= <-]. exact Hdoc.
    + rewrite lookup_insert_ne by exact Hne. apply Hok.
  - destruct (decide (id0 = id)) as [-> | Hne].
    + rewrite lookup_insert_eq. intros [= <-].
      eapply evolves_priceConsistent; [exact Hev | exact (Hok _ _ Hb0)].
    + rewrite lookup_insert_ne by exact Hne. apply Hok.
Qed.

(** X12.  No discount is ever applied and blocked slots are free: if in
    every stored booking the final price is the total price, the discount is
    0 and a booking without customer has total price 0 and an empty
    breakdown, then the same holds after any sequence of requests, of the
    bookings they create as of those they update. *)
Theorem stored_prices_stay_consistent
    (ext : Externals) (reqs : list Request) (db : Db) :
  pricesConsistent db -> pricesConsistent (serveAll ext reqs db).
Proof.
  revert db. induction reqs as [| req reqs IH]; intros db Hok; [exact Hok |].
  apply IH. exact (bookingsStep_consistent _ _ (serve_bookingsStep ext req db) Hok).
Qed.

Lemma sampleDb_pricesConsistent : pricesConsistent sampleDb.
Proof.
  intros id b Hb. unfold sampleDb in Hb. cbn [bookings] in Hb.
  apply lookup_singleton_Some in Hb as [_ <-].
  unfold priceConsistent, pendingBooking. cbn. repeat split; discriminate.
Qed.

(** Witness of X12: a slot is blocked and a customer booking is made on the
    sample database. *)
Lemma stored_prices_stay_consistent_witness :
  pricesConsistent sampleDb
  /\ pricesConsistent
       (serveAll sampleExt
          [ ReqCreateManualBooking blockRequest; ReqCreateBooking bookRequest ]
          sampleDb).
Proof.
  split; [exact sampleDb_pricesConsistent |].
  exact (stored_prices_stay_consistent sampleExt
           [ ReqCreateManualBooking blockRequest; ReqCreateBooking bookRequest ]
           sampleDb sampleDb_pricesConsistent).
Defined.

Lemma grows_refl c : grows c c.
Proof. unfold grows. repeat split; lia. Qed.

Lemma customersKept_refl m : customersKept m m.
Proof. intros cid c Hc. exists c. split; [exact Hc | apply grows_refl]. Qed.

Lemma customersKept_trans m1 m2 m3 :
  customersKept m1 m2 -> customersKept m2 m3 -> customersKept m1 m3.
Proof.
  intros H12 H23 cid c Hc.
  destruct (H12 cid c Hc) as (c2 & Hc2 & (Hn2 & Hp2 & He2 & Ht2)).
  destruct (H23 cid c2 Hc2) as (c3 & Hc3 & (Hn3 & Hp3 & He3 & Ht3)).
  exists c3. split; [exact Hc3 |]. unfold grows. repeat split; try congruence. lia.
Qed.

Lemma customersKept_insert_fresh (m : gmap ObjectId Customer.t) doc :
  customersKept m (<[fresh (dom m) := doc]> m).
Proof.
  intros cid c Hc. exists c. split; [| apply grows_refl].
  rewrite lookup_insert_ne; [exact Hc |].
  intros <-. apply (is_fresh (dom m)). apply elem_of_dom. eauto.
Qed.

Lemma customersKept_count (m : gmap ObjectId Customer.t) id :
  customersKept m (alter countBooking id m).
Proof.
  intros cid c Hc. destruct (decide (id = cid)) as [-> | Hne].
  - exists (countBooking c). rewrite lookup_alter_eq, Hc. split; [reflexivity |].
    unfold grows, countBooking. cbn. repeat split; lia.
  - exists c. rewrite lookup_alter_ne by exact Hne. split; [exact Hc | apply grows_refl].
Qed.

Ltac customers_kept :=
  db_simpl;
  first [ apply customersKept_refl
        | apply customersKept_insert_fresh
        | apply customersKept_count
        | eapply customersKept_trans;
          [apply customersKept_insert_fresh | apply customersKept_count] ].

Lemma serve_customersKept ext req db :
  customersKept (customers db) (customers (serve ext req db)).
Proof.
  destruct req; cbn [serve].
  - change (post (createCourt ext body file) db (fun db' _ =>
              customersKept (customers db) (customers db'))).
    wp; customers_kept.
  - change (post (updateCourt ext id body) db (fun db' _ =>
              customersKept (customers db) (customers db'))).
    wp; customers_kept.
  - change (post (deleteCourt id) db (fun db' _ =>
              customersKept (customers db) (customers db'))).
    wp; customers_kept.
  - change (post (toggleCourtStatus id status) db (fun db' _ =>
              customersKept (customers db) (customers db'))).
    wp; customers_kept.
  - change (post (createBooking ext body) db (fun db' _ =>
              customersKept (customers db) (customers db'))).
    wp; customers_kept.
  - change (post (createManualBooking ext body) db (fun db' _ =>
              customersKept (customers db) (customers db'))).
    wp; customers_kept.
  - change (post (updateBookingStatus ext id body) db (fun db' _ =>
              customersKept (customers db) (customers db'))).
    wp; customers_kept.
  - change (post (updatePayment ext id body) db (fun db' _ =>
              customersKept (customers db) (customers db'))).
    wp; customers_kept.
  - change (post (updateBooking ext id notes) db (fun db' _ =>
              customersKept (customers db) (customers db'))).
    wp; customers_kept.
  - change (post (cancelBooking ext id reason) db (fun db' _ =>
              customersKept (customers db) (customers db'))).
    wp; customers_kept.
  - change (post (calculatePrice bookingDate startTime endTime) db (fun db' _ =>
              customersKept (customers db) (customers db'))).
    wp; customers_kept.
Qed.

(** X13.  The court and booking controllers and the price preview keep the
    customers, and booking counts never go down under them: after any
    sequence of requests to these handlers, served one after the other, a
    stored customer is still stored under its id with the same name, phone
    and email and with at least as many bookings counted.  None of these
    handlers deletes or renames a customer, and a cancellation does not
    take back the booking it counted.  (The routes of the customer
    controller, which can update and delete a customer, are not among
    them.) *)
Theorem customers_are_kept_and_counts_never_decrease
    (ext : Externals) (reqs : list Request) (db : Db) (cid : ObjectId) (c : Customer.t) :
  customers db !! cid = Some c ->
  exists c',
    customers (serveAll ext reqs db) !! cid = Some c'
    /\ Customer.name c' = Customer.name c
    /\ Customer.phone c' = Customer.phone c
    /\ Customer.email c' = Customer.email c
    /\ Customer.totalBookings c <= Customer.totalBookings c'.
Proof.
  assert (Hall : forall db,
             customersKept (customers db) (customers (serveAll ext reqs db))).
  { induction reqs as [| req reqs IH]; intros db0; [apply customersKept_refl |].
    eapply customersKept_trans; [apply (serve_customersKept ext req) | apply IH]. }
  intros Hc. destruct (Hall db cid c Hc) as (c' & Hc' & Hgrows).
  exists c'. split; [exact Hc' | exact Hgrows].
Qed.

(** Witness of X13: the known customer books and the booking is
    cancelled. *)
Lemma customers_are_kept_and_counts_never_decrease_witness :
  customers customerDb !! 7%N = Some knownCustomer
  /\ exists c',
       customers (serveAll sampleExt
                    [ ReqCreateBooking bookRequest; ReqCancelBooking 0%N None ]
                    customerDb) !! 7%N = Some c'
       /\ Customer.name c' = Customer.name knownCustomer
       /\ Customer.phone c' = Customer.phone knownCustomer
       /\ Customer.email c' = Customer.email knownCustomer
       /\ Customer.totalBookings knownCustomer <= Customer.totalBookings c'.
Proof.
  split; [reflexivity |].
  exact (customers_are_kept_and_counts_never_decrease sampleExt
           [ ReqCreateBooking bookRequest; ReqCancelBooking 0%N None ]
           customerDb 7%N knownCustomer eq_refl).
Defined.

(** ** Payments and status changes *)

(** X14.  [updatePayment] on a stored booking: the payment fields given
    replace the stored ones, the reservation and the notes stay, and the
    status changes in one case only, from pending to confirmed when the
    payment status given is paid or partial; any other status (a cancelled
    booking included) is kept.  The booking is stored and returned when the
    schema accepts it; otherwise its error is thrown and nothing is
    stored. *)
Theorem updatePayment_confirms_pending_only
    (ext : Externals) (id : ObjectId) (body : UpdatePaymentDTO.t) (db : Db)
    (b : Booking.t) :
  bookings db !! id = Some b ->
  let run := updatePayment ext id body db in
  let paying :=
    UpdatePaymentDTO.paymentStatus body = Some PaymentStatus.paid
    \/ UpdatePaymentDTO.paymentStatus body = Some PaymentStatus.partial in
  exists b',
    sameReservation b b'
    /\ Booking.notes b' = Booking.notes b
    /\ Booking.paymentStatus b'
       = default (Booking.paymentStatus b) (UpdatePaymentDTO.paymentStatus body)
    /\ Booking.amountPaid b'
       = default (Booking.amountPaid b) (UpdatePaymentDTO.amountPaid body)
    /\ (Booking.status b = pending -> paying -> Booking.status b' = confirmed)
    /\ (Booking.status b <> pending \/ ~ paying -> Booking.status b' = Booking.status b)
    /\ match bookingSchema ext b' with
       | None =>
           snd run = Ok (mkResponse 200 (Some b') (Some "Payment updated successfully"))
           /\ bookings (fst run) = <[id := b']> (bookings db)
       | Some e => snd run = Throw e /\ bookings (fst run) = bookings db
       end.
Proof.
  intros Hb run paying. subst run paying.
  pose (paid :=
          Booking.set_payment
            (default (Booking.amountPaid b) (UpdatePaymentDTO.amountPaid body))
            (default (Booking.paymentStatus b) (UpdatePaymentDTO.paymentStatus body))
            (if truthy (UpdatePaymentDTO.paymentMethod body)
             then UpdatePaymentDTO.paymentMethod body else Booking.paymentMethod b)
            (if truthy (UpdatePaymentDTO.paymentReference body)
             then UpdatePaymentDTO.paymentReference body
             else Booking.paymentReference b)
            b).
  set (b' := match UpdatePaymentDTO.paymentStatus body with
             | Some PaymentStatus.paid | Some PaymentStatus.partial =>
                 if bool_decide (Booking.status paid = pending)
                 then Booking.set_status confirmed paid else paid
             | _ => paid
             end).
  exists b'. split; [| split; [| split; [| split; [| split; [| split]]]]].
  - subst b' paid. unfold sameReservation.
    destruct (UpdatePaymentDTO.paymentStatus body) as [[] |];
      try case_bool_decide; repeat split; reflexivity.
  - subst b' paid.
    destruct (UpdatePaymentDTO.paymentStatus body) as [[] |];
      try case_bool_decide; reflexivity.
  - subst b' paid.
    destruct (UpdatePaymentDTO.paymentStatus body) as [[] |];
      try case_bool_decide; reflexivity.
  - subst b' paid.
    destruct (UpdatePaymentDTO.paymentStatus body) as [[] |];
      try case_bool_decide; reflexivity.
  - intros Hpending Hpaying. subst b' paid.
    destruct (UpdatePaymentDTO.paymentStatus body) as [[] |];
      try (destruct Hpaying; discriminate).
    all: rewrite bool_decide_eq_true_2 by exact Hpending; reflexivity.
  - intros Hnot. subst b' paid.
    destruct (UpdatePaymentDTO.paymentStatus body) as [[] |]; try reflexivity.
    all: case_bool_decide as Hp; [| reflexivity].
    all: cbn [Booking.set_payment Booking.status] in Hp.
    all: destruct Hnot as [Hnot | Hnot]; [congruence | exfalso; apply Hnot; auto].
  - change (post (updatePayment ext id body) db (fun db1 o =>
              match bookingSchema ext b' with
              | None =>
                  o = Ok (mkResponse 200 (Some b') (Some "Payment updated successfully"))
                  /\ bookings db1 = <[id := b']> (bookings db)
              | Some e => o = Throw e /\ bookings db1 = bookings db
              end)).
    subst b' paid. wp; simplify_eq.
    + split; reflexivity.
    + rewrite lookup_insert_eq. split; reflexivity.
Qed.

(** Witness of X14: the pending booking of the sample database is paid in
    full. *)
Lemma updatePayment_confirms_pending_only_witness :
  bookings sampleDb !! 1%N = Some pendingBooking
  /\ let run := updatePayment sampleExt 1%N paidInFull sampleDb in
     let paying :=
       UpdatePaymentDTO.paymentStatus paidInFull = Some PaymentStatus.paid
       \/ UpdatePaymentDTO.paymentStatus paidInFull = Some PaymentStatus.partial in
     exists b',
       sameReservation pendingBooking b'
       /\ Booking.notes b' = Booking.notes pendingBooking
       /\ Booking.paymentStatus b'
          = default (Booking.paymentStatus pendingBooking)
                    (UpdatePaymentDTO.paymentStatus paidInFull)
       /\ Booking.amountPaid b'
          = default (Booking.amountPaid pendingBooking)
                    (UpdatePaymentDTO.amountPaid paidInFull)
       /\ (Booking.status pendingBooking = pending -> paying ->
           Booking.status b' = confirmed)
       /\ (Booking.status pendingBooking <> pending \/ ~ paying ->
           Booking.status b' = Booking.status pendingBooking)
       /\ match bookingSchema sampleExt b' with
          | None =>
              snd run
              = Ok (mkResponse 200 (Some b') (Some "Payment updated successfully"))
              /\ bookings (fst run) = <[1%N := b']> (bookings sampleDb)
          | Some e => snd run = Throw e /\ bookings (fst run) = bookings sampleDb
          end.
Proof.
  split; [reflexivity |].
  exact (updatePayment_confirms_pending_only sampleExt 1%N paidInFull sampleDb
           pendingBooking eq_refl).
Defined.

Lemma customerByPhone_Some db phone cid c :
  customerByPhone db phone = Some (cid, c) ->
  customers db !! cid = Some c /\ Some (Customer.phone c) = phone.
Proof.
  unfold customerByPhone. intros Hfind. apply find_some in Hfind as [Hin Hb].
  apply bool_decide_eq_true in Hb. split; [| exact Hb].
  apply elem_of_map_to_list. apply list_elem_of_In. exact Hin.
Qed.

(** X15.  [updateBookingStatus] on a stored booking that is neither
    cancelled nor completed takes any status asked for, whatever the current
    one is: the booking with that status (same reservation, same payment) is
    stored and returned when the schema accepts it; otherwise the schema's
    error is thrown and nothing is stored. *)
Theorem updateBookingStatus_sets_any_status
    (ext : Externals) (id : ObjectId) (body : UpdateBookingStatusDTO.t) (db : Db)
    (b : Booking.t) (s : BookingStatus) :
  bookings db !! id = Some b ->
  Booking.status b <> cancelled -> Booking.status b <> completed ->
  UpdateBookingStatusDTO.status body = Some s ->
  let run := updateBookingStatus ext id body db in
  exists b',
    Booking.status b' = s
    /\ sameReservation b b'
    /\ Booking.paymentStatus b' = Booking.paymentStatus b
    /\ Booking.amountPaid b' = Booking.amountPaid b
    /\ match bookingSchema ext b' with
       | None =>
           snd run
           = Ok (mkResponse 200 (Some b') (Some "Booking status updated successfully"))
           /\ bookings (fst run) = <[id := b']> (bookings db)
       | Some e => snd run = Throw e /\ bookings (fst run) = bookings db
       end.
Proof.
  intros Hb Hc1 Hc2 Hs run. subst run.
  pose (b' := if truthy (UpdateBookingStatusDTO.notes body)
              then Booking.set_notes (UpdateBookingStatusDTO.notes body)
                     (Booking.set_status s b)
              else Booking.set_status s b).
  exists b'. split; [| split; [| split; [| split]]].
  - subst b'. destruct (truthy _); reflexivity.
  - subst b'. unfold sameReservation. destruct (truthy _); repeat split; reflexivity.
  - subst b'. destruct (truthy _); reflexivity.
  - subst b'. destruct (truthy _); reflexivity.
  - change (post (updateBookingStatus ext id body) db (fun db1 o =>
              match bookingSchema ext b' with
              | None =>
                  o = Ok (mkResponse 200 (Some b')
                            (Some "Booking status updated successfully"))
                  /\ bookings db1 = <[id := b']> (bookings db)
              | Some e => o = Throw e /\ bookings db1 = bookings db
              end)).
    subst b'. wp; simplify_eq.
    all: repeat case_bool_decide; try congruence.
    + split; reflexivity.
    + rewrite lookup_insert_eq. split; reflexivity.
Qed.

(** Witness of X15: the pending booking of the sample database is set to
    blocked. *)
Lemma updateBookingStatus_sets_any_status_witness :
  bookings sampleDb !! 1%N = Some pendingBooking
  /\ Booking.status pendingBooking <> cancelled
  /\ Booking.status pendingBooking <> completed
  /\ let body := UpdateBookingStatusDTO.mk (Some blocked) None in
     let run := updateBookingStatus sampleExt 1%N body sampleDb in
     exists b',
       Booking.status b' = blocked
       /\ sameReservation pendingBooking b'
       /\ Booking.paymentStatus b' = Booking.paymentStatus pendingBooking
       /\ Booking.amountPaid b' = Booking.amountPaid pendingBooking
       /\ match bookingSchema sampleExt b' with
          | None =>
              snd run
              = Ok (mkResponse 200 (Some b')
                      (Some "Booking status updated successfully"))
              /\ bookings (fst run) = <[1%N := b']> (bookings sampleDb)
          | Some e => snd run = Throw e /\ bookings (fst run) = bookings sampleDb
          end.
Proof.
  split; [reflexivity |].
  split; [discriminate |]. split; [discriminate |].
  exact (updateBookingStatus_sets_any_status sampleExt 1%N
           (UpdateBookingStatusDTO.mk (Some blocked) None) sampleDb pendingBooking
           blocked eq_refl ltac:(discriminate) ltac:(discriminate) eq_refl).
Defined.

(** ** Customer bookings *)

Lemma createBooking_success_post ext body db :
  post (createBooking ext body) db (fun db' o =>
    forall resp, o = Ok resp ->
      exists courtId bookingDate startTime endTime court r cid c id doc,
        CreateBookingDTO.courtId body = Some courtId
        /\ CreateBookingDTO.bookingDate body = Some bookingDate
        /\ CreateBookingDTO.startTime body = Some startTime
        /\ CreateBookingDTO.endTime body = Some endTime
        /\ courts db !! courtId = Some court
        /\ Court.status court <> inactive
        /\ validateBookingTime ext startTime endTime
             (setHours4 (dateOf bookingDate) 0 0 0 0) = None
        /\ checkAvailability ext (bookings db) courtId
             (setHours4 (dateOf bookingDate) 0 0 0 0) startTime endTime = Ok true
        /\ customerFor ext db (CreateBookingDTO.customerName body)
             (CreateBookingDTO.customerPhone body)
             (CreateBookingDTO.customerEmail body) cid c
        /\ snd (calculateBookingPrice (pricingRules db) bookingDate startTime endTime)
           = Ok r
        /\ doc = Booking.mk (Some cid) courtId (setHours4 (dateOf bookingDate) 0 0 0 0)
                   startTime endTime (calculateDuration ext startTime endTime)
                   (finalPrice r) (breakdown r) 0%Qc (finalPrice r)
                   PaymentStatus.pending 0%Qc pending (CreateBookingDTO.notes body)
                   byCustomer None None
        /\ bookingSchema ext doc = None
        /\ (id ∉ dom (bookings db))
        /\ bookings db' = <[id := doc]> (bookings db)
        /\ customers db' = <[cid := countBooking c]> (customers db)
        /\ resp = mkResponse 201 (Some doc) (Some "Booking created successfully")).
Proof.
  wp; try (intros resp [=]); simplify_eq.
  all: repeat case_bool_decide; try discriminate.
  all: match goal with
       | H : negb ?a = false |- _ => apply negb_false_iff in H; subst a
       end.
  - match goal with
    | H : find _ _ = Some ?p |- _ =>
        destruct p as [cid c]; pose proof (customerByPhone_Some db _ cid c H) as [Hc _]
    end.
    eexists _, _, _, _, _, _, cid, c, _, _.
    repeat (split; [first [eassumption | reflexivity] |]).
    split; [left; eassumption |].
    repeat (split; [first [eassumption | reflexivity | apply is_fresh] |]).
    cbn [fst snd]. db_simpl. split.
    + apply map_eq. intros i. destruct (decide (i = cid)) as [-> | Hne].
      * rewrite lookup_alter_eq, lookup_insert_eq, Hc. reflexivity.
      * rewrite lookup_alter_ne, lookup_insert_ne by congruence. reflexivity.
    + rewrite lookup_insert_eq. reflexivity.
  - eexists _, _, _, _, _, _, _, _, _, _.
    repeat (split; [first [eassumption | reflexivity] |]).
    split; [right; split; [eassumption | split; [apply is_fresh | eassumption]] |].
    repeat (split; [first [eassumption | reflexivity | apply is_fresh] |]).
    cbn [fst snd]. db_simpl. split.
    + apply map_eq. intros i.
      destruct (decide (i = fresh (dom (customers db)))) as [-> | Hne].
      * rewrite lookup_alter_eq, !lookup_insert_eq. reflexivity.
      * rewrite lookup_alter_ne, !lookup_insert_ne by congruence. reflexivity.
    + rewrite lookup_insert_eq. reflexivity.
Qed.

(** X16.  A customer booking that succeeds: the required fields were
    given, the court exists and is not inactive, the booking service
    accepted the times and found the slot available, and the pricing
    service priced the request as given.  Exactly one booking was stored,
    under a new id: pending, unpaid, made by the customer, for the customer
    found by phone or created from the request, on the booking date at
    midnight, with the final price of the pricing service as total and final
    price and its breakdown.  That customer's booking count went up by one,
    and the response is 201 with the booking. *)
Theorem createBooking_success
    (ext : Externals) (body : CreateBookingDTO.t) (db : Db)
    (resp : Response (option Booking.t)) :
  snd (createBooking ext body db) = Ok resp ->
  exists courtId bookingDate startTime endTime court r cid c id doc,
    CreateBookingDTO.courtId body = Some courtId
    /\ CreateBookingDTO.bookingDate body = Some bookingDate
    /\ CreateBookingDTO.startTime body = Some startTime
    /\ CreateBookingDTO.endTime body = Some endTime
    /\ courts db !! courtId = Some court
    /\ Court.status court <> inactive
    /\ validateBookingTime ext startTime endTime
         (setHours4 (dateOf bookingDate) 0 0 0 0) = None
    /\ checkAvailability ext (bookings db) courtId
         (setHours4 (dateOf bookingDate) 0 0 0 0) startTime endTime = Ok true
    /\ customerFor ext db (CreateBookingDTO.customerName body)
         (CreateBookingDTO.customerPhone body)
         (CreateBookingDTO.customerEmail body) cid c
    /\ snd (calculateBookingPrice (pricingRules db) bookingDate startTime endTime)
       = Ok r
    /\ doc = Booking.mk (Some cid) courtId (setHours4 (dateOf bookingDate) 0 0 0 0)
               startTime endTime (calculateDuration ext startTime endTime)
               (finalPrice r) (breakdown r) 0%Qc (finalPrice r)
               PaymentStatus.pending 0%Qc pending (CreateBookingDTO.notes body)
               byCustomer None None
    /\ bookingSchema ext doc = None
    /\ (id ∉ dom (bookings db))
    /\ bookings (fst (createBooking ext body db)) = <[id := doc]> (bookings db)
    /\ customers (fst (createBooking ext body db))
       = <[cid := countBooking c]> (customers db)
    /\ resp = mkResponse 201 (Some doc) (Some "Booking created successfully").
Proof.
  intros Hrun. exact (createBooking_success_post ext body db resp Hrun).
Qed.

Lemma bookRequest_run :
  exists resp, snd (createBooking sampleExt bookRequest sampleDb) = Ok resp.
Proof. eexists. vm_compute. reflexivity. Qed.

(** Witness of X16: court 1 of the sample database is booked on Thursday
    17:30 to 19:00 by a new customer. *)
Lemma createBooking_success_witness :
  exists resp,
    snd (createBooking sampleExt bookRequest sampleDb) = Ok resp
    /\ exists courtId bookingDate startTime endTime court r cid c id doc,
         CreateBookingDTO.courtId bookRequest = Some courtId
         /\ CreateBookingDTO.bookingDate bookRequest = Some bookingDate
         /\ CreateBookingDTO.startTime bookRequest = Some startTime
         /\ CreateBookingDTO.endTime bookRequest = Some endTime
         /\ courts sampleDb !! courtId = Some court
         /\ Court.status court <> inactive
         /\ validateBookingTime sampleExt startTime endTime
              (setHours4 (dateOf bookingDate) 0 0 0 0) = None
         /\ checkAvailability sampleExt (bookings sampleDb) courtId
              (setHours4 (dateOf bookingDate) 0 0 0 0) startTime endTime = Ok true
         /\ customerFor sampleExt sampleDb (CreateBookingDTO.customerName bookRequest)
              (CreateBookingDTO.customerPhone bookRequest)
              (CreateBookingDTO.customerEmail bookRequest) cid c
         /\ snd (calculateBookingPrice (pricingRules sampleDb) bookingDate
                   startTime endTime) = Ok r
         /\ doc = Booking.mk (Some cid) courtId
                    (setHours4 (dateOf bookingDate) 0 0 0 0)
                    startTime endTime (calculateDuration sampleExt startTime endTime)
                    (finalPrice r) (breakdown r) 0%Qc (finalPrice r)
                    PaymentStatus.pending 0%Qc pending
                    (CreateBookingDTO.notes bookRequest) byCustomer None None
         /\ bookingSchema sampleExt doc = None
         /\ (id ∉ dom (bookings sampleDb))
         /\ bookings (fst (createBooking sampleExt bookRequest sampleDb))
            = <[id := doc]> (bookings sampleDb)
         /\ customers (fst (createBooking sampleExt bookRequest sampleDb))
            = <[cid := countBooking c]> (customers sampleDb)
         /\ resp = mkResponse 201 (Some doc) (Some "Booking created successfully").
Proof.
  destruct bookRequest_run as [resp Hrun]. exists resp. split; [exact Hrun |].
  exact (createBooking_success sampleExt bookRequest sampleDb resp Hrun).
Defined.

Lemma createBooking_failure_post ext body db :
  post (createBooking ext body) db (fun db' o =>
    forall e, o = Throw e ->
      bookings db' = bookings db
      /\ courts db' = courts db
      /\ (customers db' = customers db
          \/ exists cid c,
               (cid ∉ dom (customers db))
               /\ customerSchema ext
                    (ICustomerCreate.mk (CreateBookingDTO.customerName body)
                       (CreateBookingDTO.customerPhone body)
                       (CreateBookingDTO.customerEmail body)) = Ok c
               /\ customers db' = <[cid := c]> (customers db))).
Proof.
  wp; try (intros e [=]); simplify_eq.
  all: split; [reflexivity | split; [reflexivity |]].
  all: try (left; reflexivity).
  all: right; eexists _, _; split; [apply is_fresh | split; reflexivity].
Qed.

(** X17.  A customer booking that fails stores no booking and counts
    none: the bookings and the courts are as before, and the customers are
    as before or hold one more customer, the one [Customer.create] made of
    the request, with the booking count the schema gave it. *)
Theorem createBooking_failure_stores_no_booking
    (ext : Externals) (body : CreateBookingDTO.t) (db : Db) (e : ApiError) :
  snd (createBooking ext body db) = Throw e ->
  bookings (fst (createBooking ext body db)) = bookings db
  /\ courts (fst (createBooking ext body db)) = courts db
  /\ (customers (fst (createBooking ext body db)) = customers db
      \/ exists cid c,
           (cid ∉ dom (customers db))
           /\ customerSchema ext
                (ICustomerCreate.mk (CreateBookingDTO.customerName body)
                   (CreateBookingDTO.customerPhone body)
                   (CreateBookingDTO.customerEmail body)) = Ok c
           /\ customers (fst (createBooking ext body db))
              = <[cid := c]> (customers db)).
Proof.
  intros Hrun. exact (createBooking_failure_post ext body db e Hrun).
Qed.

Lemma bookRequest_noRules_run :
  snd (createBooking sampleExt bookRequest noRulesDb)
  = Throw (ruleNotFound weekday day).
Proof. vm_compute. reflexivity. Qed.

(** Witness of X17: without pricing rules the request fails, after its
    customer has been created. *)
Lemma createBooking_failure_stores_no_booking_witness :
  snd (createBooking sampleExt bookRequest noRulesDb) = Throw (ruleNotFound weekday day)
  /\ bookings (fst (createBooking sampleExt bookRequest noRulesDb)) = bookings noRulesDb
  /\ courts (fst (createBooking sampleExt bookRequest noRulesDb)) = courts noRulesDb
  /\ (customers (fst (createBooking sampleExt bookRequest noRulesDb))
      = customers noRulesDb
      \/ exists cid c,
           (cid ∉ dom (customers noRulesDb))
           /\ customerSchema sampleExt
                (ICustomerCreate.mk (CreateBookingDTO.customerName bookRequest)
                   (CreateBookingDTO.customerPhone bookRequest)
                   (CreateBookingDTO.customerEmail bookRequest)) = Ok c
           /\ customers (fst (createBooking sampleExt bookRequest noRulesDb))
              = <[cid := c]> (customers noRulesDb)).
Proof.
  split; [exact bookRequest_noRules_run |].
  exact (createBooking_failure_stores_no_booking sampleExt bookRequest noRulesDb
           (ruleNotFound weekday day) bookRequest_noRules_run).
Defined.

(** ** Manual bookings *)

Lemma createManualBooking_rejected_post ext body db
    courtId bookingDate startTime endTime court cid c r e :
  CreateManualBookingDTO.isBlocked body = false ->
  CreateManualBookingDTO.courtId body = Some courtId ->
  CreateManualBookingDTO.bookingDate body = Some bookingDate ->
  CreateManualBookingDTO.startTime body = Some startTime ->
  CreateManualBookingDTO.endTime body = Some endTime ->
  truthy (CreateManualBookingDTO.customerPhone body) = true ->
  truthy (CreateManualBookingDTO.customerName body) = true ->
  courts db !! courtId = Some court ->
  validateBookingTime ext startTime endTime (setHours4 (dateOf bookingDate) 0 0 0 0)
  = None ->
  checkAvailability ext (bookings db) courtId (setHours4 (dateOf bookingDate) 0 0 0 0)
    startTime endTime = Ok true ->
  customerByPhone db (CreateManualBookingDTO.customerPhone body) = Some (cid, c) ->
  snd (calculateBookingPrice (pricingRules db) bookingDate startTime endTime) = Ok r ->
  bookingSchema ext
    (Booking.mk (Some cid) courtId (setHours4 (dateOf bookingDate) 0 0 0 0)
       startTime endTime (calculateDuration ext startTime endTime)
       (finalPrice r) (breakdown r) 0%Qc (finalPrice r)
       PaymentStatus.pending 0%Qc pending (CreateManualBookingDTO.notes body)
       byAdmin None None) = Some e ->
  post (createManualBooking ext body) db (fun db' o =>
    o = Throw e
    /\ bookings db' = bookings db
    /\ customers db' = <[cid := countBooking c]> (customers db)).
Proof.
  intros Hblocked Hcourt Hdate Hstart Hend Hphone Hname Hc Hvalid Havail Hcust Hprice
    Hschema.
  pose proof (customerByPhone_Some db _ cid c Hcust) as [Hcid _].
  unfold customerByPhone in Hcust.
  unfold createManualBooking. cbv zeta.
  rewrite Hblocked, Hcourt, Hdate, Hstart, Hend, Hphone, Hname. cbn [negb andb orb].
  wp; simplify_eq.
  all: repeat match goal with
              | H : context [fst (?a, ?b)] |- _ => change (fst (a, b)) with a in H
              end.
  all: simplify_eq.
  split; [reflexivity | split; [reflexivity |]].
  db_simpl. apply map_eq. intros i. destruct (decide (i = cid)) as [-> | Hne].
  - rewrite lookup_alter_eq, lookup_insert_eq, Hcid. reflexivity.
  - rewrite lookup_alter_ne, lookup_insert_ne by congruence. reflexivity.
Qed.

(** X18.  [createManualBooking] counts the booking before it stores it: for
    a request that is not a block, passes every check, is for a customer
    found by phone and is priced, when [Booking.create] rejects the document
    the handler throws that error and stores no booking, yet the customer's
    booking count has gone up by one. *)
Theorem createManualBooking_counts_before_storing
    (ext : Externals) (body : CreateManualBookingDTO.t) (db : Db)
    (courtId : ObjectId) (bookingDate : BookingDateArg) (startTime endTime : TimeStr)
    (court : Court.t) (cid : ObjectId) (c : Customer.t) (r : PriceResult)
    (e : ApiError) :
  CreateManualBookingDTO.isBlocked body = false ->
  CreateManualBookingDTO.courtId body = Some courtId ->
  CreateManualBookingDTO.bookingDate body = Some bookingDate ->
  CreateManualBookingDTO.startTime body = Some startTime ->
  CreateManualBookingDTO.endTime body = Some endTime ->
  truthy (CreateManualBookingDTO.customerPhone body) = true ->
  truthy (CreateManualBookingDTO.customerName body) = true ->
  courts db !! courtId = Some court ->
  validateBookingTime ext startTime endTime (setHours4 (dateOf bookingDate) 0 0 0 0)
  = None ->
  checkAvailability ext (bookings db) courtId (setHours4 (dateOf bookingDate) 0 0 0 0)
    startTime endTime = Ok true ->
  customerByPhone db (CreateManualBookingDTO.customerPhone body) = Some (cid, c) ->
  snd (calculateBookingPrice (pricingRules db) bookingDate startTime endTime) = Ok r ->
  bookingSchema ext
    (Booking.mk (Some cid) courtId (setHours4 (dateOf bookingDate) 0 0 0 0)
       startTime endTime (calculateDuration ext startTime endTime)
       (finalPrice r) (breakdown r) 0%Qc (finalPrice r)
       PaymentStatus.pending 0%Qc pending (CreateManualBookingDTO.notes body)
       byAdmin None None) = Some e ->
  snd (createManualBooking ext body db) = Throw e
  /\ bookings (fst (createManualBooking ext body db)) = bookings db
  /\ customers (fst (createManualBooking ext body db))
     = <[cid := countBooking c]> (customers db)
  /\ Customer.totalBookings (countBooking c) = Customer.totalBookings c + 1.
Proof.
  intros Hblocked Hcourt Hdate Hstart Hend Hphone Hname Hc Hvalid Havail Hcust Hprice
    Hschema.
  destruct (createManualBooking_rejected_post ext body db courtId bookingDate
              startTime endTime court cid c r e Hblocked Hcourt Hdate Hstart Hend
              Hphone Hname Hc Hvalid Havail Hcust Hprice Hschema)
    as (Hout & Hbook & Hcust').
  repeat split; assumption.
Qed.

Lemma customerDb_byPhone :
  customerByPhone customerDb (CreateManualBookingDTO.customerPhone manualRequest)
  = Some (7%N, knownCustomer).
Proof. vm_compute. reflexivity. Qed.

Lemma customerDb_priced :
  snd (calculateBookingPrice (pricingRules customerDb) (DateString thursday)
         (HHMM 17 30) (HHMM 19 0))
  = Ok thursdayEveningResult.
Proof. exact thursday_evening_run. Qed.

(** Witness of X18: the schema rejects the booking of a known customer,
    whose count goes from 3 to 4. *)
Lemma createManualBooking_counts_before_storing_witness :
  bookingSchema strictExt manualBooking
  = Some (ValidationError "Booking validation failed")
  /\ snd (createManualBooking strictExt manualRequest customerDb)
     = Throw (ValidationError "Booking validation failed")
  /\ bookings (fst (createManualBooking strictExt manualRequest customerDb))
     = bookings customerDb
  /\ customers (fst (createManualBooking strictExt manualRequest customerDb))
     = <[7%N := countBooking knownCustomer]> (customers customerDb)
  /\ Customer.totalBookings (countBooking knownCustomer)
     = Customer.totalBookings knownCustomer + 1.
Proof.
  split; [reflexivity |].
  exact (createManualBooking_counts_before_storing strictExt manualRequest customerDb
           1%N (DateString thursday) (HHMM 17 30) (HHMM 19 0) (sampleCourt "Court 1")
           7%N knownCustomer thursdayEveningResult
           (ValidationError "Booking validation failed")
           eq_refl eq_refl eq_refl eq_refl eq_refl eq_refl eq_refl eq_refl eq_refl
           eq_refl customerDb_byPhone customerDb_priced eq_refl).
Defined.

(* ================================================================== *)
(** * Further properties of the court controller and of the lookups *)

(** X19.  The lookups write nothing: [checkAvailability], [getBookingById]
    and [getCourtById] leave the courts, customers, bookings and pricing
    rules as they were.  The two lookups by id return the stored document,
    or throw the not-found error exactly when there is none; an availability
    check for a court that does not exist throws. *)
Theorem lookups_write_nothing
    (ext : Externals) (db : Db) (id : ObjectId) (body : CheckAvailabilityDTO.t) :
  let availability := BookingController.checkAvailability ext body db in
  let booking := BookingController.getBookingById id db in
  let court := CourtController.getCourtById id db in
  sameData db (fst availability)
  /\ sameData db (fst booking)
  /\ sameData db (fst court)
  /\ snd booking
     = match bookings db !! id with
       | Some b => Ok (mkResponse 200 b None)
       | None => Throw (NotFoundError "Booking")
       end
  /\ snd court
     = match courts db !! id with
       | Some c => Ok (mkResponse 200 c None)
       | None => Throw (NotFoundError "Court")
       end
  /\ (forall courtId, CheckAvailabilityDTO.courtId body = Some courtId ->
        courts db !! courtId = None ->
        exists e, snd availability = Throw e).
Proof.
  cbv zeta. split; [| split; [| split; [| split; [| split]]]].
  - change (post (BookingController.checkAvailability ext body) db
              (fun db' _ => sameData db db')).
    unfold sameData. wp; repeat split; reflexivity.
  - change (post (BookingController.getBookingById id) db (fun db' _ => sameData db db')).
    unfold sameData. wp; repeat split; reflexivity.
  - change (post (CourtController.getCourtById id) db (fun db' _ => sameData db db')).
    unfold sameData. wp; repeat split; reflexivity.
  - change (post (BookingController.getBookingById id) db (fun _ o =>
              o = match bookings db !! id with
                  | Some b => Ok (mkResponse 200 b None)
                  | None => Throw (NotFoundError "Booking")
                  end)).
    wp; reflexivity.
  - change (post (CourtController.getCourtById id) db (fun _ o =>
              o = match courts db !! id with
                  | Some c => Ok (mkResponse 200 c None)
                  | None => Throw (NotFoundError "Court")
                  end)).
    wp; reflexivity.
  - intros courtId Hid Hnone.
    change (post (BookingController.checkAvailability ext body) db
              (fun _ o => exists e, o = Throw e)).
    wp; simplify_eq; eauto.
Qed.

Lemma createCourt_success_post ext body file db :
  post (createCourt ext body file) db (fun db' o =>
    forall resp, o = Ok resp ->
      exists courtData id doc,
        ICourtCreate.name courtData = ICourtCreate.name body
        /\ ICourtCreate.description courtData = ICourtCreate.description body
        /\ blank ext (ICourtCreate.name body) = false
        /\ blank ext (ICourtCreate.description body) = false
        /\ (size (courts db) < 7)%nat
        /\ (forall i c, courts db !! i = Some c ->
                        Court.name c <> default "" (ICourtCreate.name body))
        /\ ICourtCreate.imageUrl courtData
           = match file with
             | Some path => Some path
             | None => ICourtCreate.imageUrl body
             end
        /\ courtSchema ext courtData = Ok doc
        /\ (id ∉ dom (courts db))
        /\ courts db' = <[id := doc]> (courts db)
        /\ size (courts db') = S (size (courts db))
        /\ resp = mkResponse 201 doc (Some "Court created successfully")).
Proof.
  destruct file as [path |]; wp; try (intros resp [=]); simplify_eq.
  all: match goal with
       | H : (7 <=? _)%nat = false |- _ => apply Nat.leb_gt in H
       end.
  all: match goal with
       | H : find _ (map_to_list _) = None |- _ =>
           pose proof (find_none _ _ H) as Hnone
       end.
  all: match goal with
       | H : courtSchema _ ?cd = Ok ?doc |- _ => eexists cd, _, doc
       end.
  all: db_simpl.
  all: cbn [ICourtCreate.name ICourtCreate.description ICourtCreate.imageUrl
            ICourtCreate.features ICourtCreate.set_features
            ICourtCreate.set_imageUrl] in *.
  all: repeat (split; [first [reflexivity | assumption | apply is_fresh] |]).
  all: split; [| repeat (split; [first [reflexivity | assumption | apply is_fresh] |])].
  all: try (split; [| reflexivity];
            rewrite map_size_insert_None by (apply not_elem_of_dom, is_fresh);
            reflexivity).
  all: intros i c Hc Hname.
  all: assert (Hin : In (i, c) (map_to_list (courts db)))
         by (apply list_elem_of_In, elem_of_map_to_list; exact Hc).
  all: specialize (Hnone (i, c) Hin); cbn [fst snd] in Hnone.
  all: rewrite Hname, String.eqb_refl in Hnone.
  all: rewrite bool_decide_eq_false_2 in Hnone by discriminate.
  all: discriminate Hnone.
Qed.

(** X20.  A court creation that succeeds: name and description were given
    and not blank, fewer than seven courts were stored, none of them had the
    name given, and the schema accepted the request (with the uploaded
    image's path as image URL when a file came with it).  Exactly one court
    was stored, under a new id, and the response is 201 with it. *)
Theorem createCourt_success
    (ext : Externals) (body : ICourtCreate.t) (file : option string) (db : Db)
    (resp : Response Court.t) :
  snd (createCourt ext body file db) = Ok resp ->
  exists courtData id doc,
    ICourtCreate.name courtData = ICourtCreate.name body
    /\ ICourtCreate.description courtData = ICourtCreate.description body
    /\ blank ext (ICourtCreate.name body) = false
    /\ blank ext (ICourtCreate.description body) = false
    /\ (size (courts db) < 7)%nat
    /\ (forall i c, courts db !! i = Some c ->
                    Court.name c <> default "" (ICourtCreate.name body))
    /\ ICourtCreate.imageUrl courtData
       = match file with
         | Some path => Some path
         | None => ICourtCreate.imageUrl body
         end
    /\ courtSchema ext courtData = Ok doc
    /\ (id ∉ dom (courts db))
    /\ courts (fst (createCourt ext body file db)) = <[id := doc]> (courts db)
    /\ size (courts (fst (createCourt ext body file db))) = S (size (courts db))
    /\ resp = mkResponse 201 doc (Some "Court created successfully").
Proof.
  intros Hrun. exact (createCourt_success_post ext body file db resp Hrun).
Qed.

Lemma secondCourt_run :
  exists resp, snd (createCourt sampleExt secondCourt None sampleDb) = Ok resp.
Proof. eexists. vm_compute. reflexivity. Qed.

(** Witness of X20: a second court is added to the sample database. *)
Lemma createCourt_success_witness :
  exists resp,
    snd (createCourt sampleExt secondCourt None sampleDb) = Ok resp
    /\ exists courtData id doc,
         ICourtCreate.name courtData = ICourtCreate.name secondCourt
         /\ ICourtCreate.description courtData = ICourtCreate.description secondCourt
         /\ blank sampleExt (ICourtCreate.name secondCourt) = false
         /\ blank sampleExt (ICourtCreate.description secondCourt) = false
         /\ (size (courts sampleDb) < 7)%nat
         /\ (forall i c, courts sampleDb !! i = Some c ->
                         Court.name c <> default "" (ICourtCreate.name secondCourt))
         /\ ICourtCreate.imageUrl courtData
            = match @None string with
              | Some path => Some path
              | None => ICourtCreate.imageUrl secondCourt
              end
         /\ courtSchema sampleExt courtData = Ok doc
         /\ (id ∉ dom (courts sampleDb))
         /\ courts (fst (createCourt sampleExt secondCourt None sampleDb))
            = <[id := doc]> (courts sampleDb)
         /\ size (courts (fst (createCourt sampleExt secondCourt None sampleDb)))
            = S (size (courts sampleDb))
         /\ resp = mkResponse 201 doc (Some "Court created successfully").
Proof.
  destruct secondCourt_run as [resp Hrun]. exists resp. split; [exact Hrun |].
  exact (createCourt_success sampleExt secondCourt None sampleDb resp Hrun).
Defined.

(** X21.  [deleteCourt] removes the court under the id given, returning
    it, or throws the not-found error when there is none; it touches no
    other court, no customer and no booking: the bookings made for the
    court stay stored, and refer to a court that is no longer there. *)
Theorem deleteCourt_leaves_bookings (id : ObjectId) (db : Db) :
  let run := deleteCourt id db in
  snd run
  = match courts db !! id with
    | Some c => Ok (mkResponse 200 c (Some "Court deleted successfully"))
    | None => Throw (NotFoundError "Court")
    end
  /\ courts (fst run) = delete id (courts db)
  /\ customers (fst run) = customers db
  /\ bookings (fst run) = bookings db
  /\ (forall bid b, bookings db !! bid = Some b -> Booking.court b = id ->
        bookings (fst run) !! bid = Some b /\ courts (fst run) !! Booking.court b = None).
Proof.
  cbv zeta.
  assert (Hpost : post (deleteCourt id) db (fun db' o =>
            o = match courts db !! id with
                | Some c => Ok (mkResponse 200 c (Some "Court deleted successfully"))
                | None => Throw (NotFoundError "Court")
                end
            /\ courts db' = delete id (courts db)
            /\ customers db' = customers db
            /\ bookings db' = bookings db)).
  { wp; repeat split; reflexivity. }
  destruct Hpost as (Hout & Hcourts & Hcust & Hbook).
  repeat (split; [assumption |]).
  intros bid b Hb Hcourt. rewrite Hbook, Hcourts, Hcourt. split; [exact Hb |].
  apply lookup_delete_eq.
Qed.

Lemma toggleCourtStatus_stored id status db court :
  courts db !! id = Some court ->
  post (toggleCourtStatus id (Some status)) db (fun db' o =>
    o = Ok (mkResponse 200 (Court.set_status status court)
              (Some ("Court status changed to "
                     ++ match status with
                        | active => "active"
                        | inactive => "inactive"
                        | maintenance => "maintenance"
                        end)%string))
    /\ courts db' = <[id := Court.set_status status court]> (courts db)
    /\ customers db' = customers db
    /\ bookings db' = bookings db
    /\ pricingRules db' = pricingRules db).
Proof.
  intros Hc. wp; simplify_eq. repeat split; reflexivity.
Qed.

Lemma createBooking_inactive_court ext body db courtId bookingDate startTime endTime court :
  CreateBookingDTO.courtId body = Some courtId ->
  CreateBookingDTO.bookingDate body = Some bookingDate ->
  CreateBookingDTO.startTime body = Some startTime ->
  CreateBookingDTO.endTime body = Some endTime ->
  truthy (CreateBookingDTO.customerPhone body) = true ->
  truthy (CreateBookingDTO.customerName body) = true ->
  courts db !! courtId = Some court ->
  Court.status court = inactive ->
  post (createBooking ext body) db (fun db' o =>
    o = Throw (BadRequestError "Court is not available for booking")
    /\ courts db' = courts db /\ customers db' = customers db
    /\ bookings db' = bookings db
    /\ calls db' = calls db ++ [DbCall CourtModel "findById"]).
Proof.
  intros Hcourt Hdate Hstart Hend Hphone Hname Hc Hinactive.
  unfold createBooking. cbv zeta.
  rewrite Hcourt, Hdate, Hstart, Hend, Hphone, Hname. cbn [negb orb].
  wp; simplify_eq.
  all: try match goal with
           | H : bool_decide (_ = inactive) = false |- _ =>
               apply bool_decide_eq_false in H; congruence
           end.
  repeat split; reflexivity.
Qed.

(** X22.  Once [toggleCourtStatus] has set a court to inactive, a customer
    booking for that court with all its required fields is refused with
    "Court is not available for booking", before any customer is looked up
    or created and without storing a booking. *)
Theorem inactive_court_refuses_customer_bookings
    (ext : Externals) (db : Db) (body : CreateBookingDTO.t) (courtId : ObjectId)
    (bookingDate : BookingDateArg) (startTime endTime : TimeStr) (court : Court.t) :
  CreateBookingDTO.courtId body = Some courtId ->
  CreateBookingDTO.bookingDate body = Some bookingDate ->
  CreateBookingDTO.startTime body = Some startTime ->
  CreateBookingDTO.endTime body = Some endTime ->
  truthy (CreateBookingDTO.customerPhone body) = true ->
  truthy (CreateBookingDTO.customerName body) = true ->
  courts db !! courtId = Some court ->
  let toggled := toggleCourtStatus courtId (Some inactive) db in
  let run := createBooking ext body (fst toggled) in
  snd toggled
  = Ok (mkResponse 200 (Court.set_status inactive court)
          (Some "Court status changed to inactive"))
  /\ snd run = Throw (BadRequestError "Court is not available for booking")
  /\ customers (fst run) = customers db
  /\ bookings (fst run) = bookings db.
Proof.
  intros Hcourt Hdate Hstart Hend Hphone Hname Hc toggled run.
  destruct (toggleCourtStatus_stored courtId inactive db court Hc)
    as (Hout & Hcourts & Hcust & Hbook & _).
  fold toggled in Hout, Hcourts, Hcust, Hbook.
  assert (Hc1 : courts (fst toggled) !! courtId = Some (Court.set_status inactive court))
    by (rewrite Hcourts; apply lookup_insert_eq).
  destruct (createBooking_inactive_court ext body (fst toggled) courtId bookingDate
              startTime endTime _ Hcourt Hdate Hstart Hend Hphone Hname Hc1 eq_refl)
    as (Hrun & _ & Hcust1 & Hbook1 & _).
  fold run in Hrun, Hcust1, Hbook1.
  split; [exact Hout | split; [exact Hrun |]].
  split; congruence.
Qed.

(** Witness of X22: court 1 of the sample database is set to inactive. *)
Lemma inactive_court_refuses_customer_bookings_witness :
  courts sampleDb !! 1%N = Some (sampleCourt "Court 1")
  /\ let toggled := toggleCourtStatus 1%N (Some inactive) sampleDb in
     let run := createBooking sampleExt bookRequest (fst toggled) in
     snd toggled
     = Ok (mkResponse 200 (Court.set_status inactive (sampleCourt "Court 1"))
             (Some "Court status changed to inactive"))
     /\ snd run = Throw (BadRequestError "Court is not available for booking")
     /\ customers (fst run) = customers sampleDb
     /\ bookings (fst run) = bookings sampleDb.
Proof.
  split; [reflexivity |].
  exact (inactive_court_refuses_customer_bookings sampleExt sampleDb bookRequest 1%N
           (DateString thursday) (HHMM 17 30) (HHMM 19 0) (sampleCourt "Court 1")
           eq_refl eq_refl eq_refl eq_refl eq_refl eq_refl eq_refl).
Defined.

(** X23.  A court name held by another court is refused: when a stored
    court has the name given (not blank, features well formed), [createCourt]
    below the limit and [updateCourt] of any other court throw "Court with
    this name already exists" and leave the courts as they are. *)
Theorem court_name_held_by_another_is_refused
    (ext : Externals) (db : Db) (holder : ObjectId) (c : Court.t) (name : string)
    (body : ICourtCreate.t) :
  courts db !! holder = Some c ->
  Court.name c = name ->
  ICourtCreate.name body = Some name ->
  blank ext (Some name) = false ->
  (forall text, ICourtCreate.features body = Some (FeaturesString text) ->
                text = "" \/ is_Some (JSON_parse ext text)) ->
  (forall file,
     blank ext (ICourtCreate.description body) = false ->
     (size (courts db) < 7)%nat ->
     snd (createCourt ext body file db)
     = Throw (ConflictError "Court with this name already exists")
     /\ courts (fst (createCourt ext body file db)) = courts db)
  /\ (forall id,
        id <> holder ->
        snd (updateCourt ext id body db)
        = Throw (ConflictError "Court with this name already exists")
        /\ courts (fst (updateCourt ext id body db)) = courts db).
Proof.
  intros Hc Hname Hbody Hblank Hfeat.
  assert (Hin : In (holder, c) (map_to_list (courts db)))
    by (apply list_elem_of_In, elem_of_map_to_list; exact Hc).
  cbn [blank] in Hblank.
  apply orb_false_elim in Hblank as [Hne Htrim].
  split.
  - intros file Hdesc Hsize.
    change (post (createCourt ext body file) db (fun db' o =>
              o = Throw (ConflictError "Court with this name already exists")
              /\ courts db' = courts db)).
    wp.
    all: cbn [ICourtCreate.name ICourtCreate.description ICourtCreate.features
              ICourtCreate.set_features ICourtCreate.set_imageUrl] in *.
    all: try (split; reflexivity).
    all: try match goal with
             | H : ICourtCreate.features _ = Some (FeaturesString _) |- _ =>
                 destruct (Hfeat _ H) as [-> | [? ?]]; [discriminate | congruence]
             end.
    all: try congruence.
    all: try match goal with
             | H : (7 <=? _)%nat = true |- _ => apply Nat.leb_le in H; lia
             end.
    all: try rewrite Hbody in *; cbn [default blank] in *.
    all: try match goal with
             | H : find _ (map_to_list _) = None |- _ =>
                 pose proof (find_none _ _ H (holder, c) Hin) as Hb;
                 cbn [fst snd] in Hb; rewrite Hname, String.eqb_refl in Hb; discriminate
             end.
    all: try (rewrite Hne, Htrim in *; discriminate).
    all: match goal with
         | H : JSON_parse _ ?t = None |- _ =>
             destruct (Hfeat t eq_refl) as [-> | [? ?]]; [discriminate | congruence]
         end.
  - intros id Hid.
    change (post (updateCourt ext id body) db (fun db' o =>
              o = Throw (ConflictError "Court with this name already exists")
              /\ courts db' = courts db)).
    wp.
    all: cbn [ICourtCreate.name ICourtCreate.description ICourtCreate.features
              ICourtCreate.set_features ICourtCreate.set_imageUrl] in *.
    all: try (split; reflexivity).
    all: try match goal with
             | H : ICourtCreate.features _ = Some (FeaturesString _) |- _ =>
                 destruct (Hfeat _ H) as [-> | [? ?]]; [discriminate | congruence]
             end.
    all: try congruence.
    all: try rewrite Hbody in *; cbn [default from_option blank truthy] in *;
      unfold Datatypes.id in *.
    all: try match goal with
             | H : find _ (map_to_list _) = None |- _ =>
                 pose proof (find_none _ _ H (holder, c) Hin) as Hb;
                 cbn [fst snd] in Hb; rewrite Hname, String.eqb_refl in Hb;
                 rewrite bool_decide_eq_false_2 in Hb by congruence; discriminate
             end.
    all: try (rewrite ?Hne, ?Htrim in *; discriminate).
    all: try match goal with
         | H : JSON_parse _ ?t = None |- _ =>
             destruct (Hfeat t eq_refl) as [-> | [? ?]]; [discriminate | congruence]
         end.
Qed.

(** Witness of X23: a second court named as court 1 of the sample
    database. *)
Lemma court_name_held_by_another_is_refused_witness :
  courts sampleDb !! 1%N = Some (sampleCourt "Court 1")
  /\ (forall file,
        blank sampleExt (ICourtCreate.description sameNameCourt) = false ->
        (size (courts sampleDb) < 7)%nat ->
        snd (createCourt sampleExt sameNameCourt file sampleDb)
        = Throw (ConflictError "Court with this name already exists")
        /\ courts (fst (createCourt sampleExt sameNameCourt file sampleDb))
           = courts sampleDb)
  /\ (forall id,
        id <> 1%N ->
        snd (updateCourt sampleExt id sameNameCourt sampleDb)
        = Throw (ConflictError "Court with this name already exists")
        /\ courts (fst (updateCourt sampleExt id sameNameCourt sampleDb))
           = courts sampleDb).
Proof.
  split; [reflexivity |].
  exact (court_name_held_by_another_is_refused sampleExt sampleDb 1%N
           (sampleCourt "Court 1") "Court 1" sameNameCourt eq_refl eq_refl eq_refl
           eq_refl ltac:(discriminate)).
Defined.

(* ================================================================== *)
(** * Properties of the pricing controller *)

Section PricingControllerFacts.

Import PricingController.

(** ** The rule collection *)

Lemma rulesOf_app store1 store2 :
  rulesOf (store1 ++ store2) = rulesOf store1 ++ rulesOf store2.
Proof. unfold rulesOf. apply fmap_app. Qed.

Lemma PricingRule_findOne_None store dt ts :
  PricingRule_findOne store dt ts = None ->
  (dt, ts) ∉ classOf <$> rulesOf store.
Proof.
  unfold PricingRule_findOne, rulesOf. intros Hfind Hin.
  rewrite <- list_fmap_compose in Hin.
  apply list_elem_of_fmap in Hin as (kv & Hkey & Hkv).
  apply list_elem_of_In in Hkv.
  pose proof (find_none _ _ Hfind kv Hkv) as Hb. cbn beta in Hb.
  apply bool_decide_eq_false in Hb. apply Hb. symmetry. exact Hkey.
Qed.

Lemma PricingRule_findById_Some store id rule :
  PricingRule_findById store id = Some rule -> (id, rule) ∈ store.
Proof.
  unfold PricingRule_findById.
  destruct (find _ store) as [[i r] |] eqn:Hfind; [| discriminate].
  intros [= <-]. apply find_some in Hfind as [Hin Hb].
  apply bool_decide_eq_true in Hb. cbn [fst] in Hb. subst i.
  apply list_elem_of_In. exact Hin.
Qed.

Lemma PricingRule_findById_In store id rule :
  NoDup (fst <$> store) -> (id, rule) ∈ store ->
  PricingRule_findById store id = Some rule.
Proof.
  unfold PricingRule_findById. induction store as [| [i r] store IH]; intros Hnd Hin.
  - inversion Hin.
  - cbn [fmap list_fmap fst] in Hnd. apply NoDup_cons in Hnd as [Hi Hnd].
    cbn [find fst]. case_bool_decide as Hid.
    + subst i. apply elem_of_cons in Hin as [[= <-] | Hin]; [reflexivity |].
      exfalso. apply Hi. apply list_elem_of_fmap. exists (id, rule). auto.
    + apply elem_of_cons in Hin as [[= <- <-] | Hin]; [congruence |].
      apply IH; assumption.
Qed.

Lemma storeOk_create store dt ts p active :
  storeOk store ->
  PricingRule_findOne store dt ts = None ->
  ~ (p <= 0)%Qc ->
  storeOk (fst (PricingRule_create store dt ts p active)).
Proof.
  intros (Hids & Hkeys & Hpos) Hnone Hp. unfold PricingRule_create. cbn [fst].
  unfold storeOk. rewrite rulesOf_app, !fmap_app. cbn [rulesOf fmap list_fmap fst snd].
  split; [| split].
  - apply NoDup_app. split; [exact Hids | split; [| apply NoDup_singleton]].
    intros i Hi Hfresh. apply list_elem_of_singleton in Hfresh. subst i.
    exact (infinite_is_fresh _ Hi).
  - apply NoDup_app. split; [exact Hkeys | split; [| apply NoDup_singleton]].
    intros k Hk Hnew. apply list_elem_of_singleton in Hnew. subst k.
    exact (PricingRule_findOne_None _ _ _ Hnone Hk).
  - apply Forall_app. split; [exact Hpos |]. constructor; [| constructor].
    cbn [pricePerHour]. apply Qcnot_le_lt. exact Hp.
Qed.

Lemma keyTaken_false store id rule :
  keyTaken store id rule = false ->
  forall i r, (i, r) ∈ store -> i <> id -> classOf r <> classOf rule.
Proof.
  unfold keyTaken. intros Hex i r Hin Hne Hkey.
  assert (Htrue : existsb (fun kv => negb (bool_decide (fst kv = id))
                                    && bool_decide (classOf (snd kv) = classOf rule))
                          store = true).
  { apply existsb_exists. exists (i, r). split; [apply list_elem_of_In; exact Hin |].
    cbn [fst snd]. rewrite bool_decide_eq_false_2 by exact Hne.
    rewrite bool_decide_eq_true_2 by exact Hkey. reflexivity. }
  congruence.
Qed.

Lemma replace_ids (store : RuleStore) id rule' :
  fst <$> ((fun kv : ObjectId * PricingRule =>
              if bool_decide (fst kv = id) then (fst kv, rule') else kv) <$> store)
  = fst <$> store.
Proof.
  rewrite <- list_fmap_compose. apply list_fmap_ext. intros _ [i r] _.
  cbn [compose fst]. case_bool_decide; reflexivity.
Qed.

Lemma replace_keys (store : RuleStore) id rule' :
  NoDup (fst <$> store) ->
  NoDup (classOf <$> rulesOf store) ->
  (forall i r, (i, r) ∈ store -> i <> id -> classOf r <> classOf rule') ->
  NoDup (classOf <$> rulesOf
           ((fun kv : ObjectId * PricingRule =>
               if bool_decide (fst kv = id) then (fst kv, rule') else kv) <$> store)).
Proof.
  unfold rulesOf. induction store as [| [i r] store IH]; intros Hids Hkeys Hfree.
  - constructor.
  - cbn [fmap list_fmap fst snd] in *.
    apply NoDup_cons in Hids as [Hi Hids]. apply NoDup_cons in Hkeys as [Hk Hkeys].
    assert (Hrest : forall i' r', (i', r') ∈ store -> i' <> id ->
                                  classOf r' <> classOf rule').
    { intros i' r' Hin. apply Hfree. right. exact Hin. }
    apply NoDup_cons. split; [| apply IH; assumption].
    intros Hin. rewrite <- !list_fmap_compose in Hin.
    apply list_elem_of_fmap in Hin as ([i' r'] & Hkey & Hin').
    cbn [compose fst snd] in Hkey.
    case_bool_decide as Hid; case_bool_decide as Hid'; cbn [fst snd] in *.
    + subst i i'. apply Hi. apply list_elem_of_fmap. exists (id, r'). auto.
    + subst i. apply (Hrest i' r' Hin' Hid'). symmetry. exact Hkey.
    + subst i'. apply (Hfree i r); [left | exact Hid | exact Hkey].
    + apply Hk. rewrite <- list_fmap_compose. apply list_elem_of_fmap.
      exists (i', r'). auto.
Qed.

Lemma storeOk_update store id updateData :
  storeOk store ->
  (forall p, IPricingRuleUpdate.pricePerHour updateData = Some p -> ~ (p <= 0)%Qc) ->
  storeOk (fst (PricingRule_findByIdAndUpdate store id updateData)).
Proof.
  intros Hok Hp. unfold PricingRule_findByIdAndUpdate.
  destruct (PricingRule_findById store id) as [rule |] eqn:Hfind; [| exact Hok].
  cbv zeta. destruct (keyTaken store id _) eqn:Hkey; [exact Hok |]. cbn [fst].
  destruct Hok as (Hids & Hkeys & Hpos). split; [| split].
  - rewrite replace_ids. exact Hids.
  - apply replace_keys; [assumption .. |]. apply keyTaken_false. exact Hkey.
  - unfold rulesOf in *. rewrite <- list_fmap_compose.
    apply Forall_fmap, Forall_forall. intros [i r] Hin. cbn [compose].
    case_bool_decide; cbn [fst snd].
    + unfold applyUpdate. cbn [pricePerHour].
      destruct (IPricingRuleUpdate.pricePerHour updateData) as [p |] eqn:Hprice;
        cbn [default].
      * apply Qcnot_le_lt. apply Hp. reflexivity.
      * apply PricingRule_findById_Some in Hfind.
        rewrite Forall_fmap, Forall_forall in Hpos. apply (Hpos _ Hfind).
    + rewrite Forall_fmap, Forall_forall in Hpos. apply (Hpos _ Hin).
Qed.

Lemma storeOk_delete store id :
  storeOk store -> storeOk (fst (PricingRule_findByIdAndDelete store id)).
Proof.
  intros (Hids & Hkeys & Hpos). unfold PricingRule_findByIdAndDelete. cbn [fst].
  assert (Hsub : filter (fun kv : ObjectId * PricingRule => fst kv <> id) store
                 `sublist_of` store) by apply sublist_filter.
  split; [| split].
  - eapply sublist_NoDup; [exact Hids | apply fmap_sublist; exact Hsub].
  - eapply sublist_NoDup; [exact Hkeys |].
    unfold rulesOf. apply fmap_sublist, fmap_sublist. exact Hsub.
  - unfold rulesOf in *. rewrite Forall_fmap, Forall_forall in *.
    intros kv Hin. apply Hpos. apply list_elem_of_filter in Hin as [_ Hin]. exact Hin.
Qed.

Lemma insertMany_rulesOf rules : forall store,
  rulesOf (PricingRule_insertMany store rules) = rulesOf store ++ rules.
Proof.
  induction rules as [| rule rules IH]; intros store; cbn [PricingRule_insertMany].
  - symmetry. apply app_nil_r.
  - rewrite IH, rulesOf_app. cbn. rewrite <- app_assoc. reflexivity.
Qed.

Lemma insertMany_ids rules : forall store,
  NoDup (fst <$> store) -> NoDup (fst <$> PricingRule_insertMany store rules).
Proof.
  induction rules as [| rule rules IH]; intros store Hids; cbn [PricingRule_insertMany].
  - exact Hids.
  - apply IH. rewrite fmap_app. cbn [fmap list_fmap fst].
    apply NoDup_app. split; [exact Hids | split; [| apply NoDup_singleton]].
    intros i Hi Hfresh. apply list_elem_of_singleton in Hfresh. subst i.
    exact (infinite_is_fresh _ Hi).
Qed.

Lemma initialRules_keys : NoDup (classOf <$> PricingController.defaultRules).
Proof.
  cbn.
  repeat (apply NoDup_cons; split;
          [rewrite ?elem_of_cons, elem_of_nil; intuition discriminate |]).
  constructor.
Qed.

Lemma initialRules_positive :
  Forall (fun rule => (0 < pricePerHour rule)%Qc) PricingController.defaultRules.
Proof.
  repeat constructor; cbn [pricePerHour]; rewrite <- Z2Qc_inj_0;
    apply (proj1 (Z2Qc_inj_lt _ _)); lia.
Qed.

Lemma storeOk_initialize store :
  storeOk store -> storeOk (fst (initializePricingRules store)).
Proof.
  intros Hok. unfold initializePricingRules. cbv zeta.
  destruct store as [| kv store]; [| exact Hok]. cbn [length Nat.ltb Nat.leb fst].
  split; [| split].
  - apply insertMany_ids. constructor.
  - rewrite insertMany_rulesOf. apply initialRules_keys.
  - rewrite insertMany_rulesOf. apply initialRules_positive.
Qed.

Lemma serve_storeOk req store : storeOk store -> storeOk (serve req store).
Proof.
  intros Hok. destruct req as [ruleData | id updateData | id |]; cbn [serve].
  - unfold createPricingRule.
    destruct (IPricingRuleCreate.dayType ruleData) as [dt |]; [| exact Hok].
    destruct (IPricingRuleCreate.timeSlot ruleData) as [ts |]; [| exact Hok].
    destruct (IPricingRuleCreate.pricePerHour ruleData) as [p |]; [| exact Hok].
    case_bool_decide as Hp; [exact Hok |].
    destruct (PricingRule_findOne store dt ts) eqn:Hfind; [exact Hok |].
    pose proof (storeOk_create store dt ts p (IPricingRuleCreate.isActive ruleData)
                  Hok Hfind Hp) as Hok'.
    destruct (PricingRule_create store dt ts p _) as [store' rule]. exact Hok'.
  - unfold updatePricingRule. cbv zeta.
    destruct (IPricingRuleUpdate.pricePerHour updateData) as [p |] eqn:Hprice.
    + case_bool_decide as Hp; [exact Hok |].
      assert (Hok' : storeOk (fst (PricingRule_findByIdAndUpdate store id updateData))).
      { apply storeOk_update; [exact Hok |]. intros p' Hp'.
        rewrite Hprice in Hp'. injection Hp' as <-. exact Hp. }
      destruct (PricingRule_findByIdAndUpdate store id updateData) as [store' [[r |] | e]];
        exact Hok'.
    + assert (Hok' : storeOk (fst (PricingRule_findByIdAndUpdate store id updateData))).
      { apply storeOk_update; [exact Hok |]. intros p' Hp'. congruence. }
      destruct (PricingRule_findByIdAndUpdate store id updateData) as [store' [[r |] | e]];
        exact Hok'.
  - unfold deletePricingRule.
    pose proof (storeOk_delete store id Hok) as Hok'.
    destruct (PricingRule_findByIdAndDelete store id) as [store' [r |]]; exact Hok'.
  - apply storeOk_initialize. exact Hok.
Qed.

Lemma serveAll_storeOk reqs : forall store,
  storeOk store -> storeOk (serveAll reqs store).
Proof.
  induction reqs as [| req reqs IH]; intros store Hok; [exact Hok |].
  apply IH, serve_storeOk, Hok.
Qed.

Lemma unique_keys_at_most_four (keys : list (DayType * TimeSlot)) :
  NoDup keys -> (length keys <= 4)%nat.
Proof.
  intros Hnd.
  assert (Hsub : keys ⊆+ [(weekday, day); (weekday, night);
                          (weekend, day); (weekend, night)]).
  { apply NoDup_submseteq; [exact Hnd |]. intros [[] []] _; set_solver. }
  apply submseteq_length in Hsub. exact Hsub.
Qed.

(** X24.  Ids and (day type, time slot) keys that are unique and prices
    that are positive stay so under every sequence of create, update, delete
    and initialize requests: [createPricingRule] refuses a key that exists
    and a price that is not positive, [updatePricingRule] refuses such a
    price and the unique index a key held by another rule.  The collection
    therefore never holds more than four rules. *)
Theorem pricing_rules_stay_unique_and_positive
    (reqs : list PricingController.Request) (store : RuleStore) :
  storeOk store ->
  storeOk (PricingController.serveAll reqs store)
  /\ (length (PricingController.serveAll reqs store) <= 4)%nat.
Proof.
  intros Hok. pose proof (serveAll_storeOk reqs store Hok) as Hok'.
  split; [exact Hok' |]. destruct Hok' as (_ & Hkeys & _).
  apply unique_keys_at_most_four in Hkeys.
  unfold rulesOf in Hkeys. rewrite !length_fmap in Hkeys. exact Hkeys.
Qed.

Lemma storeOk_nil : storeOk [].
Proof. repeat split; constructor. Qed.

(** Witness of X24: the empty collection is initialized, a rule for a key
    that exists is asked for, and a price is changed. *)
Lemma pricing_rules_stay_unique_and_positive_witness :
  storeOk []
  /\ storeOk (PricingController.serveAll sampleRuleRequests [])
  /\ (length (PricingController.serveAll sampleRuleRequests []) <= 4)%nat.
Proof.
  split; [exact storeOk_nil |].
  exact (pricing_rules_stay_unique_and_positive sampleRuleRequests [] storeOk_nil).
Defined.

(** ** Initialization *)

Lemma initialRules_complete : completeTable PricingController.defaultRules.
Proof. intros [] []; eexists; reflexivity. Qed.

Lemma initialRules_within :
  ratesWithin PricingController.defaultRules (Qc_of_Z 90) (Qc_of_Z 135).
Proof.
  split; [| split].
  - apply (proj1 (Z2Qc_inj_le _ _)). lia.
  - apply (proj1 (Z2Qc_inj_le _ _)). lia.
  - intros rule Hin _. cbn in Hin.
    destruct Hin as [<- | [<- | [<- | [<- | []]]]]; cbn [pricePerHour];
      split; apply (proj1 (Z2Qc_inj_le _ _)); lia.
Qed.

(** [initializePricingRules] is refused as soon as one rule is stored, and
    leaves the rules as they are; on the empty collection it stores the
    four defaults, with which, on exact values, every request whose
    resolved duration is at least one hour and a multiple of thirty minutes
    is priced, at between 90 and 135 an hour. *)
Lemma initialize_gives_complete_table :
  (forall store, store <> [] ->
     initializePricingRules store
     = (store, Thrown (Api (BadRequestError "Pricing rules already initialized"))))
  /\ rulesOf (fst (initializePricingRules [])) = PricingController.defaultRules
  /\ forall bookingDate startTime endTime,
       durationValid startTime endTime = true ->
       exists r,
         snd (calculateBookingPrice (rulesOf (fst (initializePricingRules [])))
                bookingDate startTime endTime) = Ok r
         /\ (Qc_of_Z 90 * totalHours r <= finalPrice r)%Qc
         /\ (finalPrice r <= Qc_of_Z 135 * totalHours r)%Qc.
Proof.
  assert (Hrules : rulesOf (fst (initializePricingRules []))
                   = PricingController.defaultRules).
  { unfold initializePricingRules. cbn [length Nat.ltb Nat.leb fst].
    apply insertMany_rulesOf. }
  split; [| split; [exact Hrules |]].
  - intros [| kv store] Hne; [congruence | reflexivity].
  - intros bookingDate startTime endTime Hvalid. rewrite Hrules.
    destruct (complete_table_priceWalk _ bookingDate startTime endTime
                initialRules_complete Hvalid) as (slots & r & Hrun).
    exists r. split; [exact (calculateBookingPrice_of_priceWalk _ _ _ _ _ _ Hrun) |].
    exact (priceWalk_price_bounds _ _ _ _ _ _ _ _ initialRules_within Hrun).
Qed.

(** ** What is shown and what is charged *)

Lemma shownRate_step pricing rule dt ts :
  shownRate
    (match rule_dayType rule, rule_timeSlot rule with
     | weekday, day =>
         mkCurrentPricing (pricePerHour rule) (weekdayNightRate pricing)
                          (weekendDayRate pricing) (weekendNightRate pricing)
     | weekday, night =>
         mkCurrentPricing (weekdayDayRate pricing) (pricePerHour rule)
                          (weekendDayRate pricing) (weekendNightRate pricing)
     | weekend, day =>
         mkCurrentPricing (weekdayDayRate pricing) (weekdayNightRate pricing)
                          (pricePerHour rule) (weekendNightRate pricing)
     | weekend, night =>
         mkCurrentPricing (weekdayDayRate pricing) (weekdayNightRate pricing)
                          (weekendDayRate pricing) (pricePerHour rule)
     end) dt ts
  = if bool_decide (classOf rule = (dt, ts)) then pricePerHour rule
    else shownRate pricing dt ts.
Proof.
  unfold classOf. destruct (rule_dayType rule), (rule_timeSlot rule), dt, ts;
    reflexivity.
Qed.

Lemma formatPricing_snoc found rule :
  formatPricing (found ++ [rule])
  = match rule_dayType rule, rule_timeSlot rule with
    | weekday, day =>
        mkCurrentPricing (pricePerHour rule) (weekdayNightRate (formatPricing found))
          (weekendDayRate (formatPricing found)) (weekendNightRate (formatPricing found))
    | weekday, night =>
        mkCurrentPricing (weekdayDayRate (formatPricing found)) (pricePerHour rule)
          (weekendDayRate (formatPricing found)) (weekendNightRate (formatPricing found))
    | weekend, day =>
        mkCurrentPricing (weekdayDayRate (formatPricing found))
          (weekdayNightRate (formatPricing found))
          (pricePerHour rule) (weekendNightRate (formatPricing found))
    | weekend, night =>
        mkCurrentPricing (weekdayDayRate (formatPricing found))
          (weekdayNightRate (formatPricing found))
          (weekendDayRate (formatPricing found)) (pricePerHour rule)
    end.
Proof. unfold formatPricing. rewrite fold_left_app. reflexivity. Qed.

(** With unique keys, the rate shown for a classification is the price of
    the rule that holds it, in whatever order the rules are found. *)
Lemma formatPricing_shows found rule :
  NoDup (classOf <$> found) -> rule ∈ found ->
  shownRate (formatPricing found) (rule_dayType rule) (rule_timeSlot rule)
  = pricePerHour rule.
Proof.
  induction found as [| last found IH] using rev_ind; intros Hkeys Hin.
  - inversion Hin.
  - rewrite formatPricing_snoc, shownRate_step.
    rewrite fmap_app in Hkeys. apply NoDup_app in Hkeys as (Hkeys & Hlast & _).
    apply elem_of_app in Hin as [Hin | Hin].
    + rewrite bool_decide_eq_false_2; [apply IH; assumption |].
      intros Hsame. apply (Hlast (classOf rule)).
      * apply list_elem_of_fmap. exists rule. auto.
      * apply list_elem_of_fmap. exists last.
        split; [symmetry; exact Hsame | apply list_elem_of_singleton; reflexivity].
    + apply list_elem_of_singleton in Hin. subst last.
      rewrite bool_decide_eq_true_2 by reflexivity. reflexivity.
Qed.

Lemma NoDup_fmap_inj_on {A B : Type} (f : A -> B) (l : list A) (x y : A) :
  NoDup (f <$> l) -> x ∈ l -> y ∈ l -> f x = f y -> x = y.
Proof.
  induction l as [| a l IH]; intros Hnd Hx Hy Hf; [inversion Hx |].
  cbn [fmap list_fmap] in Hnd. apply NoDup_cons in Hnd as [Ha Hnd].
  apply elem_of_cons in Hx as [-> | Hx]; apply elem_of_cons in Hy as [-> | Hy].
  - reflexivity.
  - exfalso. apply Ha. rewrite Hf. apply list_elem_of_fmap. eauto.
  - exfalso. apply Ha. rewrite <- Hf. apply list_elem_of_fmap. eauto.
  - apply IH; assumption.
Qed.

Lemma find_all_false {A : Type} (f : A -> bool) (l : list A) :
  (forall x, x ∈ l -> f x = false) -> find f l = None.
Proof.
  induction l as [| a l IH]; intros Hall; [reflexivity |].
  cbn [find]. rewrite (Hall a) by left. apply IH. intros x Hx. apply Hall. right. exact Hx.
Qed.

Lemma deactivate_run store id rule :
  storeOk store -> (id, rule) ∈ store ->
  updatePricingRule id deactivate store
  = ((fun kv : ObjectId * PricingRule =>
        if bool_decide (fst kv = id) then (fst kv, deactivated rule) else kv) <$> store,
     Returned (mkResponse 200 (deactivated rule)
                 (Some "Pricing rule updated successfully"))).
Proof.
  intros (Hids & Hkeys & _) Hin.
  unfold updatePricingRule, PricingRule_findByIdAndUpdate. cbn [deactivate
    IPricingRuleUpdate.pricePerHour]. cbv zeta.
  rewrite (PricingRule_findById_In store id rule Hids Hin).
  change (applyUpdate deactivate rule) with (deactivated rule).
  assert (Hfree : keyTaken store id (deactivated rule) = false).
  { unfold keyTaken. apply not_true_is_false. intros Hex.
    apply existsb_exists in Hex as ([i r] & Hir & Hb). cbn [fst snd] in Hb.
    apply andb_prop in Hb as [Hne Hsame].
    apply negb_true_iff, bool_decide_eq_false in Hne.
    apply bool_decide_eq_true in Hsame.
    apply list_elem_of_In in Hir.
    assert (Heq : (i, r) = (id, rule)).
    { apply (NoDup_fmap_inj_on (fun kv => classOf (snd kv)) store);
        [| assumption | assumption | exact Hsame].
      unfold rulesOf in Hkeys. rewrite <- list_fmap_compose in Hkeys. exact Hkeys. }
    congruence. }
  rewrite Hfree. reflexivity.
Qed.

(** X26.  A rule switched off is still shown but no longer charged: after
    [updatePricingRule] has set [isActive] to false on a rule of a store
    with unique keys, [getCurrentPricing] (in whatever order it finds the
    rules) shows the price of that rule for its day type and time slot,
    while the pricing service finds no active rule for them and throws
    "Pricing rule not found" at every instant so classified outside the
    Saturday-night override. *)
Theorem deactivated_rule_is_shown_but_not_charged
    (store : RuleStore) (id : ObjectId) (rule : PricingRule) (found : list PricingRule) :
  storeOk store ->
  (id, rule) ∈ store ->
  found ≡ₚ rulesOf (fst (updatePricingRule id deactivate store)) ->
  let rules := rulesOf (fst (updatePricingRule id deactivate store)) in
  snd (updatePricingRule id deactivate store)
  = Returned (mkResponse 200 (deactivated rule) (Some "Pricing rule updated successfully"))
  /\ shownRate (formatPricing found) (rule_dayType rule) (rule_timeSlot rule)
     = pricePerHour rule
  /\ findOneActive rules (rule_dayType rule) (rule_timeSlot rule) = None
  /\ forall d : Date,
       isSaturdayNight d (getHours d) = false ->
       getDayType (getEffectiveDate d) = rule_dayType rule ->
       getTimeSlot (getHours d) = rule_timeSlot rule ->
       getPrice rules d (getHours d)
       = Throw (ruleNotFound (rule_dayType rule) (rule_timeSlot rule)).
Proof.
  intros Hok Hin Hfound rules. subst rules.
  pose proof (serve_storeOk (ReqUpdate id deactivate) store Hok) as Hok'.
  cbn [serve] in Hok'.
  rewrite (deactivate_run store id rule Hok Hin) in *. cbn [fst snd] in *.
  destruct Hok as (Hids & Hkeys & _). destruct Hok' as (_ & Hkeys' & _).
  set (store' := (fun kv : ObjectId * PricingRule =>
                    if bool_decide (fst kv = id) then (fst kv, deactivated rule) else kv)
                 <$> store) in *.
  assert (Hin' : (id, deactivated rule) ∈ store').
  { subst store'. apply list_elem_of_fmap. exists (id, rule). cbn [fst].
    rewrite bool_decide_eq_true_2 by reflexivity. auto. }
  assert (Hnone : findOneActive (rulesOf store') (rule_dayType rule) (rule_timeSlot rule)
                  = None).
  { unfold findOneActive. apply find_all_false. intros r Hr.
    unfold rulesOf in Hr. apply list_elem_of_fmap in Hr as ([i r'] & -> & Hir).
    cbn [snd].
    destruct (decide (classOf r' = classOf (deactivated rule))) as [Hsame | Hdiff].
    - assert (Heq : (i, r') = (id, deactivated rule)).
      { apply (NoDup_fmap_inj_on (fun kv => classOf (snd kv)) store');
          [| assumption | assumption | exact Hsame].
        unfold rulesOf in Hkeys'. rewrite <- list_fmap_compose in Hkeys'. exact Hkeys'. }
      injection Heq as -> ->. cbn [deactivated isActive]. apply andb_false_r.
    - unfold classOf in Hdiff. cbn [deactivated rule_dayType rule_timeSlot] in Hdiff.
      destruct (decide (rule_dayType r' = rule_dayType rule)) as [Hdt | Hdt].
      + rewrite (bool_decide_eq_true_2 _ Hdt).
        rewrite bool_decide_eq_false_2 by congruence. reflexivity.
      + rewrite (bool_decide_eq_false_2 _ Hdt). reflexivity. }
  split; [reflexivity | split; [| split; [exact Hnone |]]].
  - change (rule_dayType rule) with (rule_dayType (deactivated rule)).
    change (rule_timeSlot rule) with (rule_timeSlot (deactivated rule)).
    change (pricePerHour rule) with (pricePerHour (deactivated rule)).
    apply formatPricing_shows.
    + rewrite Hfound. exact Hkeys'.
    + rewrite Hfound. unfold rulesOf. apply list_elem_of_fmap.
      exists (id, deactivated rule). auto.
  - intros d Hsat Hdt Hts. unfold getPrice. rewrite Hsat. cbv zeta.
    rewrite Hdt, Hts, Hnone. reflexivity.
Qed.

Lemma sampleRuleStore_ok : storeOk sampleRuleStore.
Proof.
  split; [| split].
  - apply (bool_decide_unpack _). vm_compute. exact I.
  - apply (bool_decide_unpack _). vm_compute. exact I.
  - exact initialRules_positive.
Qed.

Lemma sampleRuleStore_first :
  (1%N, mkPricingRule weekday day (Qc_of_Z 90) true) ∈ sampleRuleStore.
Proof. left. Qed.

(** Witness of X26: the weekday day rule of the sample store is switched
    off. *)
Lemma deactivated_rule_is_shown_but_not_charged_witness :
  storeOk sampleRuleStore
  /\ let rule := mkPricingRule weekday day (Qc_of_Z 90) true in
     let rules := rulesOf (fst (updatePricingRule 1%N deactivate sampleRuleStore)) in
     snd (updatePricingRule 1%N deactivate sampleRuleStore)
     = Returned (mkResponse 200 (deactivated rule)
                   (Some "Pricing rule updated successfully"))
     /\ shownRate (formatPricing rules) (rule_dayType rule) (rule_timeSlot rule)
        = pricePerHour rule
     /\ findOneActive rules (rule_dayType rule) (rule_timeSlot rule) = None
     /\ forall d : Date,
          isSaturdayNight d (getHours d) = false ->
          getDayType (getEffectiveDate d) = rule_dayType rule ->
          getTimeSlot (getHours d) = rule_timeSlot rule ->
          getPrice rules d (getHours d)
          = Throw (ruleNotFound (rule_dayType rule) (rule_timeSlot rule)).
Proof.
  split; [exact sampleRuleStore_ok |].
  exact (deactivated_rule_is_shown_but_not_charged sampleRuleStore 1%N
           (mkPricingRule weekday day (Qc_of_Z 90) true)
           (rulesOf (fst (updatePricingRule 1%N deactivate sampleRuleStore)))
           sampleRuleStore_ok sampleRuleStore_first (reflexivity _)).
Defined.

End PricingControllerFacts.

(* ================================================================== *)
(** * Properties of the pricing service on instants *)

Lemma instant_priceLoop_passes rules endTime fuel : forall cur slots tp,
  InstantPricingService.priceLoop fuel rules endTime cur (timeSlotPriceOf <$> slots) tp
  = match PricingService.priceLoop fuel rules endTime cur slots tp with
    | Ok (slots', tp') => Ok (timeSlotPriceOf <$> slots', tp')
    | Throw e => Throw e
    | OutOfFuel => OutOfFuel
    end.
Proof.
  induction fuel as [| fuel IH]; intros cur slots tp; [reflexivity |].
  cbn [InstantPricingService.priceLoop PricingService.priceLoop]. cbv zeta.
  destruct (cur <? endTime); [| reflexivity].
  destruct (getPrice rules cur (getHours cur)) as [p | e |]; try reflexivity.
  rewrite <- IH. f_equal. rewrite fmap_app. reflexivity.
Qed.

Lemma this_Qcmult (x y : Qc) : (this (x * y)%Qc == this x * this y)%Q.
Proof. apply Qred_correct. Qed.

Lemma this_Qcinv (x : Qc) : (this (/ x)%Qc == / this x)%Q.
Proof. apply Qred_correct. Qed.

Lemma this_Qc_of_Z (z : Z) : (this (Qc_of_Z z) == inject_Z z)%Q.
Proof. reflexivity. Qed.

Lemma Qc_of_Z_nonneg (z : Z) : 0 <= z -> (0 <= Qc_of_Z z)%Qc.
Proof. intros Hz. rewrite <- Z2Qc_inj_0. apply (proj1 (Z2Qc_inj_le _ _)). exact Hz. Qed.

Lemma truncate_div (a b : Z) :
  0 <= a -> 0 < b -> truncate (Qc_of_Z a / Qc_of_Z b) = a / b.
Proof.
  intros Ha Hb. unfold truncate.
  assert (Hpos : (0 <= Qc_of_Z a / Qc_of_Z b)%Qc).
  { unfold Qcdiv. replace 0%Qc with (0 * / Qc_of_Z b)%Qc by ring.
    apply Qcmult_le_compat_r; [apply Qc_of_Z_nonneg; exact Ha |].
    apply Qclt_le_weak, Qcinv_pos. rewrite <- Z2Qc_inj_0.
    apply (proj1 (Z2Qc_inj_lt _ _)). exact Hb. }
  rewrite bool_decide_eq_true_2 by exact Hpos.
  rewrite Zdiv_Qdiv. apply Qfloor_comp.
  unfold Qcdiv. rewrite this_Qcmult, this_Qcinv, !this_Qc_of_Z. reflexivity.
Qed.

Lemma Qc_of_Z_neq_0 (z : Z) : z <> 0 -> Qc_of_Z z <> 0%Qc.
Proof. intros Hz H. rewrite <- Z2Qc_inj_0 in H. apply Z2Qc_inj in H. contradiction. Qed.

Lemma jsRem_minutes (tm : Z) :
  0 <= tm ->
  jsRem (Qc_of_Z tm / Qc_of_Z msPerMinute) (Qc_of_Z 60)
  = (Qc_of_Z (tm mod msPerHour) / Qc_of_Z msPerMinute)%Qc.
Proof.
  intros Htm. unfold jsRem.
  assert (Hm : Qc_of_Z msPerMinute <> 0%Qc) by (apply Qc_of_Z_neq_0; discriminate).
  assert (H60 : Qc_of_Z 60 <> 0%Qc) by (apply Qc_of_Z_neq_0; discriminate).
  replace (Qc_of_Z tm / Qc_of_Z msPerMinute / Qc_of_Z 60)%Qc
    with (Qc_of_Z tm / Qc_of_Z msPerHour)%Qc.
  2:{ change msPerHour with (60 * msPerMinute). rewrite Z2Qc_inj_mul.
      field. split; assumption. }
  rewrite truncate_div by (unfold msPerHour; lia).
  rewrite (Z.mod_eq tm msPerHour) by discriminate.
  rewrite Z2Qc_inj_sub, Z2Qc_inj_mul.
  change msPerHour with (60 * msPerMinute). rewrite Z2Qc_inj_mul.
  field. exact Hm.
Qed.

Lemma minutes_of_remainder (r k : Z) :
  (Qc_of_Z r / Qc_of_Z msPerMinute)%Qc = Qc_of_Z k <-> r = k * msPerMinute.
Proof.
  assert (Hm : Qc_of_Z msPerMinute <> 0%Qc) by (apply Qc_of_Z_neq_0; discriminate).
  split.
  - intros Heq. apply Z2Qc_inj. rewrite Z2Qc_inj_mul, <- Heq. field. exact Hm.
  - intros ->. rewrite Z2Qc_inj_mul. field. exact Hm.
Qed.

(** The check on the minutes accepts the whole multiples of thirty
    minutes. *)
Lemma instant_minutes_check (tm : Z) :
  0 <= tm ->
  let minutes := jsRem (Qc_of_Z tm / Qc_of_Z msPerMinute) (Qc_of_Z 60) in
  negb (bool_decide (minutes = 0%Qc)) && negb (bool_decide (minutes = Qc_of_Z 30))
  = negb (tm mod (30 * msPerMinute) =? 0).
Proof.
  intros Htm minutes. subst minutes. rewrite jsRem_minutes by exact Htm.
  rewrite <- Z2Qc_inj_0.
  pose proof (minutes_of_remainder (tm mod msPerHour) 0) as H0.
  pose proof (minutes_of_remainder (tm mod msPerHour) 30) as H30.
  pose proof (Z.mod_pos_bound tm msPerHour ltac:(reflexivity)) as Hr.
  destruct (Z.eqb_spec (tm mod (30 * msPerMinute)) 0) as [Hhalf | Hhalf]; cbn [negb].
  - assert (Hcases : tm mod msPerHour = 0 * msPerMinute
                     \/ tm mod msPerHour = 30 * msPerMinute).
    { revert Hhalf Hr. unfold msPerHour, msPerMinute. Z.div_mod_to_equations. lia. }
    destruct Hcases as [Hc | Hc].
    + rewrite (bool_decide_eq_true_2 _ (proj2 H0 Hc)). reflexivity.
    + rewrite (bool_decide_eq_true_2 _ (proj2 H30 Hc)). apply andb_false_r.
  - rewrite !bool_decide_eq_false_2; [reflexivity | |].
    + intros Heq. apply H30 in Heq. apply Hhalf.
      revert Heq Hr. unfold msPerHour, msPerMinute. Z.div_mod_to_equations. lia.
    + intros Heq. apply H0 in Heq. apply Hhalf.
      revert Heq Hr. unfold msPerHour, msPerMinute. Z.div_mod_to_equations. lia.
Qed.

(** [calculateBookingPrice] on instants, by cases on the range. *)
Lemma instant_calculateBookingPrice_cases rules courtId (s e : Date) :
  InstantPricingService.calculateBookingPrice rules courtId s e
  = if e <=? s then Throw InstantPricingService.endNotAfterStart
    else if e - s <? msPerHour then Throw minimumDuration
    else if negb ((e - s) mod (30 * msPerMinute) =? 0) then Throw thirtyMinuteIncrements
    else
      match PricingService.priceLoop (loopFuel (e - s)) rules e s [] 0%Qc with
      | Ok (slots, total) =>
          Ok (InstantPricingService.mkPriceCalculation courtId s e (hoursOfMs (e - s))
                (timeSlotPriceOf <$> slots) total 0%Qc total)
      | Throw err => Throw err
      | OutOfFuel => OutOfFuel
      end.
Proof.
  unfold InstantPricingService.calculateBookingPrice. cbv zeta. unfold getTime.
  replace (s >=? e) with (e <=? s)
    by (destruct (Z.leb_spec e s), (Z.geb_spec s e); try reflexivity; lia).
  destruct (Z.leb_spec e s) as [Hle | Hlt]; [reflexivity |].
  rewrite hoursOfMs_lt_1.
  destruct (e - s <? msPerHour); [reflexivity |].
  rewrite instant_minutes_check by lia.
  destruct (negb _); [reflexivity |].
  change (@nil InstantPricingService.ITimeSlotPrice) with (timeSlotPriceOf <$> @nil Slot).
  rewrite instant_priceLoop_passes.
  destruct (PricingService.priceLoop _ _ _ _ _ _) as [[slots total] | err |];
    reflexivity.
Qed.

Lemma ruleNotFound_not_endNotAfterStart dt ts :
  ruleNotFound dt ts <> InstantPricingService.endNotAfterStart.
Proof. destruct dt, ts; discriminate. Qed.


Lemma Walk_sameEntry rules endDateTime cur slots :
  Walk rules endDateTime cur slots ->
  Forall2 sameEntry (timeSlotPriceOf <$> slots) (slotEntry <$> slots).
Proof.
  intros Hwalk. apply Forall2_fmap, Forall_Forall2_diag.
  eapply Forall_impl; [apply (Walk_pricedPass _ _ _ _ Hwalk) |].
  intros s (Hend & Hdur & Hprice & Hlabel & _).
  unfold sameEntry, timeSlotPriceOf. cbn.
  repeat split; assumption.
Qed.

(** X28.  The two versions of the pricing service agree.  For a booking
    date and two times of day, the service on instants called with the
    resolved start and end returns what the service on date and time strings
    returns: the same total hours and final price (subtotal, no discount),
    entry by entry the same rate and classification over the bounds that the
    label prints, or the same error; and [getPricePreview] answers with
    these hours, this price and this breakdown. *)
Theorem instant_service_agrees
    (rules : PricingRules) (courtId : string) (bookingDate : BookingDateArg)
    (startTime endTime : TimeStr) :
  wellFormedTime startTime -> wellFormedTime endTime ->
  let startDateTime := startDateTimeOf bookingDate startTime in
  let endDateTime := endDateTimeOf bookingDate startTime endTime in
  match snd (PricingService.calculateBookingPrice rules bookingDate startTime endTime) with
  | Ok r =>
      exists c,
        InstantPricingService.calculateBookingPrice rules courtId startDateTime endDateTime
        = Ok c
        /\ InstantPricingService.getPricePreview rules startDateTime endDateTime
           = Ok (totalHours r, finalPrice r, InstantPricingService.breakdown c)
        /\ InstantPricingService.totalHours c = totalHours r
        /\ InstantPricingService.subtotal c = finalPrice r
        /\ InstantPricingService.discount c = 0%Qc
        /\ InstantPricingService.finalPrice c = finalPrice r
        /\ Forall2 sameEntry (InstantPricingService.breakdown c) (breakdown r)
  | Throw e =>
      InstantPricingService.calculateBookingPrice rules courtId startDateTime endDateTime
      = Throw e
      /\ InstantPricingService.getPricePreview rules startDateTime endDateTime = Throw e
  | OutOfFuel => False
  end.
Proof.
  intros Hst Het startDateTime endDateTime.
  pose proof (resolvedMinutes_range _ _ Hst Het) as Hrange.
  pose proof (totalMilliseconds_resolved bookingDate startTime endTime) as Htot.
  unfold getTime in Htot. fold startDateTime endDateTime in Htot.
  assert (Hcalc : forall id,
            InstantPricingService.calculateBookingPrice rules id startDateTime endDateTime
            = match priceWalk rules bookingDate startTime endTime with
              | Ok (slots, r) =>
                  Ok (InstantPricingService.mkPriceCalculation id startDateTime
                        endDateTime (totalHours r) (timeSlotPriceOf <$> slots)
                        (finalPrice r) 0%Qc (finalPrice r))
              | Throw e => Throw e
              | OutOfFuel => OutOfFuel
              end).
  { intros id. rewrite instant_calculateBookingPrice_cases, priceWalk_cases.
    fold startDateTime endDateTime. rewrite Htot.
    destruct (Z.leb_spec endDateTime startDateTime) as [Hle | _];
      [unfold msPerMinute in Htot; lia |].
    replace (resolvedMinutes startTime endTime * msPerMinute <? msPerHour)
      with (resolvedMinutes startTime endTime <? 60)
      by (unfold msPerMinute, msPerHour;
          destruct (Z.ltb_spec (resolvedMinutes startTime endTime) 60),
            (Z.ltb_spec (resolvedMinutes startTime endTime * (1000 * 60))
                        (1000 * 60 * 60)); try reflexivity; lia).
    destruct (_ <? 60); [reflexivity |].
    replace (resolvedMinutes startTime endTime * msPerMinute mod (30 * msPerMinute) =? 0)
      with (resolvedMinutes startTime endTime mod 30 =? 0)
      by (unfold msPerMinute;
          destruct (Z.eqb_spec (resolvedMinutes startTime endTime mod 30) 0) as [H0 | H0],
            (Z.eqb_spec (resolvedMinutes startTime endTime * (1000 * 60)
                         mod (30 * (1000 * 60))) 0) as [H1 | H1];
          try reflexivity; exfalso; revert H0 H1; Z.div_mod_to_equations; lia).
    destruct (negb _); [reflexivity |].
    destruct (PricingService.priceLoop _ _ _ _ _ _) as [[slots total] | err |];
      reflexivity. }
  pose proof (priceWalk_terminates rules bookingDate startTime endTime) as Hterm.
  rewrite calculateBookingPrice_snd.
  unfold InstantPricingService.getPricePreview. rewrite !Hcalc.
  destruct (priceWalk rules bookingDate startTime endTime) as [[slots r] | e |] eqn:Hrun.
  - eexists. split; [reflexivity |]. cbn.
    repeat split; try reflexivity.
    apply priceWalk_Ok_inv in Hrun as (_ & Hwalk & ->). cbn [breakdown].
    exact (Walk_sameEntry _ _ _ _ Hwalk).
  - split; reflexivity.
  - congruence.
Qed.

(** Witness of X28: Thursday 17:30 to 19:00 under the default rules. *)
Lemma instant_service_agrees_witness :
  wellFormedTime (HHMM 17 30) /\ wellFormedTime (HHMM 19 0)
  /\ let startDateTime := startDateTimeOf (DateString thursday) (HHMM 17 30) in
     let endDateTime := endDateTimeOf (DateString thursday) (HHMM 17 30) (HHMM 19 0) in
     match snd (PricingService.calculateBookingPrice defaultRules (DateString thursday)
                  (HHMM 17 30) (HHMM 19 0)) with
     | Ok r =>
         exists c,
           InstantPricingService.calculateBookingPrice defaultRules "court-1"
             startDateTime endDateTime = Ok c
           /\ InstantPricingService.getPricePreview defaultRules startDateTime endDateTime
              = Ok (totalHours r, finalPrice r, InstantPricingService.breakdown c)
           /\ InstantPricingService.totalHours c = totalHours r
           /\ InstantPricingService.subtotal c = finalPrice r
           /\ InstantPricingService.discount c = 0%Qc
           /\ InstantPricingService.finalPrice c = finalPrice r
           /\ Forall2 sameEntry (InstantPricingService.breakdown c) (breakdown r)
     | Throw e =>
         InstantPricingService.calculateBookingPrice defaultRules "court-1"
           startDateTime endDateTime = Throw e
         /\ InstantPricingService.getPricePreview defaultRules startDateTime endDateTime
            = Throw e
     | OutOfFuel => False
     end.
Proof.
  split; [exact wellFormedTime_17_30 | split; [exact wellFormedTime_19_00 |]].
  exact (instant_service_agrees defaultRules "court-1" (DateString thursday)
           (HHMM 17 30) (HHMM 19 0) wellFormedTime_17_30 wellFormedTime_19_00).
Defined.

(* ================================================================== *)
(** * JavaScript's numbers *)

Section NumberFacts.

Import JsNumber.

(** ** Rounding leaves a double as it is *)

Lemma roundHalfEven_exact (a b : Z) :
  0 < b -> (b | a) -> roundHalfEven a b = a / b.
Proof.
  intros Hb Hdiv. unfold roundHalfEven.
  apply Z.mod_divide in Hdiv; [| lia]. rewrite Hdiv.
  destruct (Z.compare_spec (2 * 0) b); [lia | reflexivity | lia].
Qed.

Lemma binade_bound (a d k : Z) :
  0 < a -> 0 < d -> 0 <= k <= 52 -> a * 2 ^ k < 2 ^ 53 * d -> binade a d + k <= 52.
Proof.
  intros Ha Hd Hk Hlt. unfold binade.
  destruct (Z.leb_spec d a) as [Hle | Hgt].
  - assert (Hq : 0 < a / d) by (apply Z.div_str_pos; lia).
    destruct (Z.log2_spec (a / d) Hq) as [Hlow _].
    pose proof (Z.mul_div_le a d Hd) as Hmul.
    pose proof (Z.log2_nonneg (a / d)) as Hnn.
    assert (Hpk : 0 < 2 ^ k) by (apply Z.pow_pos_nonneg; lia).
    assert (Hpow : 2 ^ (Z.log2 (a / d) + k) < 2 ^ 53).
    { rewrite Z.pow_add_r by lia.
      set (L := 2 ^ Z.log2 (a / d)) in *. set (K := 2 ^ k) in *.
      set (Q := a / d) in *. set (C := 2 ^ 53) in *.
      assert (H1 : L * K * d <= Q * K * d).
      { apply Z.mul_le_mono_nonneg_r; [lia |].
        apply Z.mul_le_mono_nonneg_r; lia. }
      assert (H2 : Q * K * d <= a * K).
      { replace (Q * K * d) with (d * Q * K) by ring.
        apply Z.mul_le_mono_nonneg_r; lia. }
      assert (H3 : L * K * d < C * d) by lia.
      apply Z.mul_lt_mono_pos_r in H3; lia. }
    apply Z.pow_lt_mono_r_iff in Hpow; lia.
  - pose proof (Z.log2_up_nonneg ((d + a - 1) / a)). lia.
Qed.

Lemma scaled_value (f a d e : Z) :
  0 < d -> e <= 0 -> f * d = a * 2 ^ (- e) -> (this (scaled f e) == a # Z.to_pos d)%Q.
Proof.
  intros Hd He Hf. unfold scaled.
  assert (Hp : 0 < 2 ^ (- e)) by (apply Z.pow_pos_nonneg; lia).
  destruct (Z.leb_spec 0 e) as [H0 | Hneg].
  - assert (e = 0) by lia. subst e. simpl in Hf. rewrite Z.mul_1_r in *.
    unfold Qc_of_Z. simpl. unfold Qeq. simpl. rewrite Z2Pos.id by lia. lia.
  - unfold Q2Qc. cbn [this]. rewrite Qred_correct. unfold Qeq. cbn [Qnum Qden].
    rewrite !Z2Pos.id by lia. lia.
Qed.

(** A rational that is a multiple of [2^-k] with [k <= 52] and, in that
    unit, is below [2^53] is a double. *)
Lemma double_exact (q : Qc) (k : Z) :
  0 <= k <= 52 ->
  (Zpos (Qden q) | 2 ^ k) ->
  Z.abs (Qnum q) * 2 ^ k < 2 ^ 53 * Zpos (Qden q) ->
  double q = Finite q.
Proof.
  intros Hk Hdiv Hlt. unfold double.
  destruct (Z.eqb_spec (Qnum q) 0) as [H0 | Hne].
  { f_equal. apply Qc_is_canon. unfold Qeq. simpl. rewrite H0. reflexivity. }
  set (a := Z.abs (Qnum q)) in *. set (d := Zpos (Qden q)) in *.
  assert (Ha : 0 < a) by (unfold a; lia).
  assert (Hd : 0 < d) by (unfold d; lia).
  pose proof (binade_bound a d k Ha Hd Hk Hlt) as Hb.
  unfold nearest.
  set (e := Z.max (binade a d - 52) (-1074)).
  assert (He : e <= - k) by (unfold e; lia).
  assert (Hpe : 0 < 2 ^ (- e)) by (apply Z.pow_pos_nonneg; lia).
  assert (Hdive : (d | a * 2 ^ (- e))).
  { apply Z.divide_mul_r. apply Z.divide_trans with (2 ^ k); [exact Hdiv |].
    exists (2 ^ (- e - k)). rewrite <- Z.pow_add_r by lia. f_equal. lia. }
  set (m := if 0 <=? e then roundHalfEven a (d * 2 ^ e)
            else roundHalfEven (a * 2 ^ (- e)) d).
  assert (Hm : m * d = a * 2 ^ (- e)).
  { destruct Hdive as [c Hc]. unfold m.
    destruct (Z.leb_spec 0 e) as [Hge | Hneg].
    - assert (He0 : e = 0) by lia. rewrite He0 in *.
      change (2 ^ (- 0)) with 1 in *. change (2 ^ 0) with 1.
      rewrite !Z.mul_1_r in *.
      rewrite roundHalfEven_exact by (try assumption; exists c; exact Hc).
      rewrite Hc, Z.div_mul by lia. reflexivity.
    - rewrite roundHalfEven_exact by (try assumption; exists c; exact Hc).
      rewrite Hc, Z.div_mul by lia. reflexivity. }
  assert (Hover : (2 ^ 1024 <=? m * 2 ^ e) = false).
  { apply Z.leb_gt. destruct (Z.eq_dec e 0) as [He0 | He0].
    - rewrite He0 in *. change (2 ^ (- 0)) with 1 in *. change (2 ^ 0) with 1.
      rewrite !Z.mul_1_r in *.
      assert (Hk0 : k = 0) by lia. rewrite Hk0 in *. change (2 ^ 0) with 1 in *.
      assert (Hd1 : d = 1) by (apply Z.divide_1_r_nonneg; [lia | exact Hdiv]).
      rewrite Hd1 in *. rewrite !Z.mul_1_r in *.
      assert (2 ^ 53 < 2 ^ 1024) by (apply Z.pow_lt_mono_r; lia). lia.
    - rewrite (Z.pow_neg_r 2 e) by lia. rewrite Z.mul_0_r.
      apply Z.pow_pos_nonneg; lia. }
  rewrite Hover. f_equal. apply Qc_is_canon.
  pose proof (scaled_value m a d e Hd ltac:(lia) Hm) as Hval.
  destruct (Z.ltb_spec (Qnum q) 0) as [Hneg | Hpos].
  - unfold Qcopp, Q2Qc. cbn [this]. rewrite Qred_correct, Hval.
    unfold Qeq, d, a. cbn [Qnum Qden Qopp]. rewrite Pos2Z.id. lia.
  - rewrite Hval. unfold Qeq, d, a. cbn [Qnum Qden]. rewrite Pos2Z.id. lia.
Qed.

(** A rational equal to [z / 2^k] with [k <= 52] and [|z| < 2^53] is a
    double. *)
Lemma double_dyadic (q : Qc) (z k : Z) :
  0 <= k <= 52 -> Z.abs z < 2 ^ 53 ->
  (this q == z # Z.to_pos (2 ^ k))%Q ->
  double q = Finite q.
Proof.
  intros Hk Hz Heq.
  assert (Hp : 0 < 2 ^ k) by (apply Z.pow_pos_nonneg; lia).
  unfold Qeq in Heq. cbn [Qnum Qden] in Heq. rewrite Z2Pos.id in Heq by lia.
  pose proof (Qred_identity2 (this q) (canon q)) as Hgcd.
  apply (double_exact q k Hk).
  - apply Z.gauss with (Qnum (this q)).
    + exists z. exact Heq.
    + rewrite Z.gcd_comm. exact Hgcd.
  - replace (Z.abs (Qnum q) * 2 ^ k) with (Z.abs z * Zpos (Qden q)).
    + apply Z.mul_lt_mono_pos_r; lia.
    + rewrite <- (Z.abs_eq (2 ^ k)) at 1 by lia.
      rewrite <- (Z.abs_eq (Zpos (Qden q))) at 1 by lia.
      rewrite <- !Z.abs_mul. f_equal. symmetry. exact Heq.
Qed.

Lemma double_ofZ (n : Z) : Z.abs n < 2 ^ 53 -> double (Qc_of_Z n) = ofZ n.
Proof.
  intros Hn. apply (double_dyadic _ n 0); [lia | exact Hn | reflexivity].
Qed.

(** ** Arithmetic on integers below [2^53] is exact *)

Lemma add_ofZ (a b : Z) : Z.abs (a + b) < 2 ^ 53 -> add (ofZ a) (ofZ b) = ofZ (a + b).
Proof.
  intros H. unfold add, ofZ. rewrite <- Z2Qc_inj_add. apply double_ofZ, H.
Qed.

Lemma sub_ofZ (a b : Z) : Z.abs (a - b) < 2 ^ 53 -> sub (ofZ a) (ofZ b) = ofZ (a - b).
Proof.
  intros H. unfold sub, neg, ofZ. rewrite <- Z2Qc_inj_opp.
  apply (add_ofZ a (- b)). exact H.
Qed.

Lemma mul_ofZ (a b : Z) : Z.abs (a * b) < 2 ^ 53 -> mul (ofZ a) (ofZ b) = ofZ (a * b).
Proof.
  intros H. unfold mul, ofZ. rewrite <- Z2Qc_inj_mul. apply double_ofZ, H.
Qed.

Lemma lt_ofZ (a b : Z) : lt (ofZ a) (ofZ b) = (a <? b).
Proof.
  unfold lt, ofZ. destruct (Z.ltb_spec a b) as [H | H].
  - apply bool_decide_eq_true_2. apply (proj1 (Z2Qc_inj_lt _ _)), H.
  - apply bool_decide_eq_false_2, Qcle_not_lt. apply (proj1 (Z2Qc_inj_le _ _)), H.
Qed.

Lemma gt_ofZ (a b : Z) : gt (ofZ a) (ofZ b) = (a >? b).
Proof. unfold gt. rewrite lt_ofZ, Z.gtb_ltb. reflexivity. Qed.

Lemma le_ofZ (a b : Z) : le (ofZ a) (ofZ b) = (a <=? b).
Proof.
  unfold le, ofZ. fold (ofZ a) (ofZ b). rewrite lt_ofZ, Z.leb_antisym. reflexivity.
Qed.

Lemma ge_ofZ (a b : Z) : ge (ofZ a) (ofZ b) = (a >=? b).
Proof. unfold ge. rewrite le_ofZ, Z.geb_leb. reflexivity. Qed.

Lemma strictEq_ofZ (a b : Z) : strictEq (ofZ a) (ofZ b) = (a =? b).
Proof.
  unfold strictEq, ofZ. destruct (Z.eqb_spec a b) as [-> | Hne].
  - apply bool_decide_eq_true_2. reflexivity.
  - apply bool_decide_eq_false_2. intros H. apply Z2Qc_inj in H. contradiction.
Qed.

Lemma truncate_ofZ (n : Z) : truncate (Qc_of_Z n) = n.
Proof.
  unfold truncate. destruct (bool_decide _); [apply Qfloor_Z | apply Qceiling_Z].
Qed.

Lemma toInteger_ofZ (n : Z) : toInteger (ofZ n) = ofZ n.
Proof. unfold toInteger, ofZ. rewrite truncate_ofZ. reflexivity. Qed.

End NumberFacts.

(* ================================================================== *)
(** * Dates that may be invalid *)

Lemma pow2_53 : 2 ^ 53 = 9007199254740992.
Proof. reflexivity. Qed.

Ltac js_consts :=
  unfold safe, Js.maxTime, Js.utcOffset, eraBound, msPerDay, msPerHour, msPerMinute in *;
  rewrite ?pow2_53 in *.

Ltac js_lia := js_consts; Z.div_mod_to_equations; lia.

Section DateObjectFacts.

Import JsNumber.

Lemma TimeClip_UTC_ofZ (x : Z) :
  - Js.maxTime <= x - Js.utcOffset <= Js.maxTime ->
  Js.TimeClip (Js.UTC (ofZ x)) = Some x.
Proof.
  intros Hx. unfold Js.UTC. rewrite sub_ofZ by (js_consts; lia).
  unfold Js.TimeClip, ofZ.
  rewrite <- Z2Qc_inj_opp.
  rewrite !bool_decide_eq_true_2.
  - simpl. rewrite truncate_ofZ. f_equal. lia.
  - apply (proj1 (Z2Qc_inj_le _ _)). lia.
  - apply (proj1 (Z2Qc_inj_le _ _)). lia.
Qed.

Lemma MakeTime_ofZ (h m s ms : Z) :
  Z.abs h <= 1000 -> Z.abs m <= 1000 -> Z.abs s <= 1000 -> Z.abs ms <= 1000 ->
  Js.MakeTime (ofZ h) (ofZ m) (ofZ s) (ofZ ms)
  = ofZ (h * msPerHour + m * msPerMinute + s * 1000 + ms).
Proof.
  intros Hh Hm Hs Hms. unfold Js.MakeTime. cbn [isFinite ofZ andb].
  fold (ofZ h) (ofZ m) (ofZ s) (ofZ ms).
  rewrite !toInteger_ofZ.
  rewrite !mul_ofZ by (js_consts; lia).
  rewrite !add_ofZ by (js_consts; lia).
  reflexivity.
Qed.

Lemma MakeDate_ofZ (day time : Z) :
  Z.abs (day * msPerDay) < 2 ^ 53 ->
  Z.abs (day * msPerDay + time) < 2 ^ 53 ->
  Js.MakeDate (ofZ day) (ofZ time) = ofZ (day * msPerDay + time).
Proof.
  intros Hd Ht. unfold Js.MakeDate. cbn [isFinite ofZ andb].
  fold (ofZ day) (ofZ time) (ofZ msPerDay).
  rewrite mul_ofZ by exact Hd. rewrite add_ofZ by exact Ht. reflexivity.
Qed.

Lemma setHours4_Some (t h m : Z) :
  safe t -> 0 <= h <= 24 -> 0 <= m <= 60 ->
  Js.setHours4 (Some t) (ofZ h) (ofZ m) (ofZ 0) (ofZ 0)
  = Some (JsDate.setHours4 t h m 0 0).
Proof.
  intros Ht Hh Hm. unfold Js.setHours4.
  rewrite MakeTime_ofZ by lia.
  rewrite MakeDate_ofZ by (js_consts; Z.div_mod_to_equations; lia).
  rewrite TimeClip_UTC_ofZ by (js_consts; Z.div_mod_to_equations; lia).
  f_equal. unfold JsDate.setHours4, startOfDay. js_consts.
  Z.div_mod_to_equations. lia.
Qed.

Lemma setHours_next_Some (t : Z) :
  safe t ->
  Js.setHours (Some t) (add (Js.getHours (Some t)) (ofZ 1)) = Some (t + msPerHour).
Proof.
  intros Ht. unfold Js.setHours, Js.getHours.
  assert (Hh : 0 <= JsDate.getHours t < 24).
  { unfold JsDate.getHours. js_consts. Z.div_mod_to_equations. lia. }
  assert (Hm : 0 <= JsDate.getMinutes t < 60).
  { unfold JsDate.getMinutes. js_consts. Z.div_mod_to_equations. lia. }
  rewrite add_ofZ by (js_consts; lia).
  rewrite MakeTime_ofZ
    by (try lia; js_consts; Z.div_mod_to_equations; lia).
  rewrite MakeDate_ofZ
    by (unfold JsDate.getHours, JsDate.getMinutes in *; js_consts;
        Z.div_mod_to_equations; lia).
  rewrite TimeClip_UTC_ofZ
    by (unfold JsDate.getHours, JsDate.getMinutes in *; js_consts;
        Z.div_mod_to_equations; lia).
  f_equal. unfold JsDate.getHours, JsDate.getMinutes in *. js_consts.
  Z.div_mod_to_equations. lia.
Qed.

Lemma addDays_Some (t n : Z) :
  safe t -> Z.abs n <= 1 ->
  Js.addDays (Some t) n = Some (JsDate.addDays t n).
Proof.
  intros Ht Hn. unfold Js.addDays.
  rewrite add_ofZ by (js_consts; Z.div_mod_to_equations; lia).
  rewrite MakeDate_ofZ by (js_consts; Z.div_mod_to_equations; lia).
  rewrite TimeClip_UTC_ofZ by (js_consts; Z.div_mod_to_equations; lia).
  f_equal. unfold JsDate.addDays. js_consts. Z.div_mod_to_equations. lia.
Qed.

End DateObjectFacts.

(* ================================================================== *)
(** * The two embeddings of the pricing service agree *)

Section Agreement.

Import JsNumber.

Variable rules : PricingRules.

(** ** The helpers *)

Lemma js_isNightTime (h : Z) : Js.isNightTime (ofZ h) = isNightTime h.
Proof. unfold Js.isNightTime, isNightTime. rewrite ge_ofZ, lt_ofZ. reflexivity. Qed.

Lemma js_getTimeSlot (h : Z) : Js.getTimeSlot (ofZ h) = getTimeSlot h.
Proof. unfold Js.getTimeSlot, getTimeSlot. rewrite js_isNightTime. reflexivity. Qed.

Lemma js_isWeekend (t : Z) : Js.isWeekend (Some t) = isWeekend t.
Proof.
  unfold Js.isWeekend, isWeekend, Js.getDayOfWeek, getDayOfWeek, Js.getDay.
  cbv zeta. rewrite !strictEq_ofZ. reflexivity.
Qed.

Lemma js_getDayType (t : Z) : Js.getDayType (Some t) = getDayType t.
Proof. unfold Js.getDayType, getDayType. rewrite js_isWeekend. reflexivity. Qed.

Lemma js_getEffectiveDate (t : Z) :
  safe t -> Js.getEffectiveDate (Some t) = Some (getEffectiveDate t).
Proof.
  intros Ht. unfold Js.getEffectiveDate, getEffectiveDate, Js.getHours. cbv zeta.
  rewrite ge_ofZ, lt_ofZ.
  destruct ((JsDate.getHours t >=? 0) && (JsDate.getHours t <? 4)); [| reflexivity].
  apply addDays_Some; [exact Ht | lia].
Qed.

Lemma js_isSaturdayNight (t h : Z) :
  safe t -> Js.isSaturdayNight (Some t) (ofZ h) = isSaturdayNight t h.
Proof.
  intros Ht. unfold Js.isSaturdayNight, isSaturdayNight. cbv zeta.
  rewrite js_getEffectiveDate by exact Ht.
  unfold Js.getDayOfWeek, Js.getDay, getDayOfWeek.
  rewrite strictEq_ofZ, js_isNightTime. reflexivity.
Qed.

(** [getPrice] returns the same classification, and the rate as a
    number. *)
Lemma js_getPrice (t h : Z) :
  safe t ->
  Js.getPrice rules (Some t) (ofZ h)
  = match getPrice rules t h with
    | Ok p => Ok (Js.mkSlotPrice (double (price p)) (price_dayType p) (price_timeSlot p))
    | Throw e => Throw e
    | OutOfFuel => OutOfFuel
    end.
Proof.
  intros Ht. unfold Js.getPrice, getPrice. cbv zeta.
  rewrite js_isSaturdayNight by exact Ht.
  destruct (isSaturdayNight t h).
  - cbn [price price_dayType price_timeSlot].
    rewrite double_ofZ by (rewrite pow2_53; lia). reflexivity.
  - rewrite js_getEffectiveDate by exact Ht.
    rewrite js_getDayType, js_getTimeSlot.
    destruct (findOneActive _ _ _); reflexivity.
Qed.

Lemma js_padStart2 (n : Z) : Js.padStart2 (ofZ n) = pad2 n.
Proof. unfold Js.padStart2, ofZ. rewrite truncate_ofZ. reflexivity. Qed.

Lemma js_hourLabel (a b : Z) : Js.hourLabel (Some a) (Some b) = hourLabel a b.
Proof.
  unfold Js.hourLabel, hourLabel, Js.getHours, Js.getMinutes. cbv zeta.
  rewrite !js_padStart2. reflexivity.
Qed.

Lemma js_lt_getTime (a b : Z) :
  lt (Js.getTime (Some a)) (Js.getTime (Some b)) = (a <? b).
Proof.
  unfold Js.getTime. rewrite lt_ofZ.
  destruct (Z.ltb_spec (a - Js.utcOffset) (b - Js.utcOffset)), (Z.ltb_spec a b);
    try reflexivity; lia.
Qed.

Lemma js_le_getTime (a b : Z) :
  le (Js.getTime (Some a)) (Js.getTime (Some b)) = (a <=? b).
Proof.
  unfold Js.getTime. rewrite le_ofZ.
  destruct (Z.leb_spec (a - Js.utcOffset) (b - Js.utcOffset)), (Z.leb_spec a b);
    try reflexivity; lia.
Qed.

Lemma js_sub_getTime (a b : Z) :
  Z.abs (a - b) < 2 ^ 53 ->
  sub (Js.getTime (Some a)) (Js.getTime (Some b)) = ofZ (a - b).
Proof.
  intros Hab. unfold Js.getTime. rewrite sub_ofZ by js_lia. f_equal. lia.
Qed.

(** Milliseconds to hours, in doubles. *)
Lemma js_hours (ms : Z) :
  div (ofZ ms) (ofZ (1000 * 60 * 60)) = double (hoursOfMs ms).
Proof. reflexivity. Qed.

(** ** The loop *)

(** The passes made so far and the running total only accumulate. *)
Lemma priceLoop_accumulates (endDateTime : Date) (fuel : nat) :
  forall cur slots tp,
    priceLoop fuel rules endDateTime cur slots tp
    = match priceLoop fuel rules endDateTime cur [] 0%Qc with
      | Ok (new, t) => Ok (slots ++ new, (tp + t)%Qc)
      | Throw e => Throw e
      | OutOfFuel => OutOfFuel
      end.
Proof.
  induction fuel as [| fuel IH]; intros cur slots tp; [reflexivity |].
  destruct (Z.lt_ge_cases cur endDateTime) as [Hlt | Hge].
  - destruct (getPrice rules cur (JsDate.getHours cur)) as [p | e |] eqn:Hp.
    + rewrite !(priceLoop_pass _ _ _ _ _ _ p) by assumption.
      rewrite (IH _ (slots ++ _)), (IH _ ([] ++ _)).
      destruct (priceLoop fuel rules endDateTime _ [] 0%Qc) as [[new t] | e |];
        try reflexivity.
      rewrite <- !app_assoc. do 2 f_equal. ring.
    + rewrite !(priceLoop_throw _ _ _ _ _ _ e) by assumption. reflexivity.
    + exfalso. exact (getPrice_not_OutOfFuel _ _ _ Hp).
  - rewrite !priceLoop_exit by assumption. rewrite app_nil_r. do 2 f_equal. ring.
Qed.

Lemma slotEnd_Some (endDateTime cur : Z) :
  (if endDateTime <? cur + msPerHour then Some endDateTime else Some (cur + msPerHour))
  = Some (Z.min (cur + msPerHour) endDateTime).
Proof. destruct (Z.ltb_spec endDateTime (cur + msPerHour)); f_equal; lia. Qed.

(** One run of the loop on JavaScript's values makes the passes of the
    other embedding, with their numbers rounded. *)
Lemma js_priceLoop (endDateTime : Z) (fuel : nat) :
  safe endDateTime ->
  forall cur passes acc,
    safe cur ->
    Js.priceLoop fuel rules (Some endDateTime) (Some cur) passes acc
    = match priceLoop fuel rules endDateTime cur [] 0%Qc with
      | Ok (new, _) => Ok (passes ++ map jsPass new, jsTotal new acc)
      | Throw e => Throw e
      | OutOfFuel => OutOfFuel
      end.
Proof.
  intros Hend. induction fuel as [| fuel IH]; intros cur passes acc Hcur; [reflexivity |].
  cbn [Js.priceLoop]. rewrite js_lt_getTime.
  destruct (Z.ltb_spec cur endDateTime) as [Hlt | Hge].
  - rewrite setHours_next_Some by exact Hcur.
    unfold gt. rewrite js_lt_getTime, slotEnd_Some.
    rewrite js_sub_getTime by js_lia.
    rewrite js_hours, js_hourLabel.
    change (Js.getHours (Some cur)) with (ofZ (JsDate.getHours cur)).
    rewrite js_getPrice by exact Hcur.
    destruct (getPrice rules cur (JsDate.getHours cur)) as [p | e |] eqn:Hp.
    + rewrite (priceLoop_pass _ _ _ _ _ _ p) by assumption.
      rewrite priceLoop_accumulates.
      cbn [Js.price Js.price_dayType Js.price_timeSlot].
      rewrite IH by js_lia.
      destruct (priceLoop fuel rules endDateTime _ [] 0%Qc) as [[new t] | e |];
        try reflexivity.
      cbn [app map jsTotal fold_left]. rewrite <- app_assoc. reflexivity.
    + rewrite (priceLoop_throw _ _ _ _ _ _ e) by assumption. reflexivity.
    + exfalso. exact (getPrice_not_OutOfFuel _ _ _ Hp).
  - rewrite priceLoop_exit by assumption. cbn [map jsTotal fold_left].
    rewrite app_nil_r. reflexivity.
Qed.

(** ** The call *)

(** The tests of the duration, for every duration a pair of times of day
    can give: checked by running them. *)
Lemma durationTestsAgree_day :
  forallb durationTestsAgree (seqZ 1 1440) = true.
Proof. vm_compute. reflexivity. Qed.

Lemma js_duration_tests (k : Z) :
  0 < k <= 1440 ->
  let totalMilliseconds := ofZ (k * msPerMinute) in
  lt (div totalMilliseconds (ofZ (1000 * 60 * 60))) (ofZ 1)
  = bool_decide (hoursOfMs (k * msPerMinute) < 1)%Qc
  /\ negb (strictEq (rem (div totalMilliseconds (ofZ (1000 * 60))) (ofZ 60)) (ofZ 0))
     && negb (strictEq (rem (div totalMilliseconds (ofZ (1000 * 60))) (ofZ 60)) (ofZ 30))
     = negb (Z.rem (k * msPerMinute / msPerMinute) 60 =? 0)
       && negb (Z.rem (k * msPerMinute / msPerMinute) 60 =? 30).
Proof.
  intros Hk totalMilliseconds. subst totalMilliseconds.
  pose proof durationTestsAgree_day as Hall.
  rewrite forallb_forall in Hall.
  assert (Hin : In k (seqZ 1 1440)).
  { apply list_elem_of_In, elem_of_seqZ. lia. }
  specialize (Hall k Hin). unfold durationTestsAgree in Hall. cbv zeta in Hall.
  apply andb_prop in Hall as [H1 H2].
  apply Bool.eqb_prop in H1. apply Bool.eqb_prop in H2.
  rewrite hoursOfMs_lt_1.
  replace (k * msPerMinute / msPerMinute) with k
    by (unfold msPerMinute; rewrite Z.div_mul by lia; reflexivity).
  split; [| exact H2].
  rewrite H1. unfold msPerMinute, msPerHour.
  destruct (Z.ltb_spec k 60), (Z.ltb_spec (k * (1000 * 60)) (1000 * 60 * 60));
    try reflexivity; lia.
Qed.

Lemma startDateTimeOf_safe bookingDate startTime :
  inEra bookingDate -> wellFormedTime startTime ->
  safe (startDateTimeOf bookingDate startTime).
Proof.
  unfold inEra, wellFormedTime. intros Hera [Hh Hm].
  rewrite startDateTimeOf_instant. unfold instant, dayNumber. js_lia.
Qed.

Lemma endDateTimeOf_safe bookingDate startTime endTime :
  inEra bookingDate -> wellFormedTime endTime ->
  safe (endDateTimeOf bookingDate startTime endTime).
Proof.
  unfold inEra, wellFormedTime. intros Hera [Hh Hm].
  rewrite endDateTimeOf_instant. unfold instant, dayNumber.
  destruct (_ <=? _); js_lia.
Qed.

(** On a booking date of the era and two times of day, the call on
    JavaScript's values does what the call on exact values does, with the
    numbers rounded and the total accumulated in doubles. *)
Lemma js_calculateBookingPriceRun bookingDate startTime endTime :
  inEra bookingDate -> wellFormedTime startTime -> wellFormedTime endTime ->
  Js.calculateBookingPriceRun rules (jsDate bookingDate) (jsTime startTime) (jsTime endTime)
  = (jsDate (argAfter bookingDate),
     jsOutcome (priceWalk rules bookingDate startTime endTime)).
Proof.
  intros Hera Hst Het.
  pose proof (startDateTimeOf_safe _ _ Hera Hst) as Hs.
  pose proof (endDateTimeOf_safe bookingDate startTime _ Hera Het) as He.
  pose proof (resolvedMinutes_range _ _ Hst Het) as Hk.
  pose proof (totalMilliseconds_resolved bookingDate startTime endTime) as Htot.
  unfold JsDate.getTime in Htot.
  assert (Hd : safe (dateOf bookingDate)) by (unfold inEra in Hera; js_lia).
  assert (Hd0 : safe (JsDate.setHours4 (dateOf bookingDate) 0 0 0 0)).
  { unfold inEra in Hera. unfold JsDate.setHours4, startOfDay. js_lia. }
  destruct Hst as [Hsh Hsm], Het as [Heh Hem].
  unfold Js.calculateBookingPriceRun. cbv zeta.
  replace (Js.dateOf (jsDate bookingDate)) with (Some (dateOf bookingDate))
    by (destruct bookingDate; reflexivity).
  rewrite setHours4_Some by (try exact Hd; lia).
  cbn [jsTime Js.hourField Js.minuteField].
  rewrite !setHours4_Some by (try exact Hd0; lia).
  rewrite js_le_getTime.
  replace (if JsDate.setHours4 (JsDate.setHours4 (dateOf bookingDate) 0 0 0 0)
                (hh endTime) (mm endTime) 0 0
              <=? JsDate.setHours4 (JsDate.setHours4 (dateOf bookingDate) 0 0 0 0)
                    (hh startTime) (mm startTime) 0 0
           then Js.addDays
                  (Some (JsDate.setHours4 (JsDate.setHours4 (dateOf bookingDate) 0 0 0 0)
                           (hh endTime) (mm endTime) 0 0)) 1
           else Some (JsDate.setHours4 (JsDate.setHours4 (dateOf bookingDate) 0 0 0 0)
                        (hh endTime) (mm endTime) 0 0))
    with (Some (endDateTimeOf bookingDate startTime endTime)).
  2:{ unfold endDateTimeOf. cbv zeta. destruct (_ <=? _); [| reflexivity].
      symmetry. apply addDays_Some; [| lia].
      unfold JsDate.setHours4, startOfDay in *. unfold inEra in Hera. js_lia. }
  fold (startDateTimeOf bookingDate startTime).
  rewrite js_sub_getTime by (rewrite Htot; js_lia).
  rewrite Htot.
  destruct (js_duration_tests (resolvedMinutes startTime endTime) Hk) as [Hmin Hinc].
  cbv zeta in Hmin, Hinc. rewrite Hmin, Hinc. clear Hmin Hinc.
  rewrite priceWalk_unfold. cbv zeta. unfold JsDate.getTime. rewrite Htot.
  f_equal.
  - destruct bookingDate; reflexivity.
  - rewrite js_hours.
    destruct (bool_decide _); [reflexivity |].
    destruct (negb (Z.rem _ 60 =? 0) && negb (Z.rem _ 60 =? 30)); [reflexivity |].
    unfold Js.loopFuel. unfold ofZ at 1. rewrite truncate_ofZ.
    rewrite js_priceLoop by assumption.
    destruct (priceLoop _ rules _ _ [] 0%Qc) as [[slots tp] | e |]; try reflexivity.
    cbn [jsOutcome app totalHours].
    do 3 f_equal. rewrite !map_map. reflexivity.
Qed.

End Agreement.

(* ================================================================== *)
(** * Whole rates are added without rounding *)

Section WholeRates.

Import JsNumber.

Lemma halves_double (q : Qc) (z : Z) :
  halves q z -> Z.abs z < 2 ^ 53 -> double q = Finite q.
Proof.
  intros Hq Hz. apply (double_dyadic q z 1); [lia | exact Hz | exact Hq].
Qed.

Lemma halves_add (a b : Qc) (x y : Z) :
  halves a x -> halves b y -> halves (a + b) (x + y).
Proof.
  unfold halves. intros Ha Hb. unfold Qcplus, Q2Qc. cbn [this].
  rewrite Qred_correct, Ha, Hb. unfold Qeq, Qplus. cbn [Qnum Qden]. lia.
Qed.

Lemma halves_whole (n : Z) : halves (Qc_of_Z n) (2 * n).
Proof. unfold halves, Qeq. cbn. lia. Qed.

Lemma halves_mult_1 (n : Z) : halves (Qc_of_Z n * 1) (2 * n).
Proof. rewrite Qcmult_1_r. apply halves_whole. Qed.

Lemma halves_mult_half (n : Z) : halves (Qc_of_Z n * (1 / 2)) n.
Proof.
  remember (1 / 2)%Qc as h eqn:Hh.
  assert (Hthis : this h = (1 # 2)%Q) by (subst h; reflexivity).
  unfold halves, Qcmult, Q2Qc. cbn [this]. rewrite Qred_correct, Hthis.
  unfold Qeq, Qmult. cbn. lia.
Qed.

Lemma halves_0 : halves 0%Qc 0.
Proof. reflexivity. Qed.

Lemma double_one : double 1 = Finite 1%Qc.
Proof. apply (halves_double 1%Qc 2); [reflexivity | rewrite pow2_53; lia]. Qed.

Lemma double_one_half : double (1 / 2) = Finite (1 / 2)%Qc.
Proof. apply (halves_double (1 / 2)%Qc 1); [reflexivity | rewrite pow2_53; lia]. Qed.

Section Loop.

Variable rules : PricingRules.
Hypothesis Hwhole : wholeRates rules.

Lemma getPrice_whole d h p :
  getPrice rules d h = Ok p ->
  exists n, price p = Qc_of_Z n /\ 0 < n <= maxWholeRate.
Proof.
  intros Hp. destruct (getPrice_source _ _ _ _ Hp)
    as [(-> & _) | (rule & Hin & Hact & _ & _ & <-)].
  - exists 110. split; [reflexivity | unfold maxWholeRate; lia].
  - exact (Hwhole rule Hin Hact).
Qed.

(** On a walk over a whole number of half hours, each pass lasts an hour
    or half an hour and is charged a number of halves; rounding changes
    neither, and the running total is their exact sum. *)
Lemma Walk_whole endDateTime cur slots :
  Walk rules endDateTime cur slots ->
  (endDateTime - cur) mod (30 * msPerMinute) = 0 ->
  Forall (fun s =>
            jsPass s
            = Js.mkPass (Some (slotStart s)) (Some (slotEnd s))
                (Finite (slotDuration s)) (Finite (slotPrice s))
                (Js.mkEntry (hour (slotEntry s)) (Finite (rate (slotEntry s)))
                            (dayType (slotEntry s)) (timeSlot (slotEntry s))))
         slots
  /\ forall (acc : Qc) (z : Z),
       halves acc z -> 0 <= z ->
       z + 2 * maxWholeRate * Z.of_nat (length slots) < 2 ^ 53 ->
       jsTotal slots (Finite acc) = Finite (acc + Qcsum (slotPrice <$> slots)).
Proof.
  induction 1 as [cur Hge | cur p rest Hlt Hp Hwalk IH]; intros Hhalf.
  - split; [constructor |]. intros acc z _ _ _. cbn. f_equal. ring.
  - destruct (getPrice_whole _ _ _ Hp) as (n & Hn & Hrange).
    assert (Hcases :
              (Z.min (cur + msPerHour) endDateTime - cur = msPerHour
               /\ (endDateTime - Z.min (cur + msPerHour) endDateTime)
                    mod (30 * msPerMinute) = 0)
              \/ (Z.min (cur + msPerHour) endDateTime - cur = 30 * msPerMinute
                  /\ Z.min (cur + msPerHour) endDateTime = endDateTime)).
    { revert Hhalf. unfold msPerHour, msPerMinute in *. Z.div_mod_to_equations. lia. }
    assert (Hdur : exists (d : Qc) (u : Z),
               hoursOfMs (Z.min (cur + msPerHour) endDateTime - cur) = d
               /\ double d = Finite d
               /\ halves (Qc_of_Z n * d) u /\ 0 <= u <= 2 * maxWholeRate).
    { destruct Hcases as [[-> _] | [-> _]].
      - exists 1%Qc, (2 * n). rewrite hoursOfMs_hour.
        split; [reflexivity | split; [exact double_one | split; [apply halves_mult_1 | lia]]].
      - exists (1 / 2)%Qc, n. rewrite hoursOfMs_half_hour.
        split; [reflexivity |
                split; [exact double_one_half | split; [apply halves_mult_half | lia]]]. }
    destruct Hdur as (d & u & Hd & Hdd & Hu & Hur).
    assert (Hrate : double (Qc_of_Z n) = Finite (Qc_of_Z n)).
    { apply double_ofZ. rewrite pow2_53. unfold maxWholeRate in *. lia. }
    assert (Hprice : mul (Finite (Qc_of_Z n)) (Finite d) = Finite (Qc_of_Z n * d)).
    { unfold mul. apply (halves_double _ u Hu).
      rewrite pow2_53. unfold maxWholeRate in *. lia. }
    assert (Hpass : jsPass (passAt endDateTime cur p)
                    = Js.mkPass (Some cur) (Some (Z.min (cur + msPerHour) endDateTime))
                        (Finite d) (Finite (Qc_of_Z n * d))
                        (Js.mkEntry (hourLabel cur (Z.min (cur + msPerHour) endDateTime))
                                    (Finite (Qc_of_Z n))
                                    (price_dayType p) (price_timeSlot p))).
    { unfold jsPass, jsEntry, passAt.
      cbn [slotStart slotEnd slotDuration slotPrice slotEntry hour rate dayType timeSlot].
      rewrite Hd, Hn, Hdd, Hrate, Hprice. reflexivity. }
    assert (Hrest : (endDateTime - Z.min (cur + msPerHour) endDateTime)
                      mod (30 * msPerMinute) = 0).
    { destruct Hcases as [[_ H] | [_ ->]]; [exact H |].
      rewrite Z.sub_diag. reflexivity. }
    destruct (IH Hrest) as [IHall IHsum].
    split.
    + constructor; [| exact IHall]. rewrite Hpass.
      unfold passAt.
      cbn [slotStart slotEnd slotDuration slotPrice slotEntry hour rate dayType timeSlot].
      rewrite Hd, Hn. reflexivity.
    + intros acc z Hacc Hz Hbound. cbn [jsTotal fold_left]. rewrite Hpass.
      cbn [Js.passPrice]. unfold add.
      rewrite (halves_double (acc + Qc_of_Z n * d) (z + u)).
      * fold (jsTotal rest (Finite (acc + Qc_of_Z n * d))).
        rewrite (IHsum _ (z + u)).
        -- f_equal. rewrite fmap_cons, Qcsum_cons. unfold passAt.
           cbn [slotPrice]. rewrite Hd, Hn. ring.
        -- apply halves_add; assumption.
        -- lia.
        -- cbn [length] in Hbound. rewrite Nat2Z.inj_succ in Hbound.
           unfold maxWholeRate in *. lia.
      * apply halves_add; assumption.
      * cbn [length] in Hbound. rewrite Nat2Z.inj_succ in Hbound.
        unfold maxWholeRate in *. rewrite pow2_53 in *. lia.
Qed.

End Loop.

End WholeRates.

(* ================================================================== *)
(** * The claims on sums and on durations, on JavaScript's values *)

Section JsClaims.

Import JsNumber.

(** ** Durations are doubles *)

Lemma hoursOfMs_halves (j : Z) : halves (hoursOfMs (j * (30 * msPerMinute))) j.
Proof.
  unfold halves, hoursOfMs, Qcdiv, Qcmult, Qcinv, Q2Qc. cbn [this].
  rewrite !Qred_correct. unfold msPerMinute, msPerHour.
  change (this (Qc_of_Z (j * (30 * (1000 * 60))))) with (inject_Z (j * 1800000)).
  change (this (Qc_of_Z (1000 * 60 * 60))) with (inject_Z 3600000).
  unfold Qeq, Qmult, Qinv, inject_Z. cbn. lia.
Qed.

Lemma double_hoursOfMs (m : Z) :
  m mod 30 = 0 -> 0 <= m <= 24 * 60 ->
  double (hoursOfMs (m * msPerMinute)) = Finite (hoursOfMs (m * msPerMinute)).
Proof.
  intros Hmod Hm.
  replace (m * msPerMinute) with (m / 30 * (30 * msPerMinute))
    by (unfold msPerMinute; Z.div_mod_to_equations; lia).
  apply (halves_double _ (m / 30)); [apply hoursOfMs_halves |].
  rewrite pow2_53. Z.div_mod_to_equations. lia.
Qed.

Lemma Walk_durations_double rules endDateTime cur slots :
  Walk rules endDateTime cur slots ->
  (endDateTime - cur) mod (30 * msPerMinute) = 0 ->
  Forall (fun s => double (slotDuration s) = Finite (slotDuration s)) slots.
Proof.
  induction 1 as [cur Hge | cur p rest Hlt Hp Hwalk IH]; intros Hhalf; constructor.
  - cbn [passAt slotDuration].
    assert (Hcases : Z.min (cur + msPerHour) endDateTime - cur = msPerHour
                     \/ Z.min (cur + msPerHour) endDateTime - cur = 30 * msPerMinute).
    { revert Hhalf. unfold msPerHour, msPerMinute in *. Z.div_mod_to_equations. lia. }
    destruct Hcases as [-> | ->].
    + rewrite hoursOfMs_hour. exact double_one.
    + rewrite hoursOfMs_half_hour. exact double_one_half.
  - apply IH. revert Hhalf. unfold msPerHour, msPerMinute in *.
    Z.div_mod_to_equations. lia.
Qed.

(** ** A successful call, read back *)

Lemma js_calculateBookingPrice_Ok_inv rules bookingDate startTime endTime r :
  inEra bookingDate -> wellFormedTime startTime -> wellFormedTime endTime ->
  snd (Js.calculateBookingPrice rules (jsDate bookingDate)
         (jsTime startTime) (jsTime endTime)) = Ok r ->
  exists slots r0,
    priceWalk rules bookingDate startTime endTime = Ok (slots, r0)
    /\ snd (Js.calculateBookingPriceRun rules (jsDate bookingDate)
              (jsTime startTime) (jsTime endTime)) = Ok (map jsPass slots, r)
    /\ r = Js.mkPriceResult (double (totalHours r0)) (map jsEntry (map slotEntry slots))
                            (jsTotal slots (ofZ 0)).
Proof.
  intros Hera Hst Het. unfold Js.calculateBookingPrice. cbv zeta. cbn [snd].
  rewrite (js_calculateBookingPriceRun rules _ _ _ Hera Hst Het). cbn [snd].
  destruct (priceWalk rules bookingDate startTime endTime) as [[slots r0] | e |];
    cbn [jsOutcome]; try discriminate.
  intros [= <-]. exists slots, r0. auto.
Qed.

Lemma js_calculateBookingPrice_snd rules bookingDate startTime endTime :
  inEra bookingDate -> wellFormedTime startTime -> wellFormedTime endTime ->
  snd (Js.calculateBookingPrice rules (jsDate bookingDate)
         (jsTime startTime) (jsTime endTime))
  = match priceWalk rules bookingDate startTime endTime with
    | Ok (slots, r0) =>
        Ok (Js.mkPriceResult (double (totalHours r0)) (map jsEntry (map slotEntry slots))
                             (jsTotal slots (ofZ 0)))
    | Throw e => Throw e
    | OutOfFuel => OutOfFuel
    end.
Proof.
  intros Hera Hst Het. unfold Js.calculateBookingPrice. cbv zeta. cbn [snd].
  rewrite (js_calculateBookingPriceRun rules _ _ _ Hera Hst Het). cbn [snd].
  destruct (priceWalk rules bookingDate startTime endTime) as [[slots r0] | e |];
    reflexivity.
Qed.

(** The walk behind a successful call: it covers a whole number of half
    hours, in at most twenty-four passes, and the hours are not rounded. *)
Lemma js_calculateBookingPrice_walk rules bookingDate startTime endTime r :
  inEra bookingDate -> wellFormedTime startTime -> wellFormedTime endTime ->
  snd (Js.calculateBookingPrice rules (jsDate bookingDate)
         (jsTime startTime) (jsTime endTime)) = Ok r ->
  exists slots r0,
    priceWalk rules bookingDate startTime endTime = Ok (slots, r0)
    /\ Walk rules (endDateTimeOf bookingDate startTime endTime)
            (startDateTimeOf bookingDate startTime) slots
    /\ (endDateTimeOf bookingDate startTime endTime
        - startDateTimeOf bookingDate startTime) mod (30 * msPerMinute) = 0
    /\ Z.of_nat (length slots)
       = (resolvedMinutes startTime endTime * msPerMinute + msPerHour - 1) / msPerHour
    /\ r = Js.mkPriceResult (Finite (totalHours r0)) (map jsEntry (map slotEntry slots))
                            (jsTotal slots (ofZ 0)).
Proof.
  intros Hera Hst Het Hok.
  destruct (js_calculateBookingPrice_Ok_inv _ _ _ _ _ Hera Hst Het Hok)
    as (slots & r0 & Hwalk0 & _ & ->).
  exists slots, r0. split; [exact Hwalk0 |].
  apply priceWalk_Ok_inv in Hwalk0 as (Hvalid & Hwalk & ->).
  cbn [totalHours].
  pose proof (startDateTime_le_endDateTime bookingDate _ _ Hvalid) as Hle.
  pose proof (resolvedMinutes_range _ _ Hst Het) as Hrange.
  pose proof (totalMilliseconds_resolved bookingDate startTime endTime) as Htot.
  unfold JsDate.getTime in Htot.
  unfold durationValid in Hvalid. apply andb_prop in Hvalid as [Hlen Hmod].
  apply Z.leb_le in Hlen. apply Z.eqb_eq in Hmod.
  split; [exact Hwalk | split; [| split]].
  - rewrite Htot. unfold msPerMinute. revert Hmod. Z.div_mod_to_equations. lia.
  - rewrite (Walk_length _ _ _ _ Hwalk Hle), Htot. reflexivity.
  - rewrite double_hoursOfMs by (try exact Hmod; lia). reflexivity.
Qed.

(** ** The claims *)

(** C1, amended.  On a booking date of the era and two times of day, when
    [calculateBookingPrice] succeeds the passes behind its breakdown tile
    the requested range without gap or overlap; their durations are not
    rounded and add up to [totalHours], which is the resolved duration (the
    end taken on the next day when it is not after the start); and
    [finalPrice] is the prices of the passes (rate times duration, rounded
    to a double) added in order, each sum rounded to a double.  When every
    rate is a whole number nothing is rounded: the price of a pass is its
    rate times its duration, and their sum is [finalPrice]. *)
Theorem calculateBookingPrice_sums_in_doubles
    rules bookingDate startTime endTime (r : Js.PriceResult) :
  inEra bookingDate -> wellFormedTime startTime -> wellFormedTime endTime ->
  snd (Js.calculateBookingPrice rules (jsDate bookingDate)
         (jsTime startTime) (jsTime endTime)) = Ok r ->
  exists slots : list Slot,
    snd (Js.calculateBookingPriceRun rules (jsDate bookingDate)
           (jsTime startTime) (jsTime endTime)) = Ok (map jsPass slots, r)
    /\ Js.breakdown r = map Js.passEntry (map jsPass slots)
    /\ tiles (startDateTimeOf bookingDate startTime)
             (endDateTimeOf bookingDate startTime endTime) slots
    /\ Forall (fun s => slotDuration s = hoursOfMs (slotEnd s - slotStart s)
                        /\ Js.passDuration (jsPass s) = Finite (slotDuration s)
                        /\ hour (slotEntry s) = hourLabel (slotStart s) (slotEnd s)) slots
    /\ Js.totalHours r = Finite (Qcsum (slotDuration <$> slots))
    /\ Js.totalHours r
       = Finite (Qc_of_Z (resolvedMinutes startTime endTime) / Qc_of_Z 60)
    /\ Js.finalPrice r
       = fold_left (fun total s => add total (Js.passPrice (jsPass s))) slots (ofZ 0)
    /\ (wholeRates rules ->
        Forall (fun s => Js.passPrice (jsPass s)
                         = Finite (rate (slotEntry s) * slotDuration s)) slots
        /\ Js.finalPrice r
           = Finite (Qcsum ((fun s => rate (slotEntry s) * slotDuration s)%Qc <$> slots))).
Proof.
  intros Hera Hst Het Hok.
  destruct (js_calculateBookingPrice_Ok_inv _ _ _ _ _ Hera Hst Het Hok)
    as (slots & r0 & Hwalk & Hrun & ->).
  exists slots. split; [exact Hrun |].
  apply priceWalk_Ok_inv in Hwalk as (Hvalid & Hwalk & ->).
  cbn [Js.breakdown Js.totalHours Js.finalPrice totalHours].
  pose proof (startDateTime_le_endDateTime bookingDate _ _ Hvalid) as Hle.
  pose proof (resolvedMinutes_range _ _ Hst Het) as Hrange.
  pose proof (totalMilliseconds_resolved bookingDate startTime endTime) as Htot.
  unfold JsDate.getTime in Htot.
  unfold durationValid in Hvalid. apply andb_prop in Hvalid as [Hlen Hmod].
  apply Z.leb_le in Hlen. apply Z.eqb_eq in Hmod.
  assert (Hhalf : (endDateTimeOf bookingDate startTime endTime
                   - startDateTimeOf bookingDate startTime) mod (30 * msPerMinute) = 0).
  { rewrite Htot. unfold msPerMinute. revert Hmod. Z.div_mod_to_equations. lia. }
  pose proof (Walk_pricedPass _ _ _ _ Hwalk) as Hpriced.
  pose proof (Walk_durations_double _ _ _ _ Hwalk Hhalf) as Hdur.
  assert (Hhours : double (hoursOfMs (resolvedMinutes startTime endTime * msPerMinute))
                   = Finite (hoursOfMs (resolvedMinutes startTime endTime * msPerMinute))).
  { apply double_hoursOfMs; [exact Hmod | lia]. }
  split; [| split; [| split; [| split; [| split; [| split]]]]].
  - rewrite !map_map. reflexivity.
  - apply Walk_tiles with (rules := rules); assumption.
  - rewrite Forall_forall in Hpriced, Hdur. apply Forall_forall. intros s Hs.
    destruct (Hpriced s Hs) as (_ & Hd & _ & Hl & _).
    split; [exact Hd | split; [exact (Hdur s Hs) | exact Hl]].
  - rewrite Hhours. f_equal. rewrite (Walk_durations _ _ _ _ Hwalk Hle), Htot.
    reflexivity.
  - rewrite Hhours. f_equal. apply hoursOfMs_minutes.
  - reflexivity.
  - intros Hwhole.
    destruct (Walk_whole rules Hwhole _ _ _ Hwalk Hhalf) as [Hpasses Hsum].
    split.
    + rewrite Forall_forall in Hpriced, Hpasses. apply Forall_forall. intros s Hs.
      rewrite (Hpasses s Hs). cbn [Js.passPrice].
      destruct (Hpriced s Hs) as (_ & _ & Hp & _). rewrite Hp. reflexivity.
    + fold (jsTotal slots (ofZ 0)).
      pose proof (Walk_length _ _ _ _ Hwalk Hle) as Hlength. rewrite Htot in Hlength.
      replace (ofZ 0) with (Finite 0%Qc)
        by (unfold ofZ; f_equal; apply Qc_is_canon; reflexivity).
      rewrite (Hsum 0%Qc 0 halves_0 ltac:(lia)).
      * rewrite Qcplus_0_l. f_equal. eapply Walk_prices; eassumption.
      * rewrite Hlength, pow2_53. unfold maxWholeRate, msPerMinute, msPerHour.
        Z.div_mod_to_equations. lia.
Qed.

Lemma inEra_thursday : inEra (DateString thursday).
Proof. unfold inEra, eraBound, thursday, msPerDay. cbn [dateOf]. lia. Qed.

(** Witness of C1 (amended): Thursday 17:30 to 19:00 under the default
    rules. *)
Lemma calculateBookingPrice_sums_in_doubles_witness :
  inEra (DateString thursday)
  /\ wellFormedTime (HHMM 17 30) /\ wellFormedTime (HHMM 19 0)
  /\ exists r : Js.PriceResult,
       snd (Js.calculateBookingPrice defaultRules (jsDate (DateString thursday))
              (jsTime (HHMM 17 30)) (jsTime (HHMM 19 0))) = Ok r
       /\ exists slots : list Slot,
            snd (Js.calculateBookingPriceRun defaultRules (jsDate (DateString thursday))
                   (jsTime (HHMM 17 30)) (jsTime (HHMM 19 0))) = Ok (map jsPass slots, r)
            /\ Js.breakdown r = map Js.passEntry (map jsPass slots)
            /\ tiles (startDateTimeOf (DateString thursday) (HHMM 17 30))
                     (endDateTimeOf (DateString thursday) (HHMM 17 30) (HHMM 19 0)) slots
            /\ Forall (fun s => slotDuration s = hoursOfMs (slotEnd s - slotStart s)
                                /\ Js.passDuration (jsPass s) = Finite (slotDuration s)
                                /\ hour (slotEntry s)
                                   = hourLabel (slotStart s) (slotEnd s)) slots
            /\ Js.totalHours r = Finite (Qcsum (slotDuration <$> slots))
            /\ Js.totalHours r
               = Finite (Qc_of_Z (resolvedMinutes (HHMM 17 30) (HHMM 19 0)) / Qc_of_Z 60)
            /\ Js.finalPrice r
               = fold_left (fun total s => add total (Js.passPrice (jsPass s)))
                           slots (ofZ 0)
            /\ (wholeRates defaultRules ->
                Forall (fun s => Js.passPrice (jsPass s)
                                 = Finite (rate (slotEntry s) * slotDuration s)) slots
                /\ Js.finalPrice r
                   = Finite (Qcsum ((fun s => rate (slotEntry s) * slotDuration s)%Qc
                                      <$> slots))).
Proof.
  split; [exact inEra_thursday |].
  split; [exact wellFormedTime_17_30 |]. split; [exact wellFormedTime_19_00 |].
  destruct (calculateBookingPrice_Ok_inv _ _ _ _ _ thursday_evening_run) as [slots Hwalk].
  pose proof (js_calculateBookingPrice_snd defaultRules (DateString thursday)
                (HHMM 17 30) (HHMM 19 0) inEra_thursday
                wellFormedTime_17_30 wellFormedTime_19_00) as Hrun.
  rewrite Hwalk in Hrun.
  eexists. split; [exact Hrun |].
  exact (calculateBookingPrice_sums_in_doubles defaultRules (DateString thursday)
           (HHMM 17 30) (HHMM 19 0) _ inEra_thursday
           wellFormedTime_17_30 wellFormedTime_19_00 Hrun).
Defined.

(** Counterexample to C1 as stated: with a weekday day rate of 89.99, a
    Thursday 10:00 to 13:00 booking is priced in three passes of one hour at
    89.99 each (the nearest double, as stored), and the final price is the
    double below three times that rate, 269.96999999999997: it is not the
    sum of the prices of the passes. *)
Lemma calculateBookingPrice_rounds_the_sum :
  exists (passes : list Js.Pass) (r : Js.PriceResult),
    snd (Js.calculateBookingPriceRun rules8999 (jsDate (DateString thursday))
           (jsTime (HHMM 10 0)) (jsTime (HHMM 13 0))) = Ok (passes, r)
    /\ snd (Js.calculateBookingPrice rules8999 (jsDate (DateString thursday))
              (jsTime (HHMM 10 0)) (jsTime (HHMM 13 0))) = Ok r
    /\ map Js.rate (Js.breakdown r)
       = [Finite double8999; Finite double8999; Finite double8999]
    /\ map Js.passDuration passes = [Finite 1%Qc; Finite 1%Qc; Finite 1%Qc]
    /\ map Js.passPrice passes
       = [Finite double8999; Finite double8999; Finite double8999]
    /\ Js.finalPrice r = Finite tripleRounded
    /\ (tripleRounded < double8999 * 1 + double8999 * 1 + double8999 * 1)%Qc.
Proof.
  eexists. eexists. split; [vm_compute; reflexivity |].
  split; [vm_compute; reflexivity |].
  repeat split; try (vm_compute; repeat first
    [ reflexivity | apply Qc_is_canon; reflexivity | f_equal ]).
Qed.

(** C5, amended.  On a booking date of the era and two times of day,
    [calculateBookingPrice] throws one of its two duration errors exactly
    when the resolved duration is under one hour or is not a multiple of
    thirty minutes, and then it returns no breakdown: under one hour the
    error is the minimum-duration one, otherwise the increments one. *)
Theorem calculateBookingPrice_duration_errors
    rules bookingDate startTime endTime :
  inEra bookingDate -> wellFormedTime startTime -> wellFormedTime endTime ->
  let outcome :=
    snd (Js.calculateBookingPrice rules (jsDate bookingDate)
           (jsTime startTime) (jsTime endTime)) in
  ((outcome = Throw minimumDuration \/ outcome = Throw thirtyMinuteIncrements)
   <-> (resolvedMinutes startTime endTime < 60
        \/ resolvedMinutes startTime endTime mod 30 <> 0))
  /\ (outcome = Throw minimumDuration <-> resolvedMinutes startTime endTime < 60)
  /\ (outcome = Throw thirtyMinuteIncrements
      <-> 60 <= resolvedMinutes startTime endTime
          /\ resolvedMinutes startTime endTime mod 30 <> 0).
Proof.
  intros Hera Hst Het outcome. subst outcome.
  rewrite (js_calculateBookingPrice_snd rules _ _ _ Hera Hst Het).
  pose proof (calculateBookingPrice_invalid_duration_iff rules bookingDate
                startTime endTime) as Hexact.
  cbv zeta in Hexact. rewrite calculateBookingPrice_snd in Hexact.
  assert (Hthrow : forall (A : Type) (e e' : ApiError),
             @Throw A e = Throw e' <-> e = e').
  { intros A e e'. split; [intros [= ->] | intros ->]; reflexivity. }
  destruct (priceWalk rules bookingDate startTime endTime) as [[slots r0] | e |];
    cbn [jsOutcome].
  - destruct Hexact as (H1 & H2 & H3).
    repeat split; intros; try discriminate; intuition (try discriminate; try lia).
  - rewrite !Hthrow in Hexact. rewrite !Hthrow. exact Hexact.
  - destruct Hexact as (H1 & H2 & H3).
    repeat split; intros; try discriminate; intuition (try discriminate; try lia).
Qed.

Lemma wellFormedTime_14_00 : wellFormedTime (HHMM 14 0).
Proof. unfold wellFormedTime. cbn [hh mm]. lia. Qed.

Lemma wellFormedTime_14_45 : wellFormedTime (HHMM 14 45).
Proof. unfold wellFormedTime. cbn [hh mm]. lia. Qed.

(** Witness of C5 (amended): Thursday 14:00 to 14:45. *)
Lemma calculateBookingPrice_duration_errors_witness :
  inEra (DateString thursday)
  /\ wellFormedTime (HHMM 14 0) /\ wellFormedTime (HHMM 14 45)
  /\ let outcome :=
       snd (Js.calculateBookingPrice defaultRules (jsDate (DateString thursday))
              (jsTime (HHMM 14 0)) (jsTime (HHMM 14 45))) in
     ((outcome = Throw minimumDuration \/ outcome = Throw thirtyMinuteIncrements)
      <-> (resolvedMinutes (HHMM 14 0) (HHMM 14 45) < 60
           \/ resolvedMinutes (HHMM 14 0) (HHMM 14 45) mod 30 <> 0))
     /\ (outcome = Throw minimumDuration
         <-> resolvedMinutes (HHMM 14 0) (HHMM 14 45) < 60)
     /\ (outcome = Throw thirtyMinuteIncrements
         <-> 60 <= resolvedMinutes (HHMM 14 0) (HHMM 14 45)
             /\ resolvedMinutes (HHMM 14 0) (HHMM 14 45) mod 30 <> 0).
Proof.
  split; [exact inEra_thursday |].
  split; [exact wellFormedTime_14_00 |]. split; [exact wellFormedTime_14_45 |].
  exact (calculateBookingPrice_duration_errors defaultRules (DateString thursday)
           (HHMM 14 0) (HHMM 14 45) inEra_thursday
           wellFormedTime_14_00 wellFormedTime_14_45).
Defined.

(** Whatever the rules and the times, a booking date that does not parse
    ends in the increments error: every instant computed from it is an
    Invalid Date, whose time value is NaN, and NaN passes the test of the
    minimum and fails the test of the increments. *)
Lemma calculateBookingPrice_invalid_date rules startTime endTime :
  snd (Js.calculateBookingPrice rules (Js.StringArg None) startTime endTime)
  = Throw thirtyMinuteIncrements.
Proof. reflexivity. Qed.

(** Counterexample to C5 as stated: a date string that does not parse makes
    the call throw the increments error on a request of two hours, from
    14:00 to 16:00; so does an hour field beyond the range of [Date], so
    does a time string without minutes, and so does the last day of the
    range of [Date]. *)
Lemma calculateBookingPrice_duration_error_on_valid_duration :
  snd (Js.calculateBookingPrice defaultRules (Js.StringArg None)
         (jsTime (HHMM 14 0)) (jsTime (HHMM 16 0)))
  = Throw thirtyMinuteIncrements
  /\ resolvedMinutes (HHMM 14 0) (HHMM 16 0) = 120
  /\ durationValid (HHMM 14 0) (HHMM 16 0) = true
  /\ snd (Js.calculateBookingPrice defaultRules (jsDate (DateString thursday))
            (jsTime (HHMM 2400000000 0)) (jsTime (HHMM 2400000002 0)))
     = Throw thirtyMinuteIncrements
  /\ resolvedMinutes (HHMM 2400000000 0) (HHMM 2400000002 0) = 120
  /\ durationValid (HHMM 2400000000 0) (HHMM 2400000002 0) = true
  /\ snd (Js.calculateBookingPrice defaultRules (jsDate (DateString thursday))
            (jsTime (HHMM 14 0)) (Js.Fields (ofZ 16) NaN))
     = Throw thirtyMinuteIncrements
  /\ snd (Js.calculateBookingPrice defaultRules (Js.StringArg (Some Js.maxTime))
            (jsTime (HHMM 14 0)) (jsTime (HHMM 16 0)))
     = Throw thirtyMinuteIncrements.
Proof. repeat split; vm_compute; reflexivity. Qed.

End JsClaims.

(* ================================================================== *)
(** * The rounding of [JsNumber] against the kernel's floats *)

From Stdlib Require Floats.

Section FloatCheck.

Import Floats.
Import JsNumber.

(** The rate 89.99 as the kernel's binary64 division gives it, and as
    [double] gives it: the same mantissa, at the exponent -46. *)
Lemma double8999_is_the_float :
  Prim2SF (8999 / 100)%float
  = S754_finite false 6332483288547983 (-46)
  /\ double (Q2Qc (8999 # 100)) = Finite double8999
  /\ this double8999 = (6332483288547983 # 70368744177664)%Q
  /\ 2 ^ 46 = 70368744177664.
Proof.
  split; [vm_compute; reflexivity |]. split; [| split; reflexivity].
  vm_compute; repeat first [reflexivity | apply Qc_is_canon; reflexivity | f_equal].
Qed.

(** Three times that rate, added as the loop adds them: the kernel's
    binary64 addition and [add] give the same number, 269.96999999999997,
    below the exact sum. *)
Lemma tripleRounded_is_the_float_sum :
  let x := (8999 / 100)%float in
  Prim2SF (0 + x * 1 + x * 1 + x * 1)%float
  = S754_finite false 4749362466410987 (-44)
  /\ add (add (add (ofZ 0) (mul (Finite double8999) (ofZ 1)))
              (mul (Finite double8999) (ofZ 1)))
         (mul (Finite double8999) (ofZ 1))
     = Finite tripleRounded
  /\ this tripleRounded = (4749362466410987 # 17592186044416)%Q
  /\ 2 ^ 44 = 17592186044416.
Proof.
  cbv zeta. split; [vm_compute; reflexivity |]. split; [| split; reflexivity].
  vm_compute; repeat first [reflexivity | apply Qc_is_canon; reflexivity | f_equal].
Qed.

End FloatCheck.

(* ================================================================== *)
(** * Requests in progress together *)

Section TaskFacts.

Variable ext : Externals.

(** Run alone, the task of [createCourt] is [createCourt]. *)
Lemma createCourtTask_alone body file db :
  complete 3 (createCourtTask ext body file db) = createCourt ext body file db.
Proof.
  unfold createCourtTask, createCourt, awaiting, andThen, finish, bind.
  destruct (parseFeatures ext body db) as [db1 [courtData | e |]]; try reflexivity.
  destruct (blank ext (ICourtCreate.name courtData)); [reflexivity |].
  destruct (blank ext (ICourtCreate.description courtData)); [reflexivity |].
  cbn [complete].
  destruct (Court_countDocuments db1) as [db2 [courtCount | e |]]; try reflexivity.
  destruct (7 <=? courtCount)%nat; [reflexivity |].
  cbn [complete].
  destruct (Court_findOne _ None db2) as [db3 [[existing |] | e |]]; try reflexivity.
  cbn [complete].
  destruct (Court_create ext _ db3) as [db4 [court | e |]]; reflexivity.
Qed.

End TaskFacts.

(** C10, the failing run.  Six courts are stored and two requests to create
    a court, with names not yet taken, arrive together: each handler counts
    six courts before the other has stored its court, both pass the limit
    check, both answer 201, and eight courts are stored. *)
Theorem createCourt_together_exceeds_limit :
  size (courts sixCourts) = 6%nat
  /\ courtLimit sixCourts
  /\ suspended (handleAll sampleExt twoCreations (mkServer sixCourts [] [])) = []
  /\ map (fun o => match o with
                   | Ok response => Some (statusCode response)
                   | _ => None
                   end)
         (outcomes (handleAll sampleExt twoCreations (mkServer sixCourts [] [])))
     = [Some 201; Some 201]
  /\ size (courts (database (handleAll sampleExt twoCreations
                                (mkServer sixCourts [] [])))) = 8%nat
  /\ (courtLimit (database (handleAll sampleExt twoCreations
                              (mkServer sixCourts [] []))) -> False).
Proof.
  assert (Hsize : size (courts (database (handleAll sampleExt twoCreations
                                            (mkServer sixCourts [] [])))) = 8%nat)
    by (vm_compute; reflexivity).
  split; [reflexivity |]. split; [unfold courtLimit; vm_compute; lia |].
  split; [vm_compute; reflexivity |]. split; [vm_compute; reflexivity |].
  split; [exact Hsize |].
  unfold courtLimit. rewrite Hsize. lia.
Qed.

(* ================================================================== *)
(** * Further properties, on JavaScript's values *)

Section JsFacts.

Import JsNumber.

(** ** From exact values to doubles *)

(** On a booking date of the era and two times of day, a call that
    succeeds on exact values succeeds on doubles, with the same hours and
    as many entries. *)
Lemma js_calculateBookingPrice_of_exact rules bookingDate startTime endTime r0 :
  inEra bookingDate -> wellFormedTime startTime -> wellFormedTime endTime ->
  snd (calculateBookingPrice rules bookingDate startTime endTime) = Ok r0 ->
  exists r : Js.PriceResult,
    snd (Js.calculateBookingPrice rules (jsDate bookingDate)
           (jsTime startTime) (jsTime endTime)) = Ok r
    /\ Js.totalHours r = Finite (totalHours r0)
    /\ length (Js.breakdown r) = length (breakdown r0).
Proof.
  intros Hera Hst Het Hok.
  apply calculateBookingPrice_Ok_inv in Hok as [slots Hwalk].
  rewrite (js_calculateBookingPrice_snd rules _ _ _ Hera Hst Het), Hwalk.
  eexists. split; [reflexivity |].
  apply priceWalk_Ok_inv in Hwalk as (Hvalid & Hwalk & ->).
  cbn [Js.totalHours Js.breakdown totalHours breakdown].
  pose proof (resolvedMinutes_range _ _ Hst Het) as Hrange.
  unfold durationValid in Hvalid. apply andb_prop in Hvalid as [_ Hmod].
  apply Z.eqb_eq in Hmod.
  split; [apply double_hoursOfMs; [exact Hmod | lia] |].
  rewrite !length_map. reflexivity.
Qed.

(** With whole rates, a call that succeeds on doubles succeeds on exact
    values with the same hours, entries and final price: nothing is
    rounded. *)
Lemma js_calculateBookingPrice_whole rules bookingDate startTime endTime r :
  inEra bookingDate -> wellFormedTime startTime -> wellFormedTime endTime ->
  wholeRates rules ->
  snd (Js.calculateBookingPrice rules (jsDate bookingDate)
         (jsTime startTime) (jsTime endTime)) = Ok r ->
  exists r0 : PriceResult,
    snd (calculateBookingPrice rules bookingDate startTime endTime) = Ok r0
    /\ Js.totalHours r = Finite (totalHours r0)
    /\ Js.breakdown r
       = map (fun e => Js.mkEntry (hour e) (Finite (rate e)) (dayType e) (timeSlot e))
             (breakdown r0)
    /\ Js.finalPrice r = Finite (finalPrice r0).
Proof.
  intros Hera Hst Het Hwhole Hok.
  destruct (js_calculateBookingPrice_walk rules bookingDate startTime endTime r
              Hera Hst Het Hok) as (slots & r0 & Hwalk0 & Hwalk & Hhalf & Hlen & ->).
  exists r0. split; [exact (calculateBookingPrice_of_priceWalk _ _ _ _ _ _ Hwalk0) |].
  apply priceWalk_Ok_inv in Hwalk0 as (_ & _ & ->).
  cbn [Js.totalHours Js.breakdown Js.finalPrice totalHours breakdown finalPrice].
  destruct (Walk_whole rules Hwhole _ _ _ Hwalk Hhalf) as [Hpasses Hsum].
  split; [reflexivity | split].
  - rewrite !map_map. apply map_ext_in. intros s Hs.
    rewrite Forall_forall in Hpasses.
    apply list_elem_of_In in Hs.
    pose proof (f_equal Js.passEntry (Hpasses s Hs)) as Hentry.
    cbn [Js.passEntry jsPass] in Hentry. exact Hentry.
  - replace (ofZ 0) with (Finite 0%Qc)
      by (unfold ofZ; f_equal; apply Qc_is_canon; reflexivity).
    rewrite (Hsum 0%Qc 0 halves_0 ltac:(lia)).
    + rewrite Qcplus_0_l. reflexivity.
    + rewrite Hlen, pow2_53. unfold maxWholeRate, msPerMinute, msPerHour.
      pose proof (resolvedMinutes_range _ _ Hst Het).
      Z.div_mod_to_equations. lia.
Qed.

(** ** Whole rates in the tables of the samples *)

Lemma defaultRules_whole : wholeRates defaultRules.
Proof.
  intros rule Hin _. cbn in Hin.
  destruct Hin as [<- | [<- | [<- | [<- | []]]]]; cbn [pricePerHour];
    eexists; (split; [reflexivity | unfold maxWholeRate; lia]).
Qed.

Lemma thursday_evening_js_run :
  exists r : Js.PriceResult,
    snd (Js.calculateBookingPrice defaultRules (jsDate (DateString thursday))
           (jsTime (HHMM 17 30)) (jsTime (HHMM 19 0))) = Ok r.
Proof.
  destruct (js_calculateBookingPrice_of_exact defaultRules (DateString thursday)
              (HHMM 17 30) (HHMM 19 0) thursdayEveningResult inEra_thursday
              wellFormedTime_17_30 wellFormedTime_19_00 thursday_evening_run)
    as (r & Hrun & _).
  exists r. exact Hrun.
Defined.

(** ** Complete tables *)

(** X4.  With an active rule for each of the four classifications, every
    request for a booking date of the era and two times of day whose
    resolved duration is at least one hour and a multiple of thirty minutes
    is priced: the call returns a result. *)
Theorem complete_table_prices_times_of_day
    (rules : PricingRules) (bookingDate : BookingDateArg) (startTime endTime : TimeStr) :
  inEra bookingDate -> wellFormedTime startTime -> wellFormedTime endTime ->
  completeTable rules ->
  durationValid startTime endTime = true ->
  exists r : Js.PriceResult,
    snd (Js.calculateBookingPrice rules (jsDate bookingDate)
           (jsTime startTime) (jsTime endTime)) = Ok r.
Proof.
  intros Hera Hst Het Hcomplete Hvalid.
  destruct (complete_table_prices_valid_requests rules bookingDate startTime endTime
              Hcomplete Hvalid) as [r0 Hok].
  destruct (js_calculateBookingPrice_of_exact _ _ _ _ _ Hera Hst Het Hok)
    as (r & Hrun & _).
  exists r. exact Hrun.
Qed.

(** Witness of X4: the default rules, Thursday 17:30 to 19:00. *)
Lemma complete_table_prices_times_of_day_witness :
  inEra (DateString thursday)
  /\ wellFormedTime (HHMM 17 30) /\ wellFormedTime (HHMM 19 0)
  /\ completeTable defaultRules
  /\ durationValid (HHMM 17 30) (HHMM 19 0) = true
  /\ exists r : Js.PriceResult,
       snd (Js.calculateBookingPrice defaultRules (jsDate (DateString thursday))
              (jsTime (HHMM 17 30)) (jsTime (HHMM 19 0))) = Ok r.
Proof.
  split; [exact inEra_thursday |].
  split; [exact wellFormedTime_17_30 |]. split; [exact wellFormedTime_19_00 |].
  split; [exact defaultRules_complete |]. split; [reflexivity |].
  exact (complete_table_prices_times_of_day defaultRules (DateString thursday)
           (HHMM 17 30) (HHMM 19 0) inEra_thursday wellFormedTime_17_30
           wellFormedTime_19_00 defaultRules_complete eq_refl).
Defined.

Lemma wellFormedTime_10_30 : wellFormedTime (HHMM 10 30).
Proof. unfold wellFormedTime. cbn [hh mm]. lia. Qed.

(** X7.  An end time equal to the start time, a time of day, is read as the
    same time on the following day: with a complete table the call succeeds
    and prices a full day, twenty-four hours in twenty-four entries. *)
Theorem same_time_of_day_is_full_day
    (rules : PricingRules) (bookingDate : BookingDateArg) (t : TimeStr) :
  inEra bookingDate -> wellFormedTime t ->
  completeTable rules ->
  exists r : Js.PriceResult,
    snd (Js.calculateBookingPrice rules (jsDate bookingDate) (jsTime t) (jsTime t)) = Ok r
    /\ Js.totalHours r = ofZ 24
    /\ length (Js.breakdown r) = 24%nat.
Proof.
  intros Hera Ht Hcomplete.
  destruct (same_time_is_full_day rules bookingDate t Hcomplete)
    as (r0 & Hok & Hhours & Hlength).
  destruct (js_calculateBookingPrice_of_exact _ _ _ _ _ Hera Ht Ht Hok)
    as (r & Hrun & Hh & Hl).
  exists r. split; [exact Hrun |]. split.
  - rewrite Hh, Hhours. reflexivity.
  - rewrite Hl. exact Hlength.
Qed.

(** Witness of X7: Thursday 10:30 to 10:30 under the default rules. *)
Lemma same_time_of_day_is_full_day_witness :
  inEra (DateString thursday) /\ wellFormedTime (HHMM 10 30)
  /\ completeTable defaultRules
  /\ exists r : Js.PriceResult,
       snd (Js.calculateBookingPrice defaultRules (jsDate (DateString thursday))
              (jsTime (HHMM 10 30)) (jsTime (HHMM 10 30))) = Ok r
       /\ Js.totalHours r = ofZ 24
       /\ length (Js.breakdown r) = 24%nat.
Proof.
  split; [exact inEra_thursday |]. split; [exact wellFormedTime_10_30 |].
  split; [exact defaultRules_complete |].
  exact (same_time_of_day_is_full_day defaultRules (DateString thursday) (HHMM 10 30)
           inEra_thursday wellFormedTime_10_30 defaultRules_complete).
Defined.

(** ** The final price at whole rates *)

(** X5.  With whole rates, the final price of a successful call for a
    booking date of the era and two times of day, from the breakdown alone:
    every entry but the last is charged its full hourly rate, and the last
    one its rate when the resolved duration is a whole number of hours,
    half its rate otherwise.  The breakdown is never empty, and only its
    last entry can stand for half an hour. *)
Theorem final_price_by_entries_whole_rates
    (rules : PricingRules) (bookingDate : BookingDateArg)
    (startTime endTime : TimeStr) (r : Js.PriceResult) :
  inEra bookingDate -> wellFormedTime startTime -> wellFormedTime endTime ->
  wholeRates rules ->
  snd (Js.calculateBookingPrice rules (jsDate bookingDate)
         (jsTime startTime) (jsTime endTime)) = Ok r ->
  exists (init : list Js.BreakdownEntry) (l : Js.BreakdownEntry)
         (rates : list Qc) (rateLast : Qc),
    Js.breakdown r = init ++ [l]
    /\ map Js.rate init = map Finite rates
    /\ Js.rate l = Finite rateLast
    /\ Js.finalPrice r
       = Finite (Qcsum rates
                 + rateLast * (if resolvedMinutes startTime endTime mod 60 =? 0
                               then 1 else 1 / 2))%Qc.
Proof.
  intros Hera Hst Het Hwhole Hok.
  destruct (js_calculateBookingPrice_whole _ _ _ _ _ Hera Hst Het Hwhole Hok)
    as (r0 & Hok0 & _ & Hentries & Hprice).
  destruct (final_price_by_entries _ _ _ _ _ Hok0) as (init0 & l0 & Hsplit & Hsum).
  rewrite Hsplit, map_app in Hentries. cbn [map] in Hentries.
  eexists. exists (Js.mkEntry (hour l0) (Finite (rate l0)) (dayType l0) (timeSlot l0)).
  exists (map rate init0), (rate l0).
  split; [exact Hentries |]. split; [| split].
  - rewrite !map_map. reflexivity.
  - reflexivity.
  - rewrite Hprice, Hsum. reflexivity.
Qed.

(** Witness of X5: Thursday 17:30 to 19:00 under the default rules. *)
Lemma final_price_by_entries_whole_rates_witness :
  inEra (DateString thursday)
  /\ wellFormedTime (HHMM 17 30) /\ wellFormedTime (HHMM 19 0)
  /\ wholeRates defaultRules
  /\ exists r : Js.PriceResult,
       snd (Js.calculateBookingPrice defaultRules (jsDate (DateString thursday))
              (jsTime (HHMM 17 30)) (jsTime (HHMM 19 0))) = Ok r
       /\ exists (init : list Js.BreakdownEntry) (l : Js.BreakdownEntry)
                 (rates : list Qc) (rateLast : Qc),
            Js.breakdown r = init ++ [l]
            /\ map Js.rate init = map Finite rates
            /\ Js.rate l = Finite rateLast
            /\ Js.finalPrice r
               = Finite (Qcsum rates
                         + rateLast
                           * (if resolvedMinutes (HHMM 17 30) (HHMM 19 0) mod 60 =? 0
                              then 1 else 1 / 2))%Qc.
Proof.
  split; [exact inEra_thursday |].
  split; [exact wellFormedTime_17_30 |]. split; [exact wellFormedTime_19_00 |].
  split; [exact defaultRules_whole |].
  destruct thursday_evening_js_run as [r Hrun].
  exists r. split; [exact Hrun |].
  exact (final_price_by_entries_whole_rates defaultRules (DateString thursday)
           (HHMM 17 30) (HHMM 19 0) r inEra_thursday wellFormedTime_17_30
           wellFormedTime_19_00 defaultRules_whole Hrun).
Defined.

(** X8.  With whole rates, when the override rate 110 and the rate of every
    active rule lie between [lo] and [hi], the final price of a successful
    call for a booking date of the era and two times of day lies between
    [lo] and [hi] times the hours booked. *)
Theorem final_price_bounds_whole_rates
    (rules : PricingRules) (lo hi : Qc) (bookingDate : BookingDateArg)
    (startTime endTime : TimeStr) (r : Js.PriceResult) :
  inEra bookingDate -> wellFormedTime startTime -> wellFormedTime endTime ->
  wholeRates rules ->
  ratesWithin rules lo hi ->
  snd (Js.calculateBookingPrice rules (jsDate bookingDate)
         (jsTime startTime) (jsTime endTime)) = Ok r ->
  exists hours price : Qc,
    Js.totalHours r = Finite hours
    /\ Js.finalPrice r = Finite price
    /\ (lo * hours <= price)%Qc /\ (price <= hi * hours)%Qc.
Proof.
  intros Hera Hst Het Hwhole Hrates Hok.
  destruct (js_calculateBookingPrice_whole _ _ _ _ _ Hera Hst Het Hwhole Hok)
    as (r0 & Hok0 & Hhours & _ & Hprice).
  exists (totalHours r0), (finalPrice r0).
  split; [exact Hhours |]. split; [exact Hprice |].
  exact (final_price_bounds _ _ _ _ _ _ _ Hrates Hok0).
Qed.

(** Witness of X8: the default rules charge between 80 and 135 an hour. *)
Lemma final_price_bounds_whole_rates_witness :
  inEra (DateString thursday)
  /\ wellFormedTime (HHMM 17 30) /\ wellFormedTime (HHMM 19 0)
  /\ wholeRates defaultRules
  /\ ratesWithin defaultRules (Qc_of_Z 80) (Qc_of_Z 135)
  /\ exists r : Js.PriceResult,
       snd (Js.calculateBookingPrice defaultRules (jsDate (DateString thursday))
              (jsTime (HHMM 17 30)) (jsTime (HHMM 19 0))) = Ok r
       /\ exists hours price : Qc,
            Js.totalHours r = Finite hours
            /\ Js.finalPrice r = Finite price
            /\ (Qc_of_Z 80 * hours <= price)%Qc /\ (price <= Qc_of_Z 135 * hours)%Qc.
Proof.
  split; [exact inEra_thursday |].
  split; [exact wellFormedTime_17_30 |]. split; [exact wellFormedTime_19_00 |].
  split; [exact defaultRules_whole |]. split; [exact defaultRules_within |].
  destruct thursday_evening_js_run as [r Hrun].
  exists r. split; [exact Hrun |].
  exact (final_price_bounds_whole_rates defaultRules (Qc_of_Z 80) (Qc_of_Z 135)
           (DateString thursday) (HHMM 17 30) (HHMM 19 0) r inEra_thursday
           wellFormedTime_17_30 wellFormedTime_19_00 defaultRules_whole
           defaultRules_within Hrun).
Defined.

End JsFacts.

Section PricingControllerJs.

Import JsNumber PricingController.

Lemma initialRules_whole : wholeRates PricingController.defaultRules.
Proof.
  intros rule Hin _. cbn in Hin.
  destruct Hin as [<- | [<- | [<- | [<- | []]]]]; cbn [pricePerHour];
    eexists; (split; [reflexivity | unfold maxWholeRate; lia]).
Qed.

(** X25.  [initializePricingRules] is refused as soon as one rule is
    stored, and leaves the rules as they are; on the empty collection it
    stores the four defaults, after which every request for a booking date
    of the era and two times of day whose resolved duration is at least one
    hour and a multiple of thirty minutes is priced, at between 90 and 135
    an hour. *)
Theorem initialize_prices_times_of_day :
  (forall store, store <> [] ->
     initializePricingRules store
     = (store, Thrown (Api (BadRequestError "Pricing rules already initialized"))))
  /\ rulesOf (fst (initializePricingRules [])) = PricingController.defaultRules
  /\ forall bookingDate startTime endTime,
       inEra bookingDate -> wellFormedTime startTime -> wellFormedTime endTime ->
       durationValid startTime endTime = true ->
       exists r : Js.PriceResult,
         snd (Js.calculateBookingPrice (rulesOf (fst (initializePricingRules [])))
                (jsDate bookingDate) (jsTime startTime) (jsTime endTime)) = Ok r
         /\ exists hours price : Qc,
              Js.totalHours r = Finite hours
              /\ Js.finalPrice r = Finite price
              /\ (Qc_of_Z 90 * hours <= price)%Qc
              /\ (price <= Qc_of_Z 135 * hours)%Qc.
Proof.
  destruct initialize_gives_complete_table as (Hrefused & Hrules & Hpriced).
  split; [exact Hrefused |]. split; [exact Hrules |].
  intros bookingDate startTime endTime Hera Hst Het Hvalid.
  destruct (Hpriced bookingDate startTime endTime Hvalid) as (r0 & Hok0 & Hlo & Hhi).
  rewrite Hrules in Hok0 |- *.
  destruct (js_calculateBookingPrice_of_exact _ _ _ _ _ Hera Hst Het Hok0)
    as (r & Hrun & _).
  exists r. split; [exact Hrun |].
  destruct (js_calculateBookingPrice_whole _ _ _ _ _ Hera Hst Het initialRules_whole Hrun)
    as (r1 & Hok1 & Hhours & _ & Hprice).
  rewrite Hok0 in Hok1. injection Hok1 as <-.
  exists (totalHours r0), (finalPrice r0). auto.
Qed.

End PricingControllerJs.
